(** * Mini shell: the command-tree execution engine (cmd.c)

    A shallow embedding of the two versions of the execution engine found in
    the repository,

    - [src/src/cmd.c]          (module [CmdC]),
    - [src/unnamed/part_000]   (module [Part000]),

    over a small model of the POSIX process state they act on: the
    descriptor table, the environment, the working directory, the table of
    children that were forked and not yet waited for, and the log of the
    system and library calls made so far.

    C functions become functions in a state monad [M] over that process
    state; a call either returns, terminates the process ([exit], a
    successful [execvp]) or has no defined behaviour (a null pointer handed
    to [strcmp], an uninitialised wait status that is read).  Decisions that
    belong to the rest of the system -- whether a path can be opened, whether
    a process or a descriptor can still be had, what a launched program
    terminates with -- are read from a [kernel] oracle that sees the whole
    process state, history included.  Heap storage is not modelled: [free]
    has no counterpart. *)

From Stdlib Require Import ZArith String Ascii List Bool Lia.
From stdpp Require Import base option gmap strings list.

Set Warnings "-register-all".

Local Open Scope string_scope.
Local Open Scope Z_scope.

(* ===================================================================== *)
(** ** The command tree (cmd.h) *)
(* ===================================================================== *)

(** A word of the command line.  The parser's [word_t] is used by the engine
    only through its address (pointer comparison), its [next_word] link and
    [get_word]; the text it stands for is reached through [get_word].  Two
    words at the same address are the same word. *)
Inductive word_t : Type :=
  Word { w_addr : positive; next_word : option word_t }.

(** The operators named by the [switch] of [parse_command]; [OP_DUMMY]
    stands for every other value of the enumeration, which the [switch]
    sends to its [default] label. *)
Inductive operator_t : Type :=
| OP_NONE
| OP_SEQUENTIAL
| OP_PARALLEL
| OP_CONDITIONAL_ZERO
| OP_CONDITIONAL_NZERO
| OP_PIPE
| OP_DUMMY.

Record simple_command_t : Type := SimpleCommand {
  verb : option word_t;
  params : option word_t;
  in_ : option word_t;
  out : option word_t;
  err : option word_t;
  io_flags : Z
}.

Inductive command_t : Type :=
  Command {
    op : operator_t;
    scmd : option simple_command_t;
    cmd1 : option command_t;
    cmd2 : option command_t
  }.

(** Pointer comparison [p == q] on word pointers. *)
Definition ptr_eqb (p q : option word_t) : bool :=
  match p, q with
  | None, None => true
  | Some a, Some b => Pos.eqb (w_addr a) (w_addr b)
  | _, _ => false
  end.

(** [p != NULL] *)
Definition non_null {A : Type} (p : option A) : bool :=
  match p with Some _ => true | None => false end.

(* ===================================================================== *)
(** ** C strings (string.h) *)
(* ===================================================================== *)

Definition has_char (c : ascii) (s : string) : bool :=
  existsb (Ascii.eqb c) (list_ascii_of_string s).

(** [strcmp]: zero exactly on equal strings. *)
Definition strcmp (a b : string) : Z :=
  match String.compare a b with
  | Eq => 0
  | Lt => -1
  | Gt => 1
  end.

(** [strstr(haystack, needle)]: the part of [haystack] that starts at the
    first occurrence of [needle], or null. *)
Fixpoint strstr (haystack needle : string) : option string :=
  if String.prefix needle haystack then Some haystack
  else
    match haystack with
    | EmptyString => None
    | String _ rest => strstr rest needle
    end.

(** The two scans of [strtok_r]: over the delimiters that lead the string,
    then up to the delimiter that ends the token. *)
Fixpoint skip_delims (delim s : string) : string :=
  match s with
  | EmptyString => EmptyString
  | String c rest => if has_char c delim then skip_delims delim rest else s
  end.

Fixpoint take_token (delim s : string) : string * string :=
  match s with
  | EmptyString => (EmptyString, EmptyString)
  | String c rest =>
      if has_char c delim then (EmptyString, rest)
      else let (tok, after) := take_token delim rest in (String c tok, after)
  end.

(** [strtok_r(str, delim, &saveptr)]: the token (null when only delimiters
    are left) and the new [saveptr]. *)
Definition strtok_r (str : option string) (delim saveptr : string)
  : option string * string :=
  let s := match str with Some s => s | None => saveptr end in
  match skip_delims delim s with
  | EmptyString => (None, EmptyString)
  | String c rest => let (tok, after) := take_token delim (String c rest) in
                     (Some tok, after)
  end.

(* ===================================================================== *)
(** ** The process state *)
(* ===================================================================== *)

Module Sys.

(** What a descriptor refers to. *)
Inductive fobject : Type :=
| Inherited (fd : Z)                     (* what the shell was started with *)
| Opened (path : string) (flags : Z)     (* the result of an [open] *)
| PipeEnd (write_end : bool).            (* one end of a [pipe] *)

(** An open file description; [of_serial] tells two descriptions of the same
    object apart (each [open] and each [pipe] makes new ones, [dup] and
    [dup2] share the one they are given). *)
Record ofile : Type := OFile { of_serial : nat; of_object : fobject }.

(** The calls a process makes, with their results. *)
Inductive event : Type :=
| EvOpen (path : string) (flags : Z) (mode : option Z) (ret : Z)
| EvDup (oldfd ret : Z)
| EvDup2 (oldfd newfd ret : Z)
| EvClose (fd ret : Z)
| EvPipe (ret : Z)
| EvFork (ret : Z)
| EvWaitpid (pid status : Z) (child : list event)
| EvChdir (path : string) (ret : Z)
| EvSetenv (name value : string) (ret : Z)
| EvExecvp (file : string) (argv : list string) (ret : Z)
| EvPerror (msg : string)
| EvPrintf (text : string)
| EvExit (status : Z).

Record world : Type := World {
  fds : gmap Z ofile;                   (* descriptor table *)
  environ : gmap string string;         (* environment *)
  cwd : string;                         (* working directory *)
  procs : gmap Z (Z * list event);      (* children not yet waited for:
                                           pid -> wait status, child's calls *)
  next_pid : positive;
  next_serial : nat;
  trace : list event                    (* calls so far, latest first *)
}.

(** The rest of the system. *)
Record kernel : Type := Kernel {
  k_open : world -> string -> Z -> bool;
  k_dup : world -> Z -> bool;
  k_dup2 : world -> Z -> Z -> bool;
  k_pipe : world -> bool;
  k_fork : world -> bool;
  k_chdir : world -> string -> option string;
  k_execvp : world -> string -> list string -> option Z
}.

Definition log (e : event) (w : world) : world :=
  {| fds := fds w; environ := environ w; cwd := cwd w; procs := procs w;
     next_pid := next_pid w; next_serial := next_serial w;
     trace := e :: trace w |}.

Definition set_fds (t : gmap Z ofile) (w : world) : world :=
  {| fds := t; environ := environ w; cwd := cwd w; procs := procs w;
     next_pid := next_pid w; next_serial := next_serial w;
     trace := trace w |}.

Definition set_environ (e : gmap string string) (w : world) : world :=
  {| fds := fds w; environ := e; cwd := cwd w; procs := procs w;
     next_pid := next_pid w; next_serial := next_serial w;
     trace := trace w |}.

Definition set_cwd (d : string) (w : world) : world :=
  {| fds := fds w; environ := environ w; cwd := d; procs := procs w;
     next_pid := next_pid w; next_serial := next_serial w;
     trace := trace w |}.

Definition set_procs (p : gmap Z (Z * list event)) (w : world) : world :=
  {| fds := fds w; environ := environ w; cwd := cwd w; procs := p;
     next_pid := next_pid w; next_serial := next_serial w;
     trace := trace w |}.

Definition bump_pid (w : world) : world :=
  {| fds := fds w; environ := environ w; cwd := cwd w; procs := procs w;
     next_pid := Pos.succ (next_pid w); next_serial := next_serial w;
     trace := trace w |}.

Definition bump_serial (w : world) : world :=
  {| fds := fds w; environ := environ w; cwd := cwd w; procs := procs w;
     next_pid := next_pid w; next_serial := S (next_serial w);
     trace := trace w |}.

(** *** The monad *)

Inductive outcome (A : Type) : Type :=
| Return (a : A) (w : world)          (* the call returns [a] *)
| Terminated (wstatus : Z) (w : world) (* the process is gone; [wstatus] is
                                          what [waitpid] reports for it *)
| Undefined.                           (* no defined behaviour *)
Arguments Return {A} a w.
Arguments Terminated {A} wstatus w.
Arguments Undefined {A}.

Definition M (A : Type) : Type := world -> outcome A.

Definition ret {A : Type} (a : A) : M A := fun w => Return a w.

Definition bind {A B : Type} (m : M A) (k : A -> M B) : M B :=
  fun w =>
    match m w with
    | Return a w' => k a w'
    | Terminated s w' => Terminated s w'
    | Undefined => Undefined
    end.

Definition undefined {A : Type} : M A := fun _ => Undefined.

Definition gets {A : Type} (f : world -> A) : M A := fun w => Return (f w) w.

Definition emit (e : event) : M unit := fun w => Return tt (log e w).

(** *** System and library calls *)

(** Descriptors are handed out lowest first. *)
Fixpoint lowest_free_from (t : gmap Z ofile) (fuel : nat) (n : Z) : Z :=
  match fuel with
  | O => n
  | S fuel' =>
      match t !! n with
      | None => n
      | Some _ => lowest_free_from t fuel' (n + 1)
      end
  end.

Definition lowest_free (t : gmap Z ofile) : Z :=
  lowest_free_from t (size t) 0.

(** Constants of <fcntl.h>, <unistd.h> and <stdlib.h> (Linux values). *)
Definition O_RDONLY : Z := 0.
Definition O_WRONLY : Z := 1.
Definition O_CREAT : Z := 64.
Definition O_TRUNC : Z := 512.
Definition O_APPEND : Z := 1024.

Definition STDIN_FILENO : Z := 0.
Definition STDOUT_FILENO : Z := 1.
Definition STDERR_FILENO : Z := 2.

Definition EXIT_FAILURE : Z := 1.

(** [WEXITSTATUS(status)] *)
Definition WEXITSTATUS (status : Z) : Z := Z.land (Z.shiftr status 8) 255.

(** The wait status of a process that called [exit(status)]. *)
Definition exited (status : Z) : Z := Z.shiftl (Z.land status 255) 8.

Section Calls.
Variable K : kernel.

(** [open(path, flags)] and [open(path, flags, mode)] *)
Definition open (path : string) (flags : Z) (mode : option Z) : M Z :=
  fun w =>
    if k_open K w path flags then
      let fd := lowest_free (fds w) in
      let f := OFile (next_serial w) (Opened path flags) in
      Return fd
        (log (EvOpen path flags mode fd)
           (bump_serial (set_fds (<[fd := f]> (fds w)) w)))
    else Return (-1) (log (EvOpen path flags mode (-1)) w).

(** [close(fd)] *)
Definition close (fd : Z) : M Z :=
  fun w =>
    match fds w !! fd with
    | Some _ => Return 0 (log (EvClose fd 0) (set_fds (delete fd (fds w)) w))
    | None => Return (-1) (log (EvClose fd (-1)) w)
    end.

(** [dup(oldfd)] *)
Definition dup (oldfd : Z) : M Z :=
  fun w =>
    match fds w !! oldfd with
    | Some f =>
        if k_dup K w oldfd then
          let fd := lowest_free (fds w) in
          Return fd (log (EvDup oldfd fd) (set_fds (<[fd := f]> (fds w)) w))
        else Return (-1) (log (EvDup oldfd (-1)) w)
    | None => Return (-1) (log (EvDup oldfd (-1)) w)
    end.

(** [dup2(oldfd, newfd)] *)
Definition dup2 (oldfd newfd : Z) : M Z :=
  fun w =>
    match fds w !! oldfd with
    | Some f =>
        if k_dup2 K w oldfd newfd && (0 <=? newfd) then
          Return newfd
            (log (EvDup2 oldfd newfd newfd)
               (set_fds (<[newfd := f]> (fds w)) w))
        else Return (-1) (log (EvDup2 oldfd newfd (-1)) w)
    | None => Return (-1) (log (EvDup2 oldfd newfd (-1)) w)
    end.

(** [pipe(pipefd)]: the result and the two descriptors stored in
    [pipefd[0]] (read end) and [pipefd[1]] (write end). *)
Definition pipe : M (Z * (Z * Z)) :=
  fun w =>
    if k_pipe K w then
      let r := lowest_free (fds w) in
      let t := <[r := OFile (next_serial w) (PipeEnd false)]> (fds w) in
      let wr := lowest_free t in
      let t' := <[wr := OFile (S (next_serial w)) (PipeEnd true)]> t in
      Return (0, (r, wr))
        (log (EvPipe 0) (bump_serial (bump_serial (set_fds t' w))))
    else Return (-1, (-1, -1)) (log (EvPipe (-1)) w).

(** [exit(status)] *)
Definition exit {A : Type} (status : Z) : M A :=
  fun w => Terminated (exited status) (log (EvExit status) w).

(** The state a forked child starts in: a copy of the parent's
    descriptors, environment and working directory, no children and a
    log of its own. *)
Definition child_start (w : world) : world :=
  {| fds := fds w; environ := environ w; cwd := cwd w; procs := ∅;
     next_pid := Pos.succ (next_pid w); next_serial := next_serial w;
     trace := [] |}.

(** [fork()], seen from the parent.  [child] is the code the source runs
    under [if (pid == 0)]; every such block of the sources ends in [exit],
    so it has no value to return.  The child works on its own copy of the
    process state; what the parent learns of it is its wait status, and the
    children table keeps the child's log next to it.  Pids name the children
    of one process (those of different parents are unrelated).  A run in
    which a child has no defined behaviour has none itself. *)
Definition fork (child : M Empty_set) : M Z :=
  fun w =>
    if k_fork K w then
      let pid := Z.pos (next_pid w) in
      match child (child_start w) with
      | Return a _ => match a with end
      | Terminated st wc =>
          Return pid
            (log (EvFork pid)
               (bump_pid (set_procs (<[pid := (st, trace wc)]> (procs w)) w)))
      | Undefined => Undefined
      end
    else Return (-1) (log (EvFork (-1)) w).

(** [waitpid(pid, &status, 0)]: the value stored in [status].  Waiting
    for a process that is not a child stores nothing, and the variable
    the sources pass is not initialised. *)
Definition waitpid (pid : Z) : M Z :=
  fun w =>
    match procs w !! pid with
    | Some (st, evs) =>
        Return st (log (EvWaitpid pid st evs)
                     (set_procs (delete pid (procs w)) w))
    | None => Undefined
    end.

(** [chdir(path)] *)
Definition chdir (path : string) : M Z :=
  fun w =>
    match k_chdir K w path with
    | Some d => Return 0 (log (EvChdir path 0) (set_cwd d w))
    | None => Return (-1) (log (EvChdir path (-1)) w)
    end.

(** [execvp(file, argv)]: on success the process image is replaced and
    the process ends with the status the program ends with. *)
Definition execvp (file : string) (argv : list string) : M Z :=
  fun w =>
    match k_execvp K w file argv with
    | Some st => Terminated st (log (EvExecvp file argv 0) w)
    | None => Return (-1) (log (EvExecvp file argv (-1)) w)
    end.

Definition perror (msg : string) : M unit := emit (EvPerror msg).
Definition printf (text : string) : M unit := emit (EvPrintf text).

End Calls.

(** [chdir] is also handed what [get_word] gives, which may be null. *)
Definition chdir_ptr (K : kernel) (path : option string) : M Z :=
  match path with
  | Some p => chdir K p
  | None => fun w => Return (-1) (log (EvChdir "" (-1)) w)
  end.

(** [setenv(name, value, 1)].  Both arguments must be strings; a name that
    is empty or holds ['='] is refused. *)
Definition setenv (name value : option string) : M Z :=
  fun w =>
    match name, value with
    | Some n, Some v =>
        if String.eqb n "" || has_char "="%char n
        then Return (-1) (log (EvSetenv n v (-1)) w)
        else Return 0 (log (EvSetenv n v 0)
                         (set_environ (<[n := v]> (environ w)) w))
    | _, _ => Undefined
    end.

End Sys.

Export Sys.

Notation "'let*' x ':=' m 'in' k" := (bind m (fun x => k))
  (at level 10, x pattern, m at level 100, k at level 200).
Notation "m ';;;' k" := (bind m (fun _ => k))
  (at level 100, k at level 200, right associativity).

(* ===================================================================== *)
(** ** What cmd.h and utils.h declare *)
(* ===================================================================== *)

(** The headers and the word utilities are not among the sources; the
    engine is embedded over any choice of them.  [x_get_word env p] is the
    string [get_word(p)] builds when the environment is [env] (null for
    some pointers), [x_get_argv env s] the argument vector [get_argv]
    builds for [s] (its length is the [argc] the sources receive). *)
Record externs : Type := Externs {
  SHELL_EXIT : Z;
  IO_OUT_APPEND : Z;
  IO_ERR_APPEND : Z;
  x_get_word : gmap string string -> option word_t -> option string;
  x_get_argv : gmap string string -> simple_command_t -> list string
}.

Definition get_word (X : externs) (p : option word_t) : M (option string) :=
  gets (fun w => x_get_word X (environ w) p).

Definition get_argv (X : externs) (s : simple_command_t) : M (list string) :=
  gets (fun w => x_get_argv X (environ w) s).

Definition newline : string := String (ascii_of_nat 10) EmptyString.

(** The type of [parse_command], which the two process-creating functions
    call back. *)
Definition evaluator : Type := option command_t -> Z -> option command_t -> M Z.

(* ===================================================================== *)
(** ** src/src/cmd.c *)
(* ===================================================================== *)

Module CmdC.
Section Engine.
Variable K : kernel.
Variable X : externs.

(** Parse environment variable and set it. *)
Definition parse_environment_variable (command : option string) : M unit :=
  match command with
  | None => ret tt
  | Some cmd =>
      let (name, saveptr) := strtok_r (Some cmd) "=" EmptyString in
      let (value, _) := strtok_r None "=" saveptr in
      setenv name value ;;;
      ret tt
  end.

(** Internal change-directory command. *)
Definition shell_cd (dir : option word_t) : M bool :=
  match dir with
  | None => ret false
  | Some d =>
      if non_null (next_word d) then ret false
      else
        let* path := get_word X dir in
        let* r := chdir_ptr K path in
        if negb (r =? 0) then
          perror "cd" ;;;
          ret false
        else ret true
  end.

(** Internal exit/quit command. *)
Definition shell_exit : M Z := exit (SHELL_EXIT X).

(** Duplicate file descriptor *)
Definition dup_fd (fd descriptor : Z) : M Z :=
  let* r := dup2 K fd descriptor in
  if r =? -1 then
    perror "dup2" ;;;
    close fd ;;;
    ret (-1)
  else ret 0.

(** Redirects a file descriptor to a file *)
Definition redirect (filename : string) (descriptor append : Z) : M Z :=
  if descriptor =? STDIN_FILENO then
    let* fd := open K filename O_RDONLY None in
    if fd =? -1 then
      perror "open" ;;;
      ret (-1)
    else
      dup_fd fd STDIN_FILENO ;;;
      close fd ;;;
      ret 0
  else
    let flags := Z.lor O_WRONLY O_CREAT in
    let flags := if negb (append =? 0) then Z.lor flags O_APPEND
                 else Z.lor flags O_TRUNC in
    let* fd := open K filename flags (Some 420) in
    if fd =? -1 then
      perror "open" ;;;
      ret (-1)
    else
      (if negb (Z.land descriptor STDOUT_FILENO =? 0)
       then dup_fd fd STDOUT_FILENO else ret 0) ;;;
      (if negb (Z.land descriptor STDERR_FILENO =? 0)
       then dup_fd fd STDERR_FILENO else ret 0) ;;;
      close fd ;;;
      ret 0.

(** Apply redirections from a command *)
Definition apply_redirections (s : simple_command_t) : M Z :=
  let exit_status := 0 in
  let* i := get_word X (in_ s) in
  let* exit_status :=
    match i with
    | Some file => redirect file STDIN_FILENO 0
    | None => ret exit_status
    end in
  if exit_status =? -1 then ret exit_status
  else if non_null (err s) && non_null (out s) && ptr_eqb (err s) (out s)
  then
    let* o := get_word X (out s) in
    let* e := get_word X (err s) in
    match o, e with
    | Some file, Some _ =>
        redirect file (Z.lor STDOUT_FILENO STDERR_FILENO) 0
    | _, _ => ret exit_status
    end
  else
    let* exit_status :=
      if non_null (err s) then
        let* e := get_word X (err s) in
        let append := Z.land (io_flags s) (IO_ERR_APPEND X) in
        match e with
        | Some file => redirect file STDERR_FILENO append
        | None => ret exit_status
        end
      else ret exit_status in
    let* exit_status :=
      if non_null (out s) then
        let* o := get_word X (out s) in
        let append := Z.land (io_flags s) (IO_OUT_APPEND X) in
        match o with
        | Some file => redirect file STDOUT_FILENO append
        | None => ret exit_status
        end
      else ret exit_status in
    ret exit_status.

(** Duplicate file descriptors for stdin, stdout and stderr. *)
Definition duplicate_file_descriptors : M (Z * Z * Z) :=
  let* original_stdin := dup K STDIN_FILENO in
  let* original_stdout := dup K STDOUT_FILENO in
  let* original_stderr := dup K STDERR_FILENO in
  if (original_stdin =? -1) || (original_stdout =? -1)
     || (original_stderr =? -1)
  then
    perror "dup" ;;;
    close original_stdin ;;;
    close original_stdout ;;;
    close original_stderr ;;;
    ret (original_stdin, original_stdout, original_stderr)
  else ret (original_stdin, original_stdout, original_stderr).

(** Restore file descriptors to their original values. *)
Definition restore_file_descriptors
    (original_stdin original_stdout original_stderr : Z) : M unit :=
  dup_fd original_stdin STDIN_FILENO ;;;
  dup_fd original_stdout STDOUT_FILENO ;;;
  dup_fd original_stderr STDERR_FILENO ;;;
  close original_stdin ;;;
  close original_stdout ;;;
  close original_stderr ;;;
  ret tt.

(** Parse a simple command (internal, environment variable assignment,
    external command). *)
Definition parse_simple (s : option simple_command_t) (level : Z)
    (father : option command_t) : M Z :=
  match s with
  | None => ret 0
  | Some s =>
      let* command := get_word X (verb s) in
      let* argv := get_argv X s in
      let* saved := duplicate_file_descriptors in
      let '(original_stdin, original_stdout, original_stderr) := saved in
      let* r := apply_redirections s in
      if r =? -1 then ret (-1)
      else
        match command with
        | None => undefined
        | Some command =>
            if (strcmp command "exit" =? 0) || (strcmp command "quit" =? 0)
            then
              restore_file_descriptors
                original_stdin original_stdout original_stderr ;;;
              shell_exit
            else if strcmp command "cd" =? 0 then
              let* r := shell_cd (params s) in
              restore_file_descriptors
                original_stdin original_stdout original_stderr ;;;
              ret (if r : bool then 0 else 1)
            else if non_null (strstr command "=") then
              parse_environment_variable (Some command) ;;;
              restore_file_descriptors
                original_stdin original_stdout original_stderr ;;;
              ret 0
            else
              let* pid :=
                fork K
                  (execvp K command argv ;;;
                   printf (String.append "Execution failed for '"
                             (String.append command
                                (String.append "'" newline))) ;;;
                   exit 127) in
              if pid =? -1 then
                restore_file_descriptors
                  original_stdin original_stdout original_stderr ;;;
                perror "fork" ;;;
                ret (-1)
              else
                let* status := waitpid pid in
                restore_file_descriptors
                  original_stdin original_stdout original_stderr ;;;
                ret (WEXITSTATUS status)
        end
  end.

(** Process two commands in parallel, by creating two children.  The
    recursive call to [parse_command] is the argument [parse_command]. *)
Definition run_in_parallel (parse_command : evaluator)
    (cmd1 cmd2 : option command_t) (level : Z) (father : option command_t)
  : M bool :=
  let* pid1 :=
    fork K (let* v := parse_command cmd1 (level + 1) father in exit v) in
  if pid1 =? -1 then
    perror "fork" ;;;
    ret false
  else
    let* pid2 :=
      fork K (let* v := parse_command cmd2 (level + 1) father in exit v) in
    if pid2 =? -1 then
      perror "fork" ;;;
      ret false
    else
      waitpid pid1 ;;;
      waitpid pid2 ;;;
      ret true.

(** Run commands by creating an anonymous pipe (cmd1 | cmd2). *)
Definition run_on_pipe (parse_command : evaluator)
    (cmd1 cmd2 : option command_t) (level : Z) (father : option command_t)
  : M bool :=
  let* p := pipe K in
  let '(r, (pipefd0, pipefd1)) := p in
  if r =? -1 then
    perror "pipe" ;;;
    ret false
  else
    let* pid1 :=
      fork K
        (close pipefd0 ;;;
         dup2 K pipefd1 STDOUT_FILENO ;;;
         close pipefd1 ;;;
         let* v := parse_command cmd1 (level + 1) father in
         exit v) in
    if pid1 =? -1 then
      perror "fork" ;;;
      ret false
    else
      let* pid2 :=
        fork K
          (close pipefd1 ;;;
           dup2 K pipefd0 STDIN_FILENO ;;;
           close pipefd0 ;;;
           let* v := parse_command cmd2 (level + 1) father in
           exit v) in
      if pid2 =? -1 then
        perror "fork" ;;;
        ret false
      else
        close pipefd0 ;;;
        close pipefd1 ;;;
        let* status1 := waitpid pid1 in
        let* status2 := waitpid pid2 in
        ret (if negb (WEXITSTATUS status2 =? 0) then false else true).

(** Parse and execute a command: the body for a node that is there. *)
Fixpoint parse_node (c : command_t) (level : Z) (father : option command_t)
    {struct c} : M Z :=
  let self : evaluator := fun c' level' father' =>
    match c' with
    | None => ret 0
    | Some n => parse_node n level' father'
    end in
  match c with
  | Command o sc c1 c2 =>
      match o with
      | OP_NONE => parse_simple sc level (Some c)
      | OP_SEQUENTIAL =>
          let* exit_status := self c1 (level + 1) (Some c) in
          let* exit_status := self c2 (level + 1) (Some c) in
          ret exit_status
      | OP_PARALLEL =>
          let* ok := run_in_parallel self c1 c2 (level + 1) (Some c) in
          ret (if ok : bool then 0 else 1)
      | OP_CONDITIONAL_NZERO =>
          let* exit_status := self c1 (level + 1) (Some c) in
          if negb (exit_status =? 0) then
            let* exit_status := self c2 (level + 1) (Some c) in
            ret exit_status
          else ret exit_status
      | OP_CONDITIONAL_ZERO =>
          let* exit_status := self c1 (level + 1) (Some c) in
          if exit_status =? 0 then
            let* exit_status := self c2 (level + 1) (Some c) in
            ret exit_status
          else ret exit_status
      | OP_PIPE =>
          let* ok := run_on_pipe self c1 c2 (level + 1) (Some c) in
          ret (if ok : bool then 0 else 1)
      | OP_DUMMY => ret (SHELL_EXIT X)
      end
  end.

(** Parse and execute a command. *)
Definition parse_command : evaluator :=
  fun c level father =>
    match c with
    | None => ret 0
    | Some n => parse_node n level father
    end.

End Engine.
End CmdC.

(* ===================================================================== *)
(** ** src/unnamed/part_000 *)
(* ===================================================================== *)

Module Part000.
Section Engine.
Variable K : kernel.
Variable X : externs.

(** [parse_env_assignment] is called by this version and defined nowhere
    in the sources: the engine is embedded over any such function. *)
Variable parse_env_assignment : string -> M unit.

(** Internal change-directory command. *)
Definition shell_cd (dir : option word_t) : M bool :=
  match dir with
  | None => ret true
  | Some d =>
      if non_null (next_word d) then ret true
      else
        let* dir_path := get_word X dir in
        let* r := chdir_ptr K dir_path in
        if negb (r =? 0) then
          perror "chdir" ;;;
          ret false
        else ret true
  end.

(** Internal exit/quit command. *)
Definition shell_exit : M Z := exit 0.

Definition redirect_output (filename : string) (append : Z) : M Z :=
  let flags := Z.lor O_WRONLY O_CREAT in
  let flags := if negb (append =? 0) then Z.lor flags O_APPEND
               else Z.lor flags O_TRUNC in
  let* fd := open K filename flags (Some 420) in
  if fd =? -1 then
    printf "open" ;;;
    ret (-1)
  else
    let* r := dup2 K fd STDOUT_FILENO in
    if r =? -1 then
      close fd ;;;
      ret (-1)
    else
      close fd ;;;
      ret 0.

Definition redirect_input (filename : string) : M Z :=
  let* fd := open K filename O_RDONLY None in
  if fd =? -1 then
    perror "open" ;;;
    ret (-1)
  else
    let* r := dup2 K fd STDIN_FILENO in
    if r =? -1 then
      perror "dup2" ;;;
      close fd ;;;
      ret (-1)
    else
      close fd ;;;
      ret 0.

Definition redirect_stderr (filename : string) (append : Z) : M Z :=
  let flags := Z.lor O_WRONLY O_CREAT in
  let flags := if negb (append =? 0) then Z.lor flags O_APPEND
               else Z.lor flags O_TRUNC in
  let* fd := open K filename flags (Some 420) in
  if fd =? -1 then
    perror "open" ;;;
    ret (-1)
  else
    let* r := dup2 K fd STDERR_FILENO in
    if r =? -1 then
      perror "dup2" ;;;
      close fd ;;;
      ret (-1)
    else
      close fd ;;;
      ret 0.

Definition redirect_output_stderr (filename : string) : M Z :=
  let* fd := open K filename (Z.lor (Z.lor O_WRONLY O_CREAT) O_TRUNC)
               (Some 420) in
  if fd =? -1 then
    perror "open" ;;;
    ret (-1)
  else
    let* r := dup2 K fd STDOUT_FILENO in
    if r =? -1 then
      perror "dup2" ;;;
      close fd ;;;
      ret (-1)
    else
      let* r := dup2 K fd STDERR_FILENO in
      if r =? -1 then
        perror "dup2" ;;;
        close fd ;;;
        ret (-1)
      else
        close fd ;;;
        ret 0.

(** In the branch for a shared target the result of
    [redirect_output_stderr] goes to a variable declared inside the
    block, which hides the function's [exit_status]. *)
Definition apply_redirections (s : simple_command_t) : M Z :=
  let* i := get_word X (in_ s) in
  let exit_status := 0 in
  let* exit_status :=
    match i with
    | Some file => redirect_input file
    | None => ret exit_status
    end in
  if exit_status =? -1 then ret (-1)
  else if non_null (err s) && non_null (out s) && ptr_eqb (err s) (out s)
  then
    let* o := get_word X (out s) in
    let* e := get_word X (err s) in
    match o, e with
    | Some file, Some _ =>
        let* inner_exit_status := redirect_output_stderr file in
        ret exit_status
    | _, _ => ret exit_status
    end
  else
    let* exit_status :=
      if non_null (err s) then
        let* e := get_word X (err s) in
        let append := Z.land (io_flags s) (IO_ERR_APPEND X) in
        match e with
        | Some file => redirect_stderr file append
        | None => ret exit_status
        end
      else ret exit_status in
    let* exit_status :=
      if non_null (out s) then
        let* o := get_word X (out s) in
        let append := Z.land (io_flags s) (IO_OUT_APPEND X) in
        match o with
        | Some file => redirect_output file append
        | None => ret exit_status
        end
      else ret exit_status in
    ret exit_status.

Definition duplicate_file_descriptors : M (Z * Z * Z) :=
  let* original_stdin := dup K STDIN_FILENO in
  let* original_stdout := dup K STDOUT_FILENO in
  let* original_stderr := dup K STDERR_FILENO in
  ret (original_stdin, original_stdout, original_stderr).

Definition restore_file_descriptors
    (original_stdin original_stdout original_stderr : Z) : M unit :=
  dup2 K original_stdin STDIN_FILENO ;;;
  dup2 K original_stdout STDOUT_FILENO ;;;
  dup2 K original_stderr STDERR_FILENO ;;;
  close original_stdin ;;;
  close original_stdout ;;;
  close original_stderr ;;;
  ret tt.

(** Parse a simple command (internal, environment variable assignment,
    external command).  There is no test for a null [s] here. *)
Definition parse_simple (s : option simple_command_t) (level : Z)
    (father : option command_t) : M Z :=
  match s with
  | None => undefined
  | Some s =>
      let* command := get_word X (verb s) in
      let* argv := get_argv X s in
      let* saved := duplicate_file_descriptors in
      let '(original_stdin, original_stdout, original_stderr) := saved in
      let* r := apply_redirections s in
      if r =? -1 then ret (-1)
      else
        match command with
        | None => undefined
        | Some command =>
            if (strcmp command "exit" =? 0) || (strcmp command "quit" =? 0)
            then shell_exit
            else if strcmp command "cd" =? 0 then
              let* r := shell_cd (params s) in
              restore_file_descriptors
                original_stdin original_stdout original_stderr ;;;
              ret (if r : bool then 0 else 1)
            else if non_null (strstr command "=") then
              parse_env_assignment command ;;;
              ret 0
            else
              let* pid :=
                fork K
                  (execvp K command argv ;;;
                   perror command ;;;
                   exit EXIT_FAILURE) in
              if pid =? -1 then
                perror "fork" ;;;
                ret (-1)
              else
                let* status := waitpid pid in
                restore_file_descriptors
                  original_stdin original_stdout original_stderr ;;;
                ret (WEXITSTATUS status)
        end
  end.

(** Process two commands in parallel, by creating two children.  The
    parent returns at once, without waiting for them. *)
Definition run_in_parallel (parse_command : evaluator)
    (cmd1 cmd2 : option command_t) (level : Z) (father : option command_t)
  : M bool :=
  let* pid1 :=
    fork K (let* v := parse_command cmd1 (level + 1) father in exit v) in
  if pid1 =? -1 then
    perror "fork" ;;;
    ret false
  else
    let* pid2 :=
      fork K (let* v := parse_command cmd2 (level + 1) father in exit v) in
    if pid2 =? -1 then
      perror "fork" ;;;
      ret false
    else ret true.

(** Run commands by creating an anonymous pipe (cmd1 | cmd2). *)
Definition run_on_pipe (parse_command : evaluator)
    (cmd1 cmd2 : option command_t) (level : Z) (father : option command_t)
  : M bool :=
  let* p := pipe K in
  let '(r, (pipefd0, pipefd1)) := p in
  if r =? -1 then
    perror "pipe" ;;;
    ret false
  else
    let* pid1 :=
      fork K
        (close pipefd0 ;;;
         dup2 K pipefd1 STDOUT_FILENO ;;;
         close pipefd1 ;;;
         let* v := parse_command cmd1 (level + 1) father in
         exit v) in
    if pid1 =? -1 then
      perror "fork" ;;;
      ret false
    else
      let* pid2 :=
        fork K
          (close pipefd1 ;;;
           dup2 K pipefd0 STDIN_FILENO ;;;
           close pipefd0 ;;;
           let* v := parse_command cmd2 (level + 1) father in
           exit v) in
      if pid2 =? -1 then
        perror "fork" ;;;
        ret false
      else
        close pipefd0 ;;;
        close pipefd1 ;;;
        let* status1 := waitpid pid1 in
        let* status2 := waitpid pid2 in
        ret (if negb (WEXITSTATUS status2 =? 0) then false else true).

(** Parse and execute a command: the body for a node that is there. *)
Fixpoint parse_node (c : command_t) (level : Z) (father : option command_t)
    {struct c} : M Z :=
  let self : evaluator := fun c' level' father' =>
    match c' with
    | None => undefined
    | Some n => parse_node n level' father'
    end in
  match c with
  | Command o sc c1 c2 =>
      match o with
      | OP_NONE => parse_simple sc level (Some c)
      | OP_SEQUENTIAL =>
          let* exit_status := self c1 (level + 1) (Some c) in
          let* exit_status := self c2 (level + 1) (Some c) in
          ret exit_status
      | OP_PARALLEL =>
          let* ok := run_in_parallel self c1 c2 (level + 1) (Some c) in
          ret (if ok : bool then 0 else 1)
      | OP_CONDITIONAL_NZERO =>
          let* exit_status := self c1 (level + 1) (Some c) in
          if negb (exit_status =? 0) then
            let* exit_status := self c2 (level + 1) (Some c) in
            ret exit_status
          else ret exit_status
      | OP_CONDITIONAL_ZERO =>
          let* exit_status := self c1 (level + 1) (Some c) in
          if exit_status =? 0 then
            let* exit_status := self c2 (level + 1) (Some c) in
            ret exit_status
          else ret exit_status
      | OP_PIPE =>
          let* ok := run_on_pipe self c1 c2 (level + 1) (Some c) in
          ret (if ok : bool then 0 else 1)
      | OP_DUMMY => ret (SHELL_EXIT X)
      end
  end.

(** Parse and execute a command.  A null [c] is dereferenced. *)
Definition parse_command : evaluator :=
  fun c level father =>
    match c with
    | None => undefined
    | Some n => parse_node n level father
    end.

End Engine.
End Part000.

(* ===================================================================== *)
(** ** Concrete systems for the examples *)
(* ===================================================================== *)

Module Samples.

(** Words are looked up by address in a table of texts. *)
Definition text_of (tbl : list (positive * string)) (p : option word_t)
  : option string :=
  match p with
  | None => None
  | Some w => snd <$> List.find (fun e => Pos.eqb (fst e) (w_addr w)) tbl
  end.

Fixpoint texts (tbl : list (positive * string)) (fuel : nat)
    (p : option word_t) : list string :=
  match fuel, p with
  | S fuel', Some w =>
      match text_of tbl p with
      | Some s => s :: texts tbl fuel' (next_word w)
      | None => texts tbl fuel' (next_word w)
      end
  | _, _ => []
  end.

Definition tbl : list (positive * string) :=
  [(1%positive, "true"); (2%positive, "false"); (3%positive, "two");
   (4%positive, "doesnotexist123"); (5%positive, "A=b=c");
   (6%positive, "cd"); (7%positive, "/tmp"); (8%positive, "/missing/dir");
   (9%positive, "/tmp/in"); (10%positive, "/tmp/out");
   (11%positive, "/missing/err"); (12%positive, "/tmp/out");
   (13%positive, "NAME=value"); (14%positive, "/missing/out")].

Definition X0 : externs :=
  {| SHELL_EXIT := -100; IO_OUT_APPEND := 1; IO_ERR_APPEND := 2;
     x_get_word := fun _ p => text_of tbl p;
     x_get_argv := fun _ s =>
       List.app (texts tbl 8%nat (verb s)) (texts tbl 8%nat (params s)) |}.

(** A system with room for every descriptor and process, in which the
    paths under [/missing] do not exist and three programs can be run. *)
Definition K0 : kernel :=
  {| k_open := fun _ path _ => negb (String.prefix "/missing" path);
     k_dup := fun _ _ => true;
     k_dup2 := fun _ _ _ => true;
     k_pipe := fun _ => true;
     k_fork := fun _ => true;
     k_chdir := fun _ path =>
       if String.prefix "/missing" path then None else Some path;
     k_execvp := fun _ file _ =>
       if String.eqb file "true" then Some (exited 0)
       else if String.eqb file "false" then Some (exited 1)
       else if String.eqb file "two" then Some (exited 2)
       else None |}.

Definition tty (fd : Z) : ofile := OFile (Z.to_nat fd) (Inherited fd).

Definition w0 : world :=
  {| fds := <[0 := tty 0]> (<[1 := tty 1]> (<[2 := tty 2]> ∅));
     environ := ∅; cwd := "/"; procs := ∅;
     next_pid := 100%positive; next_serial := 3%nat; trace := [] |}.

Definition wd (a : positive) : option word_t := Some (Word a None).

Definition simple (v : positive) (ps i o e : option word_t) (fl : Z)
  : simple_command_t :=
  {| verb := wd v; params := ps; in_ := i; out := o; err := e;
     io_flags := fl |}.

Definition leaf (s : simple_command_t) : option command_t :=
  Some (Command OP_NONE (Some s) None None).

Definition run (v : positive) : option command_t :=
  leaf (simple v None None None None 0).

(** Modelled from the spec: [parse_env_assignment] of part_000 is not in
    the sources; section 4.2 has an assignment split on the first ['=']
    into name and value and bound in the process environment. *)
Fixpoint split_first_eq (s : string) : string * string :=
  match s with
  | EmptyString => (EmptyString, EmptyString)
  | String c rest =>
      if Ascii.eqb c "="%char then (EmptyString, rest)
      else let (n, v) := split_first_eq rest in (String c n, v)
  end.

Definition parse_env_assignment (command : string) : M unit :=
  let (name, value) := split_first_eq command in
  setenv (Some name) (Some value) ;;;
  ret tt.

End Samples.

(* ===================================================================== *)
(** ** Vocabulary of the statements *)
(* ===================================================================== *)

(** [frame w w']: from [w] to [w'] only the descriptor table (and the
    counter of open file descriptions) changed, and the log grew. *)
Record frame (w w' : world) : Prop := Frame {
  frame_environ : environ w' = environ w;
  frame_cwd : cwd w' = cwd w;
  frame_procs : procs w' = procs w;
  frame_next_pid : next_pid w' = next_pid w;
  frame_trace : exists evs, trace w' = (evs ++ trace w)%list
}.

(** A call that always returns and stays within [frame]. *)
Definition fd_call {A : Type} (m : M A) : Prop :=
  forall w, exists a w', m w = Return a w' /\ frame w w'.

(** The state an outcome ends in ([d] when there is none). *)
Definition final {A : Type} (o : outcome A) (d : world) : world :=
  match o with
  | Return _ w => w
  | Terminated _ w => w
  | Undefined => d
  end.

(** The parameter list of [s] is exactly one word. *)
Definition one_path_argument (s : simple_command_t) : Prop :=
  exists d, params s = Some d /\ next_word d = None.

(** What [cd] with one argument comes to, from [w] to [w'] with status [v]:
    on status 0 the working directory is the one the kernel resolved the
    argument to; on any other status it is unchanged; status 1 comes with a
    [perror(msg)] among the calls made. *)
Definition cd_outcome (K : kernel) (X : externs) (msg : string)
    (s : simple_command_t) (w w' : world) (v : Z) : Prop :=
  (v = 0 -> exists p wk, frame w wk
                         /\ x_get_word X (environ w) (params s) = Some p
                         /\ k_chdir K wk p = Some (cwd w'))
  /\ (v <> 0 -> cwd w' = cwd w)
  /\ (v = 1 -> exists evs, trace w' = (evs ++ trace w)%list
                           /\ In (EvPerror msg) evs).

(** The exit status of a process that evaluates [m] and calls [exit] with
    the value it returns, unless [m] itself ends the process. *)
Definition exit_status_of (o : outcome Z) : option Z :=
  match o with
  | Return v _ => Some (WEXITSTATUS (exited v))
  | Terminated st _ => Some (WEXITSTATUS st)
  | Undefined => None
  end.

(** A verb that is neither a built-in nor an assignment. *)
Definition external_verb (cmd : string) : Prop :=
  cmd <> "exit" /\ cmd <> "quit" /\ cmd <> "cd" /\ has_char "="%char cmd = false.

(** What the child of an external command logs and ends with, given what
    [execvp] comes to: the program's own status, or the [fallback] calls
    of the source after a failed [execvp]. *)
Definition child_log (cmd : string) (argv : list string) (res : option Z)
    (fallback : list event) : list event :=
  match res with
  | Some _ => [EvExecvp cmd argv 0]
  | None => (fallback ++ [EvExecvp cmd argv (-1)])%list
  end.

Definition child_status (res : option Z) (fallback : Z) : Z :=
  match res with
  | Some st => st
  | None => exited fallback
  end.

(** The flags of an output redirection: truncating, or appending. *)
Definition truncating : Z := Z.lor (Z.lor O_WRONLY O_CREAT) O_TRUNC.
Definition appending : Z := Z.lor (Z.lor O_WRONLY O_CREAT) O_APPEND.

Definition output_flags (append : Z) : Z :=
  if negb (append =? 0) then appending else truncating.

(** The [open] calls with a creation mode among [evs] (latest first):
    path, flags and result.  These are the opens of output and error
    targets; the input target is opened without a mode. *)
Fixpoint write_opens (evs : list event) : list (string * Z * Z) :=
  match evs with
  | [] => []
  | EvOpen path flags (Some _) r :: rest => (path, flags, r) :: write_opens rest
  | _ :: rest => write_opens rest
  end.

(** [evs] are the calls made from [w] to [w']. *)
Definition logged (w w' : world) (evs : list event) : Prop :=
  trace w' = (evs ++ trace w)%list.

(** A call that returns, leaves the environment alone and opens nothing for
    writing. *)
Definition quiet {A : Type} (m : M A) : Prop :=
  forall w, exists a w' evs,
    m w = Return a w' /\ logged w w' evs /\ write_opens evs = []
    /\ environ w' = environ w.

(** A call that returns, leaves the environment alone and opens exactly one
    target for writing: [file], with [flags]. *)
Definition opens_once (m : M Z) (file : string) (flags : Z) : Prop :=
  forall w, exists r w' evs fd,
    m w = Return r w' /\ logged w w' evs
    /\ write_opens evs = [(file, flags, fd)]
    /\ environ w' = environ w.

(** Standard output and standard error are the one open file description
    made for [file] with [flags]. *)
Definition both_bound (w : world) (file : string) (flags : Z) : Prop :=
  exists f, of_object f = Opened file flags
            /\ fds w !! STDOUT_FILENO = Some f
            /\ fds w !! STDERR_FILENO = Some f.

(** A descriptor other than the three standard ones. *)
Definition not_std (k : Z) : Prop :=
  k <> STDIN_FILENO /\ k <> STDOUT_FILENO /\ k <> STDERR_FILENO.

(** A call that, when it returns, has left alone every descriptor other
    than the standard ones and [fd]. *)
Definition touches_only {A : Type} (fd : Z) (m : M A) : Prop :=
  forall w a w', m w = Return a w' ->
                 forall k, not_std k -> k <> fd -> fds w' !! k = fds w !! k.

(** A call that, when it returns, has left alone every descriptor other
    than the standard ones. *)
Definition keeps_others {A : Type} (m : M A) : Prop :=
  forall w a w', m w = Return a w' ->
                 forall k, not_std k -> fds w' !! k = fds w !! k.

(** A call that, when it returns, has left the descriptor table alone. *)
Definition keeps_fds {A : Type} (m : M A) : Prop :=
  forall w a w', m w = Return a w' -> fds w' = fds w.

(** A call that, when it returns, has left [fd] closed. *)
Definition leaves_closed {A : Type} (fd : Z) (m : M A) : Prop :=
  forall w a w', m w = Return a w' -> fds w' !! fd = None.

(** The three saved descriptors [a], [b], [c] of a table [t0], which held
    [f0], [f1], [f2] on the standard descriptors. *)
Record saved_streams (t0 : gmap Z ofile) (a b c : Z) (f0 f1 f2 : ofile)
  : Prop := SavedStreams {
  sv_stdin : t0 !! STDIN_FILENO = Some f0;
  sv_stdout : t0 !! STDOUT_FILENO = Some f1;
  sv_stderr : t0 !! STDERR_FILENO = Some f2;
  sv_a_free : t0 !! a = None;
  sv_b_free : t0 !! b = None;
  sv_c_free : t0 !! c = None;
  sv_ab : a <> b;
  sv_ac : a <> c;
  sv_bc : b <> c
}.

(** [on_child P c]: [P] holds of the subtree [c], when there is one. *)
Definition on_child (P : command_t -> Prop) (c : option command_t) : Prop :=
  match c with
  | Some n => P n
  | None => True
  end.

(** The values [parse_command] can hand back: -1, a byte, or [SHELL_EXIT]. *)
Definition status_in_range (X : externs) (v : Z) : Prop :=
  -1 <= v <= 255 \/ v = SHELL_EXIT X.

(** More words and systems for the examples. *)
Module More.

Definition tbl : list (positive * string) :=
  (Samples.tbl ++
   [(20%positive, "exit"); (21%positive, "quit"); (22%positive, "crash");
    (23%positive, "NAME="); (24%positive, "=value");
    (25%positive, "/tmp/log")])%list.

Definition X1 : externs :=
  {| SHELL_EXIT := -100; IO_OUT_APPEND := 1; IO_ERR_APPEND := 2;
     x_get_word := fun _ p => Samples.text_of tbl p;
     x_get_argv := fun _ s =>
       List.app (Samples.texts tbl 8%nat (verb s))
                (Samples.texts tbl 8%nat (params s)) |}.

(** [Samples.K0] with a program that is killed by signal 11 (its wait
    status has no exit code). *)
Definition K1 : kernel :=
  {| k_open := k_open Samples.K0;
     k_dup := k_dup Samples.K0;
     k_dup2 := k_dup2 Samples.K0;
     k_pipe := k_pipe Samples.K0;
     k_fork := k_fork Samples.K0;
     k_chdir := k_chdir Samples.K0;
     k_execvp := fun w file argv =>
       if String.eqb file "crash" then Some 11
       else k_execvp Samples.K0 w file argv |}.

(** [Samples.K0] without room for a new process. *)
Definition Kf : kernel :=
  {| k_open := k_open Samples.K0;
     k_dup := k_dup Samples.K0;
     k_dup2 := k_dup2 Samples.K0;
     k_pipe := k_pipe Samples.K0;
     k_fork := fun _ => false;
     k_chdir := k_chdir Samples.K0;
     k_execvp := k_execvp Samples.K0 |}.

(** [Samples.K0] where [dup2] fails. *)
Definition Kd2 : kernel :=
  {| k_open := k_open Samples.K0;
     k_dup := k_dup Samples.K0;
     k_dup2 := fun _ _ _ => false;
     k_pipe := k_pipe Samples.K0;
     k_fork := k_fork Samples.K0;
     k_chdir := k_chdir Samples.K0;
     k_execvp := k_execvp Samples.K0 |}.

(** [Samples.K0] where [dup] fails on standard error. *)
Definition Kd : kernel :=
  {| k_open := k_open Samples.K0;
     k_dup := fun _ fd => negb (fd =? STDERR_FILENO);
     k_dup2 := k_dup2 Samples.K0;
     k_pipe := k_pipe Samples.K0;
     k_fork := k_fork Samples.K0;
     k_chdir := k_chdir Samples.K0;
     k_execvp := k_execvp Samples.K0 |}.

End More.

(** A call that does not end the calling process and, when it returns, has
    left its environment and its working directory alone. *)
Definition isolated {A : Type} (m : M A) : Prop :=
  forall w,
    match m w with
    | Return _ w' => environ w' = environ w /\ cwd w' = cwd w
    | Terminated _ _ => False
    | Undefined => True
    end.

(** [own_leaves P c]: [P] holds of every simple command of [c] that the
    evaluating process runs itself, that is, of every leaf that is not
    below a Parallel or a Pipe node (those run in children). *)
Fixpoint own_leaves (P : simple_command_t -> Prop) (c : command_t) : Prop :=
  let sub := fun c' : option command_t =>
    match c' with
    | Some n => own_leaves P n
    | None => True
    end in
  match c with
  | Command o sc c1 c2 =>
      match o with
      | OP_NONE => match sc with Some s => P s | None => True end
      | OP_SEQUENTIAL | OP_CONDITIONAL_ZERO | OP_CONDITIONAL_NZERO =>
          sub c1 /\ sub c2
      | OP_PARALLEL | OP_PIPE | OP_DUMMY => True
      end
  end.

(** The redirections of [s] never fail (in src/src/cmd.c). *)
Definition redirections_succeed (K : kernel) (X : externs)
    (s : simple_command_t) : Prop :=
  forall w1 r w2, CmdC.apply_redirections K X s w1 = Return r w2 -> r <> -1.

(** The three standard descriptors are open. *)
Definition std_open (w : world) : Prop :=
  is_Some (fds w !! STDIN_FILENO)
  /\ is_Some (fds w !! STDOUT_FILENO)
  /\ is_Some (fds w !! STDERR_FILENO).

(** The system [K] with another account [e] of what running a program
    comes to. *)
Definition with_execvp (K : kernel)
    (e : world -> string -> list string -> option Z) : kernel :=
  {| k_open := k_open K;
     k_dup := k_dup K;
     k_dup2 := k_dup2 K;
     k_pipe := k_pipe K;
     k_fork := k_fork K;
     k_chdir := k_chdir K;
     k_execvp := e |}.

(** Somewhere [open] is refused; somewhere [dup2] is. *)
Definition open_failed (K : kernel) : Prop :=
  exists w file flags, k_open K w file flags = false.

Definition dup2_failed (K : kernel) : Prop :=
  exists w a b, k_dup2 K w a b = false.

(** What [cd] with one argument does, given the text [path] of the
    argument ([get_word] may give null), from the state [wk] in which
    [chdir] is called to the state [w'] the command returns in with status
    [v].  Where [chdir] succeeds: status 0, and the working directory is
    the one the argument was resolved to.  Where it fails: status 1, the
    working directory untouched, and [perror(msg)] called right after the
    failed [chdir]. *)
Definition cd_effect (K : kernel) (msg : string) (path : option string)
    (wk w' : world) (v : Z) : Prop :=
  match path with
  | Some p =>
      match k_chdir K wk p with
      | Some d =>
          v = 0 /\ cwd w' = d
          /\ exists evs, trace w' = (evs ++ EvChdir p 0 :: trace wk)%list
      | None =>
          v = 1 /\ cwd w' = cwd wk
          /\ exists evs,
               trace w' = (evs ++ EvPerror msg :: EvChdir p (-1)
                               :: trace wk)%list
      end
  | None =>
      v = 1 /\ cwd w' = cwd wk
      /\ exists evs,
           trace w' = (evs ++ EvPerror msg :: EvChdir "" (-1)
                           :: trace wk)%list
  end.

(** The two tokens that [parse_environment_variable] of src/src/cmd.c
    takes from its argument: what [strtok_r(command, "=", &saveptr)] and
    then [strtok_r(NULL, "=", &saveptr)] return. *)
Definition assignment_tokens (command : string)
  : option string * option string :=
  let (name, saveptr) := strtok_r (Some command) "=" EmptyString in
  let (value, _) := strtok_r None "=" saveptr in
  (name, value).


(** The state of a process right after a successful [fork] in [w]: the
    child [pid] is in its table, with the wait status [st] and the log
    [evs] it will be found with. *)
Definition forked (pid st : Z) (evs : list event) (w : world) : world :=
  log (EvFork pid) (bump_pid (set_procs (<[pid := (st, evs)]> (procs w)) w)).

(** The state in which a child of a pipeline, forked in [wp], starts on its
    branch: it has closed [drop], put [keep] on [std] and closed [keep]. *)
Definition stage_start (K : kernel) (wp : world) (drop keep std : Z) : world :=
  final ((close drop ;;; dup2 K keep std ;;; close keep) (child_start wp))
    (child_start wp).

(** A run of a pipeline from [w] to [w'] with value [v], the branches being
    evaluated by [left] and [right]: the pipe was made, the first child ran
    [left] and ended with wait status [st1], the second ran [right] and
    ended with [st2], the parent waited for the first and then for the
    second, and [v] is 0 if the exit status of the second is 0 and 1
    otherwise. *)
Definition pipe_run (K : kernel) (left right : M Z) (w w' : world) (v : Z)
  : Prop :=
  exists r wr wp st1 ev1 st2 ev2 evs,
    pipe K w = Return (0, (r, wr)) wp
    /\ let pid1 := Z.pos (next_pid wp) in
       let wc1 := stage_start K wp r wr STDOUT_FILENO in
       let wp2 := forked pid1 st1 ev1 wp in
       let pid2 := Z.pos (next_pid wp2) in
       let wc2 := stage_start K wp2 wr r STDIN_FILENO in
       exit_status_of (left wc1) = Some (WEXITSTATUS st1)
       /\ exit_status_of (right wc2) = Some (WEXITSTATUS st2)
       /\ environ wc1 = environ w /\ cwd wc1 = cwd w
       /\ environ wc2 = environ w /\ cwd wc2 = cwd w
       /\ v = (if WEXITSTATUS st2 =? 0 then 0 else 1)
       /\ trace w'
          = EvWaitpid pid2 st2 ev2 :: EvWaitpid pid1 st1 ev1
            :: (evs ++ EvFork pid2 :: EvFork pid1 :: trace wp)%list.

(* ===================================================================== *)
(** ** Reasoning about calls *)
(* ===================================================================== *)

Lemma bind_Return {A B : Type} (m : M A) (k : A -> M B) w a w1 :
  m w = Return a w1 -> bind m k w = k a w1.
Proof. intros H. unfold bind. now rewrite H. Qed.

Lemma bind_inv_Return {A B : Type} (m : M A) (k : A -> M B) w b w' :
  bind m k w = Return b w' ->
  exists a w1, m w = Return a w1 /\ k a w1 = Return b w'.
Proof.
  unfold bind. destruct (m w) as [a w1| |]; try discriminate.
  intros H. now exists a, w1.
Qed.

Lemma frame_refl w : frame w w.
Proof. split; try reflexivity. now exists []. Qed.

Lemma frame_trans w1 w2 w3 : frame w1 w2 -> frame w2 w3 -> frame w1 w3.
Proof.
  intros [e1 c1 p1 n1 [t1 T1]] [e2 c2 p2 n2 [t2 T2]].
  split; try congruence.
  exists (t2 ++ t1)%list. rewrite T2, T1. now rewrite app_assoc.
Qed.

Lemma frame_log e w : frame w (log e w).
Proof. split; try reflexivity. now exists [e]. Qed.

Lemma frame_set_fds t w : frame w (set_fds t w).
Proof. split; try reflexivity. now exists []. Qed.

Lemma frame_bump_serial w : frame w (bump_serial w).
Proof. split; try reflexivity. now exists []. Qed.

Lemma fd_call_ret {A : Type} (a : A) : fd_call (ret a).
Proof. intros w. exists a, w. split; [reflexivity | apply frame_refl]. Qed.

Lemma fd_call_bind {A B : Type} (m : M A) (k : A -> M B) :
  fd_call m -> (forall a, fd_call (k a)) -> fd_call (bind m k).
Proof.
  intros Hm Hk w. destruct (Hm w) as (a & w1 & E1 & F1).
  destruct (Hk a w1) as (b & w2 & E2 & F2).
  exists b, w2. split.
  - now rewrite (bind_Return _ _ _ _ _ E1).
  - eapply frame_trans; eassumption.
Qed.

Lemma fd_call_gets {A : Type} (f : world -> A) : fd_call (gets f).
Proof. intros w. exists (f w), w. split; [reflexivity | apply frame_refl]. Qed.

Lemma fd_call_emit e : fd_call (emit e).
Proof. intros w. exists tt, (log e w). split; [reflexivity | apply frame_log]. Qed.

Lemma fd_call_open K path flags mode : fd_call (open K path flags mode).
Proof.
  intros w. unfold open. destruct (k_open K w path flags).
  - eexists _, _. split; [reflexivity|].
    eapply frame_trans; [|apply frame_log].
    eapply frame_trans; [apply frame_set_fds | apply frame_bump_serial].
  - eexists _, _. split; [reflexivity | apply frame_log].
Qed.

Lemma fd_call_close fd : fd_call (close fd).
Proof.
  intros w. unfold close. destruct (fds w !! fd).
  - eexists _, _. split; [reflexivity|].
    eapply frame_trans; [apply frame_set_fds | apply frame_log].
  - eexists _, _. split; [reflexivity | apply frame_log].
Qed.

Lemma fd_call_dup K fd : fd_call (dup K fd).
Proof.
  intros w. unfold dup. destruct (fds w !! fd); [destruct (k_dup K w fd)|].
  - eexists _, _. split; [reflexivity|].
    eapply frame_trans; [apply frame_set_fds | apply frame_log].
  - eexists _, _. split; [reflexivity | apply frame_log].
  - eexists _, _. split; [reflexivity | apply frame_log].
Qed.

Lemma fd_call_dup2 K a b : fd_call (dup2 K a b).
Proof.
  intros w. unfold dup2.
  destruct (fds w !! a); [destruct (k_dup2 K w a b && (0 <=? b))|].
  - eexists _, _. split; [reflexivity|].
    eapply frame_trans; [apply frame_set_fds | apply frame_log].
  - eexists _, _. split; [reflexivity | apply frame_log].
  - eexists _, _. split; [reflexivity | apply frame_log].
Qed.

Lemma fd_call_perror msg : fd_call (perror msg).
Proof. apply fd_call_emit. Qed.

Lemma fd_call_printf text : fd_call (printf text).
Proof. apply fd_call_emit. Qed.

Lemma fd_call_get_word X p : fd_call (get_word X p).
Proof. apply fd_call_gets. Qed.

Lemma fd_call_get_argv X s : fd_call (get_argv X s).
Proof. apply fd_call_gets. Qed.

Create HintDb fdcall.
#[export] Hint Resolve fd_call_ret fd_call_gets fd_call_emit fd_call_open
  fd_call_close fd_call_dup fd_call_dup2 fd_call_perror fd_call_printf
  fd_call_get_word fd_call_get_argv : fdcall.

(** Structural descent through a body built from such calls. *)
Ltac fd_calls :=
  repeat first
    [ apply fd_call_ret
    | apply fd_call_bind; [| intros ]
    | match goal with
      | |- fd_call (if ?c then _ else _) => destruct c
      | |- fd_call (match ?x with _ => _ end) => destruct x
      | |- fd_call (let (_, _) := ?x in _) => destruct x
      end
    | solve [ eauto with fdcall ] ].

Lemma fd_call_dup_fd K fd d : fd_call (CmdC.dup_fd K fd d).
Proof. unfold CmdC.dup_fd. fd_calls. Qed.
#[export] Hint Resolve fd_call_dup_fd : fdcall.

Lemma fd_call_redirect K f d a : fd_call (CmdC.redirect K f d a).
Proof. unfold CmdC.redirect. fd_calls. Qed.
#[export] Hint Resolve fd_call_redirect : fdcall.

Lemma fd_call_apply_redirections K X s :
  fd_call (CmdC.apply_redirections K X s).
Proof. unfold CmdC.apply_redirections. fd_calls. Qed.

Lemma fd_call_duplicate K : fd_call (CmdC.duplicate_file_descriptors K).
Proof. unfold CmdC.duplicate_file_descriptors. fd_calls. Qed.

Lemma fd_call_restore K a b c :
  fd_call (CmdC.restore_file_descriptors K a b c).
Proof. unfold CmdC.restore_file_descriptors. fd_calls. Qed.

#[export] Hint Resolve fd_call_apply_redirections fd_call_duplicate
  fd_call_restore : fdcall.

Lemma fd_call_redirect_output K f a : fd_call (Part000.redirect_output K f a).
Proof. unfold Part000.redirect_output. fd_calls. Qed.

Lemma fd_call_redirect_input K f : fd_call (Part000.redirect_input K f).
Proof. unfold Part000.redirect_input. fd_calls. Qed.

Lemma fd_call_redirect_stderr K f a : fd_call (Part000.redirect_stderr K f a).
Proof. unfold Part000.redirect_stderr. fd_calls. Qed.

Lemma fd_call_redirect_output_stderr K f :
  fd_call (Part000.redirect_output_stderr K f).
Proof. unfold Part000.redirect_output_stderr. fd_calls. Qed.

#[export] Hint Resolve fd_call_redirect_output fd_call_redirect_input
  fd_call_redirect_stderr fd_call_redirect_output_stderr : fdcall.

Lemma fd_call_apply_redirections' K X s :
  fd_call (Part000.apply_redirections K X s).
Proof. unfold Part000.apply_redirections. fd_calls. Qed.

Lemma fd_call_duplicate' K : fd_call (Part000.duplicate_file_descriptors K).
Proof. unfold Part000.duplicate_file_descriptors. fd_calls. Qed.

Lemma fd_call_restore' K a b c :
  fd_call (Part000.restore_file_descriptors K a b c).
Proof. unfold Part000.restore_file_descriptors. fd_calls. Qed.

#[export] Hint Resolve fd_call_apply_redirections' fd_call_duplicate'
  fd_call_restore' : fdcall.

Lemma bind_ret_r {A : Type} (m : M A) w : bind m (fun a => ret a) w = m w.
Proof. unfold bind. now destruct (m w). Qed.

(* ===================================================================== *)
(** ** The evaluator: null trees and the conditional operators *)
(* ===================================================================== *)

(** C10.  In src/src/cmd.c, evaluating a null command tree, a null
    simple-command record, or a leaf node whose record is null gives exit
    status 0 and leaves the process state exactly as it was (no call is
    made, nothing is logged). *)
Theorem C10_null_is_success K X level father w :
  CmdC.parse_command K X None level father w = Return 0 w
  /\ CmdC.parse_simple K X None level father w = Return 0 w
  /\ (forall c1 c2,
        CmdC.parse_command K X (Some (Command OP_NONE None c1 c2))
          level father w = Return 0 w).
Proof. repeat split. Qed.

Section Conditionals.
Variable K : kernel.
Variable X : externs.
Variable pea : string -> M unit.
Variables (sc : option simple_command_t) (c1 c2 : option command_t).
Variables (level : Z) (father : option command_t).

Let nz := Command OP_CONDITIONAL_NZERO sc c1 c2.
Let ze := Command OP_CONDITIONAL_ZERO sc c1 c2.

Lemma cmdc_nzero_unfold :
    CmdC.parse_command K X (Some nz) level father =
    (let* v := CmdC.parse_command K X c1 (level + 1) (Some nz) in
     if negb (v =? 0)
     then let* v' := CmdC.parse_command K X c2 (level + 1) (Some nz) in ret v'
     else ret v).
  Proof. reflexivity. Qed.

Lemma cmdc_zero_unfold :
    CmdC.parse_command K X (Some ze) level father =
    (let* v := CmdC.parse_command K X c1 (level + 1) (Some ze) in
     if v =? 0
     then let* v' := CmdC.parse_command K X c2 (level + 1) (Some ze) in ret v'
     else ret v).
  Proof. reflexivity. Qed.

Lemma part000_nzero_unfold :
    Part000.parse_command K X pea (Some nz) level father =
    (let* v := Part000.parse_command K X pea c1 (level + 1) (Some nz) in
     if negb (v =? 0)
     then let* v' := Part000.parse_command K X pea c2 (level + 1) (Some nz) in
          ret v'
     else ret v).
  Proof. reflexivity. Qed.

Lemma part000_zero_unfold :
    Part000.parse_command K X pea (Some ze) level father =
    (let* v := Part000.parse_command K X pea c1 (level + 1) (Some ze) in
     if v =? 0
     then let* v' := Part000.parse_command K X pea c2 (level + 1) (Some ze) in
          ret v'
     else ret v).
  Proof. reflexivity. Qed.

  (** C9.  In both versions: when the left subtree of a ConditionalNonZero
      node returns status [v], the node continues with the right subtree
      (from the state the left one left, and with the right subtree's
      outcome as its own) if [v] is not zero, and otherwise returns [v] in
      that very state, the right subtree not having run; a ConditionalZero
      node does the same with the test reversed. *)
Theorem C9_conditional_runs_right_iff (w w1 : world) (v : Z) :
    (CmdC.parse_command K X c1 (level + 1) (Some nz) w = Return v w1 ->
       (v <> 0 -> CmdC.parse_command K X (Some nz) level father w
                  = CmdC.parse_command K X c2 (level + 1) (Some nz) w1)
       /\ (v = 0 -> CmdC.parse_command K X (Some nz) level father w
                    = Return v w1))
    /\ (CmdC.parse_command K X c1 (level + 1) (Some ze) w = Return v w1 ->
       (v = 0 -> CmdC.parse_command K X (Some ze) level father w
                 = CmdC.parse_command K X c2 (level + 1) (Some ze) w1)
       /\ (v <> 0 -> CmdC.parse_command K X (Some ze) level father w
                     = Return v w1))
    /\ (Part000.parse_command K X pea c1 (level + 1) (Some nz) w = Return v w1 ->
       (v <> 0 -> Part000.parse_command K X pea (Some nz) level father w
                  = Part000.parse_command K X pea c2 (level + 1) (Some nz) w1)
       /\ (v = 0 -> Part000.parse_command K X pea (Some nz) level father w
                    = Return v w1))
    /\ (Part000.parse_command K X pea c1 (level + 1) (Some ze) w = Return v w1 ->
       (v = 0 -> Part000.parse_command K X pea (Some ze) level father w
                 = Part000.parse_command K X pea c2 (level + 1) (Some ze) w1)
       /\ (v <> 0 -> Part000.parse_command K X pea (Some ze) level father w
                     = Return v w1)).
  Proof.
    repeat apply conj; intros H.
    - rewrite cmdc_nzero_unfold, (bind_Return _ _ _ _ _ H).
      split; intros Hv.
      + apply Z.eqb_neq in Hv. rewrite Hv. apply bind_ret_r.
      + apply Z.eqb_eq in Hv. now rewrite Hv.
    - rewrite cmdc_zero_unfold, (bind_Return _ _ _ _ _ H).
      split; intros Hv.
      + apply Z.eqb_eq in Hv. rewrite Hv. apply bind_ret_r.
      + apply Z.eqb_neq in Hv. now rewrite Hv.
    - rewrite part000_nzero_unfold, (bind_Return _ _ _ _ _ H).
      split; intros Hv.
      + apply Z.eqb_neq in Hv. rewrite Hv. apply bind_ret_r.
      + apply Z.eqb_eq in Hv. now rewrite Hv.
    - rewrite part000_zero_unfold, (bind_Return _ _ _ _ _ H).
      split; intros Hv.
      + apply Z.eqb_eq in Hv. rewrite Hv. apply bind_ret_r.
      + apply Z.eqb_neq in Hv. now rewrite Hv.
  Qed.

End Conditionals.

(** C9 at work: [false || true] and [false && true] in both versions. *)
Lemma C9_conditional_witness :
  let l := Samples.run 2 in
  let r := Samples.run 1 in
  let nz := Command OP_CONDITIONAL_NZERO None l r in
  let ze := Command OP_CONDITIONAL_ZERO None l r in
  let w1 := final (CmdC.parse_command Samples.K0 Samples.X0 l 1 None Samples.w0)
              Samples.w0 in
  (CmdC.parse_command Samples.K0 Samples.X0 l (0 + 1) (Some nz) Samples.w0
     = Return 1 w1
   /\ CmdC.parse_command Samples.K0 Samples.X0 (Some nz) 0 None Samples.w0
     = CmdC.parse_command Samples.K0 Samples.X0 r (0 + 1) (Some nz) w1)
  /\ (CmdC.parse_command Samples.K0 Samples.X0 l (0 + 1) (Some ze) Samples.w0
     = Return 1 w1
   /\ CmdC.parse_command Samples.K0 Samples.X0 (Some ze) 0 None Samples.w0
     = Return 1 w1)
  /\ (Part000.parse_command Samples.K0 Samples.X0 Samples.parse_env_assignment
        l (0 + 1) (Some nz) Samples.w0 = Return 1 w1
   /\ Part000.parse_command Samples.K0 Samples.X0 Samples.parse_env_assignment
        (Some nz) 0 None Samples.w0
     = Part000.parse_command Samples.K0 Samples.X0 Samples.parse_env_assignment
        r (0 + 1) (Some nz) w1)
  /\ (Part000.parse_command Samples.K0 Samples.X0 Samples.parse_env_assignment
        l (0 + 1) (Some ze) Samples.w0 = Return 1 w1
   /\ Part000.parse_command Samples.K0 Samples.X0 Samples.parse_env_assignment
        (Some ze) 0 None Samples.w0 = Return 1 w1).
Proof.
  intros l r nz ze w1.
  assert (H1 : CmdC.parse_command Samples.K0 Samples.X0 l (0 + 1) (Some nz)
                 Samples.w0 = Return 1 w1) by (vm_compute; reflexivity).
  assert (H2 : CmdC.parse_command Samples.K0 Samples.X0 l (0 + 1) (Some ze)
                 Samples.w0 = Return 1 w1) by (vm_compute; reflexivity).
  assert (H3 : Part000.parse_command Samples.K0 Samples.X0
                 Samples.parse_env_assignment l (0 + 1) (Some nz)
                 Samples.w0 = Return 1 w1) by (vm_compute; reflexivity).
  assert (H4 : Part000.parse_command Samples.K0 Samples.X0
                 Samples.parse_env_assignment l (0 + 1) (Some ze)
                 Samples.w0 = Return 1 w1) by (vm_compute; reflexivity).
  destruct (C9_conditional_runs_right_iff Samples.K0 Samples.X0
              Samples.parse_env_assignment None l r 0 None Samples.w0 w1 1)
    as (A & B & C & D).
  split; [split; [exact H1 | apply (proj1 (A H1)); discriminate] |].
  split; [split; [exact H2 | apply (proj2 (B H2)); discriminate] |].
  split; [split; [exact H3 | apply (proj1 (C H3)); discriminate] |].
  split; [exact H4 | apply (proj2 (D H4)); discriminate].
Defined.

(* ===================================================================== *)
(** ** The cd built-in *)
(* ===================================================================== *)

Lemma frame_new_event w1 w2 w3 e :
  frame w1 w2 -> frame (log e w2) w3 ->
  exists evs, trace w3 = (evs ++ trace w1)%list /\ In e evs.
Proof.
  intros [_ _ _ _ [t1 T1]] [_ _ _ _ [t2 T2]].
  exists (t2 ++ e :: t1)%list. split.
  - rewrite T2. simpl. rewrite T1. now rewrite <- app_assoc.
  - apply in_or_app. right. now left.
Qed.

(** [chdir], whatever it is handed: it returns 0 and moves, or returns -1
    and stays. *)
Lemma chdir_ptr_cases K path w :
  (exists p d, path = Some p /\ k_chdir K w p = Some d
               /\ chdir_ptr K path w
                  = Return 0 (log (EvChdir p 0) (set_cwd d w)))
  \/ (exists p, chdir_ptr K path w = Return (-1) (log (EvChdir p (-1)) w)).
Proof.
  destruct path as [p|]; simpl.
  - unfold chdir. destruct (k_chdir K w p) as [d|] eqn:E.
    + left. now exists p, d.
    + right. now exists p.
  - right. now exists "".
Qed.

Section CdBuiltin.
Variable K : kernel.
Variable X : externs.

(** The part of [shell_cd] that runs when there is exactly one argument. *)
Lemma shell_cd_one_arg (msg : string) (dir : option word_t) w :
  exists (b : bool) w',
    (let* path := get_word X dir in
     let* r := chdir_ptr K path in
     if negb (r =? 0) then perror msg ;;; ret false else ret true) w
    = Return b w'
    /\ environ w' = environ w
    /\ (b = true -> exists p, x_get_word X (environ w) dir = Some p
                             /\ k_chdir K w p = Some (cwd w'))
    /\ (b = false -> exists p,
          w' = log (EvPerror msg) (log (EvChdir p (-1)) w)).
Proof.
  unfold bind, get_word, gets.
  destruct (chdir_ptr_cases K (x_get_word X (environ w) dir) w)
    as [(p & d & Ep & Ek & E) | (p & E)]; rewrite E; simpl.
  - exists true. eexists. split; [reflexivity|]. split; [reflexivity|].
    split; [|discriminate]. intros _. exists p. now split.
  - exists false. eexists. split; [reflexivity|]. split; [reflexivity|].
    split; [discriminate|]. intros _. now exists p.
Qed.

End CdBuiltin.

Lemma frame_cwd_eq w w1 : frame w w1 -> cwd w1 = cwd w.
Proof. now intros []. Qed.

Lemma frame_environ_eq w w1 : frame w w1 -> environ w1 = environ w.
Proof. now intros []. Qed.

Lemma not_one_path_none s : params s = None -> ~ one_path_argument s.
Proof. intros E (d & Hd & _). congruence. Qed.

Lemma not_one_path_more s d x :
  params s = Some d -> next_word d = Some x -> ~ one_path_argument s.
Proof. intros E N (d' & Hd & Hn). congruence. Qed.

Lemma bind_ret_l {A B : Type} (a : A) (k : A -> M B) w :
  bind (ret a) k w = k a w.
Proof. reflexivity. Qed.

Lemma cmdc_cd K X s level father w :
  x_get_word X (environ w) (verb s) = Some "cd" ->
  exists v w', CmdC.parse_simple K X (Some s) level father w = Return v w'
    /\ (v = 0 -> one_path_argument s)
    /\ (one_path_argument s -> cd_outcome K X "cd" s w w' v)
    /\ (~ one_path_argument s -> (v = 1 \/ v = -1) /\ cwd w' = cwd w).
Proof.
  intros Hverb.
  unfold CmdC.parse_simple.
  assert (E0 : get_word X (verb s) w = Return (Some "cd") w)
    by (unfold get_word, gets; now rewrite Hverb).
  rewrite (bind_Return _ _ _ _ _ E0).
  assert (E0' : get_argv X s w = Return (x_get_argv X (environ w) s) w)
    by reflexivity.
  rewrite (bind_Return _ _ _ _ _ E0').
  destruct (fd_call_duplicate K w) as ([[a b] c] & w1 & E1 & F1).
  rewrite (bind_Return _ _ _ _ _ E1).
  destruct (fd_call_apply_redirections K X s w1) as (r & w2 & E2 & F2).
  rewrite (bind_Return _ _ _ _ _ E2).
  assert (F : frame w w2) by (eapply frame_trans; eassumption).
  destruct (r =? -1) eqn:Er.
  - exists (-1), w2. split; [reflexivity|]. split; [discriminate|].
    split.
    + intros _. repeat split; try discriminate.
      intros _. now apply frame_cwd_eq.
    + intros _. split; [now right | now apply frame_cwd_eq].
  - simpl.
    destruct (params s) as [d|] eqn:Ep; [destruct (next_word d) as [x|] eqn:En|].
    + (* several arguments *)
      simpl. rewrite En. simpl. rewrite bind_ret_l.
      destruct (fd_call_restore K a b c w2) as ([] & w3 & E3 & F3).
      rewrite (bind_Return _ _ _ _ _ E3).
      exists 1, w3. split; [reflexivity|]. split; [discriminate|].
      assert (N : ~ one_path_argument s) by (eapply not_one_path_more; eauto).
      split; [intros O; now destruct N|].
      intros _. split; [now left|].
      apply frame_cwd_eq. eapply frame_trans; eassumption.
    + (* one argument *)
      simpl. rewrite En. simpl.
      destruct (shell_cd_one_arg K X "cd" (Some d) w2)
        as (b0 & w3 & E3 & Henv & Ht & Hf).
      rewrite (bind_Return _ _ _ _ _ E3).
      destruct (fd_call_restore K a b c w3) as ([] & w4 & E4 & F4).
      rewrite (bind_Return _ _ _ _ _ E4).
      assert (O : one_path_argument s) by (now exists d).
      destruct b0.
      * exists 0, w4. split; [reflexivity|]. split; [trivial|].
        split; [|intros N; now destruct N].
        intros _. destruct (Ht eq_refl) as (p & Hp & Hk).
        repeat split; try (intros; discriminate); try (intros; congruence).
        intros _. exists p, w2. split; [assumption|].
        rewrite Ep, <- (frame_environ_eq _ _ F). split; [assumption|].
        now rewrite (frame_cwd_eq _ _ F4).
      * exists 1, w4. split; [reflexivity|]. split; [discriminate|].
        split; [|intros N; now destruct N].
        intros _. destruct (Hf eq_refl) as (p & ->).
        repeat split; try discriminate.
        -- intros _. rewrite (frame_cwd_eq _ _ F4). simpl.
           now apply frame_cwd_eq.
        -- intros _.
           destruct (frame_new_event w (log (EvChdir p (-1)) w2) w4
                       (EvPerror "cd")) as (evs & T & I); trivial.
           { eapply frame_trans; [exact F | apply frame_log]. }
           now exists evs.
    + (* no argument *)
      simpl. rewrite bind_ret_l.
      destruct (fd_call_restore K a b c w2) as ([] & w3 & E3 & F3).
      rewrite (bind_Return _ _ _ _ _ E3).
      exists 1, w3. split; [reflexivity|]. split; [discriminate|].
      assert (N : ~ one_path_argument s) by (now apply not_one_path_none).
      split; [intros O; now destruct N|].
      intros _. split; [now left|].
      apply frame_cwd_eq. eapply frame_trans; eassumption.
Qed.

Lemma part000_cd K X pea s level father w :
  x_get_word X (environ w) (verb s) = Some "cd" ->
  exists v w',
    Part000.parse_simple K X pea (Some s) level father w = Return v w'
    /\ (one_path_argument s -> cd_outcome K X "chdir" s w w' v)
    /\ (~ one_path_argument s -> (v = 0 \/ v = -1) /\ cwd w' = cwd w).
Proof.
  intros Hverb.
  unfold Part000.parse_simple.
  assert (E0 : get_word X (verb s) w = Return (Some "cd") w)
    by (unfold get_word, gets; now rewrite Hverb).
  rewrite (bind_Return _ _ _ _ _ E0).
  assert (E0' : get_argv X s w = Return (x_get_argv X (environ w) s) w)
    by reflexivity.
  rewrite (bind_Return _ _ _ _ _ E0').
  destruct (fd_call_duplicate' K w) as ([[a b] c] & w1 & E1 & F1).
  rewrite (bind_Return _ _ _ _ _ E1).
  destruct (fd_call_apply_redirections' K X s w1) as (r & w2 & E2 & F2).
  rewrite (bind_Return _ _ _ _ _ E2).
  assert (F : frame w w2) by (eapply frame_trans; eassumption).
  destruct (r =? -1) eqn:Er.
  - exists (-1), w2. split; [reflexivity|]. split.
    + intros _. repeat split; try discriminate.
      intros _. now apply frame_cwd_eq.
    + intros _. split; [now right | now apply frame_cwd_eq].
  - simpl.
    destruct (params s) as [d|] eqn:Ep; [destruct (next_word d) as [x|] eqn:En|].
    + (* several arguments *)
      simpl. rewrite En. simpl. rewrite bind_ret_l.
      destruct (fd_call_restore' K a b c w2) as ([] & w3 & E3 & F3).
      rewrite (bind_Return _ _ _ _ _ E3).
      exists 0, w3. split; [reflexivity|].
      assert (N : ~ one_path_argument s) by (eapply not_one_path_more; eauto).
      split; [intros O; now destruct N|].
      intros _. split; [now left|].
      apply frame_cwd_eq. eapply frame_trans; eassumption.
    + (* one argument *)
      simpl. rewrite En. simpl.
      destruct (shell_cd_one_arg K X "chdir" (Some d) w2)
        as (b0 & w3 & E3 & Henv & Ht & Hf).
      rewrite (bind_Return _ _ _ _ _ E3).
      destruct (fd_call_restore' K a b c w3) as ([] & w4 & E4 & F4).
      rewrite (bind_Return _ _ _ _ _ E4).
      assert (O : one_path_argument s) by (now exists d).
      destruct b0.
      * exists 0, w4. split; [reflexivity|].
        split; [|intros N; now destruct N].
        intros _. destruct (Ht eq_refl) as (p & Hp & Hk).
        repeat split; try (intros; discriminate); try (intros; congruence).
        intros _. exists p, w2. split; [assumption|].
        rewrite Ep, <- (frame_environ_eq _ _ F). split; [assumption|].
        now rewrite (frame_cwd_eq _ _ F4).
      * exists 1, w4. split; [reflexivity|].
        split; [|intros N; now destruct N].
        intros _. destruct (Hf eq_refl) as (p & ->).
        repeat split; try discriminate.
        -- intros _. rewrite (frame_cwd_eq _ _ F4). simpl.
           now apply frame_cwd_eq.
        -- intros _.
           destruct (frame_new_event w (log (EvChdir p (-1)) w2) w4
                       (EvPerror "chdir")) as (evs & T & I); trivial.
           { eapply frame_trans; [exact F | apply frame_log]. }
           now exists evs.
    + (* no argument *)
      simpl. rewrite bind_ret_l.
      destruct (fd_call_restore' K a b c w2) as ([] & w3 & E3 & F3).
      rewrite (bind_Return _ _ _ _ _ E3).
      exists 0, w3. split; [reflexivity|].
      assert (N : ~ one_path_argument s) by (now apply not_one_path_none).
      split; [intros O; now destruct N|].
      intros _. split; [now left|].
      apply frame_cwd_eq. eapply frame_trans; eassumption.
Qed.

(** The part of [shell_cd] that runs when there is exactly one argument:
    what comes of it is decided by [chdir]. *)
Lemma shell_cd_decided K X (msg : string) (dir : option word_t) wk :
  exists (b : bool) w3,
    (let* path := get_word X dir in
     let* r := chdir_ptr K path in
     if negb (r =? 0) then perror msg ;;; ret false else ret true) wk
    = Return b w3
    /\ forall w4, frame w3 w4 ->
         cd_effect K msg (x_get_word X (environ wk) dir) wk w4
           (if b then 0 else 1).
Proof.
  unfold bind, get_word, gets, chdir_ptr, cd_effect.
  destruct (x_get_word X (environ wk) dir) as [p|].
  - unfold chdir. destruct (k_chdir K wk p) as [d|].
    + exists true. eexists. split; [reflexivity|].
      intros w4 F. split; [reflexivity|].
      split; [exact (frame_cwd _ _ F)|].
      destruct (frame_trace _ _ F) as (evs & T). now exists evs.
    + exists false. eexists. split; [reflexivity|].
      intros w4 F. split; [reflexivity|].
      split; [exact (frame_cwd _ _ F)|].
      destruct (frame_trace _ _ F) as (evs & T). now exists evs.
  - exists false. eexists. split; [reflexivity|].
    intros w4 F. split; [reflexivity|].
    split; [exact (frame_cwd _ _ F)|].
    destruct (frame_trace _ _ F) as (evs & T). now exists evs.
Qed.

Lemma cmdc_cd_effect K X s level father w :
  x_get_word X (environ w) (verb s) = Some "cd" ->
  exists v w' a b c w1 r wk,
    CmdC.parse_simple K X (Some s) level father w = Return v w'
    /\ CmdC.duplicate_file_descriptors K w = Return (a, b, c) w1
    /\ CmdC.apply_redirections K X s w1 = Return r wk
    /\ environ wk = environ w /\ cwd wk = cwd w
    /\ (r = -1 -> v = -1 /\ w' = wk)
    /\ (r <> -1 -> one_path_argument s ->
        cd_effect K "cd" (x_get_word X (environ w) (params s)) wk w' v)
    /\ (r <> -1 -> ~ one_path_argument s -> v = 1 /\ cwd w' = cwd w).
Proof.
  intros Hverb.
  unfold CmdC.parse_simple.
  assert (E0 : get_word X (verb s) w = Return (Some "cd") w)
    by (unfold get_word, gets; now rewrite Hverb).
  rewrite (bind_Return _ _ _ _ _ E0).
  assert (E0' : get_argv X s w = Return (x_get_argv X (environ w) s) w)
    by reflexivity.
  rewrite (bind_Return _ _ _ _ _ E0').
  destruct (fd_call_duplicate K w) as ([[a b] c] & w1 & E1 & F1).
  rewrite (bind_Return _ _ _ _ _ E1).
  destruct (fd_call_apply_redirections K X s w1) as (r & w2 & E2 & F2).
  rewrite (bind_Return _ _ _ _ _ E2).
  assert (F : frame w w2) by (eapply frame_trans; eassumption).
  destruct (r =? -1) eqn:Er.
  - apply Z.eqb_eq in Er.
    exists (-1), w2, a, b, c, w1, r, w2.
    split; [reflexivity|]. split; [exact E1|]. split; [exact E2|].
    split; [exact (frame_environ _ _ F)|]. split; [exact (frame_cwd _ _ F)|].
    split; [now intros _|]. split; intros N; congruence.
  - apply Z.eqb_neq in Er. simpl.
    destruct (params s) as [d|] eqn:Ep; [destruct (next_word d) as [x|] eqn:En|].
    + simpl. rewrite En. simpl. rewrite bind_ret_l.
      destruct (fd_call_restore K a b c w2) as ([] & w3 & E3 & F3).
      rewrite (bind_Return _ _ _ _ _ E3).
      exists 1, w3, a, b, c, w1, r, w2.
      split; [reflexivity|]. split; [exact E1|]. split; [exact E2|].
      split; [exact (frame_environ _ _ F)|]. split; [exact (frame_cwd _ _ F)|].
      assert (N : ~ one_path_argument s) by (eapply not_one_path_more; eauto).
      split; [intros C; congruence|]. split; [intros _ O; now destruct N|].
      intros _ _. split; [reflexivity|].
      apply frame_cwd_eq. eapply frame_trans; eassumption.
    + simpl. rewrite En. simpl.
      destruct (shell_cd_decided K X "cd" (Some d) w2) as (b0 & w3 & E3 & D).
      rewrite (bind_Return _ _ _ _ _ E3).
      destruct (fd_call_restore K a b c w3) as ([] & w4 & E4 & F4).
      rewrite (bind_Return _ _ _ _ _ E4).
      exists (if b0 then 0 else 1), w4, a, b, c, w1, r, w2.
      split; [reflexivity|]. split; [exact E1|]. split; [exact E2|].
      split; [exact (frame_environ _ _ F)|]. split; [exact (frame_cwd _ _ F)|].
      assert (O : one_path_argument s) by (now exists d).
      split; [intros C; congruence|]. split; [|intros _ N; now destruct N].
      intros _ _. rewrite <- (frame_environ _ _ F). exact (D w4 F4).
    + simpl. rewrite bind_ret_l.
      destruct (fd_call_restore K a b c w2) as ([] & w3 & E3 & F3).
      rewrite (bind_Return _ _ _ _ _ E3).
      exists 1, w3, a, b, c, w1, r, w2.
      split; [reflexivity|]. split; [exact E1|]. split; [exact E2|].
      split; [exact (frame_environ _ _ F)|]. split; [exact (frame_cwd _ _ F)|].
      assert (N : ~ one_path_argument s) by (now apply not_one_path_none).
      split; [intros C; congruence|]. split; [intros _ O; now destruct N|].
      intros _ _. split; [reflexivity|].
      apply frame_cwd_eq. eapply frame_trans; eassumption.
Qed.

Lemma part000_cd_effect K X pea s level father w :
  x_get_word X (environ w) (verb s) = Some "cd" ->
  exists v w' a b c w1 r wk,
    Part000.parse_simple K X pea (Some s) level father w = Return v w'
    /\ Part000.duplicate_file_descriptors K w = Return (a, b, c) w1
    /\ Part000.apply_redirections K X s w1 = Return r wk
    /\ environ wk = environ w /\ cwd wk = cwd w
    /\ (r = -1 -> v = -1 /\ w' = wk)
    /\ (r <> -1 -> one_path_argument s ->
        cd_effect K "chdir" (x_get_word X (environ w) (params s)) wk w' v)
    /\ (r <> -1 -> ~ one_path_argument s -> v = 0 /\ cwd w' = cwd w).
Proof.
  intros Hverb.
  unfold Part000.parse_simple.
  assert (E0 : get_word X (verb s) w = Return (Some "cd") w)
    by (unfold get_word, gets; now rewrite Hverb).
  rewrite (bind_Return _ _ _ _ _ E0).
  assert (E0' : get_argv X s w = Return (x_get_argv X (environ w) s) w)
    by reflexivity.
  rewrite (bind_Return _ _ _ _ _ E0').
  destruct (fd_call_duplicate' K w) as ([[a b] c] & w1 & E1 & F1).
  rewrite (bind_Return _ _ _ _ _ E1).
  destruct (fd_call_apply_redirections' K X s w1) as (r & w2 & E2 & F2).
  rewrite (bind_Return _ _ _ _ _ E2).
  assert (F : frame w w2) by (eapply frame_trans; eassumption).
  destruct (r =? -1) eqn:Er.
  - apply Z.eqb_eq in Er.
    exists (-1), w2, a, b, c, w1, r, w2.
    split; [reflexivity|]. split; [exact E1|]. split; [exact E2|].
    split; [exact (frame_environ _ _ F)|]. split; [exact (frame_cwd _ _ F)|].
    split; [now intros _|]. split; intros N; congruence.
  - apply Z.eqb_neq in Er. simpl.
    destruct (params s) as [d|] eqn:Ep; [destruct (next_word d) as [x|] eqn:En|].
    + simpl. rewrite En. simpl. rewrite bind_ret_l.
      destruct (fd_call_restore' K a b c w2) as ([] & w3 & E3 & F3).
      rewrite (bind_Return _ _ _ _ _ E3).
      exists 0, w3, a, b, c, w1, r, w2.
      split; [reflexivity|]. split; [exact E1|]. split; [exact E2|].
      split; [exact (frame_environ _ _ F)|]. split; [exact (frame_cwd _ _ F)|].
      assert (N : ~ one_path_argument s) by (eapply not_one_path_more; eauto).
      split; [intros C; congruence|]. split; [intros _ O; now destruct N|].
      intros _ _. split; [reflexivity|].
      apply frame_cwd_eq. eapply frame_trans; eassumption.
    + simpl. rewrite En. simpl.
      destruct (shell_cd_decided K X "chdir" (Some d) w2)
        as (b0 & w3 & E3 & D).
      rewrite (bind_Return _ _ _ _ _ E3).
      destruct (fd_call_restore' K a b c w3) as ([] & w4 & E4 & F4).
      rewrite (bind_Return _ _ _ _ _ E4).
      exists (if b0 then 0 else 1), w4, a, b, c, w1, r, w2.
      split; [reflexivity|]. split; [exact E1|]. split; [exact E2|].
      split; [exact (frame_environ _ _ F)|]. split; [exact (frame_cwd _ _ F)|].
      assert (O : one_path_argument s) by (now exists d).
      split; [intros C; congruence|]. split; [|intros _ N; now destruct N].
      intros _ _. rewrite <- (frame_environ _ _ F). exact (D w4 F4).
    + simpl. rewrite bind_ret_l.
      destruct (fd_call_restore' K a b c w2) as ([] & w3 & E3 & F3).
      rewrite (bind_Return _ _ _ _ _ E3).
      exists 0, w3, a, b, c, w1, r, w2.
      split; [reflexivity|]. split; [exact E1|]. split; [exact E2|].
      split; [exact (frame_environ _ _ F)|]. split; [exact (frame_cwd _ _ F)|].
      assert (N : ~ one_path_argument s) by (now apply not_one_path_none).
      split; [intros C; congruence|]. split; [intros _ O; now destruct N|].
      intros _ _. split; [reflexivity|].
      apply frame_cwd_eq. eapply frame_trans; eassumption.
Qed.

(** C5, as amended.  A simple command whose verb is [cd] always returns.
    In src/src/cmd.c it returns 0 only if it has exactly one argument, and
    with none or several it returns a non-zero status (1, or -1 when a
    redirection failed) and leaves the working directory alone.  In
    src/unnamed/part_000 none or several arguments give a no-op with status
    0 (-1 when a redirection failed).  In both, with exactly one argument,
    status 0 means the working directory is now the one the kernel resolved
    the argument to, any other status leaves it unchanged, and status 1 comes
    with a [perror] diagnostic.

    The status is in turn decided by what happens: with [r] the result of
    the redirections and [wk] the state they leave, [r = -1] gives status
    -1 and nothing else is done; otherwise, with exactly one argument,
    [chdir] is called on it in [wk], and if it succeeds the status is 0 and
    the working directory is the one it resolved the argument to, while if
    it fails (or the argument expands to nothing) the status is 1, the
    working directory is unchanged and [perror] reports the failure right
    after the call; with none or several arguments the status is 1 in
    src/src/cmd.c and 0 in src/unnamed/part_000. *)
Theorem C5_cd_builtin K X pea s level father w :
  x_get_word X (environ w) (verb s) = Some "cd" ->
  (exists v w' a b c w1 r wk,
     CmdC.parse_simple K X (Some s) level father w = Return v w'
     /\ (v = 0 -> one_path_argument s)
     /\ (one_path_argument s -> cd_outcome K X "cd" s w w' v)
     /\ (~ one_path_argument s -> (v = 1 \/ v = -1) /\ cwd w' = cwd w)
     /\ CmdC.duplicate_file_descriptors K w = Return (a, b, c) w1
     /\ CmdC.apply_redirections K X s w1 = Return r wk
     /\ environ wk = environ w /\ cwd wk = cwd w
     /\ (r = -1 -> v = -1 /\ w' = wk)
     /\ (r <> -1 -> one_path_argument s ->
         cd_effect K "cd" (x_get_word X (environ w) (params s)) wk w' v)
     /\ (r <> -1 -> ~ one_path_argument s -> v = 1 /\ cwd w' = cwd w))
  /\ (exists v w' a b c w1 r wk,
       Part000.parse_simple K X pea (Some s) level father w = Return v w'
       /\ (one_path_argument s -> cd_outcome K X "chdir" s w w' v)
       /\ (~ one_path_argument s -> (v = 0 \/ v = -1) /\ cwd w' = cwd w)
       /\ Part000.duplicate_file_descriptors K w = Return (a, b, c) w1
       /\ Part000.apply_redirections K X s w1 = Return r wk
       /\ environ wk = environ w /\ cwd wk = cwd w
       /\ (r = -1 -> v = -1 /\ w' = wk)
       /\ (r <> -1 -> one_path_argument s ->
           cd_effect K "chdir" (x_get_word X (environ w) (params s)) wk w' v)
       /\ (r <> -1 -> ~ one_path_argument s -> v = 0 /\ cwd w' = cwd w)).
Proof.
  intros H. split.
  - destruct (cmdc_cd K X s level father w H) as (v0 & w0' & E0 & A1 & A2 & A3).
    destruct (cmdc_cd_effect K X s level father w H)
      as (v & w' & a & b & c & w1 & r & wk & E & B).
    rewrite E in E0. injection E0 as <- <-.
    exists v, w', a, b, c, w1, r, wk.
    split; [exact E|]. split; [exact A1|]. split; [exact A2|].
    split; [exact A3|]. exact B.
  - destruct (part000_cd K X pea s level father w H)
      as (v0 & w0' & E0 & A2 & A3).
    destruct (part000_cd_effect K X pea s level father w H)
      as (v & w' & a & b & c & w1 & r & wk & E & B).
    rewrite E in E0. injection E0 as <- <-.
    exists v, w', a, b, c, w1, r, wk.
    split; [exact E|]. split; [exact A2|]. split; [exact A3|]. exact B.
Qed.

(** C5 at work: [cd /tmp] returns 0 and the working directory is [/tmp]
    afterwards, in both versions; [cd /missing/dir] returns 1, the working
    directory stays [/], and [perror] follows the failed [chdir]. *)
Lemma C5_cd_witness :
  let s := Samples.simple 6 (Samples.wd 7) None None None 0 in
  let t := Samples.simple 6 (Samples.wd 8) None None None 0 in
  x_get_word Samples.X0 (environ Samples.w0) (verb s) = Some "cd"
  /\ x_get_word Samples.X0 (environ Samples.w0) (verb t) = Some "cd"
  /\ (exists w',
        CmdC.parse_simple Samples.K0 Samples.X0 (Some s) 0 None Samples.w0
        = Return 0 w'
        /\ cwd w' = "/tmp")
  /\ (exists w',
        Part000.parse_simple Samples.K0 Samples.X0
          Samples.parse_env_assignment (Some s) 0 None Samples.w0
        = Return 0 w'
        /\ cwd w' = "/tmp")
  /\ (exists w' wk evs,
        CmdC.parse_simple Samples.K0 Samples.X0 (Some t) 0 None Samples.w0
        = Return 1 w'
        /\ cwd w' = "/"
        /\ trace w'
           = (evs ++ EvPerror "cd" :: EvChdir "/missing/dir" (-1)
                  :: trace wk)%list)
  /\ (exists w' wk evs,
        Part000.parse_simple Samples.K0 Samples.X0
          Samples.parse_env_assignment (Some t) 0 None Samples.w0
        = Return 1 w'
        /\ cwd w' = "/"
        /\ trace w'
           = (evs ++ EvPerror "chdir" :: EvChdir "/missing/dir" (-1)
                  :: trace wk)%list).
Proof.
  intros s t.
  assert (Hs : x_get_word Samples.X0 (environ Samples.w0) (verb s) = Some "cd")
    by reflexivity.
  assert (Ht : x_get_word Samples.X0 (environ Samples.w0) (verb t) = Some "cd")
    by reflexivity.
  assert (Os : one_path_argument s) by (eexists; split; reflexivity).
  assert (Ot : one_path_argument t) by (eexists; split; reflexivity).
  split; [exact Hs|]. split; [exact Ht|].
  destruct (C5_cd_builtin Samples.K0 Samples.X0 Samples.parse_env_assignment
              s 0 None Samples.w0 Hs) as (Sa & Sb).
  destruct (C5_cd_builtin Samples.K0 Samples.X0 Samples.parse_env_assignment
              t 0 None Samples.w0 Ht) as (Ta & Tb).
  split; [|split; [|split]].
  - destruct Sa as (v & w' & a & b & c & w1 & r & wk & E & _ & _ & _ & _
                    & R & _ & _ & _ & D & _).
    assert (N : r <> -1)
      by (clear - R; inversion R; discriminate).
    destruct (D N Os) as (V & C & _).
    exists w'. rewrite <- V. split; [exact E | exact C].
  - destruct Sb as (v & w' & a & b & c & w1 & r & wk & E & _ & _ & _
                    & R & _ & _ & _ & D & _).
    assert (N : r <> -1)
      by (clear - R; inversion R; discriminate).
    destruct (D N Os) as (V & C & _).
    exists w'. rewrite <- V. split; [exact E | exact C].
  - destruct Ta as (v & w' & a & b & c & w1 & r & wk & E & _ & _ & _ & _
                    & R & _ & Cw & _ & D & _).
    assert (N : r <> -1)
      by (clear - R; inversion R; discriminate).
    destruct (D N Ot) as (V & C & evs & T).
    exists w', wk, evs. rewrite <- V. split; [exact E|].
    split; [now rewrite C, Cw | exact T].
  - destruct Tb as (v & w' & a & b & c & w1 & r & wk & E & _ & _ & _
                    & R & _ & Cw & _ & D & _).
    assert (N : r <> -1)
      by (clear - R; inversion R; discriminate).
    destruct (D N Ot) as (V & C & evs & T).
    exists w', wk, evs. rewrite <- V. split; [exact E|].
    split; [now rewrite C, Cw | exact T].
Defined.

(** C5 as first stated fails in src/unnamed/part_000: [cd] without any
    argument returns status 0 there. *)
Lemma C5_cd_no_argument_counterexample :
  let s := Samples.simple 6 None None None None 0 in
  ~ (forall v w',
       Part000.parse_simple Samples.K0 Samples.X0
         Samples.parse_env_assignment (Some s) 0 None Samples.w0 = Return v w' ->
       v = 0 -> one_path_argument s).
Proof.
  intros s H.
  destruct (H 0 (final (Part000.parse_simple Samples.K0 Samples.X0
                          Samples.parse_env_assignment (Some s) 0 None
                          Samples.w0) Samples.w0))
    as (d & Hd & _).
  - vm_compute. reflexivity.
  - reflexivity.
  - discriminate Hd.
Qed.

(* ===================================================================== *)
(** ** Environment assignment, redirection failures, saved streams:
       the engine at particular commands *)
(* ===================================================================== *)

(** C7.  [parse_environment_variable] of src/src/cmd.c takes the value with
    a second [strtok_r]: what it binds is the text up to the next ['='], not
    everything after the first one.  On the verb [A=b=c], in any state, [A]
    is bound to [b]; run as a simple command the verb returns 0 with that
    binding.  (For a value free of ['='] the binding is the expected one:
    [parse_environment_variable_binds] below.) *)
Theorem C7_assignment_value_stops_at_next_eq :
  (forall w,
     CmdC.parse_environment_variable (Some "A=b=c") w
     = Return tt (log (EvSetenv "A" "b" 0)
                    (set_environ (<["A" := "b"]> (environ w)) w)))
  /\ (let s := Samples.simple 5 None None None None 0 in
      let o := CmdC.parse_simple Samples.K0 Samples.X0 (Some s) 0 None
                 Samples.w0 in
      x_get_word Samples.X0 (environ Samples.w0) (verb s) = Some "A=b=c"
      /\ o = Return 0 (final o Samples.w0)
      /\ environ (final o Samples.w0) !! "A" = Some "b").
Proof.
  split.
  - intros w. reflexivity.
  - repeat apply conj; vm_compute; reflexivity.
Qed.

(** C6.  A failed [open] can be swallowed.  In src/src/cmd.c (and in
    src/unnamed/part_000 alike) the result of the error redirection is
    overwritten by that of the output redirection: with an error target that
    cannot be opened and an output target that can, [apply_redirections]
    returns 0.  In src/unnamed/part_000 the result for a shared
    output-and-error target is stored in a variable of the inner block: with
    a shared target that cannot be opened, [apply_redirections] returns 0.
    (A failing input redirection is reported, and ends the resolution:
    [input_failure_short_circuits] below.) *)
Theorem C6_open_failure_swallowed :
  (let s := Samples.simple 1 None None (Samples.wd 10) (Samples.wd 11) 0 in
   let a := CmdC.apply_redirections Samples.K0 Samples.X0 s Samples.w0 in
   let b := Part000.apply_redirections Samples.K0 Samples.X0 s Samples.w0 in
   a = Return 0 (final a Samples.w0)
   /\ In (EvOpen "/missing/err" 577 (Some 420) (-1))
         (trace (final a Samples.w0))
   /\ b = Return 0 (final b Samples.w0)
   /\ In (EvOpen "/missing/err" 577 (Some 420) (-1))
         (trace (final b Samples.w0)))
  /\ (let s := Samples.simple 1 None None (Samples.wd 14) (Samples.wd 14) 0 in
      let b := Part000.apply_redirections Samples.K0 Samples.X0 s Samples.w0 in
      b = Return 0 (final b Samples.w0)
      /\ trace (final b Samples.w0)
         = [EvPerror "open"; EvOpen "/missing/out" 577 (Some 420) (-1)]).
Proof.
  split; [split; [|split; [|split]] | split].
  - vm_compute; reflexivity.
  - vm_compute. auto 10.
  - vm_compute; reflexivity.
  - vm_compute. auto 10.
  - vm_compute; reflexivity.
  - vm_compute; reflexivity.
Qed.

(** C2.  When a redirection fails, [parse_simple] returns -1 without
    restoring the saved streams, in both versions.  For
    [true < /tmp/in > /missing/out]: the input redirection has been applied
    when the output one fails, so descriptor 0 is left on [/tmp/in], and the
    three duplicates (3, 4, 5) are left open.  In src/unnamed/part_000 the
    assignment [NAME=value] also returns (with status 0) leaving the three
    duplicates open.  (On the other returns of src/src/cmd.c the descriptor
    table is put back as it was: [cmdc_parse_simple_restores] below.) *)
Theorem C2_streams_not_restored_when_redirection_fails :
  let s := Samples.simple 1 None (Samples.wd 9) (Samples.wd 14) None 0 in
  let a := CmdC.parse_simple Samples.K0 Samples.X0 (Some s) 0 None
             Samples.w0 in
  let b := Part000.parse_simple Samples.K0 Samples.X0
             Samples.parse_env_assignment (Some s) 0 None Samples.w0 in
  let s' := Samples.simple 13 None None None None 0 in
  let b' := Part000.parse_simple Samples.K0 Samples.X0
              Samples.parse_env_assignment (Some s') 0 None Samples.w0 in
  fds Samples.w0 !! 0 = Some (Samples.tty 0)
  /\ fds Samples.w0 !! 3 = None
  /\ a = Return (-1) (final a Samples.w0)
  /\ fds (final a Samples.w0) !! 0 = Some (OFile 3 (Opened "/tmp/in" O_RDONLY))
  /\ fds (final a Samples.w0) !! 3 = Some (Samples.tty 0)
  /\ fds (final a Samples.w0) !! 4 = Some (Samples.tty 1)
  /\ fds (final a Samples.w0) !! 5 = Some (Samples.tty 2)
  /\ b = Return (-1) (final b Samples.w0)
  /\ fds (final b Samples.w0) = fds (final a Samples.w0)
  /\ b' = Return 0 (final b' Samples.w0)
  /\ fds (final b' Samples.w0) !! 3 = Some (Samples.tty 0)
  /\ fds (final b' Samples.w0) !! 4 = Some (Samples.tty 1)
  /\ fds (final b' Samples.w0) !! 5 = Some (Samples.tty 2).
Proof.
  repeat apply conj; vm_compute; reflexivity.
Qed.

(* ===================================================================== *)
(** ** Children: fork, wait, and the pipeline *)
(* ===================================================================== *)

Lemma WEXITSTATUS_exited v : WEXITSTATUS (exited v) = v mod 256.
Proof.
  unfold WEXITSTATUS, exited.
  rewrite Z.shiftr_shiftl_l by lia. rewrite Z.sub_diag. simpl Z.shiftl.
  change 255 with (Z.ones 8). rewrite !Z.land_ones by lia.
  change (2 ^ 8) with 256. apply Z.mod_mod. lia.
Qed.

Lemma fork_ok K (child : M Empty_set) w st wc :
  k_fork K w = true ->
  child (child_start w) = Terminated st wc ->
  fork K child w
  = Return (Z.pos (next_pid w))
      (log (EvFork (Z.pos (next_pid w)))
         (bump_pid
            (set_procs (<[Z.pos (next_pid w) := (st, trace wc)]> (procs w))
               w))).
Proof. intros Hk Hc. unfold fork. now rewrite Hk, Hc. Qed.

Lemma waitpid_ok pid st evs w :
  procs w !! pid = Some (st, evs) ->
  waitpid pid w
  = Return st (log (EvWaitpid pid st evs) (set_procs (delete pid (procs w)) w)).
Proof. intros H. unfold waitpid. now rewrite H. Qed.

(** How [fork] can have returned. *)
Lemma fork_cases K (child : M Empty_set) w pid w' :
  fork K child w = Return pid w' ->
  (pid = -1 /\ w' = log (EvFork (-1)) w)
  \/ (exists st evs,
        pid = Z.pos (next_pid w)
        /\ w' = log (EvFork pid)
                  (bump_pid (set_procs (<[pid := (st, evs)]> (procs w)) w))).
Proof.
  unfold fork. destruct (k_fork K w).
  - destruct (child (child_start w)) as [[]|st wc|]; try discriminate.
    intros H. inversion H; subst. right. now exists st, (trace wc).
  - intros H. inversion H; subst. now left.
Qed.

Lemma waitpid_cases pid w st w' :
  waitpid pid w = Return st w' ->
  exists evs, procs w !! pid = Some (st, evs)
              /\ w' = log (EvWaitpid pid st evs)
                        (set_procs (delete pid (procs w)) w).
Proof.
  unfold waitpid. destruct (procs w !! pid) as [[st0 evs]|]; try discriminate.
  intros H. inversion H; subst. now exists evs.
Qed.

(** A child that evaluates [m] and exits with its value terminates with the
    exit status of [m]. *)
Lemma exits_with {B : Type} (m : M Z) wc e :
  exit_status_of (m wc) = Some e ->
  exists st w', (let* v := m in @exit B v) wc = Terminated st w'
                /\ WEXITSTATUS st = e.
Proof.
  unfold bind, exit_status_of.
  destruct (m wc) as [v w1|st w1|]; intros H; inversion H; subst.
  - eexists _, _. split; reflexivity.
  - eexists _, _. split; reflexivity.
Qed.

Lemma exits_anyhow {B : Type} (m : M Z) wc :
  exit_status_of (m wc) <> None ->
  exists st w', (let* v := m in @exit B v) wc = Terminated st w'.
Proof.
  intros H. destruct (exit_status_of (m wc)) as [e|] eqn:E; [|congruence].
  destruct (@exits_with B m wc e E) as (st & w' & Ht & _). now exists st, w'.
Qed.

(** Descriptor calls made first do not change how the child ends. *)
Lemma terminated_after_fd_call {A B : Type} (pre : M A) (k : M B)
    (P : Z -> Prop) :
  fd_call pre ->
  (forall wc, exists st w', k wc = Terminated st w' /\ P st) ->
  forall wc, exists st w', (pre ;;; k) wc = Terminated st w' /\ P st.
Proof.
  intros Hp Hk wc. destruct (Hp wc) as (a & w1 & E & _).
  rewrite (bind_Return _ _ _ _ _ E). apply Hk.
Qed.

(** The child of a pipeline: three descriptor calls, then the branch. *)
Lemma pipe_child_ends K (a b c d : Z) (m : M Z) (P : Z -> Prop) :
  (forall wc, exists st w',
      (let* v := m in @exit Empty_set v) wc = Terminated st w' /\ P st) ->
  forall wc, exists st w',
    (close a ;;; dup2 K b d ;;; close c ;;; let* v := m in @exit Empty_set v) wc
    = Terminated st w' /\ P st.
Proof.
  intros H.
  apply terminated_after_fd_call; [apply fd_call_close|].
  apply terminated_after_fd_call; [apply fd_call_dup2|].
  apply terminated_after_fd_call; [apply fd_call_close|].
  exact H.
Qed.

Section Pipeline.
Variable K : kernel.
Variable pc : evaluator.
Variables (c1 c2 : option command_t) (level : Z) (father : option command_t).
Hypothesis pipe_ok : forall w, k_pipe K w = true.
Hypothesis forks_ok : forall w, k_fork K w = true.
Hypothesis left_ends :
  forall wc, exit_status_of (pc c1 (level + 1) father wc) <> None.
Variable e2 : Z.
Hypothesis right_ends :
  forall wc, exit_status_of (pc c2 (level + 1) father wc) = Some e2.

Lemma run_on_pipe_status w :
  exists w', CmdC.run_on_pipe K pc c1 c2 level father w
             = Return (if e2 =? 0 then true else false) w'.
Proof.
  unfold CmdC.run_on_pipe.
  assert (Ep : exists r wr w1, pipe K w = Return (0, (r, wr)) w1).
  { unfold pipe. rewrite pipe_ok. eauto. }
  destruct Ep as (r & wr & w1 & Ep).
  rewrite (bind_Return _ _ _ _ _ Ep). simpl.
  (* first child *)
  destruct (pipe_child_ends K r wr wr STDOUT_FILENO
              (pc c1 (level + 1) father) (fun _ => True))
    with (wc := child_start w1) as (st1 & wc1 & Ec1 & _).
  { intros wc.
    destruct (exits_anyhow (B:=Empty_set) _ wc (left_ends wc))
      as (st & w' & E).
    now exists st, w'. }
  rewrite (bind_Return _ _ _ _ _ (fork_ok K _ w1 st1 wc1 (forks_ok w1) Ec1)).
  simpl.
  set (pid1 := Z.pos (next_pid w1)).
  set (w2 := log (EvFork pid1) _).
  (* second child *)
  destruct (pipe_child_ends K wr r r STDIN_FILENO
              (pc c2 (level + 1) father) (fun st => WEXITSTATUS st = e2))
    with (wc := child_start w2) as (st2 & wc2 & Ec2 & Hst2).
  { intros wc.
    destruct (exits_with (B:=Empty_set) _ wc e2 (right_ends wc))
      as (st & w' & E & H).
    now exists st, w'. }
  rewrite (bind_Return _ _ _ _ _ (fork_ok K _ w2 st2 wc2 (forks_ok w2) Ec2)).
  simpl.
  set (pid2 := Z.pos (Pos.succ (next_pid w1))).
  set (w3 := log (EvFork pid2) _).
  (* the parent closes its ends and waits *)
  destruct (fd_call_close r w3) as (x0 & w4 & E4 & F4).
  rewrite (bind_Return _ _ _ _ _ E4).
  destruct (fd_call_close wr w4) as (x1 & w5 & E5 & F5).
  rewrite (bind_Return _ _ _ _ _ E5).
  assert (Hp : procs w5
               = <[pid2 := (st2, trace wc2)]>
                   (<[pid1 := (st1, trace wc1)]> (procs w1))).
  { rewrite (frame_procs _ _ F5), (frame_procs _ _ F4). reflexivity. }
  assert (Hne : pid1 <> pid2).
  { unfold pid1, pid2. intros H. injection H. lia. }
  assert (H1 : procs w5 !! pid1 = Some (st1, trace wc1)).
  { rewrite Hp, lookup_insert_ne, lookup_insert_eq; auto. }
  rewrite (bind_Return _ _ _ _ _ (waitpid_ok pid1 st1 (trace wc1) w5 H1)).
  set (w6 := log (EvWaitpid pid1 st1 (trace wc1)) _).
  assert (H2 : procs w6 !! pid2 = Some (st2, trace wc2)).
  { unfold w6. cbn [procs log set_procs].
    rewrite Hp, lookup_delete_ne, lookup_insert_eq; auto. }
  rewrite (bind_Return _ _ _ _ _ (waitpid_ok pid2 st2 (trace wc2) w6 H2)).
  unfold ret. rewrite Hst2. eexists. destruct (e2 =? 0); reflexivity.
Qed.

End Pipeline.

Section PipelineReturns.
Variable K : kernel.
Variable pc : evaluator.
Variables (c1 c2 : option command_t) (level : Z) (father : option command_t).
Hypothesis pipe_ok : forall w, k_pipe K w = true.
Hypothesis forks_ok : forall w, k_fork K w = true.
Hypothesis left_ends :
  forall wc, exit_status_of (pc c1 (level + 1) father wc) <> None.
Hypothesis right_ends :
  forall wc, exit_status_of (pc c2 (level + 1) father wc) <> None.

Lemma run_on_pipe_returns w :
  exists b w', CmdC.run_on_pipe K pc c1 c2 level father w = Return b w'.
Proof.
  unfold CmdC.run_on_pipe.
  assert (Ep : exists r wr w1, pipe K w = Return (0, (r, wr)) w1).
  { unfold pipe. rewrite pipe_ok. eauto. }
  destruct Ep as (r & wr & w1 & Ep).
  rewrite (bind_Return _ _ _ _ _ Ep). simpl.
  destruct (pipe_child_ends K r wr wr STDOUT_FILENO
              (pc c1 (level + 1) father) (fun _ => True))
    with (wc := child_start w1) as (st1 & wc1 & Ec1 & _).
  { intros wc.
    destruct (exits_anyhow (B:=Empty_set) _ wc (left_ends wc))
      as (st & w' & E).
    now exists st, w'. }
  rewrite (bind_Return _ _ _ _ _ (fork_ok K _ w1 st1 wc1 (forks_ok w1) Ec1)).
  simpl.
  set (pid1 := Z.pos (next_pid w1)).
  set (w2 := log (EvFork pid1) _).
  destruct (pipe_child_ends K wr r r STDIN_FILENO
              (pc c2 (level + 1) father) (fun _ => True))
    with (wc := child_start w2) as (st2 & wc2 & Ec2 & _).
  { intros wc.
    destruct (exits_anyhow (B:=Empty_set) _ wc (right_ends wc))
      as (st & w' & E).
    now exists st, w'. }
  rewrite (bind_Return _ _ _ _ _ (fork_ok K _ w2 st2 wc2 (forks_ok w2) Ec2)).
  simpl.
  set (pid2 := Z.pos (Pos.succ (next_pid w1))).
  set (w3 := log (EvFork pid2) _).
  destruct (fd_call_close r w3) as (x0 & w4 & E4 & F4).
  rewrite (bind_Return _ _ _ _ _ E4).
  destruct (fd_call_close wr w4) as (x1 & w5 & E5 & F5).
  rewrite (bind_Return _ _ _ _ _ E5).
  assert (Hp : procs w5
               = <[pid2 := (st2, trace wc2)]>
                   (<[pid1 := (st1, trace wc1)]> (procs w1))).
  { rewrite (frame_procs _ _ F5), (frame_procs _ _ F4). reflexivity. }
  assert (Hne : pid1 <> pid2).
  { unfold pid1, pid2. intros H. injection H. lia. }
  assert (H1 : procs w5 !! pid1 = Some (st1, trace wc1)).
  { rewrite Hp, lookup_insert_ne, lookup_insert_eq; auto. }
  rewrite (bind_Return _ _ _ _ _ (waitpid_ok pid1 st1 (trace wc1) w5 H1)).
  set (w6 := log (EvWaitpid pid1 st1 (trace wc1)) _).
  assert (H2 : procs w6 !! pid2 = Some (st2, trace wc2)).
  { unfold w6. cbn [procs log set_procs].
    rewrite Hp, lookup_delete_ne, lookup_insert_eq; auto. }
  rewrite (bind_Return _ _ _ _ _ (waitpid_ok pid2 st2 (trace wc2) w6 H2)).
  unfold ret. eauto.
Qed.

End PipelineReturns.

(* ===================================================================== *)
(** ** External commands *)
(* ===================================================================== *)

Lemma strcmp_eqb a b : (strcmp a b =? 0) = String.eqb a b.
Proof.
  unfold strcmp. destruct (String.compare a b) eqn:E.
  - apply String.compare_eq_iff in E. subst. now rewrite String.eqb_refl.
  - destruct (String.eqb_spec a b) as [->|N]; [|reflexivity].
    pose proof (String.compare_antisym b b) as A. rewrite E in A. discriminate.
  - destruct (String.eqb_spec a b) as [->|N]; [|reflexivity].
    pose proof (String.compare_antisym b b) as A. rewrite E in A. discriminate.
Qed.

Lemma strcmp_neq a b : a <> b -> (strcmp a b =? 0) = false.
Proof. intros N. rewrite strcmp_eqb. now apply String.eqb_neq. Qed.

Lemma strstr_no_eq cmd : has_char "=" cmd = false -> strstr cmd "=" = None.
Proof.
  unfold has_char. induction cmd as [|c rest IH]; [reflexivity|].
  cbn [list_ascii_of_string existsb]. intros H.
  apply orb_false_iff in H. destruct H as [Hc Hr].
  change (strstr (String c rest) "=")
    with (if String.prefix "=" (String c rest) then Some (String c rest)
          else strstr rest "=").
  change (String.prefix "=" (String c rest))
    with (if ascii_dec "=" c then String.prefix "" rest else false).
  destruct (ascii_dec "=" c) as [<-|N].
  - now rewrite Ascii.eqb_refl in Hc.
  - now apply IH.
Qed.

Section External.
Variable K : kernel.
Variable X : externs.
Variables (s : simple_command_t) (level : Z) (father : option command_t).
Variable w : world.
Variable cmd : string.
Hypothesis verb_is : x_get_word X (environ w) (verb s) = Some cmd.
Hypothesis external : external_verb cmd.
Hypothesis forks_ok : forall w', k_fork K w' = true.
Variable res : option Z.
Hypothesis exec_res :
  forall w', k_execvp K w' cmd (x_get_argv X (environ w) s) = res.

Let argv := x_get_argv X (environ w) s.

Lemma cmdc_external_run :
  (forall w1 r w2, CmdC.apply_redirections K X s w1 = Return r w2 -> r <> -1) ->
  exists w' pid evs,
    CmdC.parse_simple K X (Some s) level father w
    = Return (WEXITSTATUS (child_status res 127)) w'
    /\ trace w' = (evs ++ trace w)%list
    /\ In (EvWaitpid pid (child_status res 127)
             (child_log cmd argv res
                [EvExit 127;
                 EvPrintf (String.append "Execution failed for '"
                             (String.append cmd (String.append "'" newline)))]))
          evs.
Proof.
  intros Hredir.
  destruct external as (N1 & N2 & N3 & N4).
  unfold CmdC.parse_simple.
  assert (E0 : get_word X (verb s) w = Return (Some cmd) w)
    by (unfold get_word, gets; now rewrite verb_is).
  rewrite (bind_Return _ _ _ _ _ E0).
  assert (E0' : get_argv X s w = Return argv w) by reflexivity.
  rewrite (bind_Return _ _ _ _ _ E0').
  destruct (fd_call_duplicate K w) as ([[a b] c] & w1 & E1 & F1).
  rewrite (bind_Return _ _ _ _ _ E1).
  destruct (fd_call_apply_redirections K X s w1) as (r & w2 & E2 & F2).
  rewrite (bind_Return _ _ _ _ _ E2).
  assert (F : frame w w2) by (eapply frame_trans; eassumption).
  assert (Er : (r =? -1) = false) by (apply Z.eqb_neq; eauto).
  rewrite Er.
  rewrite !strcmp_neq by assumption. rewrite strstr_no_eq by assumption.
  cbn [orb non_null].
  (* the child *)
  assert (Ec : exists wc,
             (execvp K cmd argv ;;;
              printf (String.append "Execution failed for '"
                        (String.append cmd (String.append "'" newline))) ;;;
              @exit Empty_set 127) (child_start w2)
             = Terminated (child_status res 127) wc
             /\ trace wc
                = child_log cmd argv res
                    [EvExit 127;
                     EvPrintf (String.append "Execution failed for '"
                                 (String.append cmd
                                    (String.append "'" newline)))]).
  { unfold bind, execvp. fold argv in exec_res. rewrite exec_res.
    destruct res as [st|]; eexists; split; reflexivity. }
  destruct Ec as (wc & Ec & Tc).
  rewrite (bind_Return _ _ _ _ _ (fork_ok K _ w2 _ wc (forks_ok w2) Ec)).
  cbn [Z.eqb].
  set (pid := Z.pos (next_pid w2)).
  set (w3 := log (EvFork pid) _).
  assert (H3 : procs w3 !! pid = Some (child_status res 127, trace wc)).
  { unfold w3. cbn [procs log bump_pid set_procs]. apply lookup_insert_eq. }
  rewrite (bind_Return _ _ _ _ _ (waitpid_ok pid _ _ w3 H3)).
  set (w4 := log (EvWaitpid pid _ _) _).
  destruct (fd_call_restore K a b c w4) as ([] & w5 & E5 & F5).
  rewrite (bind_Return _ _ _ _ _ E5).
  destruct (frame_trace _ _ F) as (evs2 & T2).
  destruct (frame_trace _ _ F5) as (evs5 & T5).
  exists w5, pid,
    (evs5 ++ EvWaitpid pid (child_status res 127) (trace wc)
          :: EvFork pid :: evs2)%list.
  split; [reflexivity|]. split.
  - rewrite T5. unfold w4, w3. cbn [trace log set_procs bump_pid].
    rewrite T2. rewrite <- app_assoc. reflexivity.
  - apply in_or_app. right. left. now rewrite Tc.
Qed.

Lemma part000_external_run pea :
  (forall w1 r w2,
      Part000.apply_redirections K X s w1 = Return r w2 -> r <> -1) ->
  exists w' pid evs,
    Part000.parse_simple K X pea (Some s) level father w
    = Return (WEXITSTATUS (child_status res EXIT_FAILURE)) w'
    /\ trace w' = (evs ++ trace w)%list
    /\ In (EvWaitpid pid (child_status res EXIT_FAILURE)
             (child_log cmd argv res [EvExit EXIT_FAILURE; EvPerror cmd]))
          evs.
Proof.
  intros Hredir.
  destruct external as (N1 & N2 & N3 & N4).
  unfold Part000.parse_simple.
  assert (E0 : get_word X (verb s) w = Return (Some cmd) w)
    by (unfold get_word, gets; now rewrite verb_is).
  rewrite (bind_Return _ _ _ _ _ E0).
  assert (E0' : get_argv X s w = Return argv w) by reflexivity.
  rewrite (bind_Return _ _ _ _ _ E0').
  destruct (fd_call_duplicate' K w) as ([[a b] c] & w1 & E1 & F1).
  rewrite (bind_Return _ _ _ _ _ E1).
  destruct (fd_call_apply_redirections' K X s w1) as (r & w2 & E2 & F2).
  rewrite (bind_Return _ _ _ _ _ E2).
  assert (F : frame w w2) by (eapply frame_trans; eassumption).
  assert (Er : (r =? -1) = false) by (apply Z.eqb_neq; eauto).
  rewrite Er.
  rewrite !strcmp_neq by assumption. rewrite strstr_no_eq by assumption.
  cbn [orb non_null].
  assert (Ec : exists wc,
             (execvp K cmd argv ;;; perror cmd ;;;
              @exit Empty_set EXIT_FAILURE) (child_start w2)
             = Terminated (child_status res EXIT_FAILURE) wc
             /\ trace wc
                = child_log cmd argv res
                    [EvExit EXIT_FAILURE; EvPerror cmd]).
  { unfold bind, execvp. fold argv in exec_res. rewrite exec_res.
    destruct res as [st|]; eexists; split; reflexivity. }
  destruct Ec as (wc & Ec & Tc).
  rewrite (bind_Return _ _ _ _ _ (fork_ok K _ w2 _ wc (forks_ok w2) Ec)).
  cbn [Z.eqb].
  set (pid := Z.pos (next_pid w2)).
  set (w3 := log (EvFork pid) _).
  assert (H3 : procs w3 !! pid
               = Some (child_status res EXIT_FAILURE, trace wc)).
  { unfold w3. cbn [procs log bump_pid set_procs]. apply lookup_insert_eq. }
  rewrite (bind_Return _ _ _ _ _ (waitpid_ok pid _ _ w3 H3)).
  set (w4 := log (EvWaitpid pid _ _) _).
  destruct (fd_call_restore' K a b c w4) as ([] & w5 & E5 & F5).
  rewrite (bind_Return _ _ _ _ _ E5).
  destruct (frame_trace _ _ F) as (evs2 & T2).
  destruct (frame_trace _ _ F5) as (evs5 & T5).
  exists w5, pid,
    (evs5 ++ EvWaitpid pid (child_status res EXIT_FAILURE) (trace wc)
          :: EvFork pid :: evs2)%list.
  split; [reflexivity|]. split.
  - rewrite T5. unfold w4, w3. cbn [trace log set_procs bump_pid].
    rewrite T2. rewrite <- app_assoc. reflexivity.
  - apply in_or_app. right. left. now rewrite Tc.
Qed.

End External.

(* ===================================================================== *)
(** ** The status of a pipeline and of a command that cannot be run *)
(* ===================================================================== *)

Lemma cmdc_pipe_unfold K X sc c1 c2 level father :
  CmdC.parse_command K X (Some (Command OP_PIPE sc c1 c2)) level father =
  (let* ok := CmdC.run_on_pipe K (CmdC.parse_command K X) c1 c2 (level + 1)
                (Some (Command OP_PIPE sc c1 c2)) in
   ret (if ok : bool then 0 else 1)).
Proof. reflexivity. Qed.

Lemma part000_pipe_unfold K X pea sc c1 c2 level father :
  Part000.parse_command K X pea (Some (Command OP_PIPE sc c1 c2)) level father =
  (let* ok := CmdC.run_on_pipe K (Part000.parse_command K X pea) c1 c2
                (level + 1) (Some (Command OP_PIPE sc c1 c2)) in
   ret (if ok : bool then 0 else 1)).
Proof. reflexivity. Qed.

(** A child of a pipeline reaches its branch in [stage_start]. *)
Lemma stage_start_reached K wp drop keep std :
  frame (child_start wp) (stage_start K wp drop keep std)
  /\ forall (B : Type) (k : M B),
       (close drop ;;; dup2 K keep std ;;; close keep ;;; k) (child_start wp)
       = k (stage_start K wp drop keep std).
Proof.
  unfold stage_start.
  destruct (fd_call_close drop (child_start wp)) as (x1 & w1 & E1 & F1).
  destruct (fd_call_dup2 K keep std w1) as (x2 & w2 & E2 & F2).
  destruct (fd_call_close keep w2) as (x3 & w3 & E3 & F3).
  rewrite (bind_Return _ _ _ _ _ E1), (bind_Return _ _ _ _ _ E2), E3.
  cbn [final]. split.
  - eapply frame_trans; [exact F1|]. eapply frame_trans; eassumption.
  - intros B k.
    rewrite (bind_Return _ _ _ _ _ E1), (bind_Return _ _ _ _ _ E2).
    now rewrite (bind_Return _ _ _ _ _ E3).
Qed.

(** A process that evaluates [m] and exits with its value has ended with
    the exit status of [m]. *)
Lemma exited_with {B : Type} (m : M Z) wc st we :
  (let* v := m in @exit B v) wc = Terminated st we ->
  exit_status_of (m wc) = Some (WEXITSTATUS st).
Proof.
  unfold bind, exit_status_of.
  destruct (m wc) as [v w1|st' w1|]; intros H; inversion H; reflexivity.
Qed.

(** A [fork] that the kernel grants returns once the child has ended. *)
Lemma fork_child K (child : M Empty_set) w pid w' :
  k_fork K w = true ->
  fork K child w = Return pid w' ->
  exists st we,
    child (child_start w) = Terminated st we
    /\ pid = Z.pos (next_pid w)
    /\ w' = forked pid st (trace we) w.
Proof.
  intros Hk. unfold fork. rewrite Hk.
  destruct (child (child_start w)) as [[]|st we|]; try discriminate.
  intros H. inversion H; subst. now exists st, we.
Qed.

Section PipelineRuns.
Variable K : kernel.
Variable pc : evaluator.
Variables (c1 c2 : option command_t) (level : Z) (father : option command_t).
Hypothesis pipe_ok : forall w, k_pipe K w = true.
Hypothesis forks_ok : forall w, k_fork K w = true.

Lemma run_on_pipe_run w b w' :
  CmdC.run_on_pipe K pc c1 c2 level father w = Return b w' ->
  pipe_run K (pc c1 (level + 1) father) (pc c2 (level + 1) father) w w'
    (if b then 0 else 1).
Proof.
  unfold CmdC.run_on_pipe. intros H.
  apply bind_inv_Return in H. destruct H as ([x [r wr]] & wp & Ep & H).
  assert (Ex : x = 0).
  { unfold pipe in Ep. rewrite pipe_ok in Ep. now inversion Ep. }
  subst x. change (0 =? -1) with false in H. cbv iota in H.
  assert (Vp : environ wp = environ w /\ cwd wp = cwd w).
  { unfold pipe in Ep. rewrite pipe_ok in Ep. inversion Ep. split; reflexivity. }
  (* the first child *)
  apply bind_inv_Return in H. destruct H as (pid1 & w2 & E1 & H).
  apply (fork_child K _ wp pid1 w2 (forks_ok wp)) in E1.
  destruct E1 as (st1 & we1 & Ec1 & P1 & ->).
  destruct (stage_start_reached K wp r wr STDOUT_FILENO) as (F1 & S1).
  rewrite S1 in Ec1. apply exited_with in Ec1.
  assert (N1 : (pid1 =? -1) = false) by (subst pid1; reflexivity).
  rewrite N1 in H.
  (* the second child *)
  set (wp2 := forked pid1 st1 (trace we1) wp) in *.
  apply bind_inv_Return in H. destruct H as (pid2 & w3 & E2 & H).
  apply (fork_child K _ wp2 pid2 w3 (forks_ok wp2)) in E2.
  destruct E2 as (st2 & we2 & Ec2 & P2 & ->).
  destruct (stage_start_reached K wp2 wr r STDIN_FILENO) as (F2 & S2).
  rewrite S2 in Ec2. apply exited_with in Ec2.
  assert (N2 : (pid2 =? -1) = false) by (subst pid2; reflexivity).
  rewrite N2 in H.
  set (w3 := forked pid2 st2 (trace we2) wp2) in *.
  (* the parent closes its ends and waits *)
  destruct (fd_call_close r w3) as (x0 & w4 & E4 & F4).
  rewrite (bind_Return _ _ _ _ _ E4) in H.
  destruct (fd_call_close wr w4) as (x1 & w5 & E5 & F5).
  rewrite (bind_Return _ _ _ _ _ E5) in H.
  assert (F35 : frame w3 w5) by (eapply frame_trans; eassumption).
  assert (Hp : procs w5
               = <[pid2 := (st2, trace we2)]>
                   (<[pid1 := (st1, trace we1)]> (procs wp))).
  { rewrite (frame_procs _ _ F35). reflexivity. }
  assert (Hne : pid1 <> pid2).
  { rewrite P1, P2. unfold wp2, forked. cbn [next_pid log bump_pid set_procs].
    intros C. injection C. lia. }
  apply bind_inv_Return in H. destruct H as (s1 & w6 & E6 & H).
  apply waitpid_cases in E6. destruct E6 as (e1 & L1 & ->).
  rewrite Hp, lookup_insert_ne, lookup_insert_eq in L1 by auto.
  injection L1 as <- <-.
  apply bind_inv_Return in H. destruct H as (s2 & w7 & E7 & H).
  apply waitpid_cases in E7. destruct E7 as (e2 & L2 & ->).
  cbn [procs log set_procs] in L2.
  rewrite Hp, lookup_delete_ne, lookup_insert_eq in L2 by auto.
  injection L2 as <- <-.
  inversion H; subst w' b. clear H.
  destruct (frame_trace _ _ F35) as (evs & T).
  exists r, wr, wp, st1, (trace we1), st2, (trace we2), evs.
  split; [exact Ep|]. cbv zeta. rewrite <- P1. fold wp2. rewrite <- P2.
  split; [exact Ec1|]. split; [exact Ec2|].
  split; [rewrite (frame_environ _ _ F1); apply Vp|].
  split; [rewrite (frame_cwd _ _ F1); apply Vp|].
  split; [rewrite (frame_environ _ _ F2); apply Vp|].
  split; [rewrite (frame_cwd _ _ F2); apply Vp|].
  split; [now destruct (WEXITSTATUS st2 =? 0)|].
  cbn [trace log set_procs]. rewrite T. reflexivity.
Qed.

End PipelineRuns.

(** C1, as amended.  Take a Pipe node in a system that grants the pipe and
    the two forks, in either version.  Whenever the node returns a value
    [v], the run was this ([pipe_run]): the first child evaluated the left
    branch and ended with a wait status [st1], the second child evaluated
    the right branch, in a copy of the shell's state with its end of the
    pipe on standard input, and ended with [st2]; the shell waited for the
    first and then for the second; and [v] is 0 if the exit status of the
    second child -- the exit status of the right branch in the state it was
    started in -- is 0, and 1 if it is anything else.  The status of the
    left branch plays no part, and the right-hand status itself is not
    passed on.  And the node does return whenever the two branches have
    defined behaviour in every state.  (The exit status of a child that
    exits with the value [v] is [v mod 256]: [WEXITSTATUS_exited].) *)
Theorem C1_pipe_status_is_right_status_as_flag
    K X pea sc c1 c2 level father w :
  (forall w', k_pipe K w' = true) ->
  (forall w', k_fork K w' = true) ->
  let n := Command OP_PIPE sc c1 c2 in
  (forall v w',
      CmdC.parse_command K X (Some n) level father w = Return v w' ->
      pipe_run K (CmdC.parse_command K X c1 (level + 1 + 1) (Some n))
        (CmdC.parse_command K X c2 (level + 1 + 1) (Some n)) w w' v)
  /\ ((forall wc, exit_status_of
                    (CmdC.parse_command K X c1 (level + 1 + 1) (Some n) wc)
                  <> None) ->
      (forall wc, exit_status_of
                    (CmdC.parse_command K X c2 (level + 1 + 1) (Some n) wc)
                  <> None) ->
      exists v w',
        CmdC.parse_command K X (Some n) level father w = Return v w')
  /\ (forall v w',
         Part000.parse_command K X pea (Some n) level father w = Return v w' ->
         pipe_run K
           (Part000.parse_command K X pea c1 (level + 1 + 1) (Some n))
           (Part000.parse_command K X pea c2 (level + 1 + 1) (Some n))
           w w' v)
  /\ ((forall wc, exit_status_of
                    (Part000.parse_command K X pea c1 (level + 1 + 1)
                       (Some n) wc) <> None) ->
      (forall wc, exit_status_of
                    (Part000.parse_command K X pea c2 (level + 1 + 1)
                       (Some n) wc) <> None) ->
      exists v w',
        Part000.parse_command K X pea (Some n) level father w = Return v w').
Proof.
  intros Hp Hf n. split; [|split; [|split]].
  - intros v w' H. unfold n in H. rewrite cmdc_pipe_unfold in H.
    apply bind_inv_Return in H. destruct H as (b & w1 & E & H).
    inversion H; subst v w'. clear H.
    exact (run_on_pipe_run K (CmdC.parse_command K X) c1 c2 (level + 1)
             (Some n) Hp Hf w b w1 E).
  - intros Hl Hr. unfold n. rewrite cmdc_pipe_unfold.
    destruct (run_on_pipe_returns K (CmdC.parse_command K X) c1 c2
                (level + 1) (Some n) Hp Hf Hl Hr w) as (b & w' & E).
    fold n. rewrite (bind_Return _ _ _ _ _ E). now eexists _, _.
  - intros v w' H. unfold n in H. rewrite part000_pipe_unfold in H.
    apply bind_inv_Return in H. destruct H as (b & w1 & E & H).
    inversion H; subst v w'. clear H.
    exact (run_on_pipe_run K (Part000.parse_command K X pea) c1 c2
             (level + 1) (Some n) Hp Hf w b w1 E).
  - intros Hl Hr. unfold n. rewrite part000_pipe_unfold.
    destruct (run_on_pipe_returns K (Part000.parse_command K X pea) c1 c2
                (level + 1) (Some n) Hp Hf Hl Hr w) as (b & w' & E).
    fold n. rewrite (bind_Return _ _ _ _ _ E). now eexists _, _.
Qed.

(** In the sample system a program that can be run ends with its own exit
    status whatever the state it is started in. *)
Lemma sample_no_redirection_a (v : positive) w1 r w2 :
  CmdC.apply_redirections Samples.K0 Samples.X0
    (Samples.simple v None None None None 0) w1 = Return r w2 -> r <> -1.
Proof. intros H. inversion H. discriminate. Qed.

Lemma sample_no_redirection_b (v : positive) w1 r w2 :
  Part000.apply_redirections Samples.K0 Samples.X0
    (Samples.simple v None None None None 0) w1 = Return r w2 -> r <> -1.
Proof. intros H. inversion H. discriminate. Qed.

Lemma sample_forks w : k_fork Samples.K0 w = true.
Proof. reflexivity. Qed.

Lemma sample_pipes w : k_pipe Samples.K0 w = true.
Proof. reflexivity. Qed.

Lemma sample_run_a (v : positive) cmd st level father wc :
  Samples.text_of Samples.tbl (Samples.wd v) = Some cmd ->
  external_verb cmd ->
  (forall w argv, k_execvp Samples.K0 w cmd argv = Some st) ->
  exit_status_of
    (CmdC.parse_command Samples.K0 Samples.X0 (Samples.run v) level father wc)
  = Some (WEXITSTATUS (exited (WEXITSTATUS st))).
Proof.
  intros Hv He Hx.
  destruct (cmdc_external_run Samples.K0 Samples.X0
              (Samples.simple v None None None None 0) level
              (Some (Command OP_NONE
                       (Some (Samples.simple v None None None None 0))
                       None None))
              wc cmd Hv He sample_forks (Some st) (fun w => Hx w _)
              (sample_no_redirection_a v))
    as (w' & pid & evs & E & _).
  change (CmdC.parse_command Samples.K0 Samples.X0 (Samples.run v) level
            father wc)
    with (CmdC.parse_simple Samples.K0 Samples.X0
            (Some (Samples.simple v None None None None 0)) level
            (Some (Command OP_NONE
                     (Some (Samples.simple v None None None None 0))
                     None None)) wc).
  rewrite E. reflexivity.
Qed.

Lemma sample_run_b (v : positive) cmd st level father wc :
  Samples.text_of Samples.tbl (Samples.wd v) = Some cmd ->
  external_verb cmd ->
  (forall w argv, k_execvp Samples.K0 w cmd argv = Some st) ->
  exit_status_of
    (Part000.parse_command Samples.K0 Samples.X0 Samples.parse_env_assignment
       (Samples.run v) level father wc)
  = Some (WEXITSTATUS (exited (WEXITSTATUS st))).
Proof.
  intros Hv He Hx.
  destruct (part000_external_run Samples.K0 Samples.X0
              (Samples.simple v None None None None 0) level
              (Some (Command OP_NONE
                       (Some (Samples.simple v None None None None 0))
                       None None))
              wc cmd Hv He sample_forks (Some st) (fun w => Hx w _)
              Samples.parse_env_assignment (sample_no_redirection_b v))
    as (w' & pid & evs & E & _).
  change (Part000.parse_command Samples.K0 Samples.X0
            Samples.parse_env_assignment (Samples.run v) level father wc)
    with (Part000.parse_simple Samples.K0 Samples.X0
            Samples.parse_env_assignment
            (Some (Samples.simple v None None None None 0)) level
            (Some (Command OP_NONE
                     (Some (Samples.simple v None None None None 0))
                     None None)) wc).
  rewrite E. reflexivity.
Qed.

Lemma external_true : external_verb "true".
Proof. repeat apply conj; [discriminate..|reflexivity]. Qed.

Lemma external_two : external_verb "two".
Proof. repeat apply conj; [discriminate..|reflexivity]. Qed.

(** C1 at work on [true | two] ([two] ends with exit status 2): the node
    returns, in both versions, and what it returns is 1. *)
Lemma C1_pipe_witness :
  let n := Command OP_PIPE None (Samples.run 1) (Samples.run 3) in
  (forall w', k_pipe Samples.K0 w' = true)
  /\ (forall w', k_fork Samples.K0 w' = true)
  /\ (exists w',
        CmdC.parse_command Samples.K0 Samples.X0 (Some n) 0 None Samples.w0
        = Return 1 w'
        /\ pipe_run Samples.K0
             (CmdC.parse_command Samples.K0 Samples.X0 (Samples.run 1)
                (0 + 1 + 1) (Some n))
             (CmdC.parse_command Samples.K0 Samples.X0 (Samples.run 3)
                (0 + 1 + 1) (Some n))
             Samples.w0 w' 1)
  /\ (exists w',
        Part000.parse_command Samples.K0 Samples.X0
          Samples.parse_env_assignment (Some n) 0 None Samples.w0
        = Return 1 w'
        /\ pipe_run Samples.K0
             (Part000.parse_command Samples.K0 Samples.X0
                Samples.parse_env_assignment (Samples.run 1) (0 + 1 + 1)
                (Some n))
             (Part000.parse_command Samples.K0 Samples.X0
                Samples.parse_env_assignment (Samples.run 3) (0 + 1 + 1)
                (Some n))
             Samples.w0 w' 1).
Proof.
  intros n.
  assert (La : forall wc, exit_status_of
                 (CmdC.parse_command Samples.K0 Samples.X0 (Samples.run 1)
                    (0 + 1 + 1) (Some n) wc) <> None).
  { intros wc.
    rewrite (sample_run_a 1 "true" (exited 0) _ _ wc eq_refl external_true
               (fun _ _ => eq_refl)).
    discriminate. }
  assert (Ra : forall wc, exit_status_of
                 (CmdC.parse_command Samples.K0 Samples.X0 (Samples.run 3)
                    (0 + 1 + 1) (Some n) wc) <> None).
  { intros wc.
    rewrite (sample_run_a 3 "two" (exited 2) _ _ wc eq_refl external_two
               (fun _ _ => eq_refl)).
    discriminate. }
  assert (Lb : forall wc, exit_status_of
                 (Part000.parse_command Samples.K0 Samples.X0
                    Samples.parse_env_assignment (Samples.run 1)
                    (0 + 1 + 1) (Some n) wc) <> None).
  { intros wc.
    rewrite (sample_run_b 1 "true" (exited 0) _ _ wc eq_refl external_true
               (fun _ _ => eq_refl)).
    discriminate. }
  assert (Rb : forall wc, exit_status_of
                 (Part000.parse_command Samples.K0 Samples.X0
                    Samples.parse_env_assignment (Samples.run 3)
                    (0 + 1 + 1) (Some n) wc) <> None).
  { intros wc.
    rewrite (sample_run_b 3 "two" (exited 2) _ _ wc eq_refl external_two
               (fun _ _ => eq_refl)).
    discriminate. }
  destruct (C1_pipe_status_is_right_status_as_flag Samples.K0 Samples.X0
              Samples.parse_env_assignment None (Samples.run 1)
              (Samples.run 3) 0 None Samples.w0 sample_pipes sample_forks)
    as (A & B & C & D).
  split; [exact sample_pipes|]. split; [exact sample_forks|].
  split.
  - destruct (B La Ra) as (v & w' & E).
    pose proof (A v w' E) as R.
    assert (V : v = 1).
    { destruct R as (r & wr & wp & st1 & ev1 & st2 & ev2 & evs & _ & R).
      cbv zeta in R. destruct R as (_ & R2 & _ & _ & _ & _ & V & _).
      rewrite (sample_run_a 3 "two" (exited 2) _ _ _ eq_refl external_two
                 (fun _ _ => eq_refl)) in R2.
      injection R2 as R2.
      change (WEXITSTATUS (exited (WEXITSTATUS (exited 2)))) with 2 in R2.
      rewrite <- R2 in V. exact V. }
    subst v. exists w'. split; [exact E | exact R].
  - destruct (D Lb Rb) as (v & w' & E).
    pose proof (C v w' E) as R.
    assert (V : v = 1).
    { destruct R as (r & wr & wp & st1 & ev1 & st2 & ev2 & evs & _ & R).
      cbv zeta in R. destruct R as (_ & R2 & _ & _ & _ & _ & V & _).
      rewrite (sample_run_b 3 "two" (exited 2) _ _ _ eq_refl external_two
                 (fun _ _ => eq_refl)) in R2.
      injection R2 as R2.
      change (WEXITSTATUS (exited (WEXITSTATUS (exited 2)))) with 2 in R2.
      rewrite <- R2 in V. exact V. }
    subst v. exists w'. split; [exact E | exact R].
Defined.

(** C1 as first stated fails: in [true | two] the right-hand branch ends
    with exit status 2 in whatever state it is started, and the Pipe node
    returns 1, in both versions. *)
Lemma C1_pipe_counterexample :
  let n := Command OP_PIPE None (Samples.run 1) (Samples.run 3) in
  let a := CmdC.parse_command Samples.K0 Samples.X0 (Some n) 0 None
             Samples.w0 in
  let b := Part000.parse_command Samples.K0 Samples.X0
             Samples.parse_env_assignment (Some n) 0 None Samples.w0 in
  (forall wc, exit_status_of
                (CmdC.parse_command Samples.K0 Samples.X0 (Samples.run 3)
                   (0 + 1 + 1) (Some n) wc) = Some 2)
  /\ a = Return 1 (final a Samples.w0)
  /\ ~ (exists w', a = Return 2 w')
  /\ (forall wc, exit_status_of
                   (Part000.parse_command Samples.K0 Samples.X0
                      Samples.parse_env_assignment (Samples.run 3)
                      (0 + 1 + 1) (Some n) wc) = Some 2)
  /\ b = Return 1 (final b Samples.w0)
  /\ ~ (exists w', b = Return 2 w').
Proof.
  intros n a b.
  assert (Ea : a = Return 1 (final a Samples.w0)) by (vm_compute; reflexivity).
  assert (Eb : b = Return 1 (final b Samples.w0)) by (vm_compute; reflexivity).
  split; [|split; [exact Ea|split; [|split; [|split; [exact Eb|]]]]].
  - intros wc.
    exact (sample_run_a 3 "two" (exited 2) _ _ wc eq_refl external_two
             (fun _ _ => eq_refl)).
  - intros [w' H]. pose proof (eq_trans (eq_sym Ea) H) as C.
    inversion C.
  - intros wc.
    exact (sample_run_b 3 "two" (exited 2) _ _ wc eq_refl external_two
             (fun _ _ => eq_refl)).
  - intros [w' H]. pose proof (eq_trans (eq_sym Eb) H) as C.
    inversion C.
Qed.

(** C4, as amended.  Let the verb of a simple command name an external
    program that [execvp] cannot run, with processes to be had and the
    redirections not failing.  In src/src/cmd.c the command returns 127; the
    child it forked logged a failed [execvp], printed
    [Execution failed for '<verb>'] and exited with 127.  In
    src/unnamed/part_000 the command returns [EXIT_FAILURE] (1); the child
    logged the failed [execvp], called [perror] with the verb and exited
    with 1.  In both the shell itself returns from the call. *)
Theorem C4_exec_failure_status K X pea s level father w cmd :
  x_get_word X (environ w) (verb s) = Some cmd ->
  external_verb cmd ->
  (forall w', k_fork K w' = true) ->
  (forall w', k_execvp K w' cmd (x_get_argv X (environ w) s) = None) ->
  let argv := x_get_argv X (environ w) s in
  ((forall w1 r w2,
       CmdC.apply_redirections K X s w1 = Return r w2 -> r <> -1) ->
   exists w' pid evs,
     CmdC.parse_simple K X (Some s) level father w = Return 127 w'
     /\ trace w' = (evs ++ trace w)%list
     /\ In (EvWaitpid pid (exited 127)
              [EvExit 127;
               EvPrintf (String.append "Execution failed for '"
                           (String.append cmd (String.append "'" newline)));
               EvExecvp cmd argv (-1)]) evs)
  /\ ((forall w1 r w2,
          Part000.apply_redirections K X s w1 = Return r w2 -> r <> -1) ->
      exists w' pid evs,
        Part000.parse_simple K X pea (Some s) level father w
        = Return EXIT_FAILURE w'
        /\ trace w' = (evs ++ trace w)%list
        /\ In (EvWaitpid pid (exited EXIT_FAILURE)
                 [EvExit EXIT_FAILURE; EvPerror cmd; EvExecvp cmd argv (-1)])
              evs).
Proof.
  intros Hv He Hf Hx argv. split; intros Hr.
  - exact (cmdc_external_run K X s level father w cmd Hv He Hf None Hx Hr).
  - exact (part000_external_run K X s level father w cmd Hv He Hf None Hx
             pea Hr).
Qed.

Lemma external_doesnotexist : external_verb "doesnotexist123".
Proof. repeat apply conj; [discriminate..|reflexivity]. Qed.

(** C4 at work on the command [doesnotexist123]. *)
Lemma C4_exec_failure_witness :
  let s := Samples.simple 4 None None None None 0 in
  let argv := ["doesnotexist123"] in
  x_get_word Samples.X0 (environ Samples.w0) (verb s) = Some "doesnotexist123"
  /\ external_verb "doesnotexist123"
  /\ (forall w', k_fork Samples.K0 w' = true)
  /\ (forall w', k_execvp Samples.K0 w' "doesnotexist123"
                   (x_get_argv Samples.X0 (environ Samples.w0) s) = None)
  /\ (forall w1 r w2,
        CmdC.apply_redirections Samples.K0 Samples.X0 s w1 = Return r w2 ->
        r <> -1)
  /\ (forall w1 r w2,
        Part000.apply_redirections Samples.K0 Samples.X0 s w1 = Return r w2 ->
        r <> -1)
  /\ (exists w' pid evs,
        CmdC.parse_simple Samples.K0 Samples.X0 (Some s) 0 None Samples.w0
        = Return 127 w'
        /\ trace w' = (evs ++ trace Samples.w0)%list
        /\ In (EvWaitpid pid (exited 127)
                 [EvExit 127;
                  EvPrintf (String.append "Execution failed for '"
                              (String.append "doesnotexist123"
                                 (String.append "'" newline)));
                  EvExecvp "doesnotexist123" argv (-1)]) evs)
  /\ (exists w' pid evs,
        Part000.parse_simple Samples.K0 Samples.X0
          Samples.parse_env_assignment (Some s) 0 None Samples.w0
        = Return EXIT_FAILURE w'
        /\ trace w' = (evs ++ trace Samples.w0)%list
        /\ In (EvWaitpid pid (exited EXIT_FAILURE)
                 [EvExit EXIT_FAILURE; EvPerror "doesnotexist123";
                  EvExecvp "doesnotexist123" argv (-1)]) evs).
Proof.
  intros s argv.
  assert (Hx : forall w', k_execvp Samples.K0 w' "doesnotexist123"
                            (x_get_argv Samples.X0 (environ Samples.w0) s)
                          = None) by (intros; reflexivity).
  destruct (C4_exec_failure_status Samples.K0 Samples.X0
              Samples.parse_env_assignment s 0 None Samples.w0
              "doesnotexist123" eq_refl external_doesnotexist sample_forks Hx)
    as [A B].
  split; [reflexivity|]. split; [exact external_doesnotexist|].
  split; [exact sample_forks|]. split; [exact Hx|].
  split; [exact (sample_no_redirection_a 4)|].
  split; [exact (sample_no_redirection_b 4)|].
  split.
  - exact (A (sample_no_redirection_a 4)).
  - exact (B (sample_no_redirection_b 4)).
Defined.

(** C4 as first stated fails in src/unnamed/part_000: a command that cannot
    be run returns 1 there, not 127. *)
Lemma C4_exec_failure_counterexample :
  let s := Samples.simple 4 None None None None 0 in
  let b := Part000.parse_simple Samples.K0 Samples.X0
             Samples.parse_env_assignment (Some s) 0 None Samples.w0 in
  (forall w argv, k_execvp Samples.K0 w "doesnotexist123" argv = None)
  /\ b = Return 1 (final b Samples.w0)
  /\ ~ (exists w', b = Return 127 w').
Proof.
  intros s b.
  assert (Eb : b = Return 1 (final b Samples.w0)) by (vm_compute; reflexivity).
  split; [intros; reflexivity|]. split; [exact Eb|].
  intros [w' H]. pose proof (eq_trans (eq_sym Eb) H) as C. inversion C.
Qed.

(* ===================================================================== *)
(** ** Parallel nodes: waiting for the children *)
(* ===================================================================== *)

Section Parallel.
Variable K : kernel.
Variable pc : evaluator.
Variables (c1 c2 : option command_t) (level : Z) (father : option command_t).

(** src/src/cmd.c: [true] comes back only after two forks and two waits. *)
Lemma cmdc_run_in_parallel_true w w' :
  CmdC.run_in_parallel K pc c1 c2 level father w = Return true w' ->
  exists pid1 pid2 st1 st2 ev1 ev2,
    trace w' = EvWaitpid pid2 st2 ev2 :: EvWaitpid pid1 st1 ev1
               :: EvFork pid2 :: EvFork pid1 :: trace w
    /\ procs w' !! pid1 = None
    /\ procs w' !! pid2 = None.
Proof.
  unfold CmdC.run_in_parallel. intros H.
  apply bind_inv_Return in H. destruct H as (pid1 & w1 & E1 & H).
  apply fork_cases in E1.
  destruct E1 as [[-> ->] | (st1 & ev1 & Hp1 & ->)]; [discriminate H|].
  assert (N1 : (pid1 =? -1) = false) by (subst pid1; reflexivity).
  rewrite N1 in H.
  apply bind_inv_Return in H. destruct H as (pid2 & w2 & E2 & H).
  apply fork_cases in E2.
  destruct E2 as [[-> ->] | (st2 & ev2 & Hp2 & ->)]; [discriminate H|].
  assert (N2 : (pid2 =? -1) = false) by (subst pid2; reflexivity).
  rewrite N2 in H.
  cbn [next_pid procs log bump_pid set_procs] in Hp2.
  assert (Hne : pid1 <> pid2).
  { subst pid1 pid2. intros C. injection C. lia. }
  apply bind_inv_Return in H. destruct H as (s1 & w3 & W1 & H).
  apply waitpid_cases in W1. destruct W1 as (ev1' & L1 & ->).
  apply bind_inv_Return in H. destruct H as (s2 & w4 & W2 & H).
  apply waitpid_cases in W2. destruct W2 as (ev2' & L2 & ->).
  inversion H; subst w'. clear H.
  exists pid1, pid2, s1, s2, ev1', ev2'.
  split; [reflexivity|].
  cbn [procs log bump_pid set_procs].
  split.
  - rewrite lookup_delete_ne by auto. apply lookup_delete_eq.
  - apply lookup_delete_eq.
Qed.

(** src/unnamed/part_000: [true] comes back right after the second fork,
    with both children still to be waited for. *)
Lemma part000_run_in_parallel_true w w' :
  Part000.run_in_parallel K pc c1 c2 level father w = Return true w' ->
  exists pid1 pid2,
    pid1 <> pid2
    /\ trace w' = EvFork pid2 :: EvFork pid1 :: trace w
    /\ is_Some (procs w' !! pid1)
    /\ is_Some (procs w' !! pid2).
Proof.
  unfold Part000.run_in_parallel. intros H.
  apply bind_inv_Return in H. destruct H as (pid1 & w1 & E1 & H).
  apply fork_cases in E1.
  destruct E1 as [[-> ->] | (st1 & ev1 & Hp1 & ->)]; [discriminate H|].
  assert (N1 : (pid1 =? -1) = false) by (subst pid1; reflexivity).
  rewrite N1 in H.
  apply bind_inv_Return in H. destruct H as (pid2 & w2 & E2 & H).
  apply fork_cases in E2.
  destruct E2 as [[-> ->] | (st2 & ev2 & Hp2 & ->)]; [discriminate H|].
  assert (N2 : (pid2 =? -1) = false) by (subst pid2; reflexivity).
  rewrite N2 in H.
  cbn [next_pid procs log bump_pid set_procs] in Hp2.
  assert (Hne : pid1 <> pid2).
  { subst pid1 pid2. intros C. injection C. lia. }
  inversion H; subst w'. clear H.
  exists pid1, pid2. split; [exact Hne|]. split; [reflexivity|].
  cbn [procs log bump_pid set_procs].
  split.
  - rewrite lookup_insert_ne by auto. rewrite lookup_insert_eq. eauto.
  - rewrite lookup_insert_eq. eauto.
Qed.

End Parallel.

Lemma parallel_status_zero (m : M bool) w w' :
  (let* ok := m in ret (if ok : bool then 0 else 1)) w = Return 0 w' ->
  m w = Return true w'.
Proof.
  intros H. apply bind_inv_Return in H. destruct H as (b & w1 & E & H).
  destruct b; inversion H; subst. exact E.
Qed.

(** C3, as amended.  When a Parallel node yields status 0: in
    src/src/cmd.c the calls it made are two forks followed by a wait for the
    first child and a wait for the second, and neither child is left to be
    waited for; in src/unnamed/part_000 the calls it made are the two forks
    only, and both children are still to be waited for when it returns. *)
Theorem C3_parallel_waits_only_in_cmd_c
    K X pea sc c1 c2 level father w w' :
  let n := Command OP_PARALLEL sc c1 c2 in
  (CmdC.parse_command K X (Some n) level father w = Return 0 w' ->
   exists pid1 pid2 st1 st2 ev1 ev2,
     trace w' = EvWaitpid pid2 st2 ev2 :: EvWaitpid pid1 st1 ev1
                :: EvFork pid2 :: EvFork pid1 :: trace w
     /\ procs w' !! pid1 = None
     /\ procs w' !! pid2 = None)
  /\ (Part000.parse_command K X pea (Some n) level father w = Return 0 w' ->
      exists pid1 pid2,
        pid1 <> pid2
        /\ trace w' = EvFork pid2 :: EvFork pid1 :: trace w
        /\ is_Some (procs w' !! pid1)
        /\ is_Some (procs w' !! pid2)).
Proof.
  intros n. split; intros H.
  - apply (cmdc_run_in_parallel_true K (CmdC.parse_command K X) c1 c2
             (level + 1) (Some n)).
    apply parallel_status_zero. exact H.
  - apply (part000_run_in_parallel_true K (Part000.parse_command K X pea)
             c1 c2 (level + 1) (Some n)).
    apply parallel_status_zero. exact H.
Qed.

(** C3 at work on [true & false]. *)
Lemma C3_parallel_witness :
  let n := Command OP_PARALLEL None (Samples.run 1) (Samples.run 2) in
  let a := CmdC.parse_command Samples.K0 Samples.X0 (Some n) 0 None
             Samples.w0 in
  let b := Part000.parse_command Samples.K0 Samples.X0
             Samples.parse_env_assignment (Some n) 0 None Samples.w0 in
  (a = Return 0 (final a Samples.w0)
   /\ exists pid1 pid2 st1 st2 ev1 ev2,
       trace (final a Samples.w0)
       = EvWaitpid pid2 st2 ev2 :: EvWaitpid pid1 st1 ev1
         :: EvFork pid2 :: EvFork pid1 :: trace Samples.w0
       /\ procs (final a Samples.w0) !! pid1 = None
       /\ procs (final a Samples.w0) !! pid2 = None)
  /\ (b = Return 0 (final b Samples.w0)
      /\ exists pid1 pid2,
          pid1 <> pid2
          /\ trace (final b Samples.w0)
             = EvFork pid2 :: EvFork pid1 :: trace Samples.w0
          /\ is_Some (procs (final b Samples.w0) !! pid1)
          /\ is_Some (procs (final b Samples.w0) !! pid2)).
Proof.
  intros n a b.
  assert (Ea : a = Return 0 (final a Samples.w0)) by (vm_compute; reflexivity).
  assert (Eb : b = Return 0 (final b Samples.w0)) by (vm_compute; reflexivity).
  split; (split; [assumption|]).
  - exact (proj1 (C3_parallel_waits_only_in_cmd_c Samples.K0 Samples.X0
                    Samples.parse_env_assignment None (Samples.run 1)
                    (Samples.run 2) 0 None Samples.w0 (final a Samples.w0))
             Ea).
  - exact (proj2 (C3_parallel_waits_only_in_cmd_c Samples.K0 Samples.X0
                    Samples.parse_env_assignment None (Samples.run 1)
                    (Samples.run 2) 0 None Samples.w0 (final b Samples.w0))
             Eb).
Defined.

(** C3 as first stated fails in src/unnamed/part_000: [true & false] yields
    status 0 after the two forks alone, no wait having been made and both
    children (pids 100 and 101) still to be waited for. *)
Lemma C3_parallel_counterexample :
  let n := Command OP_PARALLEL None (Samples.run 1) (Samples.run 2) in
  let b := Part000.parse_command Samples.K0 Samples.X0
             Samples.parse_env_assignment (Some n) 0 None Samples.w0 in
  b = Return 0 (final b Samples.w0)
  /\ trace (final b Samples.w0) = [EvFork 101; EvFork 100]
  /\ is_Some (procs (final b Samples.w0) !! 100)
  /\ is_Some (procs (final b Samples.w0) !! 101).
Proof.
  intros n b.
  split; [vm_compute; reflexivity|].
  split; [vm_compute; reflexivity|].
  split; vm_compute; eexists; reflexivity.
Qed.

(* ===================================================================== *)
(** ** Descriptor allocation *)
(* ===================================================================== *)

Lemma lowest_free_from_free (t m : gmap Z ofile) (fuel : nat) (n : Z) :
  (size m <= fuel)%nat ->
  (forall k, n <= k -> is_Some (t !! k) -> is_Some (m !! k)) ->
  t !! lowest_free_from t fuel n = None.
Proof.
  revert m n. induction fuel as [|fuel IH]; intros m n Hs Hm; simpl.
  - destruct (t !! n) as [x|] eqn:E; [|reflexivity].
    assert (Hn : is_Some (m !! n)) by (apply Hm; [lia | rewrite E; eauto]).
    assert (m = ∅) by (apply map_size_empty_inv; lia). subst m.
    rewrite lookup_empty in Hn. now destruct Hn.
  - destruct (t !! n) as [x|] eqn:E; [|exact E].
    apply (IH (delete n m)).
    + assert (Hn : is_Some (m !! n)) by (apply Hm; [lia | rewrite E; eauto]).
      rewrite (map_size_delete_Some _ _ Hn). lia.
    + intros k Hk Ht. rewrite lookup_delete_ne by lia. apply Hm; [lia|exact Ht].
Qed.

(** The descriptor handed out is not in use. *)
Lemma lowest_free_free (t : gmap Z ofile) : t !! lowest_free t = None.
Proof.
  unfold lowest_free. apply (lowest_free_from_free t t); [lia | auto].
Qed.

Lemma lowest_free_from_ge (t : gmap Z ofile) (fuel : nat) (n : Z) :
  n <= lowest_free_from t fuel n.
Proof.
  revert n. induction fuel as [|fuel IH]; intros n; simpl; [lia|].
  destruct (t !! n); [|lia]. specialize (IH (n + 1)). lia.
Qed.

Lemma lowest_free_nonneg (t : gmap Z ofile) : 0 <= lowest_free t.
Proof. apply lowest_free_from_ge. Qed.

Lemma lowest_free_ne (t : gmap Z ofile) k :
  is_Some (t !! k) -> lowest_free t <> k.
Proof.
  intros [x Hx] E. rewrite <- E, lowest_free_free in Hx. discriminate.
Qed.

(* ===================================================================== *)
(** ** Redirections: which targets are opened, and how *)
(* ===================================================================== *)

Lemma write_opens_app e1 e2 :
  write_opens (e1 ++ e2) = (write_opens e1 ++ write_opens e2)%list.
Proof.
  induction e1 as [|e rest IH]; [reflexivity|].
  destruct e; simpl; try exact IH.
  destruct mode; simpl; [now rewrite IH | exact IH].
Qed.

Lemma logged_trans w1 w2 w3 e1 e2 :
  logged w1 w2 e1 -> logged w2 w3 e2 -> logged w1 w3 (e2 ++ e1).
Proof. unfold logged. intros H1 H2. rewrite H2, H1. apply app_assoc. Qed.

Lemma quiet_ret {A : Type} (a : A) : quiet (ret a).
Proof. intros w. now exists a, w, []. Qed.

Lemma quiet_bind {A B : Type} (m : M A) (k : A -> M B) :
  quiet m -> (forall a, quiet (k a)) -> quiet (bind m k).
Proof.
  intros Hm Hk w. destruct (Hm w) as (a & w1 & e1 & E1 & L1 & O1 & V1).
  destruct (Hk a w1) as (b & w2 & e2 & E2 & L2 & O2 & V2).
  exists b, w2, (e2 ++ e1)%list.
  rewrite (bind_Return _ _ _ _ _ E1). split; [exact E2|].
  split; [eapply logged_trans; eassumption|].
  split; [rewrite write_opens_app, O1, O2; reflexivity | congruence].
Qed.

Lemma quiet_gets {A : Type} (f : world -> A) : quiet (gets f).
Proof. intros w. now exists (f w), w, []. Qed.

Lemma quiet_perror msg : quiet (perror msg).
Proof. intros w. now exists tt, (log (EvPerror msg) w), [EvPerror msg]. Qed.

Lemma quiet_printf text : quiet (printf text).
Proof. intros w. now exists tt, (log (EvPrintf text) w), [EvPrintf text]. Qed.

Lemma quiet_close fd : quiet (close fd).
Proof.
  intros w. unfold close. destruct (fds w !! fd).
  - now eexists 0, _, [EvClose fd 0].
  - now eexists (-1), _, [EvClose fd (-1)].
Qed.

Lemma quiet_dup2 K a b : quiet (dup2 K a b).
Proof.
  intros w. unfold dup2.
  destruct (fds w !! a); [destruct (k_dup2 K w a b && (0 <=? b))|].
  - now eexists b, _, [EvDup2 a b b].
  - now eexists (-1), _, [EvDup2 a b (-1)].
  - now eexists (-1), _, [EvDup2 a b (-1)].
Qed.

Lemma quiet_open_read K path flags : quiet (open K path flags None).
Proof.
  intros w. unfold open. destruct (k_open K w path flags).
  - now eexists _, _, [EvOpen path flags None _].
  - now eexists (-1), _, [EvOpen path flags None (-1)].
Qed.

Lemma quiet_get_word X p : quiet (get_word X p).
Proof. apply quiet_gets. Qed.

Create HintDb quiet.
#[export] Hint Resolve quiet_ret quiet_gets quiet_perror quiet_printf
  quiet_close quiet_dup2 quiet_open_read quiet_get_word : quiet.

Ltac quiet_calls :=
  repeat first
    [ apply quiet_ret
    | apply quiet_bind; [| intros ]
    | match goal with
      | |- quiet (if ?c then _ else _) => destruct c
      | |- quiet (match ?x with _ => _ end) => destruct x
      end
    | solve [ eauto with quiet ] ].

Lemma quiet_dup_fd K fd d : quiet (CmdC.dup_fd K fd d).
Proof. unfold CmdC.dup_fd. quiet_calls. Qed.
#[export] Hint Resolve quiet_dup_fd : quiet.

(** One creating [open], then quiet calls. *)
Lemma opens_once_open K file flags mode (k : Z -> M Z) :
  (forall fd, quiet (k fd)) ->
  opens_once (let* fd := open K file flags (Some mode) in k fd) file flags.
Proof.
  intros Hk w.
  assert (Ho : exists fd w1, open K file flags (Some mode) w = Return fd w1
                 /\ logged w w1 [EvOpen file flags (Some mode) fd]
                 /\ environ w1 = environ w).
  { unfold open. destruct (k_open K w file flags); eexists _, _;
      (split; [reflexivity|]); split; reflexivity. }
  destruct Ho as (fd & w1 & E1 & L1 & V1).
  destruct (Hk fd w1) as (r & w2 & e2 & E2 & L2 & O2 & V2).
  exists r, w2, (e2 ++ [EvOpen file flags (Some mode) fd])%list, fd.
  rewrite (bind_Return _ _ _ _ _ E1). split; [exact E2|].
  split; [eapply logged_trans; eassumption|].
  split; [rewrite write_opens_app, O2; reflexivity | congruence].
Qed.

Lemma output_flags_eq append :
  (if negb (append =? 0) then Z.lor (Z.lor O_WRONLY O_CREAT) O_APPEND
   else Z.lor (Z.lor O_WRONLY O_CREAT) O_TRUNC) = output_flags append.
Proof. reflexivity. Qed.

Lemma opens_once_redirect_a K file d append :
  d <> STDIN_FILENO ->
  opens_once (CmdC.redirect K file d append) file (output_flags append).
Proof.
  intros Hd. unfold CmdC.redirect.
  apply Z.eqb_neq in Hd. rewrite Hd.
  cbv zeta. rewrite output_flags_eq.
  apply opens_once_open. intros fd. quiet_calls.
Qed.

Lemma opens_once_redirect_output K file append :
  opens_once (Part000.redirect_output K file append) file
    (output_flags append).
Proof.
  unfold Part000.redirect_output. cbv zeta. rewrite output_flags_eq.
  apply opens_once_open. intros fd. quiet_calls.
Qed.

Lemma opens_once_redirect_stderr K file append :
  opens_once (Part000.redirect_stderr K file append) file
    (output_flags append).
Proof.
  unfold Part000.redirect_stderr. cbv zeta. rewrite output_flags_eq.
  apply opens_once_open. intros fd. quiet_calls.
Qed.

(** The calls of a redirection when nothing fails. *)
Lemma open_true K path flags mode w :
  k_open K w path flags = true ->
  open K path flags mode w
  = Return (lowest_free (fds w))
      (log (EvOpen path flags mode (lowest_free (fds w)))
         (bump_serial
            (set_fds (<[lowest_free (fds w)
                        := OFile (next_serial w) (Opened path flags)]> (fds w))
               w))).
Proof. intros H. unfold open. now rewrite H. Qed.

Lemma open_false K path flags mode w :
  k_open K w path flags = false ->
  open K path flags mode w = Return (-1) (log (EvOpen path flags mode (-1)) w).
Proof. intros H. unfold open. now rewrite H. Qed.

Lemma dup2_true K a b f w :
  fds w !! a = Some f -> k_dup2 K w a b = true -> 0 <= b ->
  dup2 K a b w
  = Return b (log (EvDup2 a b b) (set_fds (<[b := f]> (fds w)) w)).
Proof.
  intros Ha Hk Hb. unfold dup2. rewrite Ha, Hk.
  apply Z.leb_le in Hb. now rewrite Hb.
Qed.

Lemma close_true a f w :
  fds w !! a = Some f ->
  close a w = Return 0 (log (EvClose a 0) (set_fds (delete a (fds w)) w)).
Proof. intros Ha. unfold close. now rewrite Ha. Qed.

Lemma dup_fd_true K a b f w :
  fds w !! a = Some f -> k_dup2 K w a b = true -> 0 <= b ->
  CmdC.dup_fd K a b w
  = Return 0 (log (EvDup2 a b b) (set_fds (<[b := f]> (fds w)) w)).
Proof.
  intros Ha Hk Hb. unfold CmdC.dup_fd.
  rewrite (bind_Return _ _ _ _ _ (dup2_true K a b f w Ha Hk Hb)).
  assert (E : (b =? -1) = false) by (apply Z.eqb_neq; lia).
  now rewrite E.
Qed.

Lemma lookup_insert_over (t : gmap Z ofile) a b f :
  t !! a = Some f -> <[b := f]> t !! a = Some f.
Proof.
  intros H. destruct (decide (b = a)) as [->|N].
  - apply lookup_insert_eq.
  - now rewrite lookup_insert_ne.
Qed.

Section Merged.
Variable K : kernel.
Hypothesis dup2_ok : forall w a b, k_dup2 K w a b = true.

(** src/src/cmd.c, [redirect] for both output streams at once. *)
Lemma cmdc_redirect_both file w :
  exists r w' evs fd,
    CmdC.redirect K file (Z.lor STDOUT_FILENO STDERR_FILENO) 0 w = Return r w'
    /\ logged w w' evs
    /\ write_opens evs = [(file, truncating, fd)]
    /\ environ w' = environ w
    /\ (fd <> -1 ->
        is_Some (fds w !! STDOUT_FILENO) -> is_Some (fds w !! STDERR_FILENO) ->
        both_bound w' file truncating).
Proof.
  unfold CmdC.redirect.
  change (Z.lor STDOUT_FILENO STDERR_FILENO =? STDIN_FILENO) with false.
  change (negb (0 =? 0)) with false.
  change (negb (Z.land (Z.lor STDOUT_FILENO STDERR_FILENO) STDOUT_FILENO =? 0))
    with true.
  change (negb (Z.land (Z.lor STDOUT_FILENO STDERR_FILENO) STDERR_FILENO =? 0))
    with true.
  cbv zeta. cbv iota.
  fold truncating.
  destruct (k_open K w file truncating) eqn:Eo.
  - rewrite (bind_Return _ _ _ _ _ (open_true K file truncating _ w Eo)).
    set (fd := lowest_free (fds w)).
    set (f := OFile (next_serial w) (Opened file truncating)).
    assert (Hfd : (fd =? -1) = false).
    { apply Z.eqb_neq. pose proof (lowest_free_nonneg (fds w)). unfold fd. lia. }
    rewrite Hfd.
    set (w1 := log _ _).
    assert (L1 : fds w1 !! fd = Some f) by apply lookup_insert_eq.
    rewrite (bind_Return _ _ _ _ _
               (dup_fd_true K fd STDOUT_FILENO f w1 L1 (dup2_ok _ _ _)
                  ltac:(unfold STDOUT_FILENO; lia))).
    set (w2 := log _ _).
    assert (L2 : fds w2 !! fd = Some f).
    { unfold w2. cbn [fds log set_fds]. now apply lookup_insert_over. }
    rewrite (bind_Return _ _ _ _ _
               (dup_fd_true K fd STDERR_FILENO f w2 L2 (dup2_ok _ _ _)
                  ltac:(unfold STDERR_FILENO; lia))).
    set (w3 := log _ _).
    assert (L3 : fds w3 !! fd = Some f).
    { unfold w3. cbn [fds log set_fds]. now apply lookup_insert_over. }
    rewrite (bind_Return _ _ _ _ _ (close_true fd f w3 L3)).
    eexists 0, _, [EvClose fd 0; EvDup2 fd STDERR_FILENO STDERR_FILENO;
                   EvDup2 fd STDOUT_FILENO STDOUT_FILENO;
                   EvOpen file truncating (Some 420) fd], fd.
    split; [reflexivity|]. split; [reflexivity|]. split; [reflexivity|].
    split; [reflexivity|].
    intros _ H1 H2. exists f. split; [reflexivity|].
    pose proof (lowest_free_ne _ _ H1) as N1.
    pose proof (lowest_free_ne _ _ H2) as N2.
    fold fd in N1, N2.
    unfold w3, w2, w1. cbn [fds log set_fds bump_serial]. split.
    + rewrite lookup_delete_ne by auto.
      rewrite lookup_insert_ne by (unfold STDOUT_FILENO, STDERR_FILENO; lia).
      apply lookup_insert_eq.
    + rewrite lookup_delete_ne by auto. apply lookup_insert_eq.
  - rewrite (bind_Return _ _ _ _ _ (open_false K file truncating _ w Eo)).
    change (-1 =? -1) with true. cbv iota.
    eexists (-1), _, [EvPerror "open"; EvOpen file truncating (Some 420) (-1)],
      (-1).
    split; [reflexivity|]. split; [reflexivity|]. split; [reflexivity|].
    split; [reflexivity|]. intros N. now destruct N.
Qed.

(** src/unnamed/part_000, [redirect_output_stderr]. *)
Lemma part000_redirect_both file w :
  exists r w' evs fd,
    Part000.redirect_output_stderr K file w = Return r w'
    /\ logged w w' evs
    /\ write_opens evs = [(file, truncating, fd)]
    /\ environ w' = environ w
    /\ (fd <> -1 ->
        is_Some (fds w !! STDOUT_FILENO) -> is_Some (fds w !! STDERR_FILENO) ->
        both_bound w' file truncating).
Proof.
  unfold Part000.redirect_output_stderr. fold truncating.
  destruct (k_open K w file truncating) eqn:Eo.
  - rewrite (bind_Return _ _ _ _ _ (open_true K file truncating _ w Eo)).
    set (fd := lowest_free (fds w)).
    set (f := OFile (next_serial w) (Opened file truncating)).
    assert (Hfd : (fd =? -1) = false).
    { apply Z.eqb_neq. pose proof (lowest_free_nonneg (fds w)). unfold fd. lia. }
    rewrite Hfd.
    set (w1 := log _ _).
    assert (L1 : fds w1 !! fd = Some f) by apply lookup_insert_eq.
    rewrite (bind_Return _ _ _ _ _
               (dup2_true K fd STDOUT_FILENO f w1 L1 (dup2_ok _ _ _)
                  ltac:(unfold STDOUT_FILENO; lia))).
    change (STDOUT_FILENO =? -1) with false. cbv iota.
    set (w2 := log _ _).
    assert (L2 : fds w2 !! fd = Some f).
    { unfold w2. cbn [fds log set_fds]. now apply lookup_insert_over. }
    rewrite (bind_Return _ _ _ _ _
               (dup2_true K fd STDERR_FILENO f w2 L2 (dup2_ok _ _ _)
                  ltac:(unfold STDERR_FILENO; lia))).
    change (STDERR_FILENO =? -1) with false. cbv iota.
    set (w3 := log _ _).
    assert (L3 : fds w3 !! fd = Some f).
    { unfold w3. cbn [fds log set_fds]. now apply lookup_insert_over. }
    rewrite (bind_Return _ _ _ _ _ (close_true fd f w3 L3)).
    eexists 0, _, [EvClose fd 0; EvDup2 fd STDERR_FILENO STDERR_FILENO;
                   EvDup2 fd STDOUT_FILENO STDOUT_FILENO;
                   EvOpen file truncating (Some 420) fd], fd.
    split; [reflexivity|]. split; [reflexivity|]. split; [reflexivity|].
    split; [reflexivity|].
    intros _ H1 H2. exists f. split; [reflexivity|].
    pose proof (lowest_free_ne _ _ H1) as N1.
    pose proof (lowest_free_ne _ _ H2) as N2.
    fold fd in N1, N2.
    unfold w3, w2, w1. cbn [fds log set_fds bump_serial]. split.
    + rewrite lookup_delete_ne by auto.
      rewrite lookup_insert_ne by (unfold STDOUT_FILENO, STDERR_FILENO; lia).
      apply lookup_insert_eq.
    + rewrite lookup_delete_ne by auto. apply lookup_insert_eq.
  - rewrite (bind_Return _ _ _ _ _ (open_false K file truncating _ w Eo)).
    change (-1 =? -1) with true. cbv iota.
    eexists (-1), _, [EvPerror "open"; EvOpen file truncating (Some 420) (-1)],
      (-1).
    split; [reflexivity|]. split; [reflexivity|]. split; [reflexivity|].
    split; [reflexivity|]. intros N. now destruct N.
Qed.

(** The input redirection when its [open] succeeds: status 0, nothing
    opened for writing, the other descriptors that were open untouched. *)
Lemma cmdc_redirect_input_ok file w :
  k_open K w file O_RDONLY = true ->
  exists w' evs,
    CmdC.redirect K file STDIN_FILENO 0 w = Return 0 w'
    /\ logged w w' evs /\ write_opens evs = []
    /\ environ w' = environ w
    /\ (forall k, k <> STDIN_FILENO -> is_Some (fds w !! k) ->
                  fds w' !! k = fds w !! k).
Proof.
  intros Eo. unfold CmdC.redirect.
  change (STDIN_FILENO =? STDIN_FILENO) with true. cbv iota.
  rewrite (bind_Return _ _ _ _ _ (open_true K file O_RDONLY _ w Eo)).
  set (fd := lowest_free (fds w)).
  set (f := OFile (next_serial w) (Opened file O_RDONLY)).
  assert (Hfd : (fd =? -1) = false).
  { apply Z.eqb_neq. pose proof (lowest_free_nonneg (fds w)). unfold fd. lia. }
  rewrite Hfd.
  set (w1 := log _ _).
  assert (L1 : fds w1 !! fd = Some f) by apply lookup_insert_eq.
  rewrite (bind_Return _ _ _ _ _
             (dup_fd_true K fd STDIN_FILENO f w1 L1 (dup2_ok _ _ _)
                ltac:(unfold STDIN_FILENO; lia))).
  set (w2 := log _ _).
  assert (L2 : fds w2 !! fd = Some f).
  { unfold w2. cbn [fds log set_fds]. now apply lookup_insert_over. }
  rewrite (bind_Return _ _ _ _ _ (close_true fd f w2 L2)).
  eexists _, [EvClose fd 0; EvDup2 fd STDIN_FILENO STDIN_FILENO;
              EvOpen file O_RDONLY None fd].
  split; [reflexivity|]. split; [reflexivity|]. split; [reflexivity|].
  split; [reflexivity|].
  intros k Hk Hs. pose proof (lowest_free_ne _ _ Hs) as N. fold fd in N.
  unfold w2, w1. cbn [fds log set_fds bump_serial].
  rewrite lookup_delete_ne by auto.
  rewrite lookup_insert_ne by auto.
  now rewrite lookup_insert_ne by auto.
Qed.

Lemma part000_redirect_input_ok file w :
  k_open K w file O_RDONLY = true ->
  exists w' evs,
    Part000.redirect_input K file w = Return 0 w'
    /\ logged w w' evs /\ write_opens evs = []
    /\ environ w' = environ w
    /\ (forall k, k <> STDIN_FILENO -> is_Some (fds w !! k) ->
                  fds w' !! k = fds w !! k).
Proof.
  intros Eo. unfold Part000.redirect_input.
  rewrite (bind_Return _ _ _ _ _ (open_true K file O_RDONLY _ w Eo)).
  set (fd := lowest_free (fds w)).
  set (f := OFile (next_serial w) (Opened file O_RDONLY)).
  assert (Hfd : (fd =? -1) = false).
  { apply Z.eqb_neq. pose proof (lowest_free_nonneg (fds w)). unfold fd. lia. }
  rewrite Hfd.
  set (w1 := log _ _).
  assert (L1 : fds w1 !! fd = Some f) by apply lookup_insert_eq.
  rewrite (bind_Return _ _ _ _ _
             (dup2_true K fd STDIN_FILENO f w1 L1 (dup2_ok _ _ _)
                ltac:(unfold STDIN_FILENO; lia))).
  change (STDIN_FILENO =? -1) with false. cbv iota.
  set (w2 := log _ _).
  assert (L2 : fds w2 !! fd = Some f).
  { unfold w2. cbn [fds log set_fds]. now apply lookup_insert_over. }
  rewrite (bind_Return _ _ _ _ _ (close_true fd f w2 L2)).
  eexists _, [EvClose fd 0; EvDup2 fd STDIN_FILENO STDIN_FILENO;
              EvOpen file O_RDONLY None fd].
  split; [reflexivity|]. split; [reflexivity|]. split; [reflexivity|].
  split; [reflexivity|].
  intros k Hk Hs. pose proof (lowest_free_ne _ _ Hs) as N. fold fd in N.
  unfold w2, w1. cbn [fds log set_fds bump_serial].
  rewrite lookup_delete_ne by auto.
  rewrite lookup_insert_ne by auto.
  now rewrite lookup_insert_ne by auto.
Qed.

End Merged.

Lemma get_word_run X p w :
  get_word X p w = Return (x_get_word X (environ w) p) w.
Proof. reflexivity. Qed.

Lemma bind_assoc {A B C : Type} (m : M A) (f : A -> M B) (g : B -> M C) w :
  bind (bind m f) g w = bind m (fun x => bind (f x) g) w.
Proof. unfold bind. now destruct (m w). Qed.

Section SharedTarget.
Variable K : kernel.
Variable X : externs.
Hypothesis dup2_ok : forall w a b, k_dup2 K w a b = true.
Variable s : simple_command_t.
Variable w : world.
Hypothesis input_ok :
  forall f, x_get_word X (environ w) (in_ s) = Some f ->
            k_open K w f O_RDONLY = true.
Variable target : string.

Lemma cmdc_input_stage :
  exists w1 e1,
    match x_get_word X (environ w) (in_ s) with
    | Some file => CmdC.redirect K file STDIN_FILENO 0
    | None => ret 0
    end w = Return 0 w1
    /\ logged w w1 e1 /\ write_opens e1 = []
    /\ environ w1 = environ w
    /\ (forall k, k <> STDIN_FILENO -> is_Some (fds w !! k) ->
                  fds w1 !! k = fds w !! k).
Proof.
  destruct (x_get_word X (environ w) (in_ s)) as [f|] eqn:Ei.
  - apply (cmdc_redirect_input_ok K dup2_ok). now apply input_ok.
  - exists w, []. repeat apply conj; reflexivity.
Qed.

Lemma part000_input_stage :
  exists w1 e1,
    match x_get_word X (environ w) (in_ s) with
    | Some file => Part000.redirect_input K file
    | None => ret 0
    end w = Return 0 w1
    /\ logged w w1 e1 /\ write_opens e1 = []
    /\ environ w1 = environ w
    /\ (forall k, k <> STDIN_FILENO -> is_Some (fds w !! k) ->
                  fds w1 !! k = fds w !! k).
Proof.
  destruct (x_get_word X (environ w) (in_ s)) as [f|] eqn:Ei.
  - apply (part000_redirect_input_ok K dup2_ok). now apply input_ok.
  - exists w, []. repeat apply conj; reflexivity.
Qed.

Lemma is_Some_after (w1 : world) k :
  (forall k, k <> STDIN_FILENO -> is_Some (fds w !! k) ->
             fds w1 !! k = fds w !! k) ->
  k <> STDIN_FILENO -> is_Some (fds w !! k) -> is_Some (fds w1 !! k).
Proof. intros P N H. now rewrite (P k N H). Qed.

(** One word for both streams. *)
Lemma cmdc_apply_shared wo :
  out s = Some wo -> err s = Some wo ->
  x_get_word X (environ w) (Some wo) = Some target ->
  exists r w' evs fd,
    CmdC.apply_redirections K X s w = Return r w'
    /\ logged w w' evs
    /\ write_opens evs = [(target, truncating, fd)]
    /\ (fd <> -1 ->
        is_Some (fds w !! STDOUT_FILENO) -> is_Some (fds w !! STDERR_FILENO) ->
        both_bound w' target truncating).
Proof.
  intros Ho He Ht. unfold CmdC.apply_redirections. cbv zeta.
  rewrite (bind_Return _ _ _ _ _ (get_word_run X (in_ s) w)).
  destruct cmdc_input_stage as (w1 & e1 & E1 & L1 & O1 & V1 & P1).
  rewrite (bind_Return _ _ _ _ _ E1).
  change (0 =? -1) with false. cbv iota.
  rewrite Ho, He. cbn [non_null andb ptr_eqb]. rewrite Pos.eqb_refl.
  rewrite (bind_Return _ _ _ _ _ (get_word_run X (Some wo) w1)).
  rewrite (bind_Return _ _ _ _ _ (get_word_run X (Some wo) w1)).
  rewrite V1, Ht.
  destruct (cmdc_redirect_both K dup2_ok target w1)
    as (r & w' & e2 & fd & E2 & L2 & O2 & V2 & B2).
  exists r, w', (e2 ++ e1)%list, fd.
  split; [exact E2|]. split; [eapply logged_trans; eassumption|].
  split; [rewrite write_opens_app, O1, O2; reflexivity|].
  intros Hfd H1 H2. apply B2; [exact Hfd| |].
  - apply is_Some_after; [exact P1 | discriminate | exact H1].
  - apply is_Some_after; [exact P1 | discriminate | exact H2].
Qed.

Lemma part000_apply_shared wo :
  out s = Some wo -> err s = Some wo ->
  x_get_word X (environ w) (Some wo) = Some target ->
  exists r w' evs fd,
    Part000.apply_redirections K X s w = Return r w'
    /\ logged w w' evs
    /\ write_opens evs = [(target, truncating, fd)]
    /\ (fd <> -1 ->
        is_Some (fds w !! STDOUT_FILENO) -> is_Some (fds w !! STDERR_FILENO) ->
        both_bound w' target truncating).
Proof.
  intros Ho He Ht. unfold Part000.apply_redirections. cbv zeta.
  rewrite (bind_Return _ _ _ _ _ (get_word_run X (in_ s) w)).
  destruct part000_input_stage as (w1 & e1 & E1 & L1 & O1 & V1 & P1).
  rewrite (bind_Return _ _ _ _ _ E1).
  change (0 =? -1) with false. cbv iota.
  rewrite Ho, He. cbn [non_null andb ptr_eqb]. rewrite Pos.eqb_refl.
  rewrite (bind_Return _ _ _ _ _ (get_word_run X (Some wo) w1)).
  rewrite (bind_Return _ _ _ _ _ (get_word_run X (Some wo) w1)).
  rewrite V1, Ht.
  destruct (part000_redirect_both K dup2_ok target w1)
    as (r & w' & e2 & fd & E2 & L2 & O2 & V2 & B2).
  rewrite (bind_Return _ _ _ _ _ E2).
  exists 0, w', (e2 ++ e1)%list, fd.
  split; [reflexivity|]. split; [eapply logged_trans; eassumption|].
  split; [rewrite write_opens_app, O1, O2; reflexivity|].
  intros Hfd H1 H2. apply B2; [exact Hfd| |].
  - apply is_Some_after; [exact P1 | discriminate | exact H1].
  - apply is_Some_after; [exact P1 | discriminate | exact H2].
Qed.

(** Two words, though they may stand for the same text: each stream has
    its own [open], with its own flags. *)
Lemma cmdc_apply_distinct wo we :
  out s = Some wo -> err s = Some we -> w_addr we <> w_addr wo ->
  x_get_word X (environ w) (Some wo) = Some target ->
  x_get_word X (environ w) (Some we) = Some target ->
  exists r w' evs fd_out fd_err,
    CmdC.apply_redirections K X s w = Return r w'
    /\ logged w w' evs
    /\ write_opens evs
       = [(target, output_flags (Z.land (io_flags s) (IO_OUT_APPEND X)), fd_out);
          (target, output_flags (Z.land (io_flags s) (IO_ERR_APPEND X)), fd_err)].
Proof.
  intros Ho He Hne Hto Hte. unfold CmdC.apply_redirections. cbv zeta.
  rewrite (bind_Return _ _ _ _ _ (get_word_run X (in_ s) w)).
  destruct cmdc_input_stage as (w1 & e1 & E1 & L1 & O1 & V1 & P1).
  rewrite (bind_Return _ _ _ _ _ E1).
  change (0 =? -1) with false. cbv iota.
  rewrite Ho, He. cbn [non_null andb ptr_eqb].
  apply Pos.eqb_neq in Hne. rewrite Hne.
  rewrite bind_assoc.
  rewrite (bind_Return _ _ _ _ _ (get_word_run X (Some we) w1)).
  rewrite V1, Hte.
  destruct (opens_once_redirect_a K target STDERR_FILENO
              (Z.land (io_flags s) (IO_ERR_APPEND X)) ltac:(discriminate) w1)
    as (r2 & w2 & e2 & fd2 & E2 & L2 & O2 & V2).
  rewrite (bind_Return _ _ _ _ _ E2).
  rewrite bind_assoc.
  rewrite (bind_Return _ _ _ _ _ (get_word_run X (Some wo) w2)).
  rewrite V2, V1, Hto.
  destruct (opens_once_redirect_a K target STDOUT_FILENO
              (Z.land (io_flags s) (IO_OUT_APPEND X)) ltac:(discriminate) w2)
    as (r3 & w3 & e3 & fd3 & E3 & L3 & O3 & V3).
  rewrite (bind_Return _ _ _ _ _ E3).
  exists r3, w3, (e3 ++ e2 ++ e1)%list, fd3, fd2.
  split; [reflexivity|]. split.
  - eapply logged_trans; [|exact L3]. eapply logged_trans; eassumption.
  - rewrite !write_opens_app, O1, O2, O3. reflexivity.
Qed.

Lemma part000_apply_distinct wo we :
  out s = Some wo -> err s = Some we -> w_addr we <> w_addr wo ->
  x_get_word X (environ w) (Some wo) = Some target ->
  x_get_word X (environ w) (Some we) = Some target ->
  exists r w' evs fd_out fd_err,
    Part000.apply_redirections K X s w = Return r w'
    /\ logged w w' evs
    /\ write_opens evs
       = [(target, output_flags (Z.land (io_flags s) (IO_OUT_APPEND X)), fd_out);
          (target, output_flags (Z.land (io_flags s) (IO_ERR_APPEND X)), fd_err)].
Proof.
  intros Ho He Hne Hto Hte. unfold Part000.apply_redirections. cbv zeta.
  rewrite (bind_Return _ _ _ _ _ (get_word_run X (in_ s) w)).
  destruct part000_input_stage as (w1 & e1 & E1 & L1 & O1 & V1 & P1).
  rewrite (bind_Return _ _ _ _ _ E1).
  change (0 =? -1) with false. cbv iota.
  rewrite Ho, He. cbn [non_null andb ptr_eqb].
  apply Pos.eqb_neq in Hne. rewrite Hne.
  rewrite bind_assoc.
  rewrite (bind_Return _ _ _ _ _ (get_word_run X (Some we) w1)).
  rewrite V1, Hte.
  destruct (opens_once_redirect_stderr K target
              (Z.land (io_flags s) (IO_ERR_APPEND X)) w1)
    as (r2 & w2 & e2 & fd2 & E2 & L2 & O2 & V2).
  rewrite (bind_Return _ _ _ _ _ E2).
  rewrite bind_assoc.
  rewrite (bind_Return _ _ _ _ _ (get_word_run X (Some wo) w2)).
  rewrite V2, V1, Hto.
  destruct (opens_once_redirect_output K target
              (Z.land (io_flags s) (IO_OUT_APPEND X)) w2)
    as (r3 & w3 & e3 & fd3 & E3 & L3 & O3 & V3).
  rewrite (bind_Return _ _ _ _ _ E3).
  exists r3, w3, (e3 ++ e2 ++ e1)%list, fd3, fd2.
  split; [reflexivity|]. split.
  - eapply logged_trans; [|exact L3]. eapply logged_trans; eassumption.
  - rewrite !write_opens_app, O1, O2, O3. reflexivity.
Qed.

End SharedTarget.

(** C8.  Let the output field of a simple command be the word [wo], standing
    for the text [target], with the input redirection (if any) not failing
    and [dup2] not failing.  In both versions:

    - if the error field is that same word, [apply_redirections] makes
      exactly one creating [open]: of [target], with
      [O_WRONLY|O_CREAT|O_TRUNC] whatever [io_flags] holds; and if that
      [open] succeeds, with standard output and standard error open
      beforehand, both descriptors afterwards are the one open file
      description it made;
    - if the error field is another word, even one standing for the same
      text, there are two creating [open]s, one per stream, each with the
      flags its own append bit selects. *)
Theorem C8_shared_target_opened_once K X s w target wo :
  (forall w' a b, k_dup2 K w' a b = true) ->
  (forall f, x_get_word X (environ w) (in_ s) = Some f ->
             k_open K w f O_RDONLY = true) ->
  out s = Some wo ->
  x_get_word X (environ w) (Some wo) = Some target ->
  (err s = Some wo ->
   (exists r w' evs fd,
      CmdC.apply_redirections K X s w = Return r w'
      /\ logged w w' evs
      /\ write_opens evs = [(target, truncating, fd)]
      /\ (fd <> -1 ->
          is_Some (fds w !! STDOUT_FILENO) ->
          is_Some (fds w !! STDERR_FILENO) ->
          both_bound w' target truncating))
   /\ (exists r w' evs fd,
         Part000.apply_redirections K X s w = Return r w'
         /\ logged w w' evs
         /\ write_opens evs = [(target, truncating, fd)]
         /\ (fd <> -1 ->
             is_Some (fds w !! STDOUT_FILENO) ->
             is_Some (fds w !! STDERR_FILENO) ->
             both_bound w' target truncating)))
  /\ (forall we,
        err s = Some we -> w_addr we <> w_addr wo ->
        x_get_word X (environ w) (Some we) = Some target ->
        (exists r w' evs fd_out fd_err,
           CmdC.apply_redirections K X s w = Return r w'
           /\ logged w w' evs
           /\ write_opens evs
              = [(target,
                  output_flags (Z.land (io_flags s) (IO_OUT_APPEND X)), fd_out);
                 (target,
                  output_flags (Z.land (io_flags s) (IO_ERR_APPEND X)), fd_err)])
        /\ (exists r w' evs fd_out fd_err,
              Part000.apply_redirections K X s w = Return r w'
              /\ logged w w' evs
              /\ write_opens evs
                 = [(target,
                     output_flags (Z.land (io_flags s) (IO_OUT_APPEND X)),
                     fd_out);
                    (target,
                     output_flags (Z.land (io_flags s) (IO_ERR_APPEND X)),
                     fd_err)])).
Proof.
  intros Hd Hi Ho Ht. split.
  - intros He. split.
    + now apply (cmdc_apply_shared K X Hd s w Hi target wo).
    + now apply (part000_apply_shared K X Hd s w Hi target wo).
  - intros we He Hne Hte. split.
    + now apply (cmdc_apply_distinct K X Hd s w Hi target wo we).
    + now apply (part000_apply_distinct K X Hd s w Hi target wo we).
Qed.

(** C8 at work on [true >/tmp/out 2>&1]-style commands with both append
    bits set: one word for both streams ([s1]), and two words with the same
    text ([s2]). *)
Lemma C8_shared_target_witness :
  let wo := Word 10 None in
  let we := Word 12 None in
  let s1 := Samples.simple 1 None None (Some wo) (Some wo) 3 in
  let s2 := Samples.simple 1 None None (Some wo) (Some we) 3 in
  (forall w' a b, k_dup2 Samples.K0 w' a b = true)
  /\ x_get_word Samples.X0 (environ Samples.w0) (Some wo) = Some "/tmp/out"
  /\ x_get_word Samples.X0 (environ Samples.w0) (Some we) = Some "/tmp/out"
  /\ w_addr we <> w_addr wo
  /\ (exists r w' evs fd,
        CmdC.apply_redirections Samples.K0 Samples.X0 s1 Samples.w0
        = Return r w'
        /\ logged Samples.w0 w' evs
        /\ write_opens evs = [("/tmp/out", truncating, fd)]
        /\ (fd <> -1 ->
            is_Some (fds Samples.w0 !! STDOUT_FILENO) ->
            is_Some (fds Samples.w0 !! STDERR_FILENO) ->
            both_bound w' "/tmp/out" truncating))
  /\ (exists r w' evs fd,
        Part000.apply_redirections Samples.K0 Samples.X0 s1 Samples.w0
        = Return r w'
        /\ logged Samples.w0 w' evs
        /\ write_opens evs = [("/tmp/out", truncating, fd)]
        /\ (fd <> -1 ->
            is_Some (fds Samples.w0 !! STDOUT_FILENO) ->
            is_Some (fds Samples.w0 !! STDERR_FILENO) ->
            both_bound w' "/tmp/out" truncating))
  /\ (exists r w' evs fd_out fd_err,
        CmdC.apply_redirections Samples.K0 Samples.X0 s2 Samples.w0
        = Return r w'
        /\ logged Samples.w0 w' evs
        /\ write_opens evs
           = [("/tmp/out", appending, fd_out);
              ("/tmp/out", appending, fd_err)])
  /\ (exists r w' evs fd_out fd_err,
        Part000.apply_redirections Samples.K0 Samples.X0 s2 Samples.w0
        = Return r w'
        /\ logged Samples.w0 w' evs
        /\ write_opens evs
           = [("/tmp/out", appending, fd_out);
              ("/tmp/out", appending, fd_err)]).
Proof.
  intros wo we s1 s2.
  assert (Hd : forall w' a b, k_dup2 Samples.K0 w' a b = true)
    by (intros; reflexivity).
  assert (Hne : w_addr we <> w_addr wo) by discriminate.
  assert (Hi1 : forall f, x_get_word Samples.X0 (environ Samples.w0) (in_ s1)
                          = Some f ->
                          k_open Samples.K0 Samples.w0 f O_RDONLY = true)
    by (intros f H; discriminate H).
  assert (Hi2 : forall f, x_get_word Samples.X0 (environ Samples.w0) (in_ s2)
                          = Some f ->
                          k_open Samples.K0 Samples.w0 f O_RDONLY = true)
    by (intros f H; discriminate H).
  split; [exact Hd|]. split; [reflexivity|]. split; [reflexivity|].
  split; [exact Hne|].
  destruct (C8_shared_target_opened_once Samples.K0 Samples.X0
              s1 Samples.w0 "/tmp/out" wo Hd Hi1 eq_refl eq_refl) as [S1 _].
  destruct (C8_shared_target_opened_once Samples.K0 Samples.X0
              s2 Samples.w0 "/tmp/out" wo Hd Hi2 eq_refl eq_refl) as [_ S2].
  destruct (S1 eq_refl) as [S1a S1b].
  destruct (S2 we eq_refl Hne eq_refl) as [S2a S2b].
  split; [exact S1a|]. split; [exact S1b|]. split; [exact S2a|exact S2b].
Defined.

(* ===================================================================== *)
(** ** Environment assignment with a value free of ['='] *)
(* ===================================================================== *)

Lemma has_char_eq_delim c : has_char c "=" = Ascii.eqb "=" c.
Proof.
  unfold has_char. simpl. rewrite orb_false_r. apply Ascii.eqb_sym.
Qed.

Lemma take_token_all s :
  has_char "=" s = false -> take_token "=" s = (s, EmptyString).
Proof.
  unfold has_char. induction s as [|c rest IH]; [reflexivity|].
  cbn [list_ascii_of_string existsb]. intros H.
  apply orb_false_iff in H. destruct H as [Hc Hr].
  cbn [take_token]. rewrite has_char_eq_delim, Hc, (IH Hr). reflexivity.
Qed.

Lemma take_token_upto name rest :
  has_char "=" name = false ->
  take_token "=" (String.append name (String "=" rest)) = (name, rest).
Proof.
  unfold has_char. induction name as [|c name' IH].
  - intros _. reflexivity.
  - cbn [list_ascii_of_string existsb]. intros H.
    apply orb_false_iff in H. destruct H as [Hc Hr].
    change (String.append (String c name') (String "=" rest))
      with (String c (String.append name' (String "=" rest))).
    cbn [take_token]. rewrite has_char_eq_delim, Hc, (IH Hr).
    reflexivity.
Qed.

Lemma skip_delims_none s :
  s <> EmptyString -> has_char "=" s = false -> skip_delims "=" s = s.
Proof.
  destruct s as [|c rest]; [congruence|]. intros _.
  unfold has_char. cbn [list_ascii_of_string existsb]. intros H.
  apply orb_false_iff in H. destruct H as [Hc _].
  cbn [skip_delims]. now rewrite has_char_eq_delim, Hc.
Qed.

(** For a verb [name=value] with [name] and [value] not empty and free of
    ['='], [parse_environment_variable] binds [name] to [value]. *)
Lemma parse_environment_variable_binds name value w :
  name <> EmptyString -> has_char "=" name = false ->
  value <> EmptyString -> has_char "=" value = false ->
  CmdC.parse_environment_variable
    (Some (String.append name (String "=" value))) w
  = Return tt (log (EvSetenv name value 0)
                 (set_environ (<[name := value]> (environ w)) w)).
Proof.
  intros Hn Hn' Hv Hv'.
  unfold CmdC.parse_environment_variable, strtok_r.
  assert (S1 : skip_delims "=" (String.append name (String "=" value))
               = String.append name (String "=" value)).
  { destruct name as [|c name']; [congruence|].
    unfold has_char in Hn'. cbn [list_ascii_of_string existsb] in Hn'.
    apply orb_false_iff in Hn'. destruct Hn' as [Hc _].
    change (String.append (String c name') (String "=" value))
      with (String c (String.append name' (String "=" value))).
    cbn [skip_delims]. now rewrite has_char_eq_delim, Hc. }
  rewrite S1.
  destruct (String.append name (String "=" value)) as [|c0 r0] eqn:E.
  { destruct name; discriminate E. }
  rewrite <- E, (take_token_upto name value Hn').
  rewrite (skip_delims_none value Hv Hv').
  destruct value as [|c1 r1] eqn:Ev; [congruence|].
  rewrite <- Ev in *. rewrite (take_token_all value Hv').
  unfold bind, setenv.
  assert (Ne : String.eqb name "" = false) by (now apply String.eqb_neq).
  rewrite Ne, Hn'. reflexivity.
Qed.

(* ===================================================================== *)
(** ** Saving and restoring the standard streams (src/src/cmd.c) *)
(* ===================================================================== *)

Lemma touches_only_ret {A : Type} fd (a : A) : touches_only fd (ret a).
Proof. intros w x w' H. inversion H. reflexivity. Qed.

Lemma touches_only_bind {A B : Type} fd (m : M A) (k : A -> M B) :
  touches_only fd m -> (forall a, touches_only fd (k a)) ->
  touches_only fd (bind m k).
Proof.
  intros Hm Hk w b w' H i Hi Hne.
  apply bind_inv_Return in H. destruct H as (a & w1 & E1 & E2).
  rewrite (Hk a w1 b w' E2 i Hi Hne). now apply (Hm w a w1 E1).
Qed.

Lemma touches_only_perror fd msg : touches_only fd (perror msg).
Proof. intros w x w' H. inversion H. reflexivity. Qed.

Lemma touches_only_printf fd text : touches_only fd (printf text).
Proof. intros w x w' H. inversion H. reflexivity. Qed.

Lemma touches_only_close fd : touches_only fd (close fd).
Proof.
  intros w x w' H i Hi Hne. unfold close in H.
  destruct (fds w !! fd); inversion H; subst; cbn [fds log set_fds].
  - now rewrite lookup_delete_ne.
  - reflexivity.
Qed.

Lemma touches_only_dup2 K fd d :
  ~ not_std d -> touches_only fd (dup2 K fd d).
Proof.
  intros Hd w x w' H i Hi Hne. unfold dup2 in H.
  destruct (fds w !! fd); [destruct (k_dup2 K w fd d && (0 <=? d))|];
    inversion H; subst; cbn [fds log set_fds]; try reflexivity.
  rewrite lookup_insert_ne; [reflexivity|]. intros ->. now apply Hd.
Qed.

Lemma std_is_std : ~ not_std STDIN_FILENO /\ ~ not_std STDOUT_FILENO
                   /\ ~ not_std STDERR_FILENO.
Proof. unfold not_std. repeat apply conj; intros (A & B & C); congruence. Qed.

Lemma touches_only_dup_fd K fd d :
  ~ not_std d -> touches_only fd (CmdC.dup_fd K fd d).
Proof.
  intros Hd. unfold CmdC.dup_fd.
  apply touches_only_bind; [now apply touches_only_dup2|].
  intros r. destruct (r =? -1); [|apply touches_only_ret].
  apply touches_only_bind; [apply touches_only_perror|]. intros _.
  apply touches_only_bind; [apply touches_only_close|]. intros _.
  apply touches_only_ret.
Qed.

Lemma leaves_closed_close fd {A : Type} (a : A) :
  leaves_closed fd (close fd ;;; ret a).
Proof.
  intros w x w' H. apply bind_inv_Return in H.
  destruct H as (r & w1 & E1 & E2). inversion E2; subst.
  unfold close in E1. destruct (fds w !! fd) eqn:E; inversion E1; subst;
    cbn [fds log set_fds].
  - apply lookup_delete_eq.
  - exact E.
Qed.

Lemma leaves_closed_bind {A B : Type} fd (m : M A) (k : A -> M B) :
  (forall a, leaves_closed fd (k a)) -> leaves_closed fd (bind m k).
Proof.
  intros Hk w b w' H. apply bind_inv_Return in H.
  destruct H as (a & w1 & E1 & E2). exact (Hk a w1 b w' E2).
Qed.

(** An [open], then calls that touch only the new descriptor and leave it
    closed: the other descriptors are as before. *)
Lemma keeps_others_open K path flags mode (k : Z -> M Z) (onfail : M Z) :
  keeps_fds onfail ->
  (forall fd, touches_only fd (k fd)) ->
  (forall fd, leaves_closed fd (k fd)) ->
  keeps_others (let* fd := open K path flags mode in
                if fd =? -1 then onfail else k fd).
Proof.
  intros Hf Ht Hc w r w' H i Hi.
  apply bind_inv_Return in H. destruct H as (fd & w1 & E1 & E2).
  unfold open in E1. destruct (k_open K w path flags).
  - inversion E1; subst fd w1. clear E1.
    assert (N : (lowest_free (fds w) =? -1) = false).
    { apply Z.eqb_neq. pose proof (lowest_free_nonneg (fds w)). lia. }
    rewrite N in E2.
    destruct (decide (i = lowest_free (fds w))) as [->|Hne].
    + rewrite (Hc _ _ _ _ E2). symmetry. apply lowest_free_free.
    + rewrite (Ht _ _ _ _ E2 i Hi Hne). cbn [fds log set_fds bump_serial].
      now rewrite lookup_insert_ne.
  - inversion E1; subst fd w1. clear E1.
    change (-1 =? -1) with true in E2. cbv iota in E2.
    now rewrite (Hf _ _ _ E2).
Qed.

Lemma keeps_fds_perror_ret msg (r : Z) : keeps_fds (perror msg ;;; ret r).
Proof. intros w x w' H. inversion H. reflexivity. Qed.

Lemma keeps_others_redirect K file d append :
  keeps_others (CmdC.redirect K file d append).
Proof.
  destruct std_is_std as (S0 & S1 & S2).
  unfold CmdC.redirect. destruct (d =? STDIN_FILENO).
  - apply keeps_others_open.
    + apply keeps_fds_perror_ret.
    + intros fd.
      apply touches_only_bind; [now apply touches_only_dup_fd|]. intros _.
      apply touches_only_bind; [apply touches_only_close|]. intros _.
      apply touches_only_ret.
    + intros fd. apply leaves_closed_bind. intros _.
      apply leaves_closed_close.
  - cbv zeta. apply keeps_others_open.
    + apply keeps_fds_perror_ret.
    + intros fd.
      apply touches_only_bind.
      { destruct (negb (Z.land d STDOUT_FILENO =? 0));
          [now apply touches_only_dup_fd | apply touches_only_ret]. }
      intros _. apply touches_only_bind.
      { destruct (negb (Z.land d STDERR_FILENO =? 0));
          [now apply touches_only_dup_fd | apply touches_only_ret]. }
      intros _.
      apply touches_only_bind; [apply touches_only_close|]. intros _.
      apply touches_only_ret.
    + intros fd. apply leaves_closed_bind. intros _.
      apply leaves_closed_bind. intros _. apply leaves_closed_close.
Qed.

Lemma keeps_others_ret {A : Type} (a : A) : keeps_others (ret a).
Proof. intros w x w' H. inversion H. reflexivity. Qed.

Lemma keeps_others_bind {A B : Type} (m : M A) (k : A -> M B) :
  keeps_others m -> (forall a, keeps_others (k a)) -> keeps_others (bind m k).
Proof.
  intros Hm Hk w b w' H i Hi.
  apply bind_inv_Return in H. destruct H as (a & w1 & E1 & E2).
  rewrite (Hk a w1 b w' E2 i Hi). now apply (Hm w a w1 E1).
Qed.

Lemma keeps_others_get_word X p : keeps_others (get_word X p).
Proof. intros w x w' H. inversion H. reflexivity. Qed.

Lemma keeps_others_apply_redirections K X s :
  keeps_others (CmdC.apply_redirections K X s).
Proof.
  unfold CmdC.apply_redirections.
  repeat first
    [ apply keeps_others_ret
    | apply keeps_others_redirect
    | apply keeps_others_get_word
    | apply keeps_others_bind; [| intros ]
    | match goal with
      | |- keeps_others (if ?c then _ else _) => destruct c
      | |- keeps_others (match ?x with _ => _ end) => destruct x
      end ].
Qed.

Lemma dup_true K fd f w :
  fds w !! fd = Some f -> k_dup K w fd = true ->
  dup K fd w
  = Return (lowest_free (fds w))
      (log (EvDup fd (lowest_free (fds w)))
         (set_fds (<[lowest_free (fds w) := f]> (fds w)) w)).
Proof. intros Hf Hk. unfold dup. now rewrite Hf, Hk. Qed.

Lemma saved_not_std t0 a b c f0 f1 f2 :
  saved_streams t0 a b c f0 f1 f2 -> not_std a /\ not_std b /\ not_std c.
Proof.
  intros [H0 H1 H2 Ha Hb Hc _ _ _]. unfold not_std.
  repeat apply conj; intros E; subst; congruence.
Qed.

Section SaveRestore.
Variable K : kernel.
Hypothesis dup_ok : forall w fd, k_dup K w fd = true.
Hypothesis dup2_ok : forall w a b, k_dup2 K w a b = true.

Lemma duplicate_saves w f0 f1 f2 :
  fds w !! STDIN_FILENO = Some f0 ->
  fds w !! STDOUT_FILENO = Some f1 ->
  fds w !! STDERR_FILENO = Some f2 ->
  exists a b c w1,
    CmdC.duplicate_file_descriptors K w = Return (a, b, c) w1
    /\ saved_streams (fds w) a b c f0 f1 f2
    /\ fds w1 = <[c := f2]> (<[b := f1]> (<[a := f0]> (fds w))).
Proof.
  intros H0 H1 H2. unfold CmdC.duplicate_file_descriptors.
  rewrite (bind_Return _ _ _ _ _ (dup_true K _ f0 w H0 (dup_ok _ _))).
  set (a := lowest_free (fds w)).
  set (wa := log _ _).
  assert (Fa : fds w !! a = None) by apply lowest_free_free.
  assert (Na : not_std a).
  { unfold not_std. repeat apply conj; intros E; rewrite E in Fa; congruence. }
  destruct Na as (Na0 & Na1 & Na2).
  assert (H1a : fds wa !! STDOUT_FILENO = Some f1).
  { unfold wa. cbn [fds log set_fds]. now rewrite lookup_insert_ne. }
  rewrite (bind_Return _ _ _ _ _ (dup_true K _ f1 wa H1a (dup_ok _ _))).
  set (b := lowest_free (fds wa)).
  set (wb := log _ _).
  assert (Fb : fds wa !! b = None) by apply lowest_free_free.
  assert (Hab : a <> b).
  { intros E. rewrite <- E in Fb. unfold wa in Fb. cbn [fds log set_fds] in Fb.
    rewrite lookup_insert_eq in Fb. discriminate. }
  assert (Fb0 : fds w !! b = None).
  { unfold wa in Fb. cbn [fds log set_fds] in Fb.
    now rewrite lookup_insert_ne in Fb. }
  assert (Nb : not_std b).
  { unfold not_std. repeat apply conj; intros E; rewrite E in Fb0; congruence. }
  destruct Nb as (Nb0 & Nb1 & Nb2).
  assert (H2b : fds wb !! STDERR_FILENO = Some f2).
  { unfold wb, wa. cbn [fds log set_fds].
    rewrite lookup_insert_ne by auto. now rewrite lookup_insert_ne. }
  rewrite (bind_Return _ _ _ _ _ (dup_true K _ f2 wb H2b (dup_ok _ _))).
  set (c := lowest_free (fds wb)).
  set (wc := log _ _).
  assert (Fc : fds wb !! c = None) by apply lowest_free_free.
  assert (Hbc : b <> c).
  { intros E. rewrite <- E in Fc. unfold wb in Fc. cbn [fds log set_fds] in Fc.
    rewrite lookup_insert_eq in Fc. discriminate. }
  assert (Fc1 : fds wa !! c = None).
  { unfold wb in Fc. cbn [fds log set_fds] in Fc.
    now rewrite lookup_insert_ne in Fc. }
  assert (Hac : a <> c).
  { intros E. rewrite <- E in Fc1. unfold wa in Fc1.
    cbn [fds log set_fds] in Fc1. rewrite lookup_insert_eq in Fc1.
    discriminate. }
  assert (Fc0 : fds w !! c = None).
  { unfold wa in Fc1. cbn [fds log set_fds] in Fc1.
    now rewrite lookup_insert_ne in Fc1. }
  assert (Ea : (a =? -1) = false).
  { apply Z.eqb_neq. pose proof (lowest_free_nonneg (fds w)). unfold a. lia. }
  assert (Eb : (b =? -1) = false).
  { apply Z.eqb_neq. pose proof (lowest_free_nonneg (fds wa)). unfold b. lia. }
  assert (Ec : (c =? -1) = false).
  { apply Z.eqb_neq. pose proof (lowest_free_nonneg (fds wb)). unfold c. lia. }
  rewrite Ea, Eb, Ec. cbn [orb].
  exists a, b, c, wc. split; [reflexivity|]. split.
  - now split.
  - reflexivity.
Qed.

Lemma restore_restores a b c f0 f1 f2 w :
  fds w !! a = Some f0 -> fds w !! b = Some f1 -> fds w !! c = Some f2 ->
  not_std a -> not_std b -> not_std c -> a <> b -> a <> c -> b <> c ->
  exists w',
    CmdC.restore_file_descriptors K a b c w = Return tt w'
    /\ fds w'
       = delete c (delete b (delete a
           (<[STDERR_FILENO := f2]>
              (<[STDOUT_FILENO := f1]> (<[STDIN_FILENO := f0]> (fds w)))))).
Proof.
  intros Ha Hb Hc (Na0 & Na1 & Na2) (Nb0 & Nb1 & Nb2) (Nc0 & Nc1 & Nc2)
    Hab Hac Hbc.
  unfold CmdC.restore_file_descriptors.
  rewrite (bind_Return _ _ _ _ _
             (dup_fd_true K a STDIN_FILENO f0 w Ha (dup2_ok _ _ _)
                ltac:(unfold STDIN_FILENO; lia))).
  set (w1 := log _ _).
  assert (Hb1 : fds w1 !! b = Some f1).
  { unfold w1. cbn [fds log set_fds]. now rewrite lookup_insert_ne by auto. }
  rewrite (bind_Return _ _ _ _ _
             (dup_fd_true K b STDOUT_FILENO f1 w1 Hb1 (dup2_ok _ _ _)
                ltac:(unfold STDOUT_FILENO; lia))).
  set (w2 := log _ _).
  assert (Hc2 : fds w2 !! c = Some f2).
  { unfold w2, w1. cbn [fds log set_fds].
    rewrite lookup_insert_ne by auto. now rewrite lookup_insert_ne by auto. }
  rewrite (bind_Return _ _ _ _ _
             (dup_fd_true K c STDERR_FILENO f2 w2 Hc2 (dup2_ok _ _ _)
                ltac:(unfold STDERR_FILENO; lia))).
  set (w3 := log _ _).
  assert (Ha3 : fds w3 !! a = Some f0).
  { unfold w3, w2, w1. cbn [fds log set_fds].
    rewrite !lookup_insert_ne by auto. exact Ha. }
  rewrite (bind_Return _ _ _ _ _ (close_true a f0 w3 Ha3)).
  set (w4 := log _ _).
  assert (Hb4 : fds w4 !! b = Some f1).
  { unfold w4, w3, w2, w1. cbn [fds log set_fds].
    rewrite lookup_delete_ne by auto.
    rewrite !lookup_insert_ne by auto. exact Hb. }
  rewrite (bind_Return _ _ _ _ _ (close_true b f1 w4 Hb4)).
  set (w5 := log _ _).
  assert (Hc5 : fds w5 !! c = Some f2).
  { unfold w5, w4, w3, w2, w1. cbn [fds log set_fds].
    rewrite !lookup_delete_ne by auto.
    rewrite !lookup_insert_ne by auto. exact Hc. }
  rewrite (bind_Return _ _ _ _ _ (close_true c f2 w5 Hc5)).
  eexists. split; reflexivity.
Qed.

(** Saving, then anything that leaves the saved descriptors alone, then
    restoring: the descriptor table is what it was. *)
Lemma restore_after_save t0 a b c f0 f1 f2 w3 :
  saved_streams t0 a b c f0 f1 f2 ->
  (forall k, not_std k ->
             fds w3 !! k = <[c := f2]> (<[b := f1]> (<[a := f0]> t0)) !! k) ->
  exists w',
    CmdC.restore_file_descriptors K a b c w3 = Return tt w'
    /\ fds w' = t0.
Proof.
  intros S Hk. destruct (saved_not_std _ _ _ _ _ _ _ S) as (Na & Nb & Nc).
  destruct S as [H0 H1 H2 Fa Fb Fc Hab Hac Hbc].
  assert (Ha : fds w3 !! a = Some f0).
  { rewrite (Hk a Na). rewrite !lookup_insert_ne by auto.
    apply lookup_insert_eq. }
  assert (Hb : fds w3 !! b = Some f1).
  { rewrite (Hk b Nb). rewrite lookup_insert_ne by auto.
    apply lookup_insert_eq. }
  assert (Hc : fds w3 !! c = Some f2).
  { rewrite (Hk c Nc). apply lookup_insert_eq. }
  destruct (restore_restores a b c f0 f1 f2 w3 Ha Hb Hc Na Nb Nc Hab Hac Hbc)
    as (w' & E & T).
  exists w'. split; [exact E|]. rewrite T. apply map_eq. intros k.
  destruct Na as (Na0 & Na1 & Na2).
  destruct Nb as (Nb0 & Nb1 & Nb2).
  destruct Nc as (Nc0 & Nc1 & Nc2).
  destruct (decide (k = c)) as [->|Kc]; [now rewrite lookup_delete_eq|].
  rewrite lookup_delete_ne by auto.
  destruct (decide (k = b)) as [->|Kb]; [now rewrite lookup_delete_eq|].
  rewrite lookup_delete_ne by auto.
  destruct (decide (k = a)) as [->|Ka]; [now rewrite lookup_delete_eq|].
  rewrite lookup_delete_ne by auto.
  destruct (decide (k = STDERR_FILENO)) as [->|K2];
    [now rewrite lookup_insert_eq|].
  rewrite lookup_insert_ne by auto.
  destruct (decide (k = STDOUT_FILENO)) as [->|K1];
    [now rewrite lookup_insert_eq|].
  rewrite lookup_insert_ne by auto.
  destruct (decide (k = STDIN_FILENO)) as [->|K0];
    [now rewrite lookup_insert_eq|].
  rewrite lookup_insert_ne by auto.
  rewrite (Hk k (conj K0 (conj K1 K2))).
  now rewrite !lookup_insert_ne by auto.
Qed.

End SaveRestore.

Lemma keeps_fds_shell_cd K X dir : keeps_fds (CmdC.shell_cd K X dir).
Proof.
  intros w b w' H. unfold CmdC.shell_cd in H.
  destruct dir as [d|]; [|inversion H; reflexivity].
  destruct (non_null (next_word d)); [inversion H; reflexivity|].
  destruct (shell_cd_one_arg K X "cd" (Some d) w)
    as (b0 & w1 & E & _ & Ht & Hf).
  rewrite E in H. inversion H; subst b0 w1. clear H.
  unfold bind, get_word, gets in E.
  destruct (chdir_ptr_cases K (x_get_word X (environ w) (Some d)) w)
    as [(p & dd & _ & _ & Ec) | (p & Ec)]; rewrite Ec in E;
    inversion E; reflexivity.
Qed.

Lemma keeps_fds_parse_environment_variable command :
  keeps_fds (CmdC.parse_environment_variable command).
Proof.
  intros w u w' H. unfold CmdC.parse_environment_variable in H.
  destruct command as [cmd|]; [|inversion H; reflexivity].
  destruct (strtok_r (Some cmd) "=" "") as [name saveptr].
  destruct (strtok_r None "=" saveptr) as [value rest].
  apply bind_inv_Return in H. destruct H as (r & w1 & E1 & E2).
  inversion E2; subst. unfold setenv in E1.
  destruct name as [n|]; [|discriminate]. destruct value as [v|]; [|discriminate].
  destruct (String.eqb n "" || has_char "=" n); inversion E1; reflexivity.
Qed.

Lemma keeps_fds_fork K child : keeps_fds (fork K child).
Proof.
  intros w pid w' H. apply fork_cases in H.
  destruct H as [[_ ->] | (st & evs & _ & ->)]; reflexivity.
Qed.

Lemma keeps_fds_waitpid pid : keeps_fds (waitpid pid).
Proof.
  intros w st w' H. apply waitpid_cases in H.
  destruct H as (evs & _ & ->). reflexivity.
Qed.

Section Restored.
Variable K : kernel.
Variable X : externs.
Hypothesis dup_ok : forall w fd, k_dup K w fd = true.
Hypothesis dup2_ok : forall w a b, k_dup2 K w a b = true.
Variables (s : simple_command_t) (level : Z) (father : option command_t).
Hypothesis redirections_ok :
  forall w1 r w2, CmdC.apply_redirections K X s w1 = Return r w2 -> r <> -1.

(** src/src/cmd.c: when the redirections do not fail, every return of
    [parse_simple] -- from [cd], from an assignment, from a failed [fork],
    from an external command -- finds the descriptor table as it was at the
    call. *)
Lemma cmdc_parse_simple_restores w v w' :
  is_Some (fds w !! STDIN_FILENO) ->
  is_Some (fds w !! STDOUT_FILENO) ->
  is_Some (fds w !! STDERR_FILENO) ->
  CmdC.parse_simple K X (Some s) level father w = Return v w' ->
  fds w' = fds w.
Proof.
  intros [f0 H0] [f1 H1] [f2 H2] H.
  unfold CmdC.parse_simple in H.
  rewrite (bind_Return _ _ _ _ _ (get_word_run X (verb s) w)) in H.
  rewrite (bind_Return _ _ _ _ _
             (eq_refl : get_argv X s w
                        = Return (x_get_argv X (environ w) s) w)) in H.
  destruct (duplicate_saves K dup_ok w f0 f1 f2 H0 H1 H2)
    as (a & b & c & w1 & E1 & S & T1).
  rewrite (bind_Return _ _ _ _ _ E1) in H. cbv iota beta in H.
  destruct (fd_call_apply_redirections K X s w1) as (r & w2 & E2 & _).
  rewrite (bind_Return _ _ _ _ _ E2) in H.
  assert (Er : (r =? -1) = false)
    by (apply Z.eqb_neq; eapply redirections_ok; eassumption).
  rewrite Er in H.
  assert (I2 : forall k, not_std k ->
                 fds w2 !! k
                 = <[c := f2]> (<[b := f1]> (<[a := f0]> (fds w))) !! k).
  { intros k Hk. rewrite <- T1.
    exact (keeps_others_apply_redirections K X s w1 r w2 E2 k Hk). }
  (* what remains is a call that leaves the table alone, then the restore *)
  assert (Fin : forall w3 u,
             fds w3 = fds w2 ->
             forall k : unit -> M Z,
             (forall w4, fds w4 = fds w -> k tt w4 = Return u w4
                         \/ exists e, k tt w4 = Return u (log e w4)) ->
             (CmdC.restore_file_descriptors K a b c ;;; k tt) w3 = Return v w' ->
             fds w' = fds w).
  { intros w3 u E3 k Hk Hr.
    destruct (restore_after_save K dup2_ok (fds w) a b c f0 f1 f2 w3 S)
      as (w4 & E4 & T4).
    { intros i Hi. rewrite E3. now apply I2. }
    rewrite (bind_Return _ _ _ _ _ E4) in Hr.
    destruct (Hk w4 T4) as [Ek | [e Ek]]; rewrite Ek in Hr;
      inversion Hr; subst; assumption. }
  destruct (x_get_word X (environ w) (verb s)) as [cmd|]; [|discriminate H].
  destruct ((strcmp cmd "exit" =? 0) || (strcmp cmd "quit" =? 0)).
  { apply bind_inv_Return in H. destruct H as (u & w3 & _ & H).
    discriminate H. }
  destruct (strcmp cmd "cd" =? 0).
  { apply bind_inv_Return in H. destruct H as (r0 & w3 & E3 & H).
    apply (Fin w3 (if r0 then 0 else 1)
             (keeps_fds_shell_cd K X _ _ _ _ E3)
             (fun _ => ret (if r0 then 0 else 1))); [|exact H].
    intros w4 _. now left. }
  destruct (non_null (strstr cmd "=")).
  { apply bind_inv_Return in H. destruct H as (u & w3 & E3 & H).
    apply (Fin w3 0
             (keeps_fds_parse_environment_variable _ _ _ _ E3)
             (fun _ => ret 0)); [|exact H].
    intros w4 _. now left. }
  apply bind_inv_Return in H. destruct H as (pid & w3 & E3 & H).
  pose proof (keeps_fds_fork K _ _ _ _ E3) as T3.
  destruct (pid =? -1).
  - apply (Fin w3 (-1) T3
             (fun _ => perror "fork" ;;; ret (-1))); [|exact H].
    intros w4 _. right. now exists (EvPerror "fork").
  - apply bind_inv_Return in H. destruct H as (st & w5 & E5 & H).
    pose proof (keeps_fds_waitpid _ _ _ _ E5) as T5.
    apply (Fin w5 (WEXITSTATUS st) (eq_trans T5 T3)
             (fun _ => ret (WEXITSTATUS st))); [|exact H].
    intros w4 _. now left.
Qed.

End Restored.

(* ===================================================================== *)
(** ** A failing input redirection ends the resolution *)
(* ===================================================================== *)

(** In both versions, when the input target cannot be opened,
    [apply_redirections] returns -1 after that one [open] and the [perror]:
    the output and error targets are not opened, and the descriptor table
    is untouched. *)
Lemma input_failure_short_circuits K X s w file :
  x_get_word X (environ w) (in_ s) = Some file ->
  k_open K w file O_RDONLY = false ->
  CmdC.apply_redirections K X s w
  = Return (-1) (log (EvPerror "open")
                   (log (EvOpen file O_RDONLY None (-1)) w))
  /\ Part000.apply_redirections K X s w
     = Return (-1) (log (EvPerror "open")
                      (log (EvOpen file O_RDONLY None (-1)) w)).
Proof.
  intros Hi Ho. split.
  - unfold CmdC.apply_redirections. cbv zeta.
    rewrite (bind_Return _ _ _ _ _ (get_word_run X (in_ s) w)), Hi.
    assert (E : CmdC.redirect K file STDIN_FILENO 0 w
                = Return (-1) (log (EvPerror "open")
                                 (log (EvOpen file O_RDONLY None (-1)) w))).
    { unfold CmdC.redirect.
      change (STDIN_FILENO =? STDIN_FILENO) with true. cbv iota.
      now rewrite (bind_Return _ _ _ _ _ (open_false K file O_RDONLY None w Ho)). }
    now rewrite (bind_Return _ _ _ _ _ E).
  - unfold Part000.apply_redirections. cbv zeta.
    rewrite (bind_Return _ _ _ _ _ (get_word_run X (in_ s) w)), Hi.
    assert (E : Part000.redirect_input K file w
                = Return (-1) (log (EvPerror "open")
                                 (log (EvOpen file O_RDONLY None (-1)) w))).
    { unfold Part000.redirect_input.
      now rewrite (bind_Return _ _ _ _ _ (open_false K file O_RDONLY None w Ho)). }
    now rewrite (bind_Return _ _ _ _ _ E).
Qed.

(* ===================================================================== *)
(** * Further properties of the two versions *)
(* ===================================================================== *)

(* ===================================================================== *)
(** ** Induction on command trees, and the equations of a node *)
(* ===================================================================== *)

Lemma command_tree_ind (P : command_t -> Prop) :
  (forall o sc c1 c2,
      on_child P c1 -> on_child P c2 -> P (Command o sc c1 c2)) ->
  forall c, P c.
Proof.
  intros H. fix IH 1. intros [o sc c1 c2]. apply H.
  - destruct c1 as [n|]; [apply IH | exact I].
  - destruct c2 as [n|]; [apply IH | exact I].
Qed.

Lemma cmdc_node_eq K X o sc c1 c2 level father :
  CmdC.parse_command K X (Some (Command o sc c1 c2)) level father =
  let c := Some (Command o sc c1 c2) in
  let pc := CmdC.parse_command K X in
  match o with
  | OP_NONE => CmdC.parse_simple K X sc level c
  | OP_SEQUENTIAL =>
      let* v := pc c1 (level + 1) c in
      let* v' := pc c2 (level + 1) c in ret v'
  | OP_PARALLEL =>
      let* ok := CmdC.run_in_parallel K pc c1 c2 (level + 1) c in
      ret (if ok : bool then 0 else 1)
  | OP_CONDITIONAL_NZERO =>
      let* v := pc c1 (level + 1) c in
      if negb (v =? 0) then let* v' := pc c2 (level + 1) c in ret v'
      else ret v
  | OP_CONDITIONAL_ZERO =>
      let* v := pc c1 (level + 1) c in
      if v =? 0 then let* v' := pc c2 (level + 1) c in ret v'
      else ret v
  | OP_PIPE =>
      let* ok := CmdC.run_on_pipe K pc c1 c2 (level + 1) c in
      ret (if ok : bool then 0 else 1)
  | OP_DUMMY => ret (SHELL_EXIT X)
  end.
Proof. destruct o; reflexivity. Qed.

Lemma part000_node_eq K X pea o sc c1 c2 level father :
  Part000.parse_command K X pea (Some (Command o sc c1 c2)) level father =
  let c := Some (Command o sc c1 c2) in
  let pc := Part000.parse_command K X pea in
  match o with
  | OP_NONE => Part000.parse_simple K X pea sc level c
  | OP_SEQUENTIAL =>
      let* v := pc c1 (level + 1) c in
      let* v' := pc c2 (level + 1) c in ret v'
  | OP_PARALLEL =>
      let* ok := Part000.run_in_parallel K pc c1 c2 (level + 1) c in
      ret (if ok : bool then 0 else 1)
  | OP_CONDITIONAL_NZERO =>
      let* v := pc c1 (level + 1) c in
      if negb (v =? 0) then let* v' := pc c2 (level + 1) c in ret v'
      else ret v
  | OP_CONDITIONAL_ZERO =>
      let* v := pc c1 (level + 1) c in
      if v =? 0 then let* v' := pc c2 (level + 1) c in ret v'
      else ret v
  | OP_PIPE =>
      let* ok := Part000.run_on_pipe K pc c1 c2 (level + 1) c in
      ret (if ok : bool then 0 else 1)
  | OP_DUMMY => ret (SHELL_EXIT X)
  end.
Proof. destruct o; reflexivity. Qed.

(* ===================================================================== *)
(** ** The nesting level and the parent pointer play no part *)
(* ===================================================================== *)

Lemma bind_ext {A B : Type} (m m' : M A) (k k' : A -> M B) w :
  m w = m' w -> (forall a w1, k a w1 = k' a w1) ->
  bind m k w = bind m' k' w.
Proof.
  intros Hm Hk. unfold bind. rewrite Hm.
  destruct (m' w) as [a w1| |]; auto.
Qed.

Lemma fork_ext K (child child' : M Empty_set) w :
  child (child_start w) = child' (child_start w) ->
  fork K child w = fork K child' w.
Proof. intros H. unfold fork. now rewrite H. Qed.

Section Extensional.
Variable K : kernel.
Variables pc pc' : evaluator.
Variables (c1 c2 : option command_t).
Variables (level level' : Z) (father father' : option command_t).
Hypothesis left_same :
  forall w, pc c1 (level + 1) father w = pc' c1 (level' + 1) father' w.
Hypothesis right_same :
  forall w, pc c2 (level + 1) father w = pc' c2 (level' + 1) father' w.

Lemma cmdc_run_in_parallel_ext w :
  CmdC.run_in_parallel K pc c1 c2 level father w
  = CmdC.run_in_parallel K pc' c1 c2 level' father' w.
Proof.
  unfold CmdC.run_in_parallel.
  apply bind_ext.
  { apply fork_ext, bind_ext; [apply left_same | reflexivity]. }
  intros pid1 w1. destruct (pid1 =? -1); [reflexivity|].
  apply bind_ext; [|reflexivity].
  apply fork_ext, bind_ext; [apply right_same | reflexivity].
Qed.

Lemma part000_run_in_parallel_ext w :
  Part000.run_in_parallel K pc c1 c2 level father w
  = Part000.run_in_parallel K pc' c1 c2 level' father' w.
Proof.
  unfold Part000.run_in_parallel.
  apply bind_ext.
  { apply fork_ext, bind_ext; [apply left_same | reflexivity]. }
  intros pid1 w1. destruct (pid1 =? -1); [reflexivity|].
  apply bind_ext; [|reflexivity].
  apply fork_ext, bind_ext; [apply right_same | reflexivity].
Qed.

Lemma run_on_pipe_ext w :
  CmdC.run_on_pipe K pc c1 c2 level father w
  = CmdC.run_on_pipe K pc' c1 c2 level' father' w.
Proof.
  unfold CmdC.run_on_pipe.
  apply bind_ext; [reflexivity|].
  intros [r [p0 p1]] w1. destruct (r =? -1); [reflexivity|].
  apply bind_ext.
  { apply fork_ext.
    apply bind_ext; [reflexivity | intros _ ?].
    apply bind_ext; [reflexivity | intros _ ?].
    apply bind_ext; [reflexivity | intros _ ?].
    apply bind_ext; [apply left_same | reflexivity]. }
  intros pid1 w2. destruct (pid1 =? -1); [reflexivity|].
  apply bind_ext; [|reflexivity].
  apply fork_ext.
  apply bind_ext; [reflexivity | intros _ ?].
  apply bind_ext; [reflexivity | intros _ ?].
  apply bind_ext; [reflexivity | intros _ ?].
  apply bind_ext; [apply right_same | reflexivity].
Qed.

End Extensional.

Lemma cmdc_level_father_irrelevant K X c :
  forall l f l' f' w,
    CmdC.parse_command K X c l f w = CmdC.parse_command K X c l' f' w.
Proof.
  destruct c as [n|]; [|reflexivity].
  induction n as [o sc c1 c2 H1 H2] using command_tree_ind.
  assert (E1 : forall l f l' f' w,
             CmdC.parse_command K X c1 l f w
             = CmdC.parse_command K X c1 l' f' w)
    by (destruct c1; [exact H1 | reflexivity]).
  assert (E2 : forall l f l' f' w,
             CmdC.parse_command K X c2 l f w
             = CmdC.parse_command K X c2 l' f' w)
    by (destruct c2; [exact H2 | reflexivity]).
  intros l f l' f' w. rewrite !cmdc_node_eq. cbv zeta.
  destruct o.
  - reflexivity.
  - apply bind_ext; [apply E1 | intros ? ?].
    apply bind_ext; [apply E2 | reflexivity].
  - apply bind_ext; [|reflexivity].
    apply cmdc_run_in_parallel_ext; intros ?; [apply E1 | apply E2].
  - apply bind_ext; [apply E1 | intros v ?].
    destruct (v =? 0); [|reflexivity].
    apply bind_ext; [apply E2 | reflexivity].
  - apply bind_ext; [apply E1 | intros v ?].
    destruct (negb (v =? 0)); [|reflexivity].
    apply bind_ext; [apply E2 | reflexivity].
  - apply bind_ext; [|reflexivity].
    apply run_on_pipe_ext; intros ?; [apply E1 | apply E2].
  - reflexivity.
Qed.

Lemma part000_level_father_irrelevant K X pea c :
  forall l f l' f' w,
    Part000.parse_command K X pea c l f w
    = Part000.parse_command K X pea c l' f' w.
Proof.
  destruct c as [n|]; [|reflexivity].
  induction n as [o sc c1 c2 H1 H2] using command_tree_ind.
  assert (E1 : forall l f l' f' w,
             Part000.parse_command K X pea c1 l f w
             = Part000.parse_command K X pea c1 l' f' w)
    by (destruct c1; [exact H1 | reflexivity]).
  assert (E2 : forall l f l' f' w,
             Part000.parse_command K X pea c2 l f w
             = Part000.parse_command K X pea c2 l' f' w)
    by (destruct c2; [exact H2 | reflexivity]).
  intros l f l' f' w. rewrite !part000_node_eq. cbv zeta.
  destruct o.
  - reflexivity.
  - apply bind_ext; [apply E1 | intros ? ?].
    apply bind_ext; [apply E2 | reflexivity].
  - apply bind_ext; [|reflexivity].
    apply part000_run_in_parallel_ext; intros ?; [apply E1 | apply E2].
  - apply bind_ext; [apply E1 | intros v ?].
    destruct (v =? 0); [|reflexivity].
    apply bind_ext; [apply E2 | reflexivity].
  - apply bind_ext; [apply E1 | intros v ?].
    destruct (negb (v =? 0)); [|reflexivity].
    apply bind_ext; [apply E2 | reflexivity].
  - apply bind_ext; [|reflexivity].
    apply run_on_pipe_ext; intros ?; [apply E1 | apply E2].
  - reflexivity.
Qed.

(** X1.  In both versions the outcome of evaluating a command tree does not
    depend on the nesting level or on the parent pointer that
    [parse_command] is called with: two calls on the same tree from the
    same process state agree, whatever these two arguments are. *)
Theorem level_and_father_play_no_part K X pea c l f l' f' w :
  CmdC.parse_command K X c l f w = CmdC.parse_command K X c l' f' w
  /\ Part000.parse_command K X pea c l f w
     = Part000.parse_command K X pea c l' f' w.
Proof.
  split.
  - apply cmdc_level_father_irrelevant.
  - apply part000_level_father_irrelevant.
Qed.

(* ===================================================================== *)
(** ** Sequencing composes *)
(* ===================================================================== *)

(** X2.  Sequencing is associative, in both versions: from any process
    state, the tree [(a ; b) ; c] and the tree [a ; (b ; c)] come to the
    same outcome -- the same status and end state, the same termination
    of the process, or both no defined behaviour. *)
Theorem sequential_is_associative K X pea a b c sc1 sc2 sc3 sc4 l f w :
  CmdC.parse_command K X
    (Some (Command OP_SEQUENTIAL sc1
             (Some (Command OP_SEQUENTIAL sc2 a b)) c)) l f w
  = CmdC.parse_command K X
      (Some (Command OP_SEQUENTIAL sc3 a
               (Some (Command OP_SEQUENTIAL sc4 b c)))) l f w
  /\ Part000.parse_command K X pea
       (Some (Command OP_SEQUENTIAL sc1
                (Some (Command OP_SEQUENTIAL sc2 a b)) c)) l f w
     = Part000.parse_command K X pea
         (Some (Command OP_SEQUENTIAL sc3 a
                  (Some (Command OP_SEQUENTIAL sc4 b c)))) l f w.
Proof.
  split.
  - rewrite !cmdc_node_eq. cbv zeta.
    rewrite (cmdc_node_eq K X OP_SEQUENTIAL sc2). cbv zeta.
    unfold bind, ret.
    match goal with
    | |- context [CmdC.parse_command K X a ?l1 ?f1 w] =>
        generalize (fun l' f' =>
                      cmdc_level_father_irrelevant K X a l1 f1 l' f' w)
    end.
    intros Ea.
    match goal with
    | |- _ = match CmdC.parse_command K X a ?l2 ?f2 w with _ => _ end =>
        rewrite <- (Ea l2 f2)
    end.
    destruct (CmdC.parse_command K X a _ _ w) as [va w1| |]; try reflexivity.
    rewrite (cmdc_node_eq K X OP_SEQUENTIAL sc4). cbv zeta. unfold bind, ret.
    match goal with
    | |- match match CmdC.parse_command K X b ?l1 ?f1 w1 with _ => _ end
         with _ => _ end = _ =>
        match goal with
        | |- _ = match match CmdC.parse_command K X b ?l2 ?f2 w1 with _ => _ end
                 with _ => _ end =>
            rewrite (cmdc_level_father_irrelevant K X b l1 f1 l2 f2 w1)
        end
    end.
    destruct (CmdC.parse_command K X b _ _ w1) as [vb w2| |]; try reflexivity.
    match goal with
    | |- match CmdC.parse_command K X c ?l1 ?f1 w2 with _ => _ end = _ =>
        match goal with
        | |- _ = match match CmdC.parse_command K X c ?l2 ?f2 w2 with _ => _ end
                 with _ => _ end =>
            rewrite (cmdc_level_father_irrelevant K X c l1 f1 l2 f2 w2)
        end
    end.
    destruct (CmdC.parse_command K X c _ _ w2) as [vc w3| |]; reflexivity.
  - rewrite !part000_node_eq. cbv zeta.
    rewrite (part000_node_eq K X pea OP_SEQUENTIAL sc2). cbv zeta.
    unfold bind, ret.
    match goal with
    | |- context [Part000.parse_command K X pea a ?l1 ?f1 w] =>
        generalize (fun l' f' =>
                      part000_level_father_irrelevant K X pea a l1 f1 l' f' w)
    end.
    intros Ea.
    match goal with
    | |- _ = match Part000.parse_command K X pea a ?l2 ?f2 w with _ => _ end =>
        rewrite <- (Ea l2 f2)
    end.
    destruct (Part000.parse_command K X pea a _ _ w) as [va w1| |];
      try reflexivity.
    rewrite (part000_node_eq K X pea OP_SEQUENTIAL sc4). cbv zeta.
    unfold bind, ret.
    match goal with
    | |- match match Part000.parse_command K X pea b ?l1 ?f1 w1 with _ => _ end
         with _ => _ end = _ =>
        match goal with
        | |- _ = match match Part000.parse_command K X pea b ?l2 ?f2 w1
                         with _ => _ end
                 with _ => _ end =>
            rewrite (part000_level_father_irrelevant K X pea b l1 f1 l2 f2 w1)
        end
    end.
    destruct (Part000.parse_command K X pea b _ _ w1) as [vb w2| |];
      try reflexivity.
    match goal with
    | |- match Part000.parse_command K X pea c ?l1 ?f1 w2 with _ => _ end = _ =>
        match goal with
        | |- _ = match match Part000.parse_command K X pea c ?l2 ?f2 w2
                         with _ => _ end
                 with _ => _ end =>
            rewrite (part000_level_father_irrelevant K X pea c l1 f1 l2 f2 w2)
        end
    end.
    destruct (Part000.parse_command K X pea c _ _ w2) as [vc w3| |];
      reflexivity.
Qed.

(* ===================================================================== *)
(** ** The range of the statuses *)
(* ===================================================================== *)

Lemma WEXITSTATUS_range st : 0 <= WEXITSTATUS st <= 255.
Proof.
  unfold WEXITSTATUS.
  assert (E : forall x, Z.land x 255 = x mod 256).
  { intros x. change 255 with (Z.ones 8). now rewrite Z.land_ones by lia. }
  rewrite E. pose proof (Z.mod_pos_bound (Z.shiftr st 8) 256 eq_refl). lia.
Qed.

Lemma cmdc_parse_simple_range K X s level father w v w' :
  CmdC.parse_simple K X s level father w = Return v w' -> -1 <= v <= 255.
Proof.
  intros H. destruct s as [s|]; [|inversion H; lia].
  unfold CmdC.parse_simple in H.
  apply bind_inv_Return in H. destruct H as (cmd & w1 & _ & H).
  apply bind_inv_Return in H. destruct H as (argv & w2 & _ & H).
  apply bind_inv_Return in H. destruct H as ([[a b] c] & w3 & _ & H).
  cbv iota beta in H.
  apply bind_inv_Return in H. destruct H as (r & w4 & _ & H).
  destruct (r =? -1); [inversion H; lia|].
  destruct cmd as [cmd|]; [|discriminate H].
  destruct ((strcmp cmd "exit" =? 0) || (strcmp cmd "quit" =? 0)).
  { apply bind_inv_Return in H. destruct H as (u & w5 & _ & H).
    discriminate H. }
  destruct (strcmp cmd "cd" =? 0).
  { apply bind_inv_Return in H. destruct H as (ok & w5 & _ & H).
    apply bind_inv_Return in H. destruct H as (u & w6 & _ & H).
    inversion H. destruct ok; lia. }
  destruct (non_null (strstr cmd "=")).
  { apply bind_inv_Return in H. destruct H as (u & w5 & _ & H).
    apply bind_inv_Return in H. destruct H as (u' & w6 & _ & H).
    inversion H. lia. }
  apply bind_inv_Return in H. destruct H as (pid & w5 & _ & H).
  destruct (pid =? -1).
  - apply bind_inv_Return in H. destruct H as (u & w6 & _ & H).
    apply bind_inv_Return in H. destruct H as (u' & w7 & _ & H).
    inversion H. lia.
  - apply bind_inv_Return in H. destruct H as (st & w6 & _ & H).
    apply bind_inv_Return in H. destruct H as (u & w7 & _ & H).
    inversion H. pose proof (WEXITSTATUS_range st). lia.
Qed.

Lemma part000_parse_simple_range K X pea s level father w v w' :
  Part000.parse_simple K X pea s level father w = Return v w' ->
  -1 <= v <= 255.
Proof.
  intros H. destruct s as [s|]; [|discriminate H].
  unfold Part000.parse_simple in H.
  apply bind_inv_Return in H. destruct H as (cmd & w1 & _ & H).
  apply bind_inv_Return in H. destruct H as (argv & w2 & _ & H).
  apply bind_inv_Return in H. destruct H as ([[a b] c] & w3 & _ & H).
  cbv iota beta in H.
  apply bind_inv_Return in H. destruct H as (r & w4 & _ & H).
  destruct (r =? -1); [inversion H; lia|].
  destruct cmd as [cmd|]; [|discriminate H].
  destruct ((strcmp cmd "exit" =? 0) || (strcmp cmd "quit" =? 0)).
  { discriminate H. }
  destruct (strcmp cmd "cd" =? 0).
  { apply bind_inv_Return in H. destruct H as (ok & w5 & _ & H).
    apply bind_inv_Return in H. destruct H as (u & w6 & _ & H).
    inversion H. destruct ok; lia. }
  destruct (non_null (strstr cmd "=")).
  { apply bind_inv_Return in H. destruct H as (u & w5 & _ & H).
    inversion H. lia. }
  apply bind_inv_Return in H. destruct H as (pid & w5 & _ & H).
  destruct (pid =? -1).
  - apply bind_inv_Return in H. destruct H as (u & w6 & _ & H).
    inversion H. lia.
  - apply bind_inv_Return in H. destruct H as (st & w6 & _ & H).
    apply bind_inv_Return in H. destruct H as (u & w7 & _ & H).
    inversion H. pose proof (WEXITSTATUS_range st). lia.
Qed.

Lemma flag_in_range {X} (m : M bool) w v w' :
  (let* ok := m in ret (if ok : bool then 0 else 1)) w = Return v w' ->
  status_in_range X v.
Proof.
  intros H. apply bind_inv_Return in H. destruct H as (ok & w1 & _ & H).
  inversion H. left. destruct ok; lia.
Qed.

Lemma cmdc_status_range K X c :
  forall l f w v w',
    CmdC.parse_command K X c l f w = Return v w' -> status_in_range X v.
Proof.
  destruct c as [n|]; [|intros l f w v w' H; inversion H; left; lia].
  induction n as [o sc c1 c2 H1 H2] using command_tree_ind.
  assert (E1 : forall l f w v w',
             CmdC.parse_command K X c1 l f w = Return v w' ->
             status_in_range X v).
  { destruct c1; [exact H1|]. intros l f w v w' H. inversion H. left. lia. }
  assert (E2 : forall l f w v w',
             CmdC.parse_command K X c2 l f w = Return v w' ->
             status_in_range X v).
  { destruct c2; [exact H2|]. intros l f w v w' H. inversion H. left. lia. }
  intros l f w v w' H. rewrite cmdc_node_eq in H. cbv zeta in H.
  destruct o.
  - left. eapply cmdc_parse_simple_range. exact H.
  - apply bind_inv_Return in H. destruct H as (v1 & w1 & _ & H).
    apply bind_inv_Return in H. destruct H as (v2 & w2 & E & H).
    inversion H; subst. eapply E2. exact E.
  - eapply flag_in_range. exact H.
  - apply bind_inv_Return in H. destruct H as (v1 & w1 & E & H).
    destruct (v1 =? 0).
    + apply bind_inv_Return in H. destruct H as (v2 & w2 & E' & H).
      inversion H; subst. eapply E2. exact E'.
    + inversion H; subst. eapply E1. exact E.
  - apply bind_inv_Return in H. destruct H as (v1 & w1 & E & H).
    destruct (negb (v1 =? 0)).
    + apply bind_inv_Return in H. destruct H as (v2 & w2 & E' & H).
      inversion H; subst. eapply E2. exact E'.
    + inversion H; subst. eapply E1. exact E.
  - eapply flag_in_range. exact H.
  - inversion H. right. reflexivity.
Qed.

Lemma part000_status_range K X pea c :
  forall l f w v w',
    Part000.parse_command K X pea c l f w = Return v w' ->
    status_in_range X v.
Proof.
  destruct c as [n|]; [|intros l f w v w' H; discriminate H].
  induction n as [o sc c1 c2 H1 H2] using command_tree_ind.
  assert (E1 : forall l f w v w',
             Part000.parse_command K X pea c1 l f w = Return v w' ->
             status_in_range X v).
  { destruct c1; [exact H1|]. intros l f w v w' H. discriminate H. }
  assert (E2 : forall l f w v w',
             Part000.parse_command K X pea c2 l f w = Return v w' ->
             status_in_range X v).
  { destruct c2; [exact H2|]. intros l f w v w' H. discriminate H. }
  intros l f w v w' H. rewrite part000_node_eq in H. cbv zeta in H.
  destruct o.
  - left. eapply part000_parse_simple_range. exact H.
  - apply bind_inv_Return in H. destruct H as (v1 & w1 & _ & H).
    apply bind_inv_Return in H. destruct H as (v2 & w2 & E & H).
    inversion H; subst. eapply E2. exact E.
  - eapply flag_in_range. exact H.
  - apply bind_inv_Return in H. destruct H as (v1 & w1 & E & H).
    destruct (v1 =? 0).
    + apply bind_inv_Return in H. destruct H as (v2 & w2 & E' & H).
      inversion H; subst. eapply E2. exact E'.
    + inversion H; subst. eapply E1. exact E.
  - apply bind_inv_Return in H. destruct H as (v1 & w1 & E & H).
    destruct (negb (v1 =? 0)).
    + apply bind_inv_Return in H. destruct H as (v2 & w2 & E' & H).
      inversion H; subst. eapply E2. exact E'.
    + inversion H; subst. eapply E1. exact E.
  - eapply flag_in_range. exact H.
  - inversion H. right. reflexivity.
Qed.

(** X3.  In both versions, whenever the evaluation of a command tree
    returns, the status it returns is -1, a value from 0 to 255, or the
    value of [SHELL_EXIT] (which only a node with an operator the evaluator
    does not know yields); for a leaf, that is for [parse_simple], it is -1
    or a value from 0 to 255. *)
Theorem status_is_minus_one_a_byte_or_shell_exit
    K X pea c sc l f w v w' :
  (CmdC.parse_command K X c l f w = Return v w' -> status_in_range X v)
  /\ (Part000.parse_command K X pea c l f w = Return v w' ->
      status_in_range X v)
  /\ (CmdC.parse_simple K X sc l f w = Return v w' -> -1 <= v <= 255)
  /\ (Part000.parse_simple K X pea sc l f w = Return v w' ->
      -1 <= v <= 255).
Proof.
  repeat apply conj.
  - apply cmdc_status_range.
  - apply part000_status_range.
  - apply cmdc_parse_simple_range.
  - apply part000_parse_simple_range.
Qed.

Lemma status_range_witness :
  let c := Some (Command OP_SEQUENTIAL None (Samples.run 2) (Samples.run 3)) in
  let a := CmdC.parse_command Samples.K0 Samples.X0 c 0 None Samples.w0 in
  a = Return 2 (final a Samples.w0) /\ status_in_range Samples.X0 2.
Proof.
  intros c a.
  assert (Ea : a = Return 2 (final a Samples.w0)) by (vm_compute; reflexivity).
  split; [exact Ea|].
  exact (proj1 (status_is_minus_one_a_byte_or_shell_exit
                  Samples.K0 Samples.X0 Samples.parse_env_assignment
                  c None 0 None Samples.w0 2 (final a Samples.w0)) Ea).
Defined.

(* ===================================================================== *)
(** ** The exit built-in *)
(* ===================================================================== *)

Section ExitBuiltin.
Variable K : kernel.
Variable X : externs.
Variable pea : string -> M unit.
Variables (s : simple_command_t) (level : Z) (father : option command_t).
Variable w : world.
Variable cmd : string.
Hypothesis verb_is : x_get_word X (environ w) (verb s) = Some cmd.
Hypothesis exit_or_quit : cmd = "exit" \/ cmd = "quit".

Lemma exit_test :
  (strcmp cmd "exit" =? 0) || (strcmp cmd "quit" =? 0) = true.
Proof.
  rewrite !strcmp_eqb. destruct exit_or_quit as [-> | ->]; reflexivity.
Qed.

Lemma cmdc_exit_run :
  (forall w1 r w2, CmdC.apply_redirections K X s w1 = Return r w2 -> r <> -1) ->
  exists w' evs,
    CmdC.parse_simple K X (Some s) level father w
    = Terminated (exited (SHELL_EXIT X)) w'
    /\ trace w' = (EvExit (SHELL_EXIT X) :: evs ++ trace w)%list
    /\ environ w' = environ w /\ cwd w' = cwd w.
Proof.
  intros Hredir. unfold CmdC.parse_simple.
  assert (E0 : get_word X (verb s) w = Return (Some cmd) w)
    by (unfold get_word, gets; now rewrite verb_is).
  rewrite (bind_Return _ _ _ _ _ E0).
  rewrite (bind_Return _ _ _ _ _
             (eq_refl : get_argv X s w
                        = Return (x_get_argv X (environ w) s) w)).
  destruct (fd_call_duplicate K w) as ([[a b] c] & w1 & E1 & F1).
  rewrite (bind_Return _ _ _ _ _ E1).
  destruct (fd_call_apply_redirections K X s w1) as (r & w2 & E2 & F2).
  rewrite (bind_Return _ _ _ _ _ E2).
  assert (Er : (r =? -1) = false) by (apply Z.eqb_neq; eauto).
  rewrite Er, exit_test.
  destruct (fd_call_restore K a b c w2) as ([] & w3 & E3 & F3).
  rewrite (bind_Return _ _ _ _ _ E3).
  assert (F : frame w w3)
    by (eapply frame_trans; [eapply frame_trans|]; eassumption).
  destruct (frame_trace _ _ F) as (evs & T).
  exists (log (EvExit (SHELL_EXIT X)) w3), evs.
  split; [reflexivity|]. cbn [trace environ cwd log]. rewrite T.
  split; [reflexivity|].
  split; [apply (frame_environ _ _ F) | apply (frame_cwd _ _ F)].
Qed.

Lemma part000_exit_run :
  (forall w1 r w2,
      Part000.apply_redirections K X s w1 = Return r w2 -> r <> -1) ->
  exists w' evs,
    Part000.parse_simple K X pea (Some s) level father w
    = Terminated (exited 0) w'
    /\ trace w' = (EvExit 0 :: evs ++ trace w)%list
    /\ environ w' = environ w /\ cwd w' = cwd w.
Proof.
  intros Hredir. unfold Part000.parse_simple.
  assert (E0 : get_word X (verb s) w = Return (Some cmd) w)
    by (unfold get_word, gets; now rewrite verb_is).
  rewrite (bind_Return _ _ _ _ _ E0).
  rewrite (bind_Return _ _ _ _ _
             (eq_refl : get_argv X s w
                        = Return (x_get_argv X (environ w) s) w)).
  destruct (fd_call_duplicate' K w) as ([[a b] c] & w1 & E1 & F1).
  rewrite (bind_Return _ _ _ _ _ E1).
  destruct (fd_call_apply_redirections' K X s w1) as (r & w2 & E2 & F2).
  rewrite (bind_Return _ _ _ _ _ E2).
  assert (Er : (r =? -1) = false) by (apply Z.eqb_neq; eauto).
  rewrite Er, exit_test.
  assert (F : frame w w2) by (eapply frame_trans; eassumption).
  destruct (frame_trace _ _ F) as (evs & T).
  exists (log (EvExit 0) w2), evs.
  split; [reflexivity|]. cbn [trace environ cwd log]. rewrite T.
  split; [reflexivity|].
  split; [apply (frame_environ _ _ F) | apply (frame_cwd _ _ F)].
Qed.

End ExitBuiltin.

(** X4.  A simple command whose verb is [exit] or [quit], and whose
    redirections do not fail, ends the shell process, whatever its
    arguments: in src/src/cmd.c with [exit(SHELL_EXIT)], in
    src/unnamed/part_000 with [exit(0)].  The call to [exit] is the last
    thing the process does, and it made no change to the environment or to
    the working directory before. *)
Theorem exit_or_quit_ends_the_process K X pea s level father w cmd :
  x_get_word X (environ w) (verb s) = Some cmd ->
  cmd = "exit" \/ cmd = "quit" ->
  ((forall w1 r w2,
       CmdC.apply_redirections K X s w1 = Return r w2 -> r <> -1) ->
   exists w' evs,
     CmdC.parse_simple K X (Some s) level father w
     = Terminated (exited (SHELL_EXIT X)) w'
     /\ trace w' = (EvExit (SHELL_EXIT X) :: evs ++ trace w)%list
     /\ environ w' = environ w /\ cwd w' = cwd w)
  /\ ((forall w1 r w2,
          Part000.apply_redirections K X s w1 = Return r w2 -> r <> -1) ->
      exists w' evs,
        Part000.parse_simple K X pea (Some s) level father w
        = Terminated (exited 0) w'
        /\ trace w' = (EvExit 0 :: evs ++ trace w)%list
        /\ environ w' = environ w /\ cwd w' = cwd w).
Proof.
  intros Hv He. split; intros Hr.
  - exact (cmdc_exit_run K X s level father w cmd Hv He Hr).
  - exact (part000_exit_run K X pea s level father w cmd Hv He Hr).
Qed.

Lemma more_no_redirection_a K X (v : positive) ps w1 r w2 :
  x_get_word X (environ w1) None = None ->
  CmdC.apply_redirections K X (Samples.simple v ps None None None 0) w1
  = Return r w2 -> r <> -1.
Proof.
  intros Hn H. unfold CmdC.apply_redirections, get_word, gets, bind in H.
  cbn [in_ out err Samples.simple non_null andb] in H. rewrite Hn in H.
  inversion H. discriminate.
Qed.

Lemma more_no_redirection_b K X (v : positive) ps w1 r w2 :
  x_get_word X (environ w1) None = None ->
  Part000.apply_redirections K X (Samples.simple v ps None None None 0) w1
  = Return r w2 -> r <> -1.
Proof.
  intros Hn H. unfold Part000.apply_redirections, get_word, gets, bind in H.
  cbn [in_ out err Samples.simple non_null andb] in H. rewrite Hn in H.
  inversion H. discriminate.
Qed.

Lemma exit_or_quit_witness :
  let s := Samples.simple 21 (Samples.wd 7) None None None 0 in
  (exists w' evs,
      CmdC.parse_simple Samples.K0 More.X1 (Some s) 0 None Samples.w0
      = Terminated (exited (-100)) w'
      /\ trace w' = (EvExit (-100) :: evs ++ trace Samples.w0)%list
      /\ environ w' = environ Samples.w0 /\ cwd w' = cwd Samples.w0)
  /\ (exists w' evs,
         Part000.parse_simple Samples.K0 More.X1 Samples.parse_env_assignment
           (Some s) 0 None Samples.w0
         = Terminated (exited 0) w'
         /\ trace w' = (EvExit 0 :: evs ++ trace Samples.w0)%list
         /\ environ w' = environ Samples.w0 /\ cwd w' = cwd Samples.w0).
Proof.
  intros s.
  destruct (exit_or_quit_ends_the_process Samples.K0 More.X1
              Samples.parse_env_assignment s 0 None Samples.w0 "quit"
              eq_refl (or_intror eq_refl)) as [A B].
  split.
  - apply A. intros w1 r w2. now apply more_no_redirection_a.
  - apply B. intros w1 r w2. now apply more_no_redirection_b.
Defined.

(* ===================================================================== *)
(** ** The status of an external command *)
(* ===================================================================== *)

Lemma WEXITSTATUS_signalled st : 0 <= st < 256 -> WEXITSTATUS st = 0.
Proof.
  intros H. unfold WEXITSTATUS. rewrite Z.shiftr_div_pow2 by lia.
  change (2 ^ 8) with 256. now rewrite Z.div_small by lia.
Qed.

(** X5.  An external command whose program runs and ends by calling
    [exit(n)] returns [n mod 256] to the caller of [parse_simple], in both
    versions (processes to be had, redirections not failing); the child's
    only call is the [execvp], and the parent has waited for it. *)
Theorem external_command_status_is_exit_code K X pea s level father w cmd n :
  x_get_word X (environ w) (verb s) = Some cmd ->
  external_verb cmd ->
  (forall w', k_fork K w' = true) ->
  (forall w', k_execvp K w' cmd (x_get_argv X (environ w) s)
              = Some (exited n)) ->
  let argv := x_get_argv X (environ w) s in
  ((forall w1 r w2,
       CmdC.apply_redirections K X s w1 = Return r w2 -> r <> -1) ->
   exists w' pid evs,
     CmdC.parse_simple K X (Some s) level father w = Return (n mod 256) w'
     /\ trace w' = (evs ++ trace w)%list
     /\ In (EvWaitpid pid (exited n) [EvExecvp cmd argv 0]) evs)
  /\ ((forall w1 r w2,
          Part000.apply_redirections K X s w1 = Return r w2 -> r <> -1) ->
      exists w' pid evs,
        Part000.parse_simple K X pea (Some s) level father w
        = Return (n mod 256) w'
        /\ trace w' = (evs ++ trace w)%list
        /\ In (EvWaitpid pid (exited n) [EvExecvp cmd argv 0]) evs).
Proof.
  intros Hv He Hf Hx argv. rewrite <- WEXITSTATUS_exited. split; intros Hr.
  - exact (cmdc_external_run K X s level father w cmd Hv He Hf
             (Some (exited n)) Hx Hr).
  - exact (part000_external_run K X s level father w cmd Hv He Hf
             (Some (exited n)) Hx pea Hr).
Qed.

Lemma external_command_witness :
  let s := Samples.simple 3 None None None None 0 in
  (exists w' pid evs,
      CmdC.parse_simple Samples.K0 Samples.X0 (Some s) 0 None Samples.w0
      = Return (2 mod 256) w'
      /\ trace w' = (evs ++ trace Samples.w0)%list
      /\ In (EvWaitpid pid (exited 2) [EvExecvp "two" ["two"] 0]) evs)
  /\ (exists w' pid evs,
         Part000.parse_simple Samples.K0 Samples.X0
           Samples.parse_env_assignment (Some s) 0 None Samples.w0
         = Return (2 mod 256) w'
         /\ trace w' = (evs ++ trace Samples.w0)%list
         /\ In (EvWaitpid pid (exited 2) [EvExecvp "two" ["two"] 0]) evs).
Proof.
  intros s.
  destruct (external_command_status_is_exit_code Samples.K0 Samples.X0
              Samples.parse_env_assignment s 0 None Samples.w0 "two" 2
              eq_refl external_two (fun _ => eq_refl) (fun _ => eq_refl))
    as [A B].
  split.
  - apply A. intros w1 r w2. now apply more_no_redirection_a.
  - apply B. intros w1 r w2. now apply more_no_redirection_b.
Defined.

(** X6.  The status of an external command is read with [WEXITSTATUS]
    without asking how the child ended.  When the program is ended by a
    signal -- its wait status [st] is below 256, the exit-code byte being
    zero -- [parse_simple] returns 0, the status of success, in both
    versions. *)
Theorem signalled_program_is_reported_as_success
    K X pea s level father w cmd st :
  x_get_word X (environ w) (verb s) = Some cmd ->
  external_verb cmd ->
  (forall w', k_fork K w' = true) ->
  (forall w', k_execvp K w' cmd (x_get_argv X (environ w) s) = Some st) ->
  0 <= st < 256 ->
  ((forall w1 r w2,
       CmdC.apply_redirections K X s w1 = Return r w2 -> r <> -1) ->
   exists w' pid evs,
     CmdC.parse_simple K X (Some s) level father w = Return 0 w'
     /\ trace w' = (evs ++ trace w)%list
     /\ In (EvWaitpid pid st
              [EvExecvp cmd (x_get_argv X (environ w) s) 0]) evs)
  /\ ((forall w1 r w2,
          Part000.apply_redirections K X s w1 = Return r w2 -> r <> -1) ->
      exists w' pid evs,
        Part000.parse_simple K X pea (Some s) level father w = Return 0 w'
        /\ trace w' = (evs ++ trace w)%list
        /\ In (EvWaitpid pid st
                 [EvExecvp cmd (x_get_argv X (environ w) s) 0]) evs).
Proof.
  intros Hv He Hf Hx Hs. split; intros Hr.
  - pose proof (cmdc_external_run K X s level father w cmd Hv He Hf
                  (Some st) Hx Hr) as H.
    cbn [child_status child_log] in H.
    rewrite (WEXITSTATUS_signalled st Hs) in H. exact H.
  - pose proof (part000_external_run K X s level father w cmd Hv He Hf
                  (Some st) Hx pea Hr) as H.
    cbn [child_status child_log] in H.
    rewrite (WEXITSTATUS_signalled st Hs) in H. exact H.
Qed.

Lemma external_crash : external_verb "crash".
Proof. repeat apply conj; [discriminate..|reflexivity]. Qed.

Lemma signalled_program_witness :
  let s := Samples.simple 22 None None None None 0 in
  (exists w' pid evs,
      CmdC.parse_simple More.K1 More.X1 (Some s) 0 None Samples.w0
      = Return 0 w'
      /\ trace w' = (evs ++ trace Samples.w0)%list
      /\ In (EvWaitpid pid 11 [EvExecvp "crash" ["crash"] 0]) evs)
  /\ (exists w' pid evs,
         Part000.parse_simple More.K1 More.X1 Samples.parse_env_assignment
           (Some s) 0 None Samples.w0 = Return 0 w'
         /\ trace w' = (evs ++ trace Samples.w0)%list
         /\ In (EvWaitpid pid 11 [EvExecvp "crash" ["crash"] 0]) evs).
Proof.
  intros s.
  destruct (signalled_program_is_reported_as_success More.K1 More.X1
              Samples.parse_env_assignment s 0 None Samples.w0 "crash" 11
              eq_refl external_crash (fun _ => eq_refl) (fun _ => eq_refl)
              ltac:(lia))
    as [A B].
  split.
  - apply A. intros w1 r w2. now apply more_no_redirection_a.
  - apply B. intros w1 r w2. now apply more_no_redirection_b.
Defined.

(* ===================================================================== *)
(** ** Branches run in children: what the shell itself keeps *)
(* ===================================================================== *)

Lemma isolated_ret {A : Type} (a : A) : isolated (ret a).
Proof. intros w. split; reflexivity. Qed.

Lemma isolated_bind {A B : Type} (m : M A) (k : A -> M B) :
  isolated m -> (forall a, isolated (k a)) -> isolated (bind m k).
Proof.
  intros Hm Hk w. unfold bind. specialize (Hm w).
  destruct (m w) as [a w1| |]; [|exact Hm|exact I].
  specialize (Hk a w1). destruct (k a w1) as [b w2| |]; [|exact Hk|exact I].
  destruct Hm as [E1 C1], Hk as [E2 C2]. split; congruence.
Qed.

Lemma isolated_fd_call {A : Type} (m : M A) : fd_call m -> isolated m.
Proof.
  intros H w. destruct (H w) as (a & w' & E & F). rewrite E.
  split; [apply (frame_environ _ _ F) | apply (frame_cwd _ _ F)].
Qed.

Lemma isolated_fork K child : isolated (fork K child).
Proof.
  intros w. unfold fork. destruct (k_fork K w).
  - destruct (child (child_start w)) as [[]|st wc|]; [|exact I].
    split; reflexivity.
  - split; reflexivity.
Qed.

Lemma isolated_waitpid pid : isolated (waitpid pid).
Proof.
  intros w. unfold waitpid. destruct (procs w !! pid) as [[st evs]|]; [|exact I].
  split; reflexivity.
Qed.

Lemma isolated_pipe K : isolated (pipe K).
Proof.
  intros w. unfold pipe. destruct (k_pipe K w); split; reflexivity.
Qed.

Ltac isolated_calls :=
  repeat first
    [ apply isolated_ret
    | apply isolated_fork
    | apply isolated_waitpid
    | apply isolated_pipe
    | apply isolated_bind; [| intros ]
    | match goal with
      | |- isolated (if ?c then _ else _) => destruct c
      | |- isolated (let (_, _) := ?x in _) => destruct x
      end
    | solve [ apply isolated_fd_call; eauto with fdcall ] ].

Lemma isolated_run_in_parallel_a K pc c1 c2 l f :
  isolated (CmdC.run_in_parallel K pc c1 c2 l f).
Proof. unfold CmdC.run_in_parallel. isolated_calls. Qed.

Lemma isolated_run_in_parallel_b K pc c1 c2 l f :
  isolated (Part000.run_in_parallel K pc c1 c2 l f).
Proof. unfold Part000.run_in_parallel. isolated_calls. Qed.

Lemma isolated_run_on_pipe K pc c1 c2 l f :
  isolated (CmdC.run_on_pipe K pc c1 c2 l f).
Proof. unfold CmdC.run_on_pipe. isolated_calls. Qed.

(** X7.  What runs in the branches of a Parallel or Pipe node runs in
    children.  In both versions such a node never ends the shell's own
    process -- an [exit] in a branch ends a child -- and whenever it
    returns, the shell's environment and working directory are what they
    were before: a [cd] or an assignment in a branch has no effect on the
    shell. *)
Theorem parallel_and_pipe_nodes_are_isolated K X pea sc c1 c2 l f :
  isolated (CmdC.parse_command K X (Some (Command OP_PARALLEL sc c1 c2)) l f)
  /\ isolated (CmdC.parse_command K X (Some (Command OP_PIPE sc c1 c2)) l f)
  /\ isolated (Part000.parse_command K X pea
                 (Some (Command OP_PARALLEL sc c1 c2)) l f)
  /\ isolated (Part000.parse_command K X pea
                 (Some (Command OP_PIPE sc c1 c2)) l f).
Proof.
  repeat apply conj.
  - rewrite cmdc_node_eq. cbv zeta.
    apply isolated_bind; [apply isolated_run_in_parallel_a|].
    intros ?. apply isolated_ret.
  - rewrite cmdc_node_eq. cbv zeta.
    apply isolated_bind; [apply isolated_run_on_pipe|].
    intros ?. apply isolated_ret.
  - rewrite part000_node_eq. cbv zeta.
    apply isolated_bind; [apply isolated_run_in_parallel_b|].
    intros ?. apply isolated_ret.
  - rewrite part000_node_eq. cbv zeta.
    apply isolated_bind; [apply isolated_run_on_pipe|].
    intros ?. apply isolated_ret.
Qed.

(** X7 at work: [cd /tmp & quit] returns 0 in src/src/cmd.c, the shell
    being still there and still in [/]. *)
Lemma parallel_isolated_witness :
  let n := Command OP_PARALLEL None
             (Samples.leaf (Samples.simple 6 (Samples.wd 7) None None None 0))
             (Samples.leaf (Samples.simple 21 None None None None 0)) in
  let a := CmdC.parse_command Samples.K0 More.X1 (Some n) 0 None Samples.w0 in
  a = Return 0 (final a Samples.w0)
  /\ environ (final a Samples.w0) = environ Samples.w0
  /\ cwd (final a Samples.w0) = "/".
Proof.
  intros n a.
  assert (Ea : a = Return 0 (final a Samples.w0)) by (vm_compute; reflexivity).
  split; [exact Ea|].
  pose proof (proj1 (parallel_and_pipe_nodes_are_isolated
                       Samples.K0 More.X1 Samples.parse_env_assignment None
                       (Samples.leaf
                          (Samples.simple 6 (Samples.wd 7) None None None 0))
                       (Samples.leaf
                          (Samples.simple 21 None None None None 0))
                       0 None) Samples.w0) as H.
  fold n in H. fold a in H. rewrite Ea in H. exact H.
Defined.

(* ===================================================================== *)
(** ** When no process can be created *)
(* ===================================================================== *)

Section ParallelFails.
Variable K : kernel.
Variable pc : evaluator.
Variables (c1 c2 : option command_t) (level : Z) (father : option command_t).

Lemma cmdc_run_in_parallel_false w w' :
  CmdC.run_in_parallel K pc c1 c2 level father w = Return false w' ->
  (trace w' = EvPerror "fork" :: EvFork (-1) :: trace w
   /\ procs w' = procs w)
  \/ (exists pid,
         trace w' = EvPerror "fork" :: EvFork (-1) :: EvFork pid :: trace w
         /\ is_Some (procs w' !! pid)).
Proof.
  unfold CmdC.run_in_parallel. intros H.
  apply bind_inv_Return in H. destruct H as (pid1 & w1 & E1 & H).
  apply fork_cases in E1.
  destruct E1 as [[-> ->] | (st1 & ev1 & Hp1 & ->)].
  { inversion H; subst. left. split; reflexivity. }
  assert (N1 : (pid1 =? -1) = false) by (subst pid1; reflexivity).
  rewrite N1 in H.
  apply bind_inv_Return in H. destruct H as (pid2 & w2 & E2 & H).
  apply fork_cases in E2.
  destruct E2 as [[-> ->] | (st2 & ev2 & Hp2 & ->)].
  - inversion H; subst w'. right. exists pid1.
    cbn [trace procs log bump_pid set_procs].
    split; [reflexivity|]. rewrite lookup_insert_eq. eauto.
  - assert (N2 : (pid2 =? -1) = false) by (subst pid2; reflexivity).
    rewrite N2 in H.
    apply bind_inv_Return in H. destruct H as (s1 & w3 & _ & H).
    apply bind_inv_Return in H. destruct H as (s2 & w4 & _ & H).
    discriminate H.
Qed.

Lemma part000_run_in_parallel_false w w' :
  Part000.run_in_parallel K pc c1 c2 level father w = Return false w' ->
  (trace w' = EvPerror "fork" :: EvFork (-1) :: trace w
   /\ procs w' = procs w)
  \/ (exists pid,
         trace w' = EvPerror "fork" :: EvFork (-1) :: EvFork pid :: trace w
         /\ is_Some (procs w' !! pid)).
Proof.
  unfold Part000.run_in_parallel. intros H.
  apply bind_inv_Return in H. destruct H as (pid1 & w1 & E1 & H).
  apply fork_cases in E1.
  destruct E1 as [[-> ->] | (st1 & ev1 & Hp1 & ->)].
  { inversion H; subst. left. split; reflexivity. }
  assert (N1 : (pid1 =? -1) = false) by (subst pid1; reflexivity).
  rewrite N1 in H.
  apply bind_inv_Return in H. destruct H as (pid2 & w2 & E2 & H).
  apply fork_cases in E2.
  destruct E2 as [[-> ->] | (st2 & ev2 & Hp2 & ->)].
  - inversion H; subst w'. right. exists pid1.
    cbn [trace procs log bump_pid set_procs].
    split; [reflexivity|]. rewrite lookup_insert_eq. eauto.
  - assert (N2 : (pid2 =? -1) = false) by (subst pid2; reflexivity).
    rewrite N2 in H. discriminate H.
Qed.

End ParallelFails.

Lemma parallel_status_one (m : M bool) w v w' :
  (let* ok := m in ret (if ok : bool then 0 else 1)) w = Return v w' ->
  v <> 0 -> v = 1 /\ m w = Return false w'.
Proof.
  intros H N. apply bind_inv_Return in H. destruct H as (b & w1 & E & H).
  destruct b; inversion H; subst; [congruence|]. now split.
Qed.

(** X8.  In both versions a Parallel node that returns a status other than
    0 returns 1, and does so only because a [fork] failed, which it reports
    with [perror("fork")]: either the first [fork] failed and no child was
    made, or the second failed after the first child had been started --
    that child is then left without anyone waiting for it, in
    src/src/cmd.c as well. *)
Theorem parallel_fails_only_when_fork_fails K X pea sc c1 c2 l f w v w' :
  v <> 0 ->
  (CmdC.parse_command K X (Some (Command OP_PARALLEL sc c1 c2)) l f w
   = Return v w' ->
   v = 1
   /\ ((trace w' = EvPerror "fork" :: EvFork (-1) :: trace w
        /\ procs w' = procs w)
       \/ (exists pid,
              trace w'
              = EvPerror "fork" :: EvFork (-1) :: EvFork pid :: trace w
              /\ is_Some (procs w' !! pid))))
  /\ (Part000.parse_command K X pea (Some (Command OP_PARALLEL sc c1 c2))
        l f w = Return v w' ->
      v = 1
      /\ ((trace w' = EvPerror "fork" :: EvFork (-1) :: trace w
           /\ procs w' = procs w)
          \/ (exists pid,
                 trace w'
                 = EvPerror "fork" :: EvFork (-1) :: EvFork pid :: trace w
                 /\ is_Some (procs w' !! pid)))).
Proof.
  intros N. split; intros H.
  - rewrite cmdc_node_eq in H. cbv zeta in H.
    destruct (parallel_status_one _ _ _ _ H N) as [-> E].
    split; [reflexivity|]. eapply cmdc_run_in_parallel_false. exact E.
  - rewrite part000_node_eq in H. cbv zeta in H.
    destruct (parallel_status_one _ _ _ _ H N) as [-> E].
    split; [reflexivity|]. eapply part000_run_in_parallel_false. exact E.
Qed.

(** X8 at work: [true & false] on a system without room for a process. *)
Lemma parallel_fails_witness :
  let n := Command OP_PARALLEL None (Samples.run 1) (Samples.run 2) in
  let a := CmdC.parse_command More.Kf Samples.X0 (Some n) 0 None Samples.w0 in
  a = Return 1 (final a Samples.w0)
  /\ 1 = 1
  /\ ((trace (final a Samples.w0)
       = EvPerror "fork" :: EvFork (-1) :: trace Samples.w0
       /\ procs (final a Samples.w0) = procs Samples.w0)
      \/ (exists pid,
             trace (final a Samples.w0)
             = EvPerror "fork" :: EvFork (-1) :: EvFork pid
               :: trace Samples.w0
             /\ is_Some (procs (final a Samples.w0) !! pid))).
Proof.
  intros n a.
  assert (Ea : a = Return 1 (final a Samples.w0)) by (vm_compute; reflexivity).
  split; [exact Ea|].
  apply (proj1 (parallel_fails_only_when_fork_fails More.Kf Samples.X0
                  Samples.parse_env_assignment None (Samples.run 1)
                  (Samples.run 2) 0 None Samples.w0 1 (final a Samples.w0)
                  ltac:(discriminate))).
  exact Ea.
Defined.

(* ===================================================================== *)
(** ** The pipeline and the shell's descriptors *)
(* ===================================================================== *)

Lemma fork_minus_one K (child : M Empty_set) w pid w' :
  fork K child w = Return pid w' -> pid = -1 -> k_fork K w = false.
Proof.
  unfold fork. destruct (k_fork K w); [|reflexivity].
  destruct (child (child_start w)) as [[]|st wc|]; try discriminate.
  intros H E. inversion H. congruence.
Qed.

Section PipeDescriptors.
Variable K : kernel.
Variable pc : evaluator.
Variables (c1 c2 : option command_t) (level : Z) (father : option command_t).
Variable w : world.

Let r := lowest_free (fds w).
Let fr := OFile (next_serial w) (PipeEnd false).
Let wr := lowest_free (<[r := fr]> (fds w)).
Let fw := OFile (S (next_serial w)) (PipeEnd true).

Lemma pipe_ends_fresh :
  fds w !! r = None /\ fds w !! wr = None /\ r <> wr.
Proof.
  pose proof (lowest_free_free (fds w)) as Hr. fold r in Hr.
  pose proof (lowest_free_free (<[r := fr]> (fds w))) as Hw. fold wr in Hw.
  assert (N : r <> wr).
  { intros E. rewrite <- E, lookup_insert_eq in Hw. discriminate. }
  rewrite lookup_insert_ne in Hw by exact N. auto.
Qed.

Lemma pipe_ends_closed_again :
  delete wr (delete r (<[wr := fw]> (<[r := fr]> (fds w)))) = fds w.
Proof.
  destruct pipe_ends_fresh as (Hr & Hw & N).
  apply map_eq. intros k.
  destruct (decide (k = wr)) as [->|Nw]; [now rewrite lookup_delete_eq|].
  rewrite lookup_delete_ne by auto.
  destruct (decide (k = r)) as [->|Nr]; [now rewrite lookup_delete_eq|].
  rewrite lookup_delete_ne by auto.
  now rewrite !lookup_insert_ne by auto.
Qed.

Lemma run_on_pipe_cases b w' :
  CmdC.run_on_pipe K pc c1 c2 level father w = Return b w' ->
  (b = false
   /\ trace w' = EvPerror "pipe" :: EvPipe (-1) :: trace w
   /\ fds w' = fds w)
  \/ (b = false
      /\ (exists wf, k_fork K wf = false)
      /\ (trace w' = EvPerror "fork" :: EvFork (-1) :: EvPipe 0 :: trace w
          \/ exists pid,
               trace w' = EvPerror "fork" :: EvFork (-1) :: EvFork pid
                          :: EvPipe 0 :: trace w)
      /\ fds w' = <[wr := fw]> (<[r := fr]> (fds w)))
  \/ (exists pid1 pid2 st1 st2 ev1 ev2,
         trace w' = EvWaitpid pid2 st2 ev2 :: EvWaitpid pid1 st1 ev1
                    :: EvClose wr 0 :: EvClose r 0
                    :: EvFork pid2 :: EvFork pid1 :: EvPipe 0 :: trace w
         /\ b = (WEXITSTATUS st2 =? 0)
         /\ fds w' = fds w).
Proof.
  destruct pipe_ends_fresh as (Hr & Hw & N).
  unfold CmdC.run_on_pipe. intros H.
  apply bind_inv_Return in H. destruct H as ([x [p0 p1]] & w1 & Ep & H).
  unfold pipe in Ep. destruct (k_pipe K w).
  2:{ inversion Ep; subst. inversion H; subst. left. repeat split. }
  inversion Ep; subst x p0 p1 w1. clear Ep.
  fold r fr wr fw in H. change (0 =? -1) with false in H. cbv iota in H.
  set (w1 := log (EvPipe 0) _) in H.
  assert (T1 : fds w1 = <[wr := fw]> (<[r := fr]> (fds w))) by reflexivity.
  apply bind_inv_Return in H. destruct H as (pid1 & w2 & E1 & H).
  pose proof (fork_minus_one _ _ _ _ _ E1) as K1.
  apply fork_cases in E1.
  destruct E1 as [[-> ->] | (st1 & ev1 & Hp1 & ->)].
  { inversion H; subst. right. left.
    split; [reflexivity|]. split; [eexists; apply K1; reflexivity|].
    split; [left; reflexivity | exact T1]. }
  assert (N1 : (pid1 =? -1) = false) by (subst pid1; reflexivity).
  rewrite N1 in H.
  apply bind_inv_Return in H. destruct H as (pid2 & w3 & E2 & H).
  pose proof (fork_minus_one _ _ _ _ _ E2) as K2.
  apply fork_cases in E2.
  destruct E2 as [[-> ->] | (st2 & ev2 & Hp2 & ->)].
  { inversion H; subst w' b. right. left.
    split; [reflexivity|]. split; [eexists; apply K2; reflexivity|].
    split; [right; exists pid1; reflexivity | exact T1]. }
  assert (N2 : (pid2 =? -1) = false) by (subst pid2; reflexivity).
  rewrite N2 in H.
  set (w3 := log (EvFork pid2) _) in H.
  assert (T3 : fds w3 = <[wr := fw]> (<[r := fr]> (fds w))) by reflexivity.
  assert (C0 : fds w3 !! r = Some fr).
  { rewrite T3, lookup_insert_ne by auto. apply lookup_insert_eq. }
  rewrite (bind_Return _ _ _ _ _ (close_true r fr w3 C0)) in H.
  set (w4 := log (EvClose r 0) _) in H.
  assert (T4 : fds w4 = delete r (<[wr := fw]> (<[r := fr]> (fds w))))
    by (unfold w4; cbn [fds log set_fds]; now rewrite T3).
  assert (C1 : fds w4 !! wr = Some fw).
  { rewrite T4, lookup_delete_ne by auto. apply lookup_insert_eq. }
  rewrite (bind_Return _ _ _ _ _ (close_true wr fw w4 C1)) in H.
  set (w5 := log (EvClose wr 0) _) in H.
  assert (T5 : fds w5 = fds w).
  { unfold w5. cbn [fds log set_fds]. rewrite T4.
    apply pipe_ends_closed_again. }
  apply bind_inv_Return in H. destruct H as (s1 & w6 & E6 & H).
  apply waitpid_cases in E6. destruct E6 as (e1 & _ & ->).
  apply bind_inv_Return in H. destruct H as (s2 & w7 & E7 & H).
  apply waitpid_cases in E7. destruct E7 as (e2 & _ & ->).
  inversion H; subst w' b. clear H.
  right. right. exists pid1, pid2, s1, s2, e1, e2.
  split; [reflexivity|]. split.
  - now destruct (WEXITSTATUS s2 =? 0).
  - exact T5.
Qed.

End PipeDescriptors.

(** X9.  What a pipeline does to the shell's own descriptors
    ([run_on_pipe] is the same text in both versions).  When it returns,
    one of three things happened.  The [pipe] call failed: the result is
    [false] and the descriptor table is untouched.  Or a [fork] failed,
    the first or the second: the result is [false], and the two
    descriptors of the pipe -- the lowest two that were free -- are left
    open in the shell, for [run_on_pipe] returns without closing them.
    Or both children were made: the shell closed both ends, waited for the
    first child and then for the second, its descriptor table is what it
    was before, and the result tells whether the exit status of the second
    child is 0. *)
Theorem pipe_ends_closed_unless_fork_fails K pc c1 c2 l f w b w' :
  let r := lowest_free (fds w) in
  let fr := OFile (next_serial w) (PipeEnd false) in
  let wr := lowest_free (<[r := fr]> (fds w)) in
  let fw := OFile (S (next_serial w)) (PipeEnd true) in
  Part000.run_on_pipe K pc c1 c2 l f w = CmdC.run_on_pipe K pc c1 c2 l f w
  /\ (fds w !! r = None /\ fds w !! wr = None /\ r <> wr)
  /\ (CmdC.run_on_pipe K pc c1 c2 l f w = Return b w' ->
      (b = false
       /\ trace w' = EvPerror "pipe" :: EvPipe (-1) :: trace w
       /\ fds w' = fds w)
      \/ (b = false
          /\ (exists wf, k_fork K wf = false)
          /\ (trace w' = EvPerror "fork" :: EvFork (-1) :: EvPipe 0 :: trace w
              \/ exists pid,
                   trace w' = EvPerror "fork" :: EvFork (-1) :: EvFork pid
                              :: EvPipe 0 :: trace w)
          /\ fds w' = <[wr := fw]> (<[r := fr]> (fds w)))
      \/ (exists pid1 pid2 st1 st2 ev1 ev2,
             trace w' = EvWaitpid pid2 st2 ev2 :: EvWaitpid pid1 st1 ev1
                        :: EvClose wr 0 :: EvClose r 0
                        :: EvFork pid2 :: EvFork pid1 :: EvPipe 0 :: trace w
             /\ b = (WEXITSTATUS st2 =? 0)
             /\ fds w' = fds w)).
Proof.
  intros r fr wr fw. split; [reflexivity|]. split.
  - apply pipe_ends_fresh.
  - apply run_on_pipe_cases.
Qed.

(** X9 at work: [true | false] where no process can be created leaves
    descriptors 3 and 4 open on the pipe; where processes can be created
    it leaves the table as it was. *)
Lemma pipe_ends_witness :
  let pc := CmdC.parse_command More.Kf Samples.X0 in
  let a := CmdC.run_on_pipe More.Kf pc (Samples.run 1) (Samples.run 2)
             0 None Samples.w0 in
  a = Return false (final a Samples.w0)
  /\ fds (final a Samples.w0)
     = <[4 := OFile 4 (PipeEnd true)]>
         (<[3 := OFile 3 (PipeEnd false)]> (fds Samples.w0))
  /\ ((false = false
       /\ trace (final a Samples.w0)
          = EvPerror "pipe" :: EvPipe (-1) :: trace Samples.w0
       /\ fds (final a Samples.w0) = fds Samples.w0)
      \/ (false = false
          /\ (exists wf, k_fork More.Kf wf = false)
          /\ (trace (final a Samples.w0)
              = EvPerror "fork" :: EvFork (-1) :: EvPipe 0
                :: trace Samples.w0
              \/ exists pid,
                   trace (final a Samples.w0)
                   = EvPerror "fork" :: EvFork (-1) :: EvFork pid
                     :: EvPipe 0 :: trace Samples.w0)
          /\ fds (final a Samples.w0)
             = <[lowest_free
                   (<[lowest_free (fds Samples.w0)
                      := OFile (next_serial Samples.w0) (PipeEnd false)]>
                      (fds Samples.w0))
                 := OFile (S (next_serial Samples.w0)) (PipeEnd true)]>
                 (<[lowest_free (fds Samples.w0)
                    := OFile (next_serial Samples.w0) (PipeEnd false)]>
                    (fds Samples.w0)))
      \/ (exists pid1 pid2 st1 st2 ev1 ev2,
             trace (final a Samples.w0)
             = EvWaitpid pid2 st2 ev2 :: EvWaitpid pid1 st1 ev1
               :: EvClose
                    (lowest_free
                       (<[lowest_free (fds Samples.w0)
                          := OFile (next_serial Samples.w0) (PipeEnd false)]>
                          (fds Samples.w0))) 0
               :: EvClose (lowest_free (fds Samples.w0)) 0
               :: EvFork pid2 :: EvFork pid1 :: EvPipe 0
               :: trace Samples.w0
             /\ false = (WEXITSTATUS st2 =? 0)
             /\ fds (final a Samples.w0) = fds Samples.w0)).
Proof.
  intros pc a.
  assert (Ea : a = Return false (final a Samples.w0))
    by (vm_compute; reflexivity).
  split; [exact Ea|]. split; [vm_compute; reflexivity|].
  exact (proj2 (proj2 (pipe_ends_closed_unless_fork_fails More.Kf pc
                         (Samples.run 1) (Samples.run 2) 0 None Samples.w0
                         false (final a Samples.w0))) Ea).
Defined.

(* ===================================================================== *)
(** ** The pipeline: what the branches are given *)
(* ===================================================================== *)

Lemma bind_ext_at {A B : Type} (m m' : M A) (k k' : A -> M B) w :
  m w = m' w ->
  (forall a w1, m' w = Return a w1 -> k a w1 = k' a w1) ->
  bind m k w = bind m' k' w.
Proof.
  intros Hm Hk. unfold bind. rewrite Hm.
  destruct (m' w) as [a w1| |]; auto.
Qed.

Section PipeWiring.
Variable K : kernel.
Variables pc pc' : evaluator.
Variables (c1 c2 : option command_t) (level : Z) (father : option command_t).
Variable w : world.
Hypothesis dup2_ok : forall w a b, k_dup2 K w a b = true.
Hypothesis stdin_open : is_Some (fds w !! STDIN_FILENO).
Hypothesis stdout_open : is_Some (fds w !! STDOUT_FILENO).

Let r := lowest_free (fds w).
Let fr := OFile (next_serial w) (PipeEnd false).
Let wr := lowest_free (<[r := fr]> (fds w)).
Let fw := OFile (S (next_serial w)) (PipeEnd true).

Hypothesis left_same :
  forall wc,
    fds wc = <[STDOUT_FILENO := fw]> (fds w) ->
    environ wc = environ w -> cwd wc = cwd w ->
    pc c1 (level + 1) father wc = pc' c1 (level + 1) father wc.
Hypothesis right_same :
  forall wc,
    fds wc = <[STDIN_FILENO := fr]> (fds w) ->
    environ wc = environ w -> cwd wc = cwd w ->
    pc c2 (level + 1) father wc = pc' c2 (level + 1) father wc.

(** The three descriptor calls a child makes first: [keep] is the end it
    uses, [drop] the other one, [std] the stream it puts [keep] on. *)
Lemma pipe_child_wired (wp : world) keep drop std fk fd :
  fds wp = <[wr := fw]> (<[r := fr]> (fds w)) ->
  (keep = r /\ drop = wr /\ fk = fr /\ fd = fw
   \/ keep = wr /\ drop = r /\ fk = fw /\ fd = fr) ->
  0 <= std -> is_Some (fds w !! std) ->
  exists wc,
    (forall k : M Empty_set,
        (close drop ;;; dup2 K keep std ;;; close keep ;;; k) (child_start wp)
        = k wc)
    /\ fds wc = <[std := fk]> (fds w)
    /\ environ wc = environ wp /\ cwd wc = cwd wp.
Proof.
  intros T Hends Hstd Hopen.
  destruct (pipe_ends_fresh w) as (Hr & Hw & N). fold r fr wr in Hr, Hw, N.
  assert (Nk : keep <> drop)
    by (destruct Hends as [(-> & -> & _)|(-> & -> & _)]; auto).
  assert (Hk : fds w !! keep = None)
    by (destruct Hends as [(-> & _)|(-> & _)]; assumption).
  assert (Hd : fds w !! drop = None)
    by (destruct Hends as [(_ & -> & _)|(_ & -> & _)]; assumption).
  assert (Lk : fds wp !! keep = Some fk).
  { rewrite T. destruct Hends as [(-> & -> & -> & ->)|(-> & -> & -> & ->)].
    - rewrite lookup_insert_ne by auto. apply lookup_insert_eq.
    - apply lookup_insert_eq. }
  assert (Ld : fds wp !! drop = Some fd).
  { rewrite T. destruct Hends as [(-> & -> & -> & ->)|(-> & -> & -> & ->)].
    - apply lookup_insert_eq.
    - rewrite lookup_insert_ne by auto. apply lookup_insert_eq. }
  assert (Ns : keep <> std).
  { intros E. subst std. rewrite Hk in Hopen. now destruct Hopen. }
  assert (Nd : drop <> std).
  { intros E. subst std. rewrite Hd in Hopen. now destruct Hopen. }
  pose (w1 := log (EvClose drop 0)
                (set_fds (delete drop (fds (child_start wp)))
                   (child_start wp))).
  pose (w2 := log (EvDup2 keep std std)
                (set_fds (<[std := fk]> (fds w1)) w1)).
  pose (wc := log (EvClose keep 0) (set_fds (delete keep (fds w2)) w2)).
  assert (L1 : fds w1 !! keep = Some fk).
  { unfold w1. cbn [fds log set_fds child_start].
    now rewrite lookup_delete_ne by auto. }
  assert (L2 : fds w2 !! keep = Some fk).
  { unfold w2. cbn [fds log set_fds]. now rewrite lookup_insert_ne by auto. }
  exists wc. split; [|split; [|split; reflexivity]].
  - intros k.
    rewrite (bind_Return _ _ _ _ _ (close_true drop fd (child_start wp) Ld)).
    fold w1.
    rewrite (bind_Return _ _ _ _ _
               (dup2_true K keep std fk w1 L1 (dup2_ok _ _ _) Hstd)).
    fold w2.
    rewrite (bind_Return _ _ _ _ _ (close_true keep fk w2 L2)).
    reflexivity.
  - unfold wc, w2, w1. cbn [fds log set_fds child_start]. rewrite T.
    apply map_eq. intros i.
    destruct (decide (i = keep)) as [->|Ik].
    { rewrite lookup_delete_eq. rewrite lookup_insert_ne by auto.
      now rewrite Hk. }
    rewrite lookup_delete_ne by auto.
    destruct (decide (i = std)) as [->|Is].
    { now rewrite !lookup_insert_eq. }
    rewrite !(lookup_insert_ne _ std) by auto.
    destruct (decide (i = drop)) as [->|Id].
    { rewrite lookup_delete_eq. now rewrite Hd. }
    rewrite lookup_delete_ne by auto.
    assert (Ir : i <> r)
      by (destruct Hends as [(-> & -> & _)|(-> & -> & _)]; auto).
    assert (Iw : i <> wr)
      by (destruct Hends as [(-> & -> & _)|(-> & -> & _)]; auto).
    now rewrite !lookup_insert_ne by auto.
Qed.

Lemma run_on_pipe_wiring :
  CmdC.run_on_pipe K pc c1 c2 level father w
  = CmdC.run_on_pipe K pc' c1 c2 level father w.
Proof.
  unfold CmdC.run_on_pipe.
  apply bind_ext_at; [reflexivity|].
  intros [x [p0 p1]] w1 Ep.
  unfold pipe in Ep. destruct (k_pipe K w).
  2:{ inversion Ep; subst. reflexivity. }
  inversion Ep; subst x p0 p1 w1. clear Ep. fold r fr wr fw.
  change (0 =? -1) with false. cbv iota.
  set (w1 := log (EvPipe 0) _).
  assert (T1 : fds w1 = <[wr := fw]> (<[r := fr]> (fds w))) by reflexivity.
  assert (V1 : environ w1 = environ w /\ cwd w1 = cwd w)
    by (split; reflexivity).
  apply bind_ext_at.
  { apply fork_ext.
    destruct (pipe_child_wired w1 wr r STDOUT_FILENO fw fr T1)
      as (wc & Ek & Tc & Ec & Cc).
    - right. auto.
    - unfold STDOUT_FILENO. lia.
    - exact stdout_open.
    - rewrite !Ek. apply bind_ext; [|reflexivity].
      apply left_same; [exact Tc | |]; destruct V1; congruence. }
  intros pid1 w2 E1. apply fork_cases in E1.
  destruct E1 as [[-> ->] | (st1 & ev1 & Hp1 & ->)]; [reflexivity|].
  assert (N1 : (pid1 =? -1) = false) by (subst pid1; reflexivity).
  rewrite N1.
  set (w2 := log (EvFork pid1) _).
  apply bind_ext; [|reflexivity].
  apply fork_ext.
  destruct (pipe_child_wired w2 r wr STDIN_FILENO fr fw T1)
    as (wc & Ek & Tc & Ec & Cc).
  - left. auto.
  - unfold STDIN_FILENO. lia.
  - exact stdin_open.
  - rewrite !Ek. apply bind_ext; [|reflexivity].
    apply right_same; [exact Tc | |]; destruct V1.
    + rewrite Ec. assumption.
    + rewrite Cc. assumption.
Qed.

End PipeWiring.

(** X10.  What the branches of a pipeline are given ([run_on_pipe], the
    same in both versions), when the shell's standard input and output are
    open and [dup2] does not fail.  The left branch is evaluated only in a
    process whose descriptor table is the shell's with standard output
    replaced by the write end of the pipe, and the right branch only in one
    whose table is the shell's with standard input replaced by the read
    end; in both the two descriptors of the pipe itself are closed, and the
    environment and working directory are the shell's.  Stated
    extensionally: two evaluators that agree on the left branch in every
    state of the first kind and on the right branch in every state of the
    second kind give the same pipeline. *)
Theorem pipe_branches_get_the_pipe_ends K pc pc' c1 c2 l f w :
  (forall w a b, k_dup2 K w a b = true) ->
  is_Some (fds w !! STDIN_FILENO) ->
  is_Some (fds w !! STDOUT_FILENO) ->
  let fr := OFile (next_serial w) (PipeEnd false) in
  let fw := OFile (S (next_serial w)) (PipeEnd true) in
  (forall wc,
      fds wc = <[STDOUT_FILENO := fw]> (fds w) ->
      environ wc = environ w -> cwd wc = cwd w ->
      pc c1 (l + 1) f wc = pc' c1 (l + 1) f wc) ->
  (forall wc,
      fds wc = <[STDIN_FILENO := fr]> (fds w) ->
      environ wc = environ w -> cwd wc = cwd w ->
      pc c2 (l + 1) f wc = pc' c2 (l + 1) f wc) ->
  CmdC.run_on_pipe K pc c1 c2 l f w = CmdC.run_on_pipe K pc' c1 c2 l f w
  /\ Part000.run_on_pipe K pc c1 c2 l f w
     = Part000.run_on_pipe K pc' c1 c2 l f w.
Proof.
  intros Hd H0 H1 fr fw HL HR.
  split; exact (run_on_pipe_wiring K pc pc' c1 c2 l f w Hd H0 H1 HL HR).
Qed.

(** X10 at work: an evaluator that has no defined behaviour as soon as
    descriptor 3 or 4 (the two of the pipe) is open runs [true | false] as
    the evaluator itself does. *)
Lemma pipe_branches_witness :
  let pc := CmdC.parse_command Samples.K0 Samples.X0 in
  let pc' : evaluator := fun c l f wc =>
    match fds wc !! 3, fds wc !! 4 with
    | None, None => pc c l f wc
    | _, _ => Undefined
    end in
  CmdC.run_on_pipe Samples.K0 pc (Samples.run 1) (Samples.run 2) 0 None
    Samples.w0
  = CmdC.run_on_pipe Samples.K0 pc' (Samples.run 1) (Samples.run 2) 0 None
      Samples.w0
  /\ Part000.run_on_pipe Samples.K0 pc (Samples.run 1) (Samples.run 2) 0 None
       Samples.w0
     = Part000.run_on_pipe Samples.K0 pc' (Samples.run 1) (Samples.run 2)
         0 None Samples.w0.
Proof.
  intros pc pc'.
  apply (pipe_branches_get_the_pipe_ends Samples.K0 pc pc'
           (Samples.run 1) (Samples.run 2) 0 None Samples.w0).
  - reflexivity.
  - vm_compute. eauto.
  - vm_compute. eauto.
  - intros wc T _ _. unfold pc'. rewrite T. reflexivity.
  - intros wc T _ _. unfold pc'. rewrite T. reflexivity.
Defined.

(* ===================================================================== *)
(** ** Pipelines compose: the status is that of the last stage *)
(* ===================================================================== *)

Section PipelineChains.
Variable K : kernel.
Variable pc : evaluator.
Hypothesis pipe_ok : forall w, k_pipe K w = true.
Hypothesis forks_ok : forall w, k_fork K w = true.
Hypothesis pc_pipe :
  forall sc x y l f w,
    pc (Some (Command OP_PIPE sc x y)) l f w
    = (let* ok := CmdC.run_on_pipe K pc x y (l + 1)
                    (Some (Command OP_PIPE sc x y)) in
       ret (if ok : bool then 0 else 1)) w.

Lemma pipe_node_defined sc x y :
  (forall l f wc, exit_status_of (pc x l f wc) <> None) ->
  (forall l f wc, exit_status_of (pc y l f wc) <> None) ->
  forall l f wc,
    exit_status_of (pc (Some (Command OP_PIPE sc x y)) l f wc) <> None.
Proof.
  intros Hx Hy l f wc. rewrite pc_pipe.
  destruct (run_on_pipe_returns K pc x y (l + 1)
              (Some (Command OP_PIPE sc x y)) pipe_ok forks_ok
              (fun wc => Hx _ _ wc) (fun wc => Hy _ _ wc) wc)
    as (b & w' & E).
  rewrite (bind_Return _ _ _ _ _ E). discriminate.
Qed.

Lemma pipe_node_status sc x y e :
  (forall l f wc, exit_status_of (pc x l f wc) <> None) ->
  (forall l f wc, exit_status_of (pc y l f wc) = Some e) ->
  forall l f wc,
    exists w', pc (Some (Command OP_PIPE sc x y)) l f wc
               = Return (if e =? 0 then 0 else 1) w'.
Proof.
  intros Hx Hy l f wc. rewrite pc_pipe.
  destruct (run_on_pipe_status K pc x y (l + 1)
              (Some (Command OP_PIPE sc x y)) pipe_ok forks_ok
              (fun wc => Hx _ _ wc) e (fun wc => Hy _ _ wc) wc)
    as (w' & E).
  rewrite (bind_Return _ _ _ _ _ E). exists w'.
  unfold ret. now destruct (e =? 0).
Qed.

Lemma pipe_chain_status sc1 sc2 sc3 sc4 a b c e l f w :
  (forall l f wc, exit_status_of (pc a l f wc) <> None) ->
  (forall l f wc, exit_status_of (pc b l f wc) <> None) ->
  (forall l f wc, exit_status_of (pc c l f wc) = Some e) ->
  (exists w',
      pc (Some (Command OP_PIPE sc1 (Some (Command OP_PIPE sc2 a b)) c)) l f w
      = Return (if e =? 0 then 0 else 1) w')
  /\ (exists w',
         pc (Some (Command OP_PIPE sc3 a (Some (Command OP_PIPE sc4 b c))))
           l f w
         = Return (if e =? 0 then 0 else 1) w').
Proof.
  intros Ha Hb Hc. split.
  - apply pipe_node_status; [|exact Hc].
    apply pipe_node_defined; assumption.
  - assert (Hbc : forall l f wc,
               exit_status_of
                 (pc (Some (Command OP_PIPE sc4 b c)) l f wc)
               = Some (if e =? 0 then 0 else 1)).
    { intros l' f' wc.
      destruct (pipe_node_status sc4 b c e Hb Hc l' f' wc) as (w' & E).
      rewrite E. cbn [exit_status_of]. rewrite WEXITSTATUS_exited.
      now destruct (e =? 0). }
    destruct (pipe_node_status sc3 a (Some (Command OP_PIPE sc4 b c))
                (if e =? 0 then 0 else 1) Ha Hbc l f w) as (w' & E).
    exists w'. rewrite E. now destruct (e =? 0).
Qed.

End PipelineChains.

(** X11.  The status of a chain of pipes does not depend on how the chain
    is nested.  In both versions, when pipes and processes can be created,
    the stages [a] and [b] have defined behaviour and the last stage [c]
    ends with exit status [e], both [(a | b) | c] and [a | (b | c)] return
    0 if [e] is 0 and 1 otherwise. *)
Theorem pipe_chain_status_is_last_stage
    K X pea sc1 sc2 sc3 sc4 a b c e l f w :
  (forall w, k_pipe K w = true) ->
  (forall w, k_fork K w = true) ->
  let left_nested :=
    Some (Command OP_PIPE sc1 (Some (Command OP_PIPE sc2 a b)) c) in
  let right_nested :=
    Some (Command OP_PIPE sc3 a (Some (Command OP_PIPE sc4 b c))) in
  ((forall l f wc,
       exit_status_of (CmdC.parse_command K X a l f wc) <> None) ->
   (forall l f wc,
       exit_status_of (CmdC.parse_command K X b l f wc) <> None) ->
   (forall l f wc,
       exit_status_of (CmdC.parse_command K X c l f wc) = Some e) ->
   (exists w', CmdC.parse_command K X left_nested l f w
               = Return (if e =? 0 then 0 else 1) w')
   /\ (exists w', CmdC.parse_command K X right_nested l f w
                  = Return (if e =? 0 then 0 else 1) w'))
  /\ ((forall l f wc,
          exit_status_of (Part000.parse_command K X pea a l f wc) <> None) ->
      (forall l f wc,
          exit_status_of (Part000.parse_command K X pea b l f wc) <> None) ->
      (forall l f wc,
          exit_status_of (Part000.parse_command K X pea c l f wc) = Some e) ->
      (exists w', Part000.parse_command K X pea left_nested l f w
                  = Return (if e =? 0 then 0 else 1) w')
      /\ (exists w', Part000.parse_command K X pea right_nested l f w
                     = Return (if e =? 0 then 0 else 1) w')).
Proof.
  intros Hp Hf ln rn. split; intros Ha Hb Hc.
  - apply (pipe_chain_status K (CmdC.parse_command K X) Hp Hf); try assumption.
    intros. reflexivity.
  - apply (pipe_chain_status K (Part000.parse_command K X pea) Hp Hf);
      try assumption.
    intros. reflexivity.
Qed.

Lemma external_false : external_verb "false".
Proof. repeat apply conj; [discriminate..|reflexivity]. Qed.

(** X11 at work: [(true | false) | two] and [true | (false | two)]. *)
Lemma pipe_chain_witness :
  let a := Samples.run 1 in
  let b := Samples.run 2 in
  let c := Samples.run 3 in
  ((exists w',
       CmdC.parse_command Samples.K0 Samples.X0
         (Some (Command OP_PIPE None (Some (Command OP_PIPE None a b)) c))
         0 None Samples.w0 = Return 1 w')
   /\ (exists w',
          CmdC.parse_command Samples.K0 Samples.X0
            (Some (Command OP_PIPE None a (Some (Command OP_PIPE None b c))))
            0 None Samples.w0 = Return 1 w'))
  /\ ((exists w',
          Part000.parse_command Samples.K0 Samples.X0
            Samples.parse_env_assignment
            (Some (Command OP_PIPE None (Some (Command OP_PIPE None a b)) c))
            0 None Samples.w0 = Return 1 w')
      /\ (exists w',
             Part000.parse_command Samples.K0 Samples.X0
               Samples.parse_env_assignment
               (Some (Command OP_PIPE None a
                        (Some (Command OP_PIPE None b c))))
               0 None Samples.w0 = Return 1 w')).
Proof.
  intros a b c.
  destruct (pipe_chain_status_is_last_stage Samples.K0 Samples.X0
              Samples.parse_env_assignment None None None None a b c 2
              0 None Samples.w0 sample_pipes sample_forks) as [A B].
  split.
  - apply A.
    + intros l f wc.
      rewrite (sample_run_a 1 "true" (exited 0) _ _ wc eq_refl external_true
                 (fun _ _ => eq_refl)).
      discriminate.
    + intros l f wc.
      rewrite (sample_run_a 2 "false" (exited 1) _ _ wc eq_refl
                 external_false (fun _ _ => eq_refl)).
      discriminate.
    + intros l f wc.
      exact (sample_run_a 3 "two" (exited 2) _ _ wc eq_refl external_two
               (fun _ _ => eq_refl)).
  - apply B.
    + intros l f wc.
      rewrite (sample_run_b 1 "true" (exited 0) _ _ wc eq_refl external_true
                 (fun _ _ => eq_refl)).
      discriminate.
    + intros l f wc.
      rewrite (sample_run_b 2 "false" (exited 1) _ _ wc eq_refl
                 external_false (fun _ _ => eq_refl)).
      discriminate.
    + intros l f wc.
      exact (sample_run_b 3 "two" (exited 2) _ _ wc eq_refl external_two
               (fun _ _ => eq_refl)).
Defined.

(* ===================================================================== *)
(** ** The descriptor table across a whole tree (src/src/cmd.c) *)
(* ===================================================================== *)

Lemma keeps_fds_ret {A : Type} (a : A) : keeps_fds (ret a).
Proof. intros w x w' H. now inversion H. Qed.

Lemma keeps_fds_bind {A B : Type} (m : M A) (k : A -> M B) :
  keeps_fds m -> (forall a, keeps_fds (k a)) -> keeps_fds (bind m k).
Proof.
  intros Hm Hk w b w' H.
  apply bind_inv_Return in H. destruct H as (a & w1 & E1 & E2).
  rewrite (Hk _ _ _ _ E2). exact (Hm _ _ _ E1).
Qed.

Lemma keeps_fds_perror msg : keeps_fds (perror msg).
Proof. intros w x w' H. now inversion H. Qed.

Lemma keeps_fds_run_in_parallel K pc c1 c2 l f :
  keeps_fds (CmdC.run_in_parallel K pc c1 c2 l f).
Proof.
  unfold CmdC.run_in_parallel.
  repeat first
    [ apply keeps_fds_ret
    | apply keeps_fds_fork
    | apply keeps_fds_waitpid
    | apply keeps_fds_perror
    | apply keeps_fds_bind; [| intros ]
    | match goal with
      | |- keeps_fds (if ?c then _ else _) => destruct c
      end ].
Qed.

Section TreeRestores.
Variable K : kernel.
Variable X : externs.
Hypothesis dup_ok : forall w fd, k_dup K w fd = true.
Hypothesis dup2_ok : forall w a b, k_dup2 K w a b = true.
Hypothesis forks_ok : forall w, k_fork K w = true.

Lemma keeps_fds_run_on_pipe pc c1 c2 l f :
  keeps_fds (CmdC.run_on_pipe K pc c1 c2 l f).
Proof.
  intros w b w' H. apply run_on_pipe_cases in H.
  destruct H as [(_ & _ & T) | [(_ & (wf & Hf) & _) | (? & ? & ? & ? & ? & ? & _ & _ & T)]].
  - exact T.
  - rewrite forks_ok in Hf. discriminate.
  - exact T.
Qed.

Lemma cmdc_tree_restores c :
  forall l f w v w',
    own_leaves (redirections_succeed K X) c ->
    std_open w ->
    CmdC.parse_command K X (Some c) l f w = Return v w' ->
    fds w' = fds w.
Proof.
  induction c as [o sc c1 c2 H1 H2] using command_tree_ind.
  assert (E1 : forall l f w v w',
             match c1 with
             | Some n => own_leaves (redirections_succeed K X) n
             | None => True
             end ->
             std_open w ->
             CmdC.parse_command K X c1 l f w = Return v w' ->
             fds w' = fds w).
  { destruct c1; [exact H1|]. intros l f w v w' _ _ H. now inversion H. }
  assert (E2 : forall l f w v w',
             match c2 with
             | Some n => own_leaves (redirections_succeed K X) n
             | None => True
             end ->
             std_open w ->
             CmdC.parse_command K X c2 l f w = Return v w' ->
             fds w' = fds w).
  { destruct c2; [exact H2|]. intros l f w v w' _ _ H. now inversion H. }
  assert (St : forall w w', fds w' = fds w -> std_open w -> std_open w').
  { intros w w' T. unfold std_open. now rewrite T. }
  intros l f w v w' Hl Hs H. rewrite cmdc_node_eq in H. cbv zeta in H.
  destruct o; cbn [own_leaves] in Hl.
  - destruct sc as [s|]; [|now inversion H].
    destruct Hs as (S0 & S1 & S2).
    exact (cmdc_parse_simple_restores K X dup_ok dup2_ok s l _ Hl
             w v w' S0 S1 S2 H).
  - destruct Hl as [L1 L2].
    apply bind_inv_Return in H. destruct H as (v1 & w1 & A1 & H).
    apply bind_inv_Return in H. destruct H as (v2 & w2 & A2 & H).
    inversion H; subst.
    pose proof (E1 _ _ _ _ _ L1 Hs A1) as T1.
    rewrite (E2 _ _ _ _ _ L2 (St _ _ T1 Hs) A2). exact T1.
  - apply bind_inv_Return in H. destruct H as (b & w1 & A1 & H).
    inversion H; subst. exact (keeps_fds_run_in_parallel _ _ _ _ _ _ _ _ _ A1).
  - destruct Hl as [L1 L2].
    apply bind_inv_Return in H. destruct H as (v1 & w1 & A1 & H).
    pose proof (E1 _ _ _ _ _ L1 Hs A1) as T1.
    destruct (v1 =? 0).
    + apply bind_inv_Return in H. destruct H as (v2 & w2 & A2 & H).
      inversion H; subst.
      rewrite (E2 _ _ _ _ _ L2 (St _ _ T1 Hs) A2). exact T1.
    + inversion H; subst. exact T1.
  - destruct Hl as [L1 L2].
    apply bind_inv_Return in H. destruct H as (v1 & w1 & A1 & H).
    pose proof (E1 _ _ _ _ _ L1 Hs A1) as T1.
    destruct (negb (v1 =? 0)).
    + apply bind_inv_Return in H. destruct H as (v2 & w2 & A2 & H).
      inversion H; subst.
      rewrite (E2 _ _ _ _ _ L2 (St _ _ T1 Hs) A2). exact T1.
    + inversion H; subst. exact T1.
  - apply bind_inv_Return in H. destruct H as (b & w1 & A1 & H).
    inversion H; subst. exact (keeps_fds_run_on_pipe _ _ _ _ _ _ _ _ A1).
  - now inversion H.
Qed.

End TreeRestores.

(** X12.  In src/src/cmd.c, on a system where [dup], [dup2] and [fork] do
    not fail, evaluating a command tree leaves the shell's descriptor
    table exactly as it found it, provided the three standard descriptors
    are open at the start and no redirection fails in a simple command that
    the shell runs itself (one not below a Parallel or Pipe node): every
    simple command saves the three streams and puts them back, on each of
    its returns; a Parallel node touches no descriptor; a Pipe node closes
    both ends of its pipe. *)
Theorem descriptor_table_is_restored_across_a_tree K X c l f w v w' :
  (forall w fd, k_dup K w fd = true) ->
  (forall w a b, k_dup2 K w a b = true) ->
  (forall w, k_fork K w = true) ->
  own_leaves (redirections_succeed K X) c ->
  std_open w ->
  CmdC.parse_command K X (Some c) l f w = Return v w' ->
  fds w' = fds w.
Proof.
  intros Hd Hd2 Hf. apply cmdc_tree_restores; assumption.
Qed.

Lemma cmdc_redirect_status K file d a w r w' :
  CmdC.redirect K file d a w = Return r w' ->
  r = 0 \/ (r = -1 /\ exists flags, k_open K w file flags = false).
Proof.
  unfold CmdC.redirect. intros H.
  destruct (d =? STDIN_FILENO).
  - apply bind_inv_Return in H. destruct H as (fd & w1 & Eo & H).
    destruct (fd =? -1) eqn:Efd.
    + apply Z.eqb_eq in Efd. subst fd. right.
      apply bind_inv_Return in H. destruct H as (u & w2 & _ & H).
      inversion H. split; [reflexivity|]. exists O_RDONLY.
      unfold open in Eo. destruct (k_open K w file O_RDONLY); [|reflexivity].
      inversion Eo. pose proof (lowest_free_nonneg (fds w)). lia.
    + left.
      apply bind_inv_Return in H. destruct H as (u & w2 & _ & H).
      apply bind_inv_Return in H. destruct H as (u' & w3 & _ & H).
      now inversion H.
  - cbv zeta in H.
    apply bind_inv_Return in H. destruct H as (fd & w1 & Eo & H).
    destruct (fd =? -1) eqn:Efd.
    + apply Z.eqb_eq in Efd. subst fd. right.
      apply bind_inv_Return in H. destruct H as (u & w2 & _ & H).
      inversion H. split; [reflexivity|]. eexists.
      unfold open in Eo.
      match type of Eo with
      | (if k_open K w file ?fl then _ else _) = _ =>
          destruct (k_open K w file fl) eqn:Ek; [|exact Ek]
      end.
      inversion Eo. pose proof (lowest_free_nonneg (fds w)). lia.
    + left.
      apply bind_inv_Return in H. destruct H as (u & w2 & _ & H).
      apply bind_inv_Return in H. destruct H as (u' & w3 & _ & H).
      apply bind_inv_Return in H. destruct H as (u'' & w4 & _ & H).
      now inversion H.
Qed.

Lemma sample_output_redirection_ok :
  redirections_succeed Samples.K0 Samples.X0
    (Samples.simple 6 (Samples.wd 7) None (Samples.wd 10) None 0).
Proof.
  intros w1 r w2 H. unfold CmdC.apply_redirections in H.
  cbv zeta in H.
  rewrite (bind_Return _ _ _ _ _ (get_word_run _ _ w1)) in H.
  change (x_get_word Samples.X0 (environ w1)
            (in_ (Samples.simple 6 (Samples.wd 7) None (Samples.wd 10) None 0)))
    with (@None string) in H.
  cbv iota in H. rewrite bind_ret_l in H.
  change (0 =? -1) with false in H. cbv iota in H.
  cbn [err out Samples.wd Samples.simple non_null andb] in H.
  rewrite bind_ret_l in H.
  apply bind_inv_Return in H. destruct H as (v & w3 & E & H).
  inversion H; subst. clear H.
  apply bind_inv_Return in E. destruct E as (o & wa & Eo & E).
  inversion Eo; subst. clear Eo.
  change (x_get_word Samples.X0 (environ wa) (Samples.wd 10))
    with (Some "/tmp/out") in E.
  apply cmdc_redirect_status in E.
  destruct E as [-> | (_ & fl & Hk)]; [discriminate|].
  cbv in Hk. discriminate Hk.
Qed.

(** X12 at work: [cd /tmp > /tmp/out ; (true | false)]. *)
Lemma descriptor_table_witness :
  let c := Command OP_SEQUENTIAL None
             (Samples.leaf
                (Samples.simple 6 (Samples.wd 7) None (Samples.wd 10) None 0))
             (Some (Command OP_PIPE None (Samples.run 1) (Samples.run 2))) in
  let a := CmdC.parse_command Samples.K0 Samples.X0 (Some c) 0 None
             Samples.w0 in
  a = Return 1 (final a Samples.w0)
  /\ cwd (final a Samples.w0) = "/tmp"
  /\ fds (final a Samples.w0) = fds Samples.w0.
Proof.
  intros c a.
  assert (Ea : a = Return 1 (final a Samples.w0)) by (vm_compute; reflexivity).
  split; [exact Ea|]. split; [vm_compute; reflexivity|].
  apply (descriptor_table_is_restored_across_a_tree Samples.K0 Samples.X0 c
           0 None Samples.w0 1 (final a Samples.w0)).
  - reflexivity.
  - reflexivity.
  - reflexivity.
  - split; [exact sample_output_redirection_ok | exact I].
  - repeat apply conj; vm_compute; eauto.
  - exact Ea.
Defined.

(* ===================================================================== *)
(** ** Assignments as commands (src/src/cmd.c) *)
(* ===================================================================== *)

Lemma has_char_append c a b :
  has_char c (String.append a b) = has_char c a || has_char c b.
Proof.
  unfold has_char. induction a as [|x a IH]; [reflexivity|].
  change (String.append (String x a) b) with (String x (String.append a b)).
  cbn [list_ascii_of_string existsb]. rewrite IH. apply orb_assoc.
Qed.

Lemma strstr_has_eq cmd :
  has_char "=" cmd = true -> non_null (strstr cmd "=") = true.
Proof.
  unfold has_char. induction cmd as [|c rest IH]; [discriminate|].
  cbn [list_ascii_of_string existsb]. intros H.
  change (strstr (String c rest) "=")
    with (if String.prefix "=" (String c rest) then Some (String c rest)
          else strstr rest "=").
  change (String.prefix "=" (String c rest))
    with (if ascii_dec "=" c then String.prefix "" rest else false).
  destruct (ascii_dec "=" c) as [<-|N].
  - now destruct rest.
  - apply IH. apply orb_true_iff in H. destruct H as [H|H]; [|exact H].
    apply Ascii.eqb_eq in H. congruence.
Qed.

Lemma assignment_is_no_builtin cmd :
  has_char "=" cmd = true ->
  (strcmp cmd "exit" =? 0) || (strcmp cmd "quit" =? 0) = false
  /\ (strcmp cmd "cd" =? 0) = false.
Proof.
  intros H. rewrite !strcmp_eqb.
  destruct (String.eqb_spec cmd "exit") as [->|_]; [discriminate H|].
  destruct (String.eqb_spec cmd "quit") as [->|_]; [discriminate H|].
  destruct (String.eqb_spec cmd "cd") as [->|_]; [discriminate H|].
  split; reflexivity.
Qed.

(** X13.  In src/src/cmd.c a simple command whose verb is [name=value],
    with [name] and [value] not empty and free of ['='], and whose
    redirections do not fail, is an assignment whatever else the command
    holds: [parse_simple] returns 0, no process is created, and in the
    shell's environment [name] is bound to [value], every other variable
    and the working directory being what they were. *)
Theorem assignment_binds_name_to_value K X s l f w name value :
  x_get_word X (environ w) (verb s)
  = Some (String.append name (String "=" value)) ->
  name <> EmptyString -> has_char "=" name = false ->
  value <> EmptyString -> has_char "=" value = false ->
  redirections_succeed K X s ->
  exists w' evs,
    CmdC.parse_simple K X (Some s) l f w = Return 0 w'
    /\ environ w' = <[name := value]> (environ w)
    /\ cwd w' = cwd w
    /\ procs w' = procs w
    /\ trace w' = (evs ++ trace w)%list
    /\ In (EvSetenv name value 0) evs.
Proof.
  intros Hv Hn Hn' Hl Hl' Hr. unfold CmdC.parse_simple.
  set (cmd := String.append name (String "=" value)) in *.
  assert (Hc : has_char "=" cmd = true).
  { unfold cmd. rewrite has_char_append.
    change (has_char "=" (String "=" value)) with true. apply orb_true_r. }
  assert (E0 : get_word X (verb s) w = Return (Some cmd) w)
    by (unfold get_word, gets; now rewrite Hv).
  rewrite (bind_Return _ _ _ _ _ E0).
  rewrite (bind_Return _ _ _ _ _
             (eq_refl : get_argv X s w
                        = Return (x_get_argv X (environ w) s) w)).
  destruct (fd_call_duplicate K w) as ([[a b] c] & w1 & E1 & F1).
  rewrite (bind_Return _ _ _ _ _ E1).
  destruct (fd_call_apply_redirections K X s w1) as (r & w2 & E2 & F2).
  rewrite (bind_Return _ _ _ _ _ E2).
  assert (Er : (r =? -1) = false) by (apply Z.eqb_neq; eapply Hr; eauto).
  rewrite Er.
  destruct (assignment_is_no_builtin cmd Hc) as [B1 B2].
  rewrite B1, B2, (strstr_has_eq cmd Hc).
  unfold cmd.
  rewrite (bind_Return _ _ _ _ _
             (parse_environment_variable_binds name value w2 Hn Hn' Hl Hl')).
  set (w3 := log (EvSetenv name value 0) _).
  destruct (fd_call_restore K a b c w3) as ([] & w4 & E4 & F4).
  rewrite (bind_Return _ _ _ _ _ E4).
  assert (F : frame w w2) by (eapply frame_trans; eassumption).
  destruct (frame_trace _ _ F) as (evs2 & T2).
  destruct (frame_trace _ _ F4) as (evs4 & T4).
  exists w4, (evs4 ++ EvSetenv name value 0 :: evs2)%list.
  split; [reflexivity|].
  split.
  { rewrite (frame_environ _ _ F4). unfold w3. cbn [environ log set_environ].
    now rewrite (frame_environ _ _ F). }
  split.
  { rewrite (frame_cwd _ _ F4). unfold w3. cbn [cwd log set_environ].
    apply (frame_cwd _ _ F). }
  split.
  { rewrite (frame_procs _ _ F4). unfold w3. cbn [procs log set_environ].
    apply (frame_procs _ _ F). }
  split.
  { rewrite T4. unfold w3. cbn [trace log set_environ]. rewrite T2.
    now rewrite <- app_assoc. }
  apply in_or_app. right. now left.
Qed.

(** X13 at work: [NAME=value]. *)
Lemma assignment_witness :
  let s := Samples.simple 13 None None None None 0 in
  exists w' evs,
    CmdC.parse_simple Samples.K0 Samples.X0 (Some s) 0 None Samples.w0
    = Return 0 w'
    /\ environ w' = <["NAME" := "value"]> (environ Samples.w0)
    /\ cwd w' = cwd Samples.w0
    /\ procs w' = procs Samples.w0
    /\ trace w' = (evs ++ trace Samples.w0)%list
    /\ In (EvSetenv "NAME" "value" 0) evs.
Proof.
  intros s.
  apply (assignment_binds_name_to_value Samples.K0 Samples.X0 s 0 None
           Samples.w0 "NAME" "value").
  - reflexivity.
  - discriminate.
  - reflexivity.
  - discriminate.
  - reflexivity.
  - intros w1 r w2. now apply more_no_redirection_a.
Defined.

Lemma assignment_tokens_passed command w :
  CmdC.parse_environment_variable (Some command) w
  = (setenv (fst (assignment_tokens command))
       (snd (assignment_tokens command)) ;;; ret tt) w.
Proof.
  unfold CmdC.parse_environment_variable, assignment_tokens.
  destruct (strtok_r (Some command) "=" "") as [name saveptr].
  destruct (strtok_r None "=" saveptr) as [value rest].
  reflexivity.
Qed.

Lemma assignment_tokens_pair name value :
  name <> EmptyString -> has_char "=" name = false ->
  value <> EmptyString -> has_char "=" value = false ->
  assignment_tokens (String.append name (String "=" value))
  = (Some name, Some value).
Proof.
  intros Hn Hn' Hv Hv'. unfold assignment_tokens, strtok_r.
  assert (S1 : skip_delims "=" (String.append name (String "=" value))
               = String.append name (String "=" value)).
  { destruct name as [|c name']; [congruence|].
    unfold has_char in Hn'. cbn [list_ascii_of_string existsb] in Hn'.
    apply orb_false_iff in Hn'. destruct Hn' as [Hc _].
    change (String.append (String c name') (String "=" value))
      with (String c (String.append name' (String "=" value))).
    cbn [skip_delims]. now rewrite has_char_eq_delim, Hc. }
  rewrite S1.
  destruct (String.append name (String "=" value)) as [|c0 r0] eqn:E.
  { destruct name; discriminate E. }
  rewrite <- E, (take_token_upto name value Hn').
  rewrite (skip_delims_none value Hv Hv').
  destruct value as [|c1 r1] eqn:Ev; [congruence|].
  rewrite <- Ev in *. now rewrite (take_token_all value Hv').
Qed.

Lemma assignment_tokens_no_value text :
  text <> EmptyString -> has_char "=" text = false ->
  assignment_tokens (String.append text "=") = (Some text, None).
Proof.
  intros Hn Hn'. unfold assignment_tokens, strtok_r.
  assert (S1 : skip_delims "=" (String.append text "=")
               = String.append text "=").
  { destruct text as [|c t']; [congruence|].
    unfold has_char in Hn'. cbn [list_ascii_of_string existsb] in Hn'.
    apply orb_false_iff in Hn'. destruct Hn' as [Hc _].
    change (String.append (String c t') "=")
      with (String c (String.append t' "=")).
    cbn [skip_delims]. now rewrite has_char_eq_delim, Hc. }
  rewrite S1.
  destruct (String.append text "=") as [|c0 r0] eqn:E.
  { destruct text; discriminate E. }
  rewrite <- E, (take_token_upto text EmptyString Hn').
  reflexivity.
Qed.

Lemma assignment_tokens_no_name text :
  text <> EmptyString -> has_char "=" text = false ->
  assignment_tokens (String "=" text) = (Some text, None).
Proof.
  intros Hn Hn'. unfold assignment_tokens, strtok_r.
  change (skip_delims "=" (String "=" text)) with (skip_delims "=" text).
  rewrite (skip_delims_none text Hn Hn').
  destruct text as [|c1 r1] eqn:Ev; [congruence|].
  rewrite <- Ev in *. now rewrite (take_token_all text Hn').
Qed.

(** X14.  [parse_environment_variable] of src/src/cmd.c hands [setenv]
    the two tokens that its [strtok_r] calls give, without a test: for
    every verb, what it does is [setenv] on these two tokens.  For a verb
    [name=value] the tokens are the name and the value.  For a verb
    [name=] (nothing after the ['=']) the second token is null: [setenv] is
    handed the name and a null value.  For a verb [=value] the leading
    ['='] is skipped, so that [value] is taken for the name, and the value
    is null again.  [setenv] takes two strings: with the null value the
    call has no defined behaviour, whatever the state. *)
Theorem assignment_without_value_passes_null text :
  text <> EmptyString -> has_char "=" text = false ->
  (forall command w,
      CmdC.parse_environment_variable (Some command) w
      = (setenv (fst (assignment_tokens command))
           (snd (assignment_tokens command)) ;;; ret tt) w)
  /\ (forall value,
         value <> EmptyString -> has_char "=" value = false ->
         assignment_tokens (String.append text (String "=" value))
         = (Some text, Some value))
  /\ assignment_tokens (String.append text "=") = (Some text, None)
  /\ assignment_tokens (String "=" text) = (Some text, None)
  /\ (forall w,
         CmdC.parse_environment_variable (Some (String.append text "=")) w
         = Undefined)
  /\ (forall w,
         CmdC.parse_environment_variable (Some (String "=" text)) w
         = Undefined).
Proof.
  intros Hn Hn'. split; [exact assignment_tokens_passed|].
  split; [intros value; now apply assignment_tokens_pair|].
  split; [now apply assignment_tokens_no_value|].
  split; [now apply assignment_tokens_no_name|].
  split; intros w; rewrite assignment_tokens_passed.
  - now rewrite (assignment_tokens_no_value text Hn Hn').
  - now rewrite (assignment_tokens_no_name text Hn Hn').
Qed.

(** X14 at work: [NAME=value], [NAME=] and [=NAME]. *)
Lemma assignment_without_value_witness :
  assignment_tokens "NAME=value" = (Some "NAME", Some "value")
  /\ assignment_tokens "NAME=" = (Some "NAME", None)
  /\ assignment_tokens "=NAME" = (Some "NAME", None)
  /\ (forall w,
         CmdC.parse_environment_variable (Some "NAME=value") w
         = (setenv (Some "NAME") (Some "value") ;;; ret tt) w)
  /\ (forall w, CmdC.parse_environment_variable (Some "NAME=") w = Undefined)
  /\ (forall w, CmdC.parse_environment_variable (Some "=NAME") w = Undefined).
Proof.
  destruct (assignment_without_value_passes_null "NAME"
              ltac:(discriminate) eq_refl) as (A & B & C & D & E & F).
  split; [exact (B "value" ltac:(discriminate) eq_refl)|].
  split; [exact C|]. split; [exact D|].
  split; [intros w; exact (A "NAME=value" w)|].
  split; [exact E | exact F].
Defined.

(* ===================================================================== *)
(** ** One redirection: what the stream is bound to *)
(* ===================================================================== *)

Lemma bound_and_closed (t : gmap Z ofile) fd d f :
  fd <> d -> t !! fd = None ->
  delete fd (<[d := f]> (<[fd := f]> t)) = <[d := f]> t.
Proof.
  intros N H. apply map_eq. intros i.
  destruct (decide (i = fd)) as [->|Ni].
  - rewrite lookup_delete_eq, lookup_insert_ne by auto. now rewrite H.
  - rewrite lookup_delete_ne by auto.
    destruct (decide (i = d)) as [->|Nd].
    + now rewrite !lookup_insert_eq.
    + now rewrite !lookup_insert_ne by auto.
Qed.

Section OneStream.
Variable K : kernel.
Hypothesis dup2_ok : forall w a b, k_dup2 K w a b = true.
Variable file : string.
Variable w : world.

(** The state after [open], [dup2] onto [d] and [close]. *)
Let bound (d flags : Z) (mode : option Z) : world :=
  let fd := lowest_free (fds w) in
  let f := OFile (next_serial w) (Opened file flags) in
  let w1 := log (EvOpen file flags mode fd)
              (bump_serial (set_fds (<[fd := f]> (fds w)) w)) in
  let w2 := log (EvDup2 fd d d) (set_fds (<[d := f]> (fds w1)) w1) in
  log (EvClose fd 0) (set_fds (delete fd (fds w2)) w2).

Lemma bound_fds d flags mode :
  is_Some (fds w !! d) ->
  fds (bound d flags mode)
  = <[d := OFile (next_serial w) (Opened file flags)]> (fds w).
Proof.
  intros Hs. unfold bound. cbn [fds log set_fds bump_serial].
  apply bound_and_closed.
  - now apply lowest_free_ne.
  - apply lowest_free_free.
Qed.

Lemma open_dup2_close d flags mode (Hd : 0 <= d) :
  k_open K w file flags = true ->
  exists w1 w2 f,
    let fd := lowest_free (fds w) in
    open K file flags mode w = Return fd w1
    /\ (fd =? -1) = false
    /\ dup2 K fd d w1 = Return d w2
    /\ (d =? -1) = false
    /\ CmdC.dup_fd K fd d w1 = Return 0 w2
    /\ close fd w2 = Return 0 (bound d flags mode)
    /\ fds w2 !! fd = Some f.
Proof.
  intros Eo.
  set (fd := lowest_free (fds w)).
  set (f := OFile (next_serial w) (Opened file flags)).
  set (w1 := log (EvOpen file flags mode fd)
               (bump_serial (set_fds (<[fd := f]> (fds w)) w))).
  set (w2 := log (EvDup2 fd d d) (set_fds (<[d := f]> (fds w1)) w1)).
  assert (L1 : fds w1 !! fd = Some f) by apply lookup_insert_eq.
  assert (L2 : fds w2 !! fd = Some f).
  { unfold w2. cbn [fds log set_fds]. now apply lookup_insert_over. }
  exists w1, w2, f. cbv zeta. fold fd.
  split; [exact (open_true K file flags mode w Eo)|].
  split.
  { apply Z.eqb_neq. pose proof (lowest_free_nonneg (fds w)). unfold fd. lia. }
  split; [exact (dup2_true K fd d f w1 L1 (dup2_ok _ _ _) Hd)|].
  split; [apply Z.eqb_neq; lia|].
  split; [exact (dup_fd_true K fd d f w1 L1 (dup2_ok _ _ _) Hd)|].
  split; [exact (close_true fd f w2 L2) | exact L2].
Qed.

Lemma cmdc_redirect_stdin append :
  k_open K w file O_RDONLY = true ->
  CmdC.redirect K file STDIN_FILENO append w
  = Return 0 (bound STDIN_FILENO O_RDONLY None).
Proof.
  intros Eo. unfold CmdC.redirect.
  change (STDIN_FILENO =? STDIN_FILENO) with true. cbv iota.
  destruct (open_dup2_close STDIN_FILENO O_RDONLY None
              ltac:(unfold STDIN_FILENO; lia) Eo)
    as (w1 & w2 & f & E1 & N1 & _ & _ & E2 & E3 & _).
  rewrite (bind_Return _ _ _ _ _ E1), N1, (bind_Return _ _ _ _ _ E2),
    (bind_Return _ _ _ _ _ E3).
  reflexivity.
Qed.

Lemma part000_redirect_input :
  k_open K w file O_RDONLY = true ->
  Part000.redirect_input K file w
  = Return 0 (bound STDIN_FILENO O_RDONLY None).
Proof.
  intros Eo. unfold Part000.redirect_input.
  destruct (open_dup2_close STDIN_FILENO O_RDONLY None
              ltac:(unfold STDIN_FILENO; lia) Eo)
    as (w1 & w2 & f & E1 & N1 & E2 & N2 & _ & E3 & _).
  rewrite (bind_Return _ _ _ _ _ E1), N1, (bind_Return _ _ _ _ _ E2), N2,
    (bind_Return _ _ _ _ _ E3).
  reflexivity.
Qed.

Lemma cmdc_redirect_stdout append :
  k_open K w file (output_flags append) = true ->
  CmdC.redirect K file STDOUT_FILENO append w
  = Return 0 (bound STDOUT_FILENO (output_flags append) (Some 420)).
Proof.
  intros Eo. unfold CmdC.redirect.
  change (STDOUT_FILENO =? STDIN_FILENO) with false.
  cbv zeta. cbv iota. rewrite output_flags_eq.
  change (negb (Z.land STDOUT_FILENO STDOUT_FILENO =? 0)) with true.
  change (negb (Z.land STDOUT_FILENO STDERR_FILENO =? 0)) with false.
  cbv iota.
  destruct (open_dup2_close STDOUT_FILENO (output_flags append) (Some 420)
              ltac:(unfold STDOUT_FILENO; lia) Eo)
    as (w1 & w2 & f & E1 & N1 & _ & _ & E2 & E3 & _).
  rewrite (bind_Return _ _ _ _ _ E1), N1, (bind_Return _ _ _ _ _ E2).
  rewrite bind_ret_l, (bind_Return _ _ _ _ _ E3).
  reflexivity.
Qed.

Lemma part000_redirect_output append :
  k_open K w file (output_flags append) = true ->
  Part000.redirect_output K file append w
  = Return 0 (bound STDOUT_FILENO (output_flags append) (Some 420)).
Proof.
  intros Eo. unfold Part000.redirect_output.
  cbv zeta. rewrite output_flags_eq.
  destruct (open_dup2_close STDOUT_FILENO (output_flags append) (Some 420)
              ltac:(unfold STDOUT_FILENO; lia) Eo)
    as (w1 & w2 & f & E1 & N1 & E2 & N2 & _ & E3 & _).
  rewrite (bind_Return _ _ _ _ _ E1), N1, (bind_Return _ _ _ _ _ E2), N2,
    (bind_Return _ _ _ _ _ E3).
  reflexivity.
Qed.

Lemma cmdc_redirect_stderr append :
  k_open K w file (output_flags append) = true ->
  CmdC.redirect K file STDERR_FILENO append w
  = Return 0 (bound STDERR_FILENO (output_flags append) (Some 420)).
Proof.
  intros Eo. unfold CmdC.redirect.
  change (STDERR_FILENO =? STDIN_FILENO) with false.
  cbv zeta. cbv iota. rewrite output_flags_eq.
  change (negb (Z.land STDERR_FILENO STDOUT_FILENO =? 0)) with false.
  change (negb (Z.land STDERR_FILENO STDERR_FILENO =? 0)) with true.
  cbv iota.
  destruct (open_dup2_close STDERR_FILENO (output_flags append) (Some 420)
              ltac:(unfold STDERR_FILENO; lia) Eo)
    as (w1 & w2 & f & E1 & N1 & _ & _ & E2 & E3 & _).
  rewrite (bind_Return _ _ _ _ _ E1), N1.
  rewrite bind_ret_l, (bind_Return _ _ _ _ _ E2), (bind_Return _ _ _ _ _ E3).
  reflexivity.
Qed.

Lemma part000_redirect_stderr append :
  k_open K w file (output_flags append) = true ->
  Part000.redirect_stderr K file append w
  = Return 0 (bound STDERR_FILENO (output_flags append) (Some 420)).
Proof.
  intros Eo. unfold Part000.redirect_stderr.
  cbv zeta. rewrite output_flags_eq.
  destruct (open_dup2_close STDERR_FILENO (output_flags append) (Some 420)
              ltac:(unfold STDERR_FILENO; lia) Eo)
    as (w1 & w2 & f & E1 & N1 & E2 & N2 & _ & E3 & _).
  rewrite (bind_Return _ _ _ _ _ E1), N1, (bind_Return _ _ _ _ _ E2), N2,
    (bind_Return _ _ _ _ _ E3).
  reflexivity.
Qed.

End OneStream.

(** X15.  One redirection, when the target can be opened, [dup2] does not
    fail and the stream [d] (standard input, output or error) is open.
    [redirect] of src/src/cmd.c and the function of src/unnamed/part_000
    for that stream ([redirect_input], [redirect_output],
    [redirect_stderr]) do the same three calls -- [open], [dup2] onto [d],
    [close] of the descriptor [open] gave -- return 0, and end in the same
    state: [d] refers to the new open file description, every other
    descriptor is what it was, and the descriptor used in between is closed
    again.  The target is opened read-only for standard input; for the
    other two it is opened write-only, to be created if need be, and
    appending if [append] is not 0, truncating if it is. *)
Theorem one_redirection_binds_the_stream K file append w d :
  (forall w a b, k_dup2 K w a b = true) ->
  is_Some (fds w !! d) ->
  d = STDIN_FILENO \/ d = STDOUT_FILENO \/ d = STDERR_FILENO ->
  let flags := if d =? STDIN_FILENO then O_RDONLY else output_flags append in
  let mode := if d =? STDIN_FILENO then None else Some 420 in
  let fd := lowest_free (fds w) in
  k_open K w file flags = true ->
  exists w',
    CmdC.redirect K file d append w = Return 0 w'
    /\ (d = STDIN_FILENO -> Part000.redirect_input K file w = Return 0 w')
    /\ (d = STDOUT_FILENO ->
        Part000.redirect_output K file append w = Return 0 w')
    /\ (d = STDERR_FILENO ->
        Part000.redirect_stderr K file append w = Return 0 w')
    /\ fds w' = <[d := OFile (next_serial w) (Opened file flags)]> (fds w)
    /\ trace w' = EvClose fd 0 :: EvDup2 fd d d
                  :: EvOpen file flags mode fd :: trace w
    /\ environ w' = environ w /\ cwd w' = cwd w.
Proof.
  intros Hd Hs Hwhich flags mode fd Ho.
  destruct Hwhich as [-> | [-> | ->]]; subst flags mode; cbv beta iota in *.
  - change (STDIN_FILENO =? STDIN_FILENO) with true in *. cbv iota in *.
    eexists. split; [exact (cmdc_redirect_stdin K Hd file w append Ho)|].
    split; [intros _; exact (part000_redirect_input K Hd file w Ho)|].
    split; [intros E; discriminate E|].
    split; [intros E; discriminate E|].
    split; [exact (bound_fds file w STDIN_FILENO O_RDONLY None Hs)|].
    repeat split.
  - change (STDOUT_FILENO =? STDIN_FILENO) with false in *. cbv iota in *.
    eexists. split; [exact (cmdc_redirect_stdout K Hd file w append Ho)|].
    split; [intros E; discriminate E|].
    split; [intros _; exact (part000_redirect_output K Hd file w append Ho)|].
    split; [intros E; discriminate E|].
    split; [exact (bound_fds file w STDOUT_FILENO _ (Some 420) Hs)|].
    repeat split.
  - change (STDERR_FILENO =? STDIN_FILENO) with false in *. cbv iota in *.
    eexists. split; [exact (cmdc_redirect_stderr K Hd file w append Ho)|].
    split; [intros E; discriminate E|].
    split; [intros E; discriminate E|].
    split; [intros _; exact (part000_redirect_stderr K Hd file w append Ho)|].
    split; [exact (bound_fds file w STDERR_FILENO _ (Some 420) Hs)|].
    repeat split.
Qed.

(** X15 at work: [>> /tmp/log] on standard output. *)
Lemma one_redirection_witness :
  exists w',
    CmdC.redirect Samples.K0 "/tmp/log" STDOUT_FILENO 1 Samples.w0
    = Return 0 w'
    /\ Part000.redirect_output Samples.K0 "/tmp/log" 1 Samples.w0
       = Return 0 w'
    /\ fds w' = <[1 := OFile 3 (Opened "/tmp/log" appending)]>
                  (fds Samples.w0)
    /\ trace w' = [EvClose 3 0; EvDup2 3 1 1;
                   EvOpen "/tmp/log" appending (Some 420) 3].
Proof.
  destruct (one_redirection_binds_the_stream Samples.K0 "/tmp/log" 1
              Samples.w0 STDOUT_FILENO (fun _ _ _ => eq_refl)
              ltac:(vm_compute; eauto) (or_intror (or_introl eq_refl))
              eq_refl)
    as (w' & A & _ & B & _ & T & L & _).
  exists w'. split; [exact A|]. split; [exact (B eq_refl)|].
  split; [exact T | exact L].
Defined.

(* ===================================================================== *)
(** ** A [dup2] that fails in a redirection *)
(* ===================================================================== *)

Lemma dup2_false K a b w :
  k_dup2 K w a b = false ->
  dup2 K a b w = Return (-1) (log (EvDup2 a b (-1)) w).
Proof.
  intros H. unfold dup2. rewrite H. now destruct (fds w !! a).
Qed.

Lemma close_closed a w :
  fds w !! a = None -> close a w = Return (-1) (log (EvClose a (-1)) w).
Proof. intros H. unfold close. now rewrite H. Qed.

(** X16.  An output redirection whose target opens but whose [dup2] fails.
    In src/src/cmd.c [redirect] drops the result of [dup_fd]: it returns 0,
    standard output being what it was (so that the command will run
    without its redirection); [dup_fd] has reported the failure with
    [perror] and closed the new descriptor, which [redirect] then closes a
    second time.  In src/unnamed/part_000 [redirect_output] closes the new
    descriptor and returns -1, without a message.  In both the descriptor
    table ends as it began. *)
Theorem failed_dup2_in_output_redirection K file append w :
  k_open K w file (output_flags append) = true ->
  (forall w' a b, k_dup2 K w' a b = false) ->
  let fd := lowest_free (fds w) in
  let flags := output_flags append in
  (exists w',
      CmdC.redirect K file STDOUT_FILENO append w = Return 0 w'
      /\ fds w' = fds w
      /\ trace w' = EvClose fd (-1) :: EvClose fd 0 :: EvPerror "dup2"
                    :: EvDup2 fd STDOUT_FILENO (-1)
                    :: EvOpen file flags (Some 420) fd :: trace w)
  /\ (exists w',
         Part000.redirect_output K file append w = Return (-1) w'
         /\ fds w' = fds w
         /\ trace w' = EvClose fd 0 :: EvDup2 fd STDOUT_FILENO (-1)
                       :: EvOpen file flags (Some 420) fd :: trace w).
Proof.
  intros Ho Hd fd flags.
  set (f := OFile (next_serial w) (Opened file flags)).
  set (w1 := log (EvOpen file flags (Some 420) fd)
               (bump_serial (set_fds (<[fd := f]> (fds w)) w))).
  assert (E1 : open K file flags (Some 420) w = Return fd w1)
    by exact (open_true K file flags _ w Ho).
  assert (N1 : (fd =? -1) = false).
  { apply Z.eqb_neq. pose proof (lowest_free_nonneg (fds w)). unfold fd. lia. }
  set (w2 := log (EvDup2 fd STDOUT_FILENO (-1)) w1).
  assert (E2 : dup2 K fd STDOUT_FILENO w1 = Return (-1) w2)
    by exact (dup2_false K _ _ w1 (Hd _ _ _)).
  assert (L : forall u, fds u = fds w1 -> fds u !! fd = Some f).
  { intros u ->. apply lookup_insert_eq. }
  assert (T : delete fd (fds w1) = fds w).
  { unfold w1. cbn [fds log set_fds bump_serial].
    rewrite delete_insert_eq. apply delete_id, lowest_free_free. }
  split.
  - unfold CmdC.redirect.
    change (STDOUT_FILENO =? STDIN_FILENO) with false.
    cbv zeta. cbv iota. rewrite output_flags_eq. fold flags.
    change (negb (Z.land STDOUT_FILENO STDOUT_FILENO =? 0)) with true.
    change (negb (Z.land STDOUT_FILENO STDERR_FILENO =? 0)) with false.
    cbv iota.
    rewrite (bind_Return _ _ _ _ _ E1), N1.
    unfold CmdC.dup_fd. rewrite !bind_assoc.
    rewrite (bind_Return _ _ _ _ _ E2).
    change (-1 =? -1) with true. cbv iota. rewrite !bind_assoc.
    unfold perror at 1, emit at 1.
    rewrite (bind_Return _ _ _ _ _
               (eq_refl : (fun u => Return tt (log (EvPerror "dup2") u)) w2
                          = Return tt (log (EvPerror "dup2") w2))).
    set (w3 := log (EvPerror "dup2") w2).
    rewrite !bind_assoc.
    rewrite (bind_Return _ _ _ _ _ (close_true fd f w3 (L w3 eq_refl))).
    set (w4 := log (EvClose fd 0) _).
    rewrite !bind_ret_l.
    assert (C4 : fds w4 !! fd = None).
    { unfold w4. cbn [fds log set_fds]. apply lookup_delete_eq. }
    rewrite (bind_Return _ _ _ _ _ (close_closed fd w4 C4)).
    eexists. split; [reflexivity|]. split; [|reflexivity].
    cbn [fds log set_fds]. exact T.
  - unfold Part000.redirect_output.
    cbv zeta. rewrite output_flags_eq. fold flags.
    rewrite (bind_Return _ _ _ _ _ E1), N1.
    rewrite (bind_Return _ _ _ _ _ E2).
    change (-1 =? -1) with true. cbv iota.
    rewrite (bind_Return _ _ _ _ _ (close_true fd f w2 (L w2 eq_refl))).
    eexists. split; [reflexivity|]. split; [|reflexivity].
    cbn [fds log set_fds]. exact T.
Qed.

(** X16 at work: [> /tmp/out] where [dup2] fails. *)
Lemma failed_dup2_witness :
  (exists w',
      CmdC.redirect More.Kd2 "/tmp/out" STDOUT_FILENO 0 Samples.w0
      = Return 0 w'
      /\ fds w' = fds Samples.w0
      /\ trace w' = [EvClose 3 (-1); EvClose 3 0; EvPerror "dup2";
                     EvDup2 3 1 (-1);
                     EvOpen "/tmp/out" truncating (Some 420) 3])
  /\ (exists w',
         Part000.redirect_output More.Kd2 "/tmp/out" 0 Samples.w0
         = Return (-1) w'
         /\ fds w' = fds Samples.w0
         /\ trace w' = [EvClose 3 0; EvDup2 3 1 (-1);
                        EvOpen "/tmp/out" truncating (Some 420) 3]).
Proof.
  exact (failed_dup2_in_output_redirection More.Kd2 "/tmp/out" 0 Samples.w0
           eq_refl (fun _ _ _ => eq_refl)).
Defined.

(* ===================================================================== *)
(** ** Saving the streams: all three or none (src/src/cmd.c) *)
(* ===================================================================== *)

Lemma dup_cases K fd w r w' :
  dup K fd w = Return r w' ->
  (r = -1 /\ w' = log (EvDup fd (-1)) w)
  \/ (exists f, fds w !! fd = Some f
                /\ r = lowest_free (fds w)
                /\ w' = log (EvDup fd r) (set_fds (<[r := f]> (fds w)) w)).
Proof.
  unfold dup. destruct (fds w !! fd) as [f|]; [destruct (k_dup K w fd)|];
    intros H; inversion H; subst; auto.
  right. now exists f.
Qed.

Lemma dup_undone K fd w r w' :
  dup K fd w = Return r w' ->
  fds w !! (-1) = None ->
  delete r (fds w') = fds w /\ fds w' !! (-1) = None.
Proof.
  intros H Hm. apply dup_cases in H.
  destruct H as [[-> ->] | (f & _ & -> & ->)]; cbn [fds log set_fds].
  - split; [now apply delete_id | exact Hm].
  - split.
    + rewrite delete_insert_eq. apply delete_id, lowest_free_free.
    + rewrite lookup_insert_ne; [exact Hm|].
      pose proof (lowest_free_nonneg (fds w)). lia.
Qed.

Lemma close_deletes fd w :
  exists r w', close fd w = Return r w' /\ fds w' = delete fd (fds w)
               /\ trace w' = EvClose fd r :: trace w.
Proof.
  unfold close. destruct (fds w !! fd) eqn:E; eexists _, _;
    (split; [reflexivity|]); cbn [fds trace log set_fds]; split;
    try reflexivity.
  symmetry. now apply delete_id.
Qed.

Lemma cmdc_duplicate_cases K w a b c w' :
  fds w !! (-1) = None ->
  CmdC.duplicate_file_descriptors K w = Return (a, b, c) w' ->
  (a = -1 \/ b = -1 \/ c = -1 ->
   fds w' = fds w
   /\ exists ra rb rc evs,
        trace w' = EvClose c rc :: EvClose b rb :: EvClose a ra
                   :: EvPerror "dup" :: evs)
  /\ (a <> -1 -> b <> -1 -> c <> -1 -> std_open w ->
      exists f0 f1 f2,
        saved_streams (fds w) a b c f0 f1 f2
        /\ fds w' = <[c := f2]> (<[b := f1]> (<[a := f0]> (fds w)))).
Proof.
  intros Hm H. unfold CmdC.duplicate_file_descriptors in H.
  apply bind_inv_Return in H. destruct H as (a' & wa & Ea & H).
  apply bind_inv_Return in H. destruct H as (b' & wb & Eb & H).
  apply bind_inv_Return in H. destruct H as (c' & wc & Ec & H).
  destruct ((a' =? -1) || (b' =? -1) || (c' =? -1)) eqn:Et.
  - destruct (dup_undone _ _ _ _ _ Ea Hm) as [Da Ma].
    destruct (dup_undone _ _ _ _ _ Eb Ma) as [Db Mb].
    destruct (dup_undone _ _ _ _ _ Ec Mb) as [Dc Mc].
    apply bind_inv_Return in H. destruct H as ([] & w1 & E1 & H).
    inversion E1; subst w1. clear E1.
    destruct (close_deletes a' (log (EvPerror "dup") wc))
      as (ra & w2 & E2 & T2 & L2).
    rewrite (bind_Return _ _ _ _ _ E2) in H.
    destruct (close_deletes b' w2) as (rb & w3 & E3 & T3 & L3).
    rewrite (bind_Return _ _ _ _ _ E3) in H.
    destruct (close_deletes c' w3) as (rc & w4 & E4 & T4 & L4).
    rewrite (bind_Return _ _ _ _ _ E4) in H.
    inversion H; subst a' b' c' w4. clear H.
    split.
    + intros _. split.
      * rewrite T4, T3, T2. cbn [fds log].
        rewrite (delete_delete _ c b), (delete_delete _ c a).
        rewrite (delete_delete _ b a).
        now rewrite Dc, Db, Da.
      * exists ra, rb, rc, (trace wc).
        rewrite L4, L3, L2. reflexivity.
    + intros Na Nb Nc. exfalso.
      apply Z.eqb_neq in Na, Nb, Nc. rewrite Na, Nb, Nc in Et. discriminate.
  - inversion H; subst a' b' c' w'. clear H.
    apply orb_false_iff in Et. destruct Et as [Et Nc].
    apply orb_false_iff in Et. destruct Et as [Na Nb].
    apply Z.eqb_neq in Na, Nb, Nc.
    split; [intros [E|[E|E]]; congruence|].
    intros _ _ _ (S0 & S1 & S2).
    apply dup_cases in Ea.
    destruct Ea as [[-> _] | (f0 & H0 & Ra & ->)]; [congruence|].
    apply dup_cases in Eb.
    destruct Eb as [[-> _] | (f1 & H1 & Rb & ->)]; [congruence|].
    apply dup_cases in Ec.
    destruct Ec as [[-> _] | (f2 & H2 & Rc & ->)]; [congruence|].
    cbn [fds log set_fds] in *.
    pose proof (lowest_free_free (fds w)) as Fa. rewrite <- Ra in Fa.
    pose proof (lowest_free_free (<[a := f0]> (fds w))) as Fb.
    rewrite <- Rb in Fb.
    pose proof (lowest_free_free (<[b := f1]> (<[a := f0]> (fds w)))) as Fc.
    rewrite <- Rc in Fc.
    assert (Hab : a <> b).
    { intros E. rewrite <- E, lookup_insert_eq in Fb. discriminate. }
    rewrite lookup_insert_ne in Fb by exact Hab.
    assert (Hbc : b <> c).
    { intros E. rewrite <- E, lookup_insert_eq in Fc. discriminate. }
    rewrite lookup_insert_ne in Fc by exact Hbc.
    assert (Hac : a <> c).
    { intros E. rewrite <- E, lookup_insert_eq in Fc. discriminate. }
    rewrite lookup_insert_ne in Fc by exact Hac.
    assert (A1 : a <> STDOUT_FILENO).
    { intros E. rewrite E in Fa. rewrite Fa in S1. now destruct S1. }
    assert (A2 : a <> STDERR_FILENO).
    { intros E. rewrite E in Fa. rewrite Fa in S2. now destruct S2. }
    assert (B2 : b <> STDERR_FILENO).
    { intros E. rewrite E in Fb. rewrite Fb in S2. now destruct S2. }
    rewrite lookup_insert_ne in H1 by exact A1.
    rewrite !lookup_insert_ne in H2 by auto.
    exists f0, f1, f2. split; [now split | reflexivity].
Qed.

(** X17.  [duplicate_file_descriptors] of src/src/cmd.c keeps all three
    duplicates or none.  If one of the three [dup] calls fails, it reports
    it with [perror("dup")] and closes what the others gave, so that the
    descriptor table is back to what it was -- and it returns to
    [parse_simple], which goes on with the command.  If none fails (the
    standard descriptors being open), the three results are distinct
    descriptors that were free, each referring to the open file
    description of its stream, and nothing else has changed in the
    table. *)
Theorem streams_are_saved_all_or_none K w a b c w' :
  fds w !! (-1) = None ->
  CmdC.duplicate_file_descriptors K w = Return (a, b, c) w' ->
  (a = -1 \/ b = -1 \/ c = -1 ->
   fds w' = fds w
   /\ exists ra rb rc evs,
        trace w' = EvClose c rc :: EvClose b rb :: EvClose a ra
                   :: EvPerror "dup" :: evs)
  /\ (a <> -1 -> b <> -1 -> c <> -1 -> std_open w ->
      exists f0 f1 f2,
        saved_streams (fds w) a b c f0 f1 f2
        /\ fds w' = <[c := f2]> (<[b := f1]> (<[a := f0]> (fds w)))).
Proof. apply cmdc_duplicate_cases. Qed.

(** X17 at work: [dup] fails on standard error, after descriptors 3 and 4
    were made for the other two. *)
Lemma streams_saved_witness :
  let o := CmdC.duplicate_file_descriptors More.Kd Samples.w0 in
  o = Return (3, 4, -1) (final o Samples.w0)
  /\ fds (final o Samples.w0) = fds Samples.w0
  /\ exists ra rb rc evs,
       trace (final o Samples.w0)
       = EvClose (-1) rc :: EvClose 4 rb :: EvClose 3 ra
         :: EvPerror "dup" :: evs.
Proof.
  intros o.
  assert (Eo : o = Return (3, 4, -1) (final o Samples.w0))
    by (vm_compute; reflexivity).
  split; [exact Eo|].
  apply (proj1 (streams_are_saved_all_or_none More.Kd Samples.w0 3 4 (-1)
                  (final o Samples.w0) eq_refl Eo)).
  right. right. reflexivity.
Defined.

(* ===================================================================== *)
(** ** A command whose input cannot be opened is not run *)
(* ===================================================================== *)

(** X18.  In both versions, when the input target of a simple command
    cannot be opened, the command is not run, whatever its verb is -- a
    built-in, [exit] included, an assignment or a program: [parse_simple]
    returns -1 right after the failed [open] and its [perror], having
    created no process and changed neither the environment nor the working
    directory. *)
Theorem unreadable_input_stops_the_command K X pea s l f w file :
  x_get_word X (environ w) (in_ s) = Some file ->
  (forall w', k_open K w' file O_RDONLY = false) ->
  (exists w' evs,
      CmdC.parse_simple K X (Some s) l f w = Return (-1) w'
      /\ trace w' = (EvPerror "open" :: EvOpen file O_RDONLY None (-1)
                     :: evs ++ trace w)%list
      /\ environ w' = environ w /\ cwd w' = cwd w /\ procs w' = procs w)
  /\ (exists w' evs,
         Part000.parse_simple K X pea (Some s) l f w = Return (-1) w'
         /\ trace w' = (EvPerror "open" :: EvOpen file O_RDONLY None (-1)
                        :: evs ++ trace w)%list
         /\ environ w' = environ w /\ cwd w' = cwd w /\ procs w' = procs w).
Proof.
  intros Hi Ho. split.
  - unfold CmdC.parse_simple.
    rewrite (bind_Return _ _ _ _ _ (get_word_run X (verb s) w)).
    rewrite (bind_Return _ _ _ _ _
               (eq_refl : get_argv X s w
                          = Return (x_get_argv X (environ w) s) w)).
    destruct (fd_call_duplicate K w) as ([[a b] c] & w1 & E1 & F1).
    rewrite (bind_Return _ _ _ _ _ E1). cbv iota beta.
    assert (Hi1 : x_get_word X (environ w1) (in_ s) = Some file)
      by (now rewrite (frame_environ _ _ F1)).
    rewrite (bind_Return _ _ _ _ _
               (proj1 (input_failure_short_circuits K X s w1 file Hi1
                         (Ho w1)))).
    change (-1 =? -1) with true. cbv iota.
    destruct (frame_trace _ _ F1) as (evs & T1).
    eexists _, evs. split; [reflexivity|]. cbn [trace environ cwd procs log].
    rewrite T1. split; [reflexivity|].
    split; [apply (frame_environ _ _ F1)|].
    split; [apply (frame_cwd _ _ F1) | apply (frame_procs _ _ F1)].
  - unfold Part000.parse_simple.
    rewrite (bind_Return _ _ _ _ _ (get_word_run X (verb s) w)).
    rewrite (bind_Return _ _ _ _ _
               (eq_refl : get_argv X s w
                          = Return (x_get_argv X (environ w) s) w)).
    destruct (fd_call_duplicate' K w) as ([[a b] c] & w1 & E1 & F1).
    rewrite (bind_Return _ _ _ _ _ E1). cbv iota beta.
    assert (Hi1 : x_get_word X (environ w1) (in_ s) = Some file)
      by (now rewrite (frame_environ _ _ F1)).
    rewrite (bind_Return _ _ _ _ _
               (proj2 (input_failure_short_circuits K X s w1 file Hi1
                         (Ho w1)))).
    change (-1 =? -1) with true. cbv iota.
    destruct (frame_trace _ _ F1) as (evs & T1).
    eexists _, evs. split; [reflexivity|]. cbn [trace environ cwd procs log].
    rewrite T1. split; [reflexivity|].
    split; [apply (frame_environ _ _ F1)|].
    split; [apply (frame_cwd _ _ F1) | apply (frame_procs _ _ F1)].
Qed.

(** X18 at work: [quit < /missing/dir] does not end the shell. *)
Lemma unreadable_input_witness :
  let s := Samples.simple 21 None (Samples.wd 8) None None 0 in
  (exists w' evs,
      CmdC.parse_simple Samples.K0 More.X1 (Some s) 0 None Samples.w0
      = Return (-1) w'
      /\ trace w' = (EvPerror "open"
                     :: EvOpen "/missing/dir" O_RDONLY None (-1)
                     :: evs ++ trace Samples.w0)%list
      /\ environ w' = environ Samples.w0 /\ cwd w' = cwd Samples.w0
      /\ procs w' = procs Samples.w0)
  /\ (exists w' evs,
         Part000.parse_simple Samples.K0 More.X1 Samples.parse_env_assignment
           (Some s) 0 None Samples.w0 = Return (-1) w'
         /\ trace w' = (EvPerror "open"
                        :: EvOpen "/missing/dir" O_RDONLY None (-1)
                        :: evs ++ trace Samples.w0)%list
         /\ environ w' = environ Samples.w0 /\ cwd w' = cwd Samples.w0
         /\ procs w' = procs Samples.w0).
Proof.
  intros s.
  exact (unreadable_input_stops_the_command Samples.K0 More.X1
           Samples.parse_env_assignment s 0 None Samples.w0 "/missing/dir"
           eq_refl (fun _ => eq_refl)).
Defined.

(* ===================================================================== *)
(** ** An external command when no process can be created *)
(* ===================================================================== *)

Lemma fork_false K (child : M Empty_set) w :
  k_fork K w = false -> fork K child w = Return (-1) (log (EvFork (-1)) w).
Proof. intros H. unfold fork. now rewrite H. Qed.

Section ForkFails.
Variable K : kernel.
Variable X : externs.
Variable pea : string -> M unit.
Variables (s : simple_command_t) (level : Z) (father : option command_t).
Variable w : world.
Variable cmd : string.
Hypothesis verb_is : x_get_word X (environ w) (verb s) = Some cmd.
Hypothesis external : external_verb cmd.
Hypothesis no_room : forall w', k_fork K w' = false.

Lemma cmdc_fork_fails :
  (forall w1 r w2, CmdC.apply_redirections K X s w1 = Return r w2 -> r <> -1) ->
  exists w' evs,
    CmdC.parse_simple K X (Some s) level father w = Return (-1) w'
    /\ trace w' = EvPerror "fork" :: evs
    /\ In (EvFork (-1)) evs
    /\ procs w' = procs w.
Proof.
  intros Hredir.
  destruct external as (N1 & N2 & N3 & N4).
  unfold CmdC.parse_simple.
  assert (E0 : get_word X (verb s) w = Return (Some cmd) w)
    by (unfold get_word, gets; now rewrite verb_is).
  rewrite (bind_Return _ _ _ _ _ E0).
  rewrite (bind_Return _ _ _ _ _
             (eq_refl : get_argv X s w
                        = Return (x_get_argv X (environ w) s) w)).
  destruct (fd_call_duplicate K w) as ([[a b] c] & w1 & E1 & F1).
  rewrite (bind_Return _ _ _ _ _ E1).
  destruct (fd_call_apply_redirections K X s w1) as (r & w2 & E2 & F2).
  rewrite (bind_Return _ _ _ _ _ E2).
  assert (Er : (r =? -1) = false) by (apply Z.eqb_neq; eauto).
  rewrite Er.
  rewrite !strcmp_neq by assumption. rewrite strstr_no_eq by assumption.
  cbn [orb non_null].
  rewrite (bind_Return _ _ _ _ _ (fork_false K _ w2 (no_room w2))).
  change (-1 =? -1) with true. cbv iota.
  destruct (fd_call_restore K a b c (log (EvFork (-1)) w2))
    as ([] & wr & E5 & F5).
  rewrite (bind_Return _ _ _ _ _ E5).
  destruct (frame_trace _ _ F5) as (evs5 & T5).
  exists (log (EvPerror "fork") wr), (trace wr).
  split; [reflexivity|]. split; [reflexivity|]. split.
  - rewrite T5. apply in_or_app. right. now left.
  - cbn [procs log]. rewrite (frame_procs _ _ F5). cbn [procs log].
    rewrite (frame_procs _ _ F2). apply (frame_procs _ _ F1).
Qed.

Lemma part000_fork_fails :
  (forall w1 r w2,
      Part000.apply_redirections K X s w1 = Return r w2 -> r <> -1) ->
  exists w' evs,
    Part000.parse_simple K X pea (Some s) level father w = Return (-1) w'
    /\ trace w' = EvPerror "fork" :: EvFork (-1) :: evs
    /\ procs w' = procs w.
Proof.
  intros Hredir.
  destruct external as (N1 & N2 & N3 & N4).
  unfold Part000.parse_simple.
  assert (E0 : get_word X (verb s) w = Return (Some cmd) w)
    by (unfold get_word, gets; now rewrite verb_is).
  rewrite (bind_Return _ _ _ _ _ E0).
  rewrite (bind_Return _ _ _ _ _
             (eq_refl : get_argv X s w
                        = Return (x_get_argv X (environ w) s) w)).
  destruct (fd_call_duplicate' K w) as ([[a b] c] & w1 & E1 & F1).
  rewrite (bind_Return _ _ _ _ _ E1).
  destruct (fd_call_apply_redirections' K X s w1) as (r & w2 & E2 & F2).
  rewrite (bind_Return _ _ _ _ _ E2).
  assert (Er : (r =? -1) = false) by (apply Z.eqb_neq; eauto).
  rewrite Er.
  rewrite !strcmp_neq by assumption. rewrite strstr_no_eq by assumption.
  cbn [orb non_null].
  rewrite (bind_Return _ _ _ _ _ (fork_false K _ w2 (no_room w2))).
  change (-1 =? -1) with true. cbv iota.
  exists (log (EvPerror "fork") (log (EvFork (-1)) w2)), (trace w2).
  split; [reflexivity|]. split; [reflexivity|].
  cbn [procs log]. rewrite (frame_procs _ _ F2). apply (frame_procs _ _ F1).
Qed.

End ForkFails.

(* ===================================================================== *)
(** ** Saving and restoring the standard streams (src/unnamed/part_000) *)
(* ===================================================================== *)

Lemma keeps_fds_printf_ret text (r : Z) : keeps_fds (printf text ;;; ret r).
Proof. intros w x w' H. inversion H. reflexivity. Qed.

Lemma leaves_closed_if fd {A : Type} (c : bool) (m1 m2 : M A) :
  leaves_closed fd m1 -> leaves_closed fd m2 ->
  leaves_closed fd (if c then m1 else m2).
Proof. now destruct c. Qed.

Lemma touches_only_if fd {A : Type} (c : bool) (m1 m2 : M A) :
  touches_only fd m1 -> touches_only fd m2 ->
  touches_only fd (if c then m1 else m2).
Proof. now destruct c. Qed.

Ltac touches_calls :=
  repeat first
    [ apply touches_only_ret
    | apply touches_only_perror
    | apply touches_only_printf
    | apply touches_only_close
    | apply touches_only_dup2; apply std_is_std
    | apply touches_only_if
    | apply touches_only_bind; [| intros ] ].

Ltac closed_calls :=
  repeat first
    [ apply leaves_closed_close
    | apply leaves_closed_if
    | apply leaves_closed_bind; intros ].

Lemma keeps_others_redirect_output K file append :
  keeps_others (Part000.redirect_output K file append).
Proof.
  unfold Part000.redirect_output. cbv zeta. apply keeps_others_open.
  - apply keeps_fds_printf_ret.
  - intros fd. touches_calls.
  - intros fd. closed_calls.
Qed.

Lemma keeps_others_redirect_input K file :
  keeps_others (Part000.redirect_input K file).
Proof.
  unfold Part000.redirect_input. apply keeps_others_open.
  - apply keeps_fds_perror_ret.
  - intros fd. touches_calls.
  - intros fd. closed_calls.
Qed.

Lemma keeps_others_redirect_stderr K file append :
  keeps_others (Part000.redirect_stderr K file append).
Proof.
  unfold Part000.redirect_stderr. cbv zeta. apply keeps_others_open.
  - apply keeps_fds_perror_ret.
  - intros fd. touches_calls.
  - intros fd. closed_calls.
Qed.

Lemma keeps_others_redirect_output_stderr K file :
  keeps_others (Part000.redirect_output_stderr K file).
Proof.
  unfold Part000.redirect_output_stderr. apply keeps_others_open.
  - apply keeps_fds_perror_ret.
  - intros fd. touches_calls.
  - intros fd. closed_calls.
Qed.

Lemma keeps_others_apply_redirections' K X s :
  keeps_others (Part000.apply_redirections K X s).
Proof.
  unfold Part000.apply_redirections.
  repeat first
    [ apply keeps_others_ret
    | apply keeps_others_redirect_output
    | apply keeps_others_redirect_input
    | apply keeps_others_redirect_stderr
    | apply keeps_others_redirect_output_stderr
    | apply keeps_others_get_word
    | apply keeps_others_bind; [| intros ]
    | match goal with
      | |- keeps_others (if ?c then _ else _) => destruct c
      | |- keeps_others (match ?x with _ => _ end) => destruct x
      end ].
Qed.

Lemma restored_table (t0 t3 : gmap Z ofile) a b c f0 f1 f2 :
  saved_streams t0 a b c f0 f1 f2 ->
  (forall k, not_std k ->
             t3 !! k = <[c := f2]> (<[b := f1]> (<[a := f0]> t0)) !! k) ->
  delete c (delete b (delete a
    (<[STDERR_FILENO := f2]>
       (<[STDOUT_FILENO := f1]> (<[STDIN_FILENO := f0]> t3)))))
  = t0.
Proof.
  intros S Hk. destruct (saved_not_std _ _ _ _ _ _ _ S) as (Na & Nb & Nc).
  destruct S as [H0 H1 H2 Fa Fb Fc Hab Hac Hbc].
  apply map_eq. intros k.
  destruct Na as (Na0 & Na1 & Na2).
  destruct Nb as (Nb0 & Nb1 & Nb2).
  destruct Nc as (Nc0 & Nc1 & Nc2).
  destruct (decide (k = c)) as [->|Kc]; [now rewrite lookup_delete_eq|].
  rewrite lookup_delete_ne by auto.
  destruct (decide (k = b)) as [->|Kb]; [now rewrite lookup_delete_eq|].
  rewrite lookup_delete_ne by auto.
  destruct (decide (k = a)) as [->|Ka]; [now rewrite lookup_delete_eq|].
  rewrite lookup_delete_ne by auto.
  destruct (decide (k = STDERR_FILENO)) as [->|K2];
    [now rewrite lookup_insert_eq|].
  rewrite lookup_insert_ne by auto.
  destruct (decide (k = STDOUT_FILENO)) as [->|K1];
    [now rewrite lookup_insert_eq|].
  rewrite lookup_insert_ne by auto.
  destruct (decide (k = STDIN_FILENO)) as [->|K0];
    [now rewrite lookup_insert_eq|].
  rewrite lookup_insert_ne by auto.
  rewrite (Hk k (conj K0 (conj K1 K2))).
  now rewrite !lookup_insert_ne by auto.
Qed.

Section SaveRestoreB.
Variable K : kernel.
Hypothesis dup_ok : forall w fd, k_dup K w fd = true.
Hypothesis dup2_ok : forall w a b, k_dup2 K w a b = true.

Lemma part000_duplicate_saves w f0 f1 f2 :
  fds w !! STDIN_FILENO = Some f0 ->
  fds w !! STDOUT_FILENO = Some f1 ->
  fds w !! STDERR_FILENO = Some f2 ->
  exists a b c w1,
    Part000.duplicate_file_descriptors K w = Return (a, b, c) w1
    /\ saved_streams (fds w) a b c f0 f1 f2
    /\ fds w1 = <[c := f2]> (<[b := f1]> (<[a := f0]> (fds w))).
Proof.
  intros H0 H1 H2. unfold Part000.duplicate_file_descriptors.
  rewrite (bind_Return _ _ _ _ _ (dup_true K _ f0 w H0 (dup_ok _ _))).
  set (a := lowest_free (fds w)).
  set (wa := log _ _).
  assert (Fa : fds w !! a = None) by apply lowest_free_free.
  assert (Na : not_std a).
  { unfold not_std. repeat apply conj; intros E; rewrite E in Fa; congruence. }
  destruct Na as (Na0 & Na1 & Na2).
  assert (H1a : fds wa !! STDOUT_FILENO = Some f1).
  { unfold wa. cbn [fds log set_fds]. now rewrite lookup_insert_ne. }
  rewrite (bind_Return _ _ _ _ _ (dup_true K _ f1 wa H1a (dup_ok _ _))).
  set (b := lowest_free (fds wa)).
  set (wb := log _ _).
  assert (Fb : fds wa !! b = None) by apply lowest_free_free.
  assert (Hab : a <> b).
  { intros E. rewrite <- E in Fb. unfold wa in Fb. cbn [fds log set_fds] in Fb.
    rewrite lookup_insert_eq in Fb. discriminate. }
  assert (Fb0 : fds w !! b = None).
  { unfold wa in Fb. cbn [fds log set_fds] in Fb.
    now rewrite lookup_insert_ne in Fb. }
  assert (Nb : not_std b).
  { unfold not_std. repeat apply conj; intros E; rewrite E in Fb0; congruence. }
  destruct Nb as (Nb0 & Nb1 & Nb2).
  assert (H2b : fds wb !! STDERR_FILENO = Some f2).
  { unfold wb, wa. cbn [fds log set_fds].
    rewrite lookup_insert_ne by auto. now rewrite lookup_insert_ne. }
  rewrite (bind_Return _ _ _ _ _ (dup_true K _ f2 wb H2b (dup_ok _ _))).
  set (c := lowest_free (fds wb)).
  set (wc := log _ _).
  assert (Fc : fds wb !! c = None) by apply lowest_free_free.
  assert (Hbc : b <> c).
  { intros E. rewrite <- E in Fc. unfold wb in Fc. cbn [fds log set_fds] in Fc.
    rewrite lookup_insert_eq in Fc. discriminate. }
  assert (Fc1 : fds wa !! c = None).
  { unfold wb in Fc. cbn [fds log set_fds] in Fc.
    now rewrite lookup_insert_ne in Fc. }
  assert (Hac : a <> c).
  { intros E. rewrite <- E in Fc1. unfold wa in Fc1.
    cbn [fds log set_fds] in Fc1. rewrite lookup_insert_eq in Fc1.
    discriminate. }
  assert (Fc0 : fds w !! c = None).
  { unfold wa in Fc1. cbn [fds log set_fds] in Fc1.
    now rewrite lookup_insert_ne in Fc1. }
  exists a, b, c, wc. split; [reflexivity|]. split.
  - now split.
  - reflexivity.
Qed.

Lemma part000_restore_restores a b c f0 f1 f2 w :
  fds w !! a = Some f0 -> fds w !! b = Some f1 -> fds w !! c = Some f2 ->
  not_std a -> not_std b -> not_std c -> a <> b -> a <> c -> b <> c ->
  exists w',
    Part000.restore_file_descriptors K a b c w = Return tt w'
    /\ fds w'
       = delete c (delete b (delete a
           (<[STDERR_FILENO := f2]>
              (<[STDOUT_FILENO := f1]> (<[STDIN_FILENO := f0]> (fds w)))))).
Proof.
  intros Ha Hb Hc (Na0 & Na1 & Na2) (Nb0 & Nb1 & Nb2) (Nc0 & Nc1 & Nc2)
    Hab Hac Hbc.
  unfold Part000.restore_file_descriptors.
  rewrite (bind_Return _ _ _ _ _
             (dup2_true K a STDIN_FILENO f0 w Ha (dup2_ok _ _ _)
                ltac:(unfold STDIN_FILENO; lia))).
  set (w1 := log _ _).
  assert (Hb1 : fds w1 !! b = Some f1).
  { unfold w1. cbn [fds log set_fds]. now rewrite lookup_insert_ne by auto. }
  rewrite (bind_Return _ _ _ _ _
             (dup2_true K b STDOUT_FILENO f1 w1 Hb1 (dup2_ok _ _ _)
                ltac:(unfold STDOUT_FILENO; lia))).
  set (w2 := log _ _).
  assert (Hc2 : fds w2 !! c = Some f2).
  { unfold w2, w1. cbn [fds log set_fds].
    rewrite lookup_insert_ne by auto. now rewrite lookup_insert_ne by auto. }
  rewrite (bind_Return _ _ _ _ _
             (dup2_true K c STDERR_FILENO f2 w2 Hc2 (dup2_ok _ _ _)
                ltac:(unfold STDERR_FILENO; lia))).
  set (w3 := log _ _).
  assert (Ha3 : fds w3 !! a = Some f0).
  { unfold w3, w2, w1. cbn [fds log set_fds].
    rewrite !lookup_insert_ne by auto. exact Ha. }
  rewrite (bind_Return _ _ _ _ _ (close_true a f0 w3 Ha3)).
  set (w4 := log _ _).
  assert (Hb4 : fds w4 !! b = Some f1).
  { unfold w4, w3, w2, w1. cbn [fds log set_fds].
    rewrite lookup_delete_ne by auto.
    rewrite !lookup_insert_ne by auto. exact Hb. }
  rewrite (bind_Return _ _ _ _ _ (close_true b f1 w4 Hb4)).
  set (w5 := log _ _).
  assert (Hc5 : fds w5 !! c = Some f2).
  { unfold w5, w4, w3, w2, w1. cbn [fds log set_fds].
    rewrite !lookup_delete_ne by auto.
    rewrite !lookup_insert_ne by auto. exact Hc. }
  rewrite (bind_Return _ _ _ _ _ (close_true c f2 w5 Hc5)).
  eexists. split; reflexivity.
Qed.

Lemma part000_restore_after_save t0 a b c f0 f1 f2 w3 :
  saved_streams t0 a b c f0 f1 f2 ->
  (forall k, not_std k ->
             fds w3 !! k = <[c := f2]> (<[b := f1]> (<[a := f0]> t0)) !! k) ->
  exists w',
    Part000.restore_file_descriptors K a b c w3 = Return tt w'
    /\ fds w' = t0.
Proof.
  intros S Hk. destruct (saved_not_std _ _ _ _ _ _ _ S) as (Na & Nb & Nc).
  pose proof S as [H0 H1 H2 Fa Fb Fc Hab Hac Hbc].
  assert (Ha : fds w3 !! a = Some f0).
  { rewrite (Hk a Na). rewrite !lookup_insert_ne by auto.
    apply lookup_insert_eq. }
  assert (Hb : fds w3 !! b = Some f1).
  { rewrite (Hk b Nb). rewrite lookup_insert_ne by auto.
    apply lookup_insert_eq. }
  assert (Hc : fds w3 !! c = Some f2).
  { rewrite (Hk c Nc). apply lookup_insert_eq. }
  destruct (part000_restore_restores a b c f0 f1 f2 w3 Ha Hb Hc Na Nb Nc
              Hab Hac Hbc) as (w' & E & T).
  exists w'. split; [exact E|]. rewrite T.
  now apply (restored_table t0 (fds w3) a b c f0 f1 f2).
Qed.

End SaveRestoreB.

Lemma keeps_fds_shell_cd' K X dir : keeps_fds (Part000.shell_cd K X dir).
Proof.
  intros w b w' H. unfold Part000.shell_cd in H.
  destruct dir as [d|]; [|inversion H; reflexivity].
  destruct (non_null (next_word d)); [inversion H; reflexivity|].
  destruct (shell_cd_one_arg K X "chdir" (Some d) w)
    as (b0 & w1 & E & _ & Ht & Hf).
  rewrite E in H. inversion H; subst b0 w1. clear H.
  unfold bind, get_word, gets in E.
  destruct (chdir_ptr_cases K (x_get_word X (environ w) (Some d)) w)
    as [(p & dd & _ & _ & Ec) | (p & Ec)]; rewrite Ec in E;
    inversion E; reflexivity.
Qed.

Section RestoredB.
Variable K : kernel.
Variable X : externs.
Variable pea : string -> M unit.
Hypothesis dup_ok : forall w fd, k_dup K w fd = true.
Hypothesis dup2_ok : forall w a b, k_dup2 K w a b = true.
Variables (s : simple_command_t) (level : Z) (father : option command_t).
Hypothesis redirections_ok :
  forall w1 r w2, Part000.apply_redirections K X s w1 = Return r w2 -> r <> -1.
Variable w : world.
Variables f0 f1 f2 : ofile.
Hypothesis stdin_is : fds w !! STDIN_FILENO = Some f0.
Hypothesis stdout_is : fds w !! STDOUT_FILENO = Some f1.
Hypothesis stderr_is : fds w !! STDERR_FILENO = Some f2.
Variable cmd : string.
Hypothesis verb_is : x_get_word X (environ w) (verb s) = Some cmd.

Lemma part000_parse_simple_descriptors v w' :
  Part000.parse_simple K X pea (Some s) level father w = Return v w' ->
  (has_char "=" cmd = false -> v <> -1 -> fds w' = fds w)
  /\ ((has_char "=" cmd = true /\ keeps_fds (pea cmd))
      \/ (external_verb cmd /\ v = -1) ->
      exists a b c,
        saved_streams (fds w) a b c f0 f1 f2
        /\ fds w' !! a = Some f0
        /\ fds w' !! b = Some f1
        /\ fds w' !! c = Some f2).
Proof.
  intros H.
  unfold Part000.parse_simple in H.
  rewrite (bind_Return _ _ _ _ _ (get_word_run X (verb s) w)) in H.
  rewrite (bind_Return _ _ _ _ _
             (eq_refl : get_argv X s w
                        = Return (x_get_argv X (environ w) s) w)) in H.
  destruct (part000_duplicate_saves K dup_ok w f0 f1 f2
              stdin_is stdout_is stderr_is)
    as (a & b & c & w1 & E1 & S & T1).
  rewrite (bind_Return _ _ _ _ _ E1) in H. cbv iota beta in H.
  destruct (fd_call_apply_redirections' K X s w1) as (r & w2 & E2 & _).
  rewrite (bind_Return _ _ _ _ _ E2) in H.
  assert (Er : (r =? -1) = false)
    by (apply Z.eqb_neq; eapply redirections_ok; eassumption).
  rewrite Er in H.
  assert (I2 : forall k, not_std k ->
                 fds w2 !! k
                 = <[c := f2]> (<[b := f1]> (<[a := f0]> (fds w))) !! k).
  { intros k Hk. rewrite <- T1.
    exact (keeps_others_apply_redirections' K X s w1 r w2 E2 k Hk). }
  destruct (saved_not_std _ _ _ _ _ _ _ S) as (Na & Nb & Nc).
  assert (Open : forall w3, fds w3 = fds w2 ->
                   fds w3 !! a = Some f0 /\ fds w3 !! b = Some f1
                   /\ fds w3 !! c = Some f2).
  { intros w3 ->. destruct S as [_ _ _ _ _ _ Hab Hac Hbc].
    rewrite (I2 a Na), (I2 b Nb), (I2 c Nc).
    rewrite !lookup_insert_eq.
    rewrite (lookup_insert_ne _ c b) by auto. rewrite lookup_insert_eq.
    rewrite (lookup_insert_ne _ c a), (lookup_insert_ne _ b a) by auto.
    now rewrite lookup_insert_eq. }
  assert (Fin : forall w3 u,
             fds w3 = fds w2 ->
             (Part000.restore_file_descriptors K a b c ;;; ret u) w3
             = Return v w' ->
             fds w' = fds w).
  { intros w3 u E3 Hr.
    destruct (part000_restore_after_save K dup2_ok (fds w) a b c f0 f1 f2
                w3 S) as (w4 & E4 & T4).
    { intros i Hi. rewrite E3. now apply I2. }
    rewrite (bind_Return _ _ _ _ _ E4) in Hr.
    inversion Hr; subst; assumption. }
  rewrite verb_is in H.
  destruct ((strcmp cmd "exit" =? 0) || (strcmp cmd "quit" =? 0)) eqn:Ex.
  { discriminate H. }
  destruct (strcmp cmd "cd" =? 0) eqn:Ecd.
  { apply bind_inv_Return in H. destruct H as (r0 & w3 & E3 & H).
    rewrite strcmp_eqb in Ecd. apply String.eqb_eq in Ecd.
    split.
    - intros _ _.
      exact (Fin w3 (if r0 then 0 else 1)
               (keeps_fds_shell_cd' K X _ _ _ _ E3) H).
    - intros [[Hc _] | [(_ & _ & Hc & _) _]].
      + subst cmd. discriminate Hc.
      + congruence. }
  destruct (has_char "=" cmd) eqn:Hc.
  - rewrite (strstr_has_eq cmd Hc) in H.
    apply bind_inv_Return in H. destruct H as (u & w3 & E3 & H).
    inversion H; subst v w'. clear H.
    split; [discriminate|].
    intros [[_ Hp] | [(_ & _ & _ & Hn) _]]; [|congruence].
    exists a, b, c. split; [exact S|].
    apply Open. exact (Hp _ _ _ E3).
  - rewrite (strstr_no_eq cmd Hc) in H. cbn [non_null] in H.
    apply bind_inv_Return in H. destruct H as (pid & w3 & E3 & H).
    pose proof (keeps_fds_fork K _ _ _ _ E3) as T3.
    destruct (pid =? -1).
    + inversion H; subst v w'. clear H.
      split; [intros _ N; congruence|].
      intros _. exists a, b, c. split; [exact S|].
      apply Open. exact T3.
    + apply bind_inv_Return in H. destruct H as (st & w5 & E5 & H).
      pose proof (keeps_fds_waitpid _ _ _ _ E5) as T5.
      split.
      * intros _ _. exact (Fin w5 (WEXITSTATUS st) (eq_trans T5 T3) H).
      * intros [[Hx _] | [_ Hv]]; [discriminate|].
        apply bind_inv_Return in H. destruct H as (u & w6 & _ & H).
        inversion H. pose proof (WEXITSTATUS_range st). lia.
Qed.

End RestoredB.

(** X19.  An external command when [fork] fails (redirections not
    failing, [dup] and [dup2] working, the three standard descriptors
    open).  Both versions report it with [perror("fork")], create no child
    and return -1.  src/src/cmd.c restores the saved streams first: the
    descriptor table ends as it was.  src/unnamed/part_000 returns right
    after the [perror]: the three duplicates made of the standard streams
    are still open, on descriptors that were free before. *)
Theorem failed_fork_in_a_simple_command
    K X pea s l f w cmd f0 f1 f2 :
  x_get_word X (environ w) (verb s) = Some cmd ->
  external_verb cmd ->
  (forall w', k_fork K w' = false) ->
  (forall w fd, k_dup K w fd = true) ->
  (forall w a b, k_dup2 K w a b = true) ->
  fds w !! STDIN_FILENO = Some f0 ->
  fds w !! STDOUT_FILENO = Some f1 ->
  fds w !! STDERR_FILENO = Some f2 ->
  ((forall w1 r w2,
       CmdC.apply_redirections K X s w1 = Return r w2 -> r <> -1) ->
   exists w' evs,
     CmdC.parse_simple K X (Some s) l f w = Return (-1) w'
     /\ trace w' = EvPerror "fork" :: evs
     /\ In (EvFork (-1)) evs
     /\ procs w' = procs w
     /\ fds w' = fds w)
  /\ ((forall w1 r w2,
          Part000.apply_redirections K X s w1 = Return r w2 -> r <> -1) ->
      exists w' evs a b c,
        Part000.parse_simple K X pea (Some s) l f w = Return (-1) w'
        /\ trace w' = EvPerror "fork" :: EvFork (-1) :: evs
        /\ procs w' = procs w
        /\ saved_streams (fds w) a b c f0 f1 f2
        /\ fds w' !! a = Some f0
        /\ fds w' !! b = Some f1
        /\ fds w' !! c = Some f2).
Proof.
  intros Hv He Hf Hd Hd2 H0 H1 H2. split; intros Hr.
  - destruct (cmdc_fork_fails K X s l f w cmd Hv He Hf Hr)
      as (w' & evs & E & T & I & P).
    exists w', evs. repeat (split; [assumption|]).
    exact (cmdc_parse_simple_restores K X Hd Hd2 s l f Hr w (-1) w'
             ltac:(rewrite H0; eauto) ltac:(rewrite H1; eauto)
             ltac:(rewrite H2; eauto) E).
  - destruct (part000_fork_fails K X pea s l f w cmd Hv He Hf Hr)
      as (w' & evs & E & T & P).
    destruct (proj2 (part000_parse_simple_descriptors K X pea Hd Hd2 s l f
                       Hr w f0 f1 f2 H0 H1 H2 cmd Hv (-1) w' E)
                (or_intror (conj He eq_refl)))
      as (a & b & c & S & A & B & C).
    exists w', evs, a, b, c. repeat (split; [assumption|]). assumption.
Qed.

(** X19 at work: [true] where no process can be created. *)
Lemma failed_fork_witness :
  let s := Samples.simple 1 None None None None 0 in
  (exists w' evs,
      CmdC.parse_simple More.Kf Samples.X0 (Some s) 0 None Samples.w0
      = Return (-1) w'
      /\ trace w' = EvPerror "fork" :: evs
      /\ In (EvFork (-1)) evs
      /\ procs w' = procs Samples.w0
      /\ fds w' = fds Samples.w0)
  /\ (exists w' evs a b c,
         Part000.parse_simple More.Kf Samples.X0 Samples.parse_env_assignment
           (Some s) 0 None Samples.w0 = Return (-1) w'
         /\ trace w' = EvPerror "fork" :: EvFork (-1) :: evs
         /\ procs w' = procs Samples.w0
         /\ saved_streams (fds Samples.w0) a b c
              (Samples.tty 0) (Samples.tty 1) (Samples.tty 2)
         /\ fds w' !! a = Some (Samples.tty 0)
         /\ fds w' !! b = Some (Samples.tty 1)
         /\ fds w' !! c = Some (Samples.tty 2)).
Proof.
  intros s.
  destruct (failed_fork_in_a_simple_command More.Kf Samples.X0
              Samples.parse_env_assignment s 0 None Samples.w0 "true"
              (Samples.tty 0) (Samples.tty 1) (Samples.tty 2)
              eq_refl external_true (fun _ => eq_refl)
              (fun _ _ => eq_refl) (fun _ _ _ => eq_refl)
              eq_refl eq_refl eq_refl) as [A B].
  split.
  - apply A. intros w1 r w2. now apply more_no_redirection_a.
  - apply B. intros w1 r w2. now apply more_no_redirection_b.
Defined.

(** X20.  Which returns of [parse_simple] in src/unnamed/part_000 put the
    standard streams back ([dup] and [dup2] working, the three standard
    descriptors open, redirections not failing).  After [cd] and after a
    program that was started -- any return with a status other than -1 of a
    verb without ['='] -- the descriptor table is what it was at the call.
    After an assignment (whatever [parse_env_assignment] does, as long as
    it leaves the descriptors alone) and after a failed [fork], the three
    duplicates made of the standard streams are still open. *)
Theorem part000_restores_after_cd_and_programs_only
    K X pea s l f w cmd f0 f1 f2 v w' :
  (forall w fd, k_dup K w fd = true) ->
  (forall w a b, k_dup2 K w a b = true) ->
  (forall w1 r w2,
      Part000.apply_redirections K X s w1 = Return r w2 -> r <> -1) ->
  fds w !! STDIN_FILENO = Some f0 ->
  fds w !! STDOUT_FILENO = Some f1 ->
  fds w !! STDERR_FILENO = Some f2 ->
  x_get_word X (environ w) (verb s) = Some cmd ->
  Part000.parse_simple K X pea (Some s) l f w = Return v w' ->
  (has_char "=" cmd = false -> v <> -1 -> fds w' = fds w)
  /\ ((has_char "=" cmd = true /\ keeps_fds (pea cmd))
      \/ (external_verb cmd /\ v = -1) ->
      exists a b c,
        saved_streams (fds w) a b c f0 f1 f2
        /\ fds w' !! a = Some f0
        /\ fds w' !! b = Some f1
        /\ fds w' !! c = Some f2).
Proof.
  intros Hd Hd2 Hr H0 H1 H2 Hv H.
  exact (part000_parse_simple_descriptors K X pea Hd Hd2 s l f Hr w
           f0 f1 f2 H0 H1 H2 cmd Hv v w' H).
Qed.

(** X20 at work: [cd /tmp] puts the streams back; [NAME=value] leaves the
    duplicates open. *)
Lemma part000_restores_witness :
  let s := Samples.simple 6 (Samples.wd 7) None None None 0 in
  let o := Part000.parse_simple Samples.K0 Samples.X0
             Samples.parse_env_assignment (Some s) 0 None Samples.w0 in
  let s' := Samples.simple 13 None None None None 0 in
  let o' := Part000.parse_simple Samples.K0 Samples.X0
              Samples.parse_env_assignment (Some s') 0 None Samples.w0 in
  (o = Return 0 (final o Samples.w0)
   /\ cwd (final o Samples.w0) = "/tmp"
   /\ fds (final o Samples.w0) = fds Samples.w0)
  /\ (o' = Return 0 (final o' Samples.w0)
      /\ exists a b c,
           saved_streams (fds Samples.w0) a b c
             (Samples.tty 0) (Samples.tty 1) (Samples.tty 2)
           /\ fds (final o' Samples.w0) !! a = Some (Samples.tty 0)
           /\ fds (final o' Samples.w0) !! b = Some (Samples.tty 1)
           /\ fds (final o' Samples.w0) !! c = Some (Samples.tty 2)).
Proof.
  intros s o s' o'.
  assert (Eo : o = Return 0 (final o Samples.w0)) by (vm_compute; reflexivity).
  assert (Eo' : o' = Return 0 (final o' Samples.w0))
    by (vm_compute; reflexivity).
  split.
  - split; [exact Eo|]. split; [vm_compute; reflexivity|].
    apply (proj1 (part000_restores_after_cd_and_programs_only
                    Samples.K0 Samples.X0 Samples.parse_env_assignment s
                    0 None Samples.w0 "cd"
                    (Samples.tty 0) (Samples.tty 1) (Samples.tty 2)
                    0 (final o Samples.w0)
                    (fun _ _ => eq_refl) (fun _ _ _ => eq_refl)
                    (fun w1 r w2 =>
                       more_no_redirection_b Samples.K0 Samples.X0 6
                         (Samples.wd 7) w1 r w2 eq_refl)
                    eq_refl eq_refl eq_refl eq_refl Eo)).
    + reflexivity.
    + discriminate.
  - split; [exact Eo'|].
    apply (proj2 (part000_restores_after_cd_and_programs_only
                    Samples.K0 Samples.X0 Samples.parse_env_assignment s'
                    0 None Samples.w0 "NAME=value"
                    (Samples.tty 0) (Samples.tty 1) (Samples.tty 2)
                    0 (final o' Samples.w0)
                    (fun _ _ => eq_refl) (fun _ _ _ => eq_refl)
                    (fun w1 r w2 =>
                       more_no_redirection_b Samples.K0 Samples.X0 13
                         None w1 r w2 eq_refl)
                    eq_refl eq_refl eq_refl eq_refl Eo')).
    left. split; [reflexivity|].
    intros w1 u w2 H. unfold Samples.parse_env_assignment in H.
    cbn [Samples.split_first_eq] in H.
    apply bind_inv_Return in H. destruct H as (r & w3 & E & H).
    inversion H; subst. unfold setenv in E.
    match type of E with
    | (if ?c then _ else _) = _ => destruct c
    end; inversion E; reflexivity.
Defined.

(* ===================================================================== *)
(** ** The status of a Parallel node *)
(* ===================================================================== *)

Section ParallelReturns.
Variable K : kernel.
Variable pc : evaluator.
Variables (c1 c2 : option command_t) (level : Z) (father : option command_t).
Hypothesis forks_ok : forall w, k_fork K w = true.
Hypothesis left_ends :
  forall wc, exit_status_of (pc c1 (level + 1) father wc) <> None.
Hypothesis right_ends :
  forall wc, exit_status_of (pc c2 (level + 1) father wc) <> None.

Lemma two_children w :
  exists st1 st2 ev1 ev2,
    let pid1 := Z.pos (next_pid w) in
    let w1 := log (EvFork pid1)
                (bump_pid (set_procs (<[pid1 := (st1, ev1)]> (procs w)) w)) in
    let pid2 := Z.pos (next_pid w1) in
    let w2 := log (EvFork pid2)
                (bump_pid (set_procs (<[pid2 := (st2, ev2)]> (procs w1)) w1)) in
    fork K (let* v := pc c1 (level + 1) father in exit v) w = Return pid1 w1
    /\ fork K (let* v := pc c2 (level + 1) father in exit v) w1
       = Return pid2 w2
    /\ pid1 <> pid2.
Proof.
  destruct (exits_anyhow (B:=Empty_set) _ (child_start w)
              (left_ends (child_start w))) as (st1 & wc1 & E1).
  exists st1.
  set (pid1 := Z.pos (next_pid w)).
  set (w1 := log (EvFork pid1)
               (bump_pid (set_procs (<[pid1 := (st1, trace wc1)]> (procs w))
                  w))).
  destruct (exits_anyhow (B:=Empty_set) _ (child_start w1)
              (right_ends (child_start w1))) as (st2 & wc2 & E2).
  exists st2, (trace wc1), (trace wc2). cbv zeta. fold pid1. fold w1.
  split; [exact (fork_ok K _ w st1 wc1 (forks_ok w) E1)|].
  split; [exact (fork_ok K _ w1 st2 wc2 (forks_ok w1) E2)|].
  unfold pid1, w1. cbn [next_pid log bump_pid set_procs].
  intros C. injection C. lia.
Qed.

Lemma cmdc_run_in_parallel_returns w :
  exists w', CmdC.run_in_parallel K pc c1 c2 level father w = Return true w'.
Proof.
  unfold CmdC.run_in_parallel.
  destruct (two_children w) as (st1 & st2 & ev1 & ev2 & F1 & F2 & N).
  cbv zeta in F1, F2, N.
  rewrite (bind_Return _ _ _ _ _ F1).
  change (Z.pos (next_pid w) =? -1) with false. cbv iota.
  rewrite (bind_Return _ _ _ _ _ F2).
  match goal with
  | |- context [Z.pos ?p =? -1] => change (Z.pos p =? -1) with false
  end.
  cbv iota.
  match type of F2 with
  | _ = Return ?pid2 ?w2 =>
      assert (P1 : procs w2 !! Z.pos (next_pid w) = Some (st1, ev1))
  end.
  { cbn [procs log bump_pid set_procs].
    rewrite lookup_insert_ne by (intros C; apply N; symmetry; exact C).
    apply lookup_insert_eq. }
  rewrite (bind_Return _ _ _ _ _ (waitpid_ok _ _ _ _ P1)).
  match goal with
  | |- context [bind (waitpid ?pid2) _ ?w3] =>
      assert (P2 : procs w3 !! pid2 = Some (st2, ev2))
  end.
  { cbn [procs log bump_pid set_procs next_pid].
    rewrite lookup_delete_ne by exact N. apply lookup_insert_eq. }
  rewrite (bind_Return _ _ _ _ _ (waitpid_ok _ _ _ _ P2)).
  eexists. reflexivity.
Qed.

Lemma part000_run_in_parallel_returns w :
  exists w', Part000.run_in_parallel K pc c1 c2 level father w
             = Return true w'.
Proof.
  unfold Part000.run_in_parallel.
  destruct (two_children w) as (st1 & st2 & ev1 & ev2 & F1 & F2 & N).
  cbv zeta in F1, F2, N.
  rewrite (bind_Return _ _ _ _ _ F1).
  change (Z.pos (next_pid w) =? -1) with false. cbv iota.
  rewrite (bind_Return _ _ _ _ _ F2).
  match goal with
  | |- context [Z.pos ?p =? -1] => change (Z.pos p =? -1) with false
  end.
  cbv iota. eexists. reflexivity.
Qed.

End ParallelReturns.

(** X21.  The status of a Parallel node says nothing about its branches.
    In both versions, when processes can be created and the two branches
    have defined behaviour, the node returns 0, whatever the branches
    return or exit with. *)
Theorem parallel_status_ignores_the_branches K X pea sc c1 c2 l f w :
  (forall w, k_fork K w = true) ->
  ((forall l f wc,
       exit_status_of (CmdC.parse_command K X c1 l f wc) <> None) ->
   (forall l f wc,
       exit_status_of (CmdC.parse_command K X c2 l f wc) <> None) ->
   exists w',
     CmdC.parse_command K X (Some (Command OP_PARALLEL sc c1 c2)) l f w
     = Return 0 w')
  /\ ((forall l f wc,
          exit_status_of (Part000.parse_command K X pea c1 l f wc) <> None) ->
      (forall l f wc,
          exit_status_of (Part000.parse_command K X pea c2 l f wc) <> None) ->
      exists w',
        Part000.parse_command K X pea (Some (Command OP_PARALLEL sc c1 c2))
          l f w = Return 0 w').
Proof.
  intros Hf. split; intros H1 H2.
  - rewrite cmdc_node_eq. cbv zeta.
    destruct (cmdc_run_in_parallel_returns K (CmdC.parse_command K X) c1 c2
                (l + 1) (Some (Command OP_PARALLEL sc c1 c2)) Hf
                (fun wc => H1 _ _ wc) (fun wc => H2 _ _ wc) w) as (w' & E).
    rewrite (bind_Return _ _ _ _ _ E). now exists w'.
  - rewrite part000_node_eq. cbv zeta.
    destruct (part000_run_in_parallel_returns K
                (Part000.parse_command K X pea) c1 c2
                (l + 1) (Some (Command OP_PARALLEL sc c1 c2)) Hf
                (fun wc => H1 _ _ wc) (fun wc => H2 _ _ wc) w) as (w' & E).
    rewrite (bind_Return _ _ _ _ _ E). now exists w'.
Qed.

(** X21 at work: [false & two]. *)
Lemma parallel_status_witness :
  (exists w',
      CmdC.parse_command Samples.K0 Samples.X0
        (Some (Command OP_PARALLEL None (Samples.run 2) (Samples.run 3)))
        0 None Samples.w0 = Return 0 w')
  /\ (exists w',
         Part000.parse_command Samples.K0 Samples.X0
           Samples.parse_env_assignment
           (Some (Command OP_PARALLEL None (Samples.run 2) (Samples.run 3)))
           0 None Samples.w0 = Return 0 w').
Proof.
  destruct (parallel_status_ignores_the_branches Samples.K0 Samples.X0
              Samples.parse_env_assignment None (Samples.run 2)
              (Samples.run 3) 0 None Samples.w0 sample_forks) as [A B].
  split.
  - apply A; intros l f wc.
    + rewrite (sample_run_a 2 "false" (exited 1) _ _ wc eq_refl
                 external_false (fun _ _ => eq_refl)).
      discriminate.
    + rewrite (sample_run_a 3 "two" (exited 2) _ _ wc eq_refl external_two
                 (fun _ _ => eq_refl)).
      discriminate.
  - apply B; intros l f wc.
    + rewrite (sample_run_b 2 "false" (exited 1) _ _ wc eq_refl
                 external_false (fun _ _ => eq_refl)).
      discriminate.
    + rewrite (sample_run_b 3 "two" (exited 2) _ _ wc eq_refl external_two
                 (fun _ _ => eq_refl)).
      discriminate.
Defined.

(* ===================================================================== *)
(** ** What a program is started with *)
(* ===================================================================== *)

Section ProgramStart.
Variable K : kernel.
Variable X : externs.
Variable pea : string -> M unit.
Variable e' : world -> string -> list string -> option Z.
Variables (s : simple_command_t) (level : Z) (father : option command_t).
Variable w : world.
Variable cmd : string.
Hypothesis verb_is : x_get_word X (environ w) (verb s) = Some cmd.

Let argv := x_get_argv X (environ w) s.

Lemma cmdc_program_start :
  (forall wc a b c w1 r w2,
      CmdC.duplicate_file_descriptors K w = Return (a, b, c) w1 ->
      CmdC.apply_redirections K X s w1 = Return r w2 ->
      fds wc = fds w2 -> environ wc = environ w -> cwd wc = cwd w ->
      e' wc cmd argv = k_execvp K wc cmd argv) ->
  CmdC.parse_simple (with_execvp K e') X (Some s) level father w
  = CmdC.parse_simple K X (Some s) level father w.
Proof.
  intros He. unfold CmdC.parse_simple.
  rewrite !(bind_Return _ _ _ _ _ (get_word_run X (verb s) w)), verb_is.
  rewrite !(bind_Return _ _ _ _ _
              (eq_refl : get_argv X s w = Return argv w)).
  change (CmdC.duplicate_file_descriptors (with_execvp K e'))
    with (CmdC.duplicate_file_descriptors K).
  destruct (fd_call_duplicate K w) as ([[a b] c] & w1 & E1 & F1).
  rewrite !(bind_Return _ _ _ _ _ E1). cbv iota beta.
  change (CmdC.apply_redirections (with_execvp K e'))
    with (CmdC.apply_redirections K).
  destruct (fd_call_apply_redirections K X s w1) as (r & w2 & E2 & F2).
  rewrite !(bind_Return _ _ _ _ _ E2).
  destruct (r =? -1); [reflexivity|].
  change (CmdC.restore_file_descriptors (with_execvp K e'))
    with (CmdC.restore_file_descriptors K).
  change (CmdC.shell_cd (with_execvp K e')) with (CmdC.shell_cd K).
  destruct ((strcmp cmd "exit" =? 0) || (strcmp cmd "quit" =? 0));
    [reflexivity|].
  destruct (strcmp cmd "cd" =? 0); [reflexivity|].
  destruct (non_null (strstr cmd "=")); [reflexivity|].
  apply bind_ext; [|reflexivity].
  change (fork (with_execvp K e')) with (fork K).
  apply fork_ext. apply bind_ext; [|reflexivity].
  unfold execvp. change (k_execvp (with_execvp K e')) with e'.
  rewrite (He (child_start w2) a b c w1 r w2 E1 E2 eq_refl).
  - reflexivity.
  - cbn [environ child_start].
    now rewrite (frame_environ _ _ F2), (frame_environ _ _ F1).
  - cbn [cwd child_start].
    now rewrite (frame_cwd _ _ F2), (frame_cwd _ _ F1).
Qed.

Lemma part000_program_start :
  (forall wc a b c w1 r w2,
      Part000.duplicate_file_descriptors K w = Return (a, b, c) w1 ->
      Part000.apply_redirections K X s w1 = Return r w2 ->
      fds wc = fds w2 -> environ wc = environ w -> cwd wc = cwd w ->
      e' wc cmd argv = k_execvp K wc cmd argv) ->
  Part000.parse_simple (with_execvp K e') X pea (Some s) level father w
  = Part000.parse_simple K X pea (Some s) level father w.
Proof.
  intros He. unfold Part000.parse_simple.
  rewrite !(bind_Return _ _ _ _ _ (get_word_run X (verb s) w)), verb_is.
  rewrite !(bind_Return _ _ _ _ _
              (eq_refl : get_argv X s w = Return argv w)).
  change (Part000.duplicate_file_descriptors (with_execvp K e'))
    with (Part000.duplicate_file_descriptors K).
  destruct (fd_call_duplicate' K w) as ([[a b] c] & w1 & E1 & F1).
  rewrite !(bind_Return _ _ _ _ _ E1). cbv iota beta.
  change (Part000.apply_redirections (with_execvp K e'))
    with (Part000.apply_redirections K).
  destruct (fd_call_apply_redirections' K X s w1) as (r & w2 & E2 & F2).
  rewrite !(bind_Return _ _ _ _ _ E2).
  destruct (r =? -1); [reflexivity|].
  change (Part000.restore_file_descriptors (with_execvp K e'))
    with (Part000.restore_file_descriptors K).
  change (Part000.shell_cd (with_execvp K e')) with (Part000.shell_cd K).
  destruct ((strcmp cmd "exit" =? 0) || (strcmp cmd "quit" =? 0));
    [reflexivity|].
  destruct (strcmp cmd "cd" =? 0); [reflexivity|].
  destruct (non_null (strstr cmd "=")); [reflexivity|].
  apply bind_ext; [|reflexivity].
  change (fork (with_execvp K e')) with (fork K).
  apply fork_ext. apply bind_ext; [|reflexivity].
  unfold execvp. change (k_execvp (with_execvp K e')) with e'.
  rewrite (He (child_start w2) a b c w1 r w2 E1 E2 eq_refl).
  - reflexivity.
  - cbn [environ child_start].
    now rewrite (frame_environ _ _ F2), (frame_environ _ _ F1).
  - cbn [cwd child_start].
    now rewrite (frame_cwd _ _ F2), (frame_cwd _ _ F1).
Qed.

End ProgramStart.

Lemma saved_stay_open (t0 t2 : gmap Z ofile) a b c f0 f1 f2 :
  saved_streams t0 a b c f0 f1 f2 ->
  (forall k, not_std k ->
             t2 !! k = <[c := f2]> (<[b := f1]> (<[a := f0]> t0)) !! k) ->
  t2 !! a = Some f0 /\ t2 !! b = Some f1 /\ t2 !! c = Some f2.
Proof.
  intros S I2. destruct (saved_not_std _ _ _ _ _ _ _ S) as (Na & Nb & Nc).
  destruct S as [_ _ _ _ _ _ Hab Hac Hbc].
  rewrite (I2 a Na), (I2 b Nb), (I2 c Nc).
  rewrite !lookup_insert_eq.
  rewrite (lookup_insert_ne _ c b) by auto. rewrite lookup_insert_eq.
  rewrite (lookup_insert_ne _ c a), (lookup_insert_ne _ b a) by auto.
  now rewrite lookup_insert_eq.
Qed.

Lemma cmdc_saved_are_inherited K X s w f0 f1 f2 :
  (forall w fd, k_dup K w fd = true) ->
  fds w !! STDIN_FILENO = Some f0 ->
  fds w !! STDOUT_FILENO = Some f1 ->
  fds w !! STDERR_FILENO = Some f2 ->
  exists a b c w1 r w2,
    CmdC.duplicate_file_descriptors K w = Return (a, b, c) w1
    /\ CmdC.apply_redirections K X s w1 = Return r w2
    /\ saved_streams (fds w) a b c f0 f1 f2
    /\ fds w2 !! a = Some f0 /\ fds w2 !! b = Some f1
    /\ fds w2 !! c = Some f2.
Proof.
  intros Hd H0 H1 H2.
  destruct (duplicate_saves K Hd w f0 f1 f2 H0 H1 H2)
    as (a & b & c & w1 & E1 & S & T1).
  destruct (fd_call_apply_redirections K X s w1) as (r & w2 & E2 & _).
  exists a, b, c, w1, r, w2.
  split; [exact E1|]. split; [exact E2|]. split; [exact S|].
  apply (saved_stay_open (fds w) (fds w2) a b c f0 f1 f2 S).
  intros k Hk. rewrite <- T1.
  exact (keeps_others_apply_redirections K X s w1 r w2 E2 k Hk).
Qed.

Lemma part000_saved_are_inherited K X s w f0 f1 f2 :
  (forall w fd, k_dup K w fd = true) ->
  fds w !! STDIN_FILENO = Some f0 ->
  fds w !! STDOUT_FILENO = Some f1 ->
  fds w !! STDERR_FILENO = Some f2 ->
  exists a b c w1 r w2,
    Part000.duplicate_file_descriptors K w = Return (a, b, c) w1
    /\ Part000.apply_redirections K X s w1 = Return r w2
    /\ saved_streams (fds w) a b c f0 f1 f2
    /\ fds w2 !! a = Some f0 /\ fds w2 !! b = Some f1
    /\ fds w2 !! c = Some f2.
Proof.
  intros Hd H0 H1 H2.
  destruct (part000_duplicate_saves K Hd w f0 f1 f2 H0 H1 H2)
    as (a & b & c & w1 & E1 & S & T1).
  destruct (fd_call_apply_redirections' K X s w1) as (r & w2 & E2 & _).
  exists a, b, c, w1, r, w2.
  split; [exact E1|]. split; [exact E2|]. split; [exact S|].
  apply (saved_stay_open (fds w) (fds w2) a b c f0 f1 f2 S).
  intros k Hk. rewrite <- T1.
  exact (keeps_others_apply_redirections' K X s w1 r w2 E2 k Hk).
Qed.

(** X22.  What a program is started with, in both versions.  The child
    that calls [execvp] has the shell's environment and working directory
    and the descriptor table that saving the streams and applying the
    redirections left; the arguments are those resolved in the shell's
    environment.  Stated extensionally: replacing the account of what
    running a program comes to by one that agrees with it on the verb, on
    these arguments and on every such state does not change the outcome of
    [parse_simple].  That table still holds the three duplicates made of
    the standard streams (when [dup] works and the three are open): they
    are open in the program as well. *)
Theorem program_starts_in_the_state_of_the_shell
    K X pea e' s l f w cmd f0 f1 f2 :
  x_get_word X (environ w) (verb s) = Some cmd ->
  let argv := x_get_argv X (environ w) s in
  ((forall wc a b c w1 r w2,
       CmdC.duplicate_file_descriptors K w = Return (a, b, c) w1 ->
       CmdC.apply_redirections K X s w1 = Return r w2 ->
       fds wc = fds w2 -> environ wc = environ w -> cwd wc = cwd w ->
       e' wc cmd argv = k_execvp K wc cmd argv) ->
   CmdC.parse_simple (with_execvp K e') X (Some s) l f w
   = CmdC.parse_simple K X (Some s) l f w)
  /\ ((forall wc a b c w1 r w2,
          Part000.duplicate_file_descriptors K w = Return (a, b, c) w1 ->
          Part000.apply_redirections K X s w1 = Return r w2 ->
          fds wc = fds w2 -> environ wc = environ w -> cwd wc = cwd w ->
          e' wc cmd argv = k_execvp K wc cmd argv) ->
      Part000.parse_simple (with_execvp K e') X pea (Some s) l f w
      = Part000.parse_simple K X pea (Some s) l f w)
  /\ ((forall w fd, k_dup K w fd = true) ->
      fds w !! STDIN_FILENO = Some f0 ->
      fds w !! STDOUT_FILENO = Some f1 ->
      fds w !! STDERR_FILENO = Some f2 ->
      (exists a b c w1 r w2,
          CmdC.duplicate_file_descriptors K w = Return (a, b, c) w1
          /\ CmdC.apply_redirections K X s w1 = Return r w2
          /\ saved_streams (fds w) a b c f0 f1 f2
          /\ fds w2 !! a = Some f0 /\ fds w2 !! b = Some f1
          /\ fds w2 !! c = Some f2)
      /\ (exists a b c w1 r w2,
             Part000.duplicate_file_descriptors K w = Return (a, b, c) w1
             /\ Part000.apply_redirections K X s w1 = Return r w2
             /\ saved_streams (fds w) a b c f0 f1 f2
             /\ fds w2 !! a = Some f0 /\ fds w2 !! b = Some f1
             /\ fds w2 !! c = Some f2)).
Proof.
  intros Hv argv. split; [|split].
  - exact (cmdc_program_start K X e' s l f w cmd Hv).
  - exact (part000_program_start K X pea e' s l f w cmd Hv).
  - intros Hd H0 H1 H2. split.
    + exact (cmdc_saved_are_inherited K X s w f0 f1 f2 Hd H0 H1 H2).
    + exact (part000_saved_are_inherited K X s w f0 f1 f2 Hd H0 H1 H2).
Qed.

(** X22 at work: [two > /tmp/out], with an account of programs that has
    [two] fail to start unless descriptor 1 is on [/tmp/out], descriptors
    3, 4 and 5 are open and the working directory is [/]. *)
Lemma program_start_witness :
  let s := Samples.simple 3 None None (Samples.wd 10) None 0 in
  let e' : world -> string -> list string -> option Z := fun wc file args =>
    match fds wc !! 1, fds wc !! 3, fds wc !! 4, fds wc !! 5 with
    | Some (OFile _ (Opened "/tmp/out" _)), Some _, Some _, Some _ =>
        if String.eqb (cwd wc) "/" then k_execvp Samples.K0 wc file args
        else None
    | _, _, _, _ => None
    end in
  CmdC.parse_simple (with_execvp Samples.K0 e') Samples.X0 (Some s) 0 None
    Samples.w0
  = CmdC.parse_simple Samples.K0 Samples.X0 (Some s) 0 None Samples.w0
  /\ exists w', CmdC.parse_simple Samples.K0 Samples.X0 (Some s) 0 None
                  Samples.w0 = Return 2 w'.
Proof.
  intros s e'. split.
  - apply (proj1 (program_starts_in_the_state_of_the_shell Samples.K0
                    Samples.X0 Samples.parse_env_assignment e' s 0 None
                    Samples.w0 "two" (Samples.tty 0) (Samples.tty 1)
                    (Samples.tty 2) eq_refl)).
    intros wc a b c w1 r w2 E1 E2 T V C.
    vm_compute in E1. injection E1 as <- <- <- <-.
    vm_compute in E2. injection E2 as <- <-.
    cbn [fds] in T.
    unfold e'. rewrite T, C. vm_compute. reflexivity.
  - eexists. vm_compute. reflexivity.
Defined.

(* ===================================================================== *)
(** ** When the redirections fail *)
(* ===================================================================== *)

Lemma open_minus_one K file flags mode w fd w1 :
  open K file flags mode w = Return fd w1 ->
  (fd = -1 /\ k_open K w file flags = false)
  \/ (fd <> -1 /\ 0 <= fd /\ is_Some (fds w1 !! fd)).
Proof.
  unfold open. destruct (k_open K w file flags); intros H; inversion H; subst.
  - right. pose proof (lowest_free_nonneg (fds w)).
    split; [lia|]. split; [lia|]. cbn [fds log set_fds bump_serial].
    rewrite lookup_insert_eq. eauto.
  - left. now split.
Qed.

Lemma dup2_minus_one K a b w r w1 :
  dup2 K a b w = Return r w1 ->
  is_Some (fds w !! a) -> 0 <= b ->
  (r = -1 /\ k_dup2 K w a b = false) \/ r <> -1.
Proof.
  unfold dup2. intros H [f Hf] Hb. rewrite Hf in H.
  apply Z.leb_le in Hb. rewrite Hb, andb_true_r in H.
  destruct (k_dup2 K w a b); inversion H; subst.
  - right. apply Z.leb_le in Hb. lia.
  - left. now split.
Qed.

Lemma cmdc_redirect_result K file d a w r w' :
  CmdC.redirect K file d a w = Return r w' ->
  r = 0 \/ (r = -1 /\ open_failed K).
Proof.
  intros H. apply cmdc_redirect_status in H.
  destruct H as [-> | (-> & fl & Hk)]; [now left|].
  right. split; [reflexivity|]. now exists w, file, fl.
Qed.

Lemma cmdc_apply_redirections_result K X s w r w' :
  CmdC.apply_redirections K X s w = Return r w' ->
  r = 0 \/ (r = -1 /\ open_failed K).
Proof.
  unfold CmdC.apply_redirections. cbv zeta. intros H.
  apply bind_inv_Return in H. destruct H as (i & w1 & _ & H).
  apply bind_inv_Return in H. destruct H as (e1 & w2 & E1 & H).
  assert (P1 : e1 = 0 \/ (e1 = -1 /\ open_failed K)).
  { destruct i as [file|]; [|inversion E1; now left].
    eapply cmdc_redirect_result. exact E1. }
  destruct (e1 =? -1) eqn:T1.
  { inversion H; subst. exact P1. }
  assert (Z1 : e1 = 0).
  { destruct P1 as [?|[? _]]; [assumption|]. apply Z.eqb_neq in T1. lia. }
  subst e1. clear P1 T1.
  destruct (non_null (err s) && non_null (out s) && ptr_eqb (err s) (out s)).
  - apply bind_inv_Return in H. destruct H as (o & w3 & _ & H).
    apply bind_inv_Return in H. destruct H as (e & w4 & _ & H).
    destruct o as [file|]; [destruct e|]; try (inversion H; now left).
    eapply cmdc_redirect_result. exact H.
  - apply bind_inv_Return in H. destruct H as (e2 & w3 & E2 & H).
    assert (P2 : e2 = 0 \/ (e2 = -1 /\ open_failed K)).
    { destruct (non_null (err s)); [|inversion E2; now left].
      apply bind_inv_Return in E2. destruct E2 as (e & w5 & _ & E2).
      destruct e as [file|]; [|inversion E2; now left].
      eapply cmdc_redirect_result. exact E2. }
    apply bind_inv_Return in H. destruct H as (e3 & w4 & E3 & H).
    inversion H; subst. clear H.
    destruct (non_null (out s)); [|inversion E3; subst; exact P2].
    apply bind_inv_Return in E3. destruct E3 as (o & w5 & _ & E3).
    destruct o as [file|]; [|inversion E3; subst; exact P2].
    eapply cmdc_redirect_result. exact E3.
Qed.

Section RedirectResultB.
Variable K : kernel.

Let P (r : Z) : Prop :=
  r = 0 \/ (r = -1 /\ (open_failed K \/ dup2_failed K)).

Lemma after_open file flags mode (onfail : M Z) (k : Z -> M Z) w r w' :
  (forall w1 r1 w2, onfail w1 = Return r1 w2 -> r1 = -1) ->
  (forall fd w1 r1 w2, 0 <= fd -> is_Some (fds w1 !! fd) ->
                       k fd w1 = Return r1 w2 -> P r1) ->
  (let* fd := open K file flags mode in
   if fd =? -1 then onfail else k fd) w = Return r w' ->
  P r.
Proof.
  intros Hf Hk H.
  apply bind_inv_Return in H. destruct H as (fd & w1 & Eo & H).
  apply open_minus_one in Eo.
  destruct Eo as [[-> Ho] | (N & Hn & Hs)].
  - change (-1 =? -1) with true in H. cbv iota in H.
    right. split; [eapply Hf; exact H|]. left. now exists w, file, flags.
  - apply Z.eqb_neq in N. rewrite N in H. eapply Hk; eassumption.
Qed.

Lemma after_dup2 fd d (onfail : M Z) (k : M Z) w r w' :
  0 <= d -> is_Some (fds w !! fd) ->
  (forall w1 r1 w2, onfail w1 = Return r1 w2 -> r1 = -1) ->
  (forall w1 r1 w2, is_Some (fds w1 !! fd) -> k w1 = Return r1 w2 -> P r1) ->
  (let* x := dup2 K fd d in if x =? -1 then onfail else k) w = Return r w' ->
  P r.
Proof.
  intros Hd Hs Hf Hk H.
  apply bind_inv_Return in H. destruct H as (x & w1 & Ed & H).
  pose proof Ed as Ed'.
  apply dup2_minus_one in Ed; [|assumption..].
  destruct Ed as [[-> Hk2] | N].
  - change (-1 =? -1) with true in H. cbv iota in H.
    right. split; [eapply Hf; exact H|]. right. now exists w, fd, d.
  - apply Z.eqb_neq in N. rewrite N in H.
    eapply Hk; [|exact H].
    unfold dup2 in Ed'. destruct Hs as [f Hfd]. rewrite Hfd in Ed'.
    destruct (k_dup2 K w fd d && (0 <=? d)); inversion Ed'; subst;
      cbn [fds log set_fds]; [|eauto].
    exists f. now apply lookup_insert_over.
Qed.

Lemma close_then (v : Z) fd w1 r1 w2 :
  (close fd ;;; ret v) w1 = Return r1 w2 -> r1 = v.
Proof.
  intros H. apply bind_inv_Return in H. destruct H as (x & w3 & _ & H).
  now inversion H.
Qed.

Lemma report_close_then msg (v : Z) fd w1 r1 w2 :
  (perror msg ;;; close fd ;;; ret v) w1 = Return r1 w2 -> r1 = v.
Proof.
  intros H. apply bind_inv_Return in H. destruct H as (x & w3 & _ & H).
  eapply close_then. exact H.
Qed.

Lemma report_then (m : M unit) (v : Z) w1 r1 w2 :
  (m ;;; ret v) w1 = Return r1 w2 -> r1 = v.
Proof.
  intros H. apply bind_inv_Return in H. destruct H as (x & w3 & _ & H).
  now inversion H.
Qed.

Lemma closed_ok fd w1 r1 w2 :
  (close fd ;;; ret 0) w1 = Return r1 w2 -> P r1.
Proof. intros H. left. eapply close_then. exact H. Qed.

Lemma part000_redirect_output_result file append w r w' :
  Part000.redirect_output K file append w = Return r w' -> P r.
Proof.
  unfold Part000.redirect_output. cbv zeta.
  apply after_open.
  - intros w1 r1 w2. apply report_then.
  - intros fd w1 r1 w2 Hn Hs. apply after_dup2; try assumption.
    + unfold STDOUT_FILENO. lia.
    + intros w3 r3 w4. apply close_then.
    + intros w3 r3 w4 _. apply closed_ok.
Qed.

Lemma part000_redirect_input_result file w r w' :
  Part000.redirect_input K file w = Return r w' -> P r.
Proof.
  unfold Part000.redirect_input.
  apply after_open.
  - intros w1 r1 w2. apply report_then.
  - intros fd w1 r1 w2 Hn Hs. apply after_dup2; try assumption.
    + unfold STDIN_FILENO. lia.
    + intros w3 r3 w4. apply report_close_then.
    + intros w3 r3 w4 _. apply closed_ok.
Qed.

Lemma part000_redirect_stderr_result file append w r w' :
  Part000.redirect_stderr K file append w = Return r w' -> P r.
Proof.
  unfold Part000.redirect_stderr. cbv zeta.
  apply after_open.
  - intros w1 r1 w2. apply report_then.
  - intros fd w1 r1 w2 Hn Hs. apply after_dup2; try assumption.
    + unfold STDERR_FILENO. lia.
    + intros w3 r3 w4. apply report_close_then.
    + intros w3 r3 w4 _. apply closed_ok.
Qed.

Lemma part000_apply_redirections_result X s w r w' :
  Part000.apply_redirections K X s w = Return r w' -> P r.
Proof.
  unfold Part000.apply_redirections. cbv zeta. intros H.
  apply bind_inv_Return in H. destruct H as (i & w1 & _ & H).
  apply bind_inv_Return in H. destruct H as (e1 & w2 & E1 & H).
  assert (P1 : P e1).
  { destruct i as [file|]; [|inversion E1; now left].
    eapply part000_redirect_input_result. exact E1. }
  destruct (e1 =? -1) eqn:T1.
  { inversion H; subst. apply Z.eqb_eq in T1. now subst e1. }
  assert (Z1 : e1 = 0).
  { destruct P1 as [?|[? _]]; [assumption|]. apply Z.eqb_neq in T1. lia. }
  subst e1. clear P1 T1.
  destruct (non_null (err s) && non_null (out s) && ptr_eqb (err s) (out s)).
  - apply bind_inv_Return in H. destruct H as (o & w3 & _ & H).
    apply bind_inv_Return in H. destruct H as (e & w4 & _ & H).
    destruct o as [file|]; [destruct e|]; try (inversion H; now left).
    apply bind_inv_Return in H. destruct H as (x & w5 & _ & H).
    inversion H. now left.
  - apply bind_inv_Return in H. destruct H as (e2 & w3 & E2 & H).
    assert (P2 : P e2).
    { destruct (non_null (err s)); [|inversion E2; now left].
      apply bind_inv_Return in E2. destruct E2 as (e & w5 & _ & E2).
      destruct e as [file|]; [|inversion E2; now left].
      eapply part000_redirect_stderr_result. exact E2. }
    apply bind_inv_Return in H. destruct H as (e3 & w4 & E3 & H).
    inversion H; subst. clear H.
    destruct (non_null (out s)); [|inversion E3; subst; exact P2].
    apply bind_inv_Return in E3. destruct E3 as (o & w5 & _ & E3).
    destruct o as [file|]; [|inversion E3; subst; exact P2].
    eapply part000_redirect_output_result. exact E3.
Qed.

End RedirectResultB.

(** X23.  When the redirections of a simple command fail.  In both
    versions [apply_redirections] returns 0 or -1.  In src/src/cmd.c it
    returns -1 only if an [open] was refused: a [dup2] that fails is never
    reported.  In src/unnamed/part_000 it returns -1 only if an [open] or a
    [dup2] was refused.  So on a system where every [open] succeeds (and,
    for src/unnamed/part_000, every [dup2]) no redirection fails. *)
Theorem redirections_fail_only_when_a_call_is_refused K X s w r w' :
  (CmdC.apply_redirections K X s w = Return r w' ->
   r = 0 \/ (r = -1 /\ open_failed K))
  /\ (Part000.apply_redirections K X s w = Return r w' ->
      r = 0 \/ (r = -1 /\ (open_failed K \/ dup2_failed K))).
Proof.
  split.
  - apply cmdc_apply_redirections_result.
  - apply part000_apply_redirections_result.
Qed.

(** X23 at work: [true > /missing/out]. *)
Lemma redirections_fail_witness :
  let s := Samples.simple 1 None None (Samples.wd 14) None 0 in
  let a := CmdC.apply_redirections Samples.K0 Samples.X0 s Samples.w0 in
  a = Return (-1) (final a Samples.w0)
  /\ (-1 = 0 \/ (-1 = -1 /\ open_failed Samples.K0)).
Proof.
  intros s a.
  assert (Ea : a = Return (-1) (final a Samples.w0))
    by (vm_compute; reflexivity).
  split; [exact Ea|].
  exact (proj1 (redirections_fail_only_when_a_call_is_refused Samples.K0
                  Samples.X0 s Samples.w0 (-1) (final a Samples.w0)) Ea).
Defined.
